(** * repmeup-backend: ingestion, enrichment and routing pipeline

    A shallow embedding of the parts of the backend that receive platform
    payloads, persist them as Interaction documents, enrich them through the
    AI service and route them to agents, together with the properties the
    specification states about them.

    Conventions of the embedding.
    - A Mongoose document is a record; a path that may be absent from the
      document is an [option] field ([None] is JavaScript's [undefined]).
    - A collection is the list of its documents in insertion order; a query
      filter is a boolean predicate over the record.
    - [async] code is sequential: an operation is a function from the state of
      the world to a result (a value, or a thrown error) and the next state.
    - Fractional numbers (scores, confidences) are binary64 floats, as in
      JavaScript; counts, ratings and timestamps are integers.
    - Strings are ASCII strings. *)

From Stdlib Require Import ZArith List String Ascii Bool Lia PrimFloat.
From Stdlib Require Import DecimalString Permutation Sorted.
Import ListNotations.

Set Warnings "-inexact-float".
Local Open Scope string_scope.
Local Open Scope list_scope.

(* ================================================================== *)
(** ** JavaScript string primitives used by the services *)
(* ================================================================== *)

Module JS.

(** [String.prototype.includes]. *)
Fixpoint includes (s sub : string) : bool :=
  match s with
  | EmptyString => prefix sub EmptyString
  | String _ s' => prefix sub s || includes s' sub
  end.

Definition lower_ascii (c : ascii) : ascii :=
  let n := nat_of_ascii c in
  if (65 <=? n)%nat && (n <=? 90)%nat then ascii_of_nat (n + 32) else c.

(** [String.prototype.toLowerCase], on ASCII text. *)
Fixpoint toLowerCase (s : string) : string :=
  match s with
  | EmptyString => EmptyString
  | String c s' => String (lower_ascii c) (toLowerCase s')
  end.

(** White space as [trim] sees it, within ASCII: TAB, LF, VT, FF, CR, SPACE. *)
Definition is_space (c : ascii) : bool :=
  let n := nat_of_ascii c in
  ((9 <=? n)%nat && (n <=? 13)%nat) || (n =? 32)%nat.

Fixpoint trimStart (s : string) : string :=
  match s with
  | EmptyString => EmptyString
  | String c s' => if is_space c then trimStart s' else s
  end.

Fixpoint all_space (s : string) : bool :=
  match s with
  | EmptyString => true
  | String c s' => is_space c && all_space s'
  end.

Fixpoint trimEnd (s : string) : string :=
  match s with
  | EmptyString => EmptyString
  | String c s' => if all_space s then EmptyString else String c (trimEnd s')
  end.

(** [String.prototype.trim]. *)
Definition trim (s : string) : string := trimEnd (trimStart s).

(** [s.split(sep)] for a one-character separator: always at least one piece. *)
Fixpoint split (sep : ascii) (s : string) : list string :=
  match s with
  | EmptyString => [EmptyString]
  | String c s' =>
      if Ascii.eqb c sep then EmptyString :: split sep s'
      else match split sep s' with
           | p :: ps => String c p :: ps
           | [] => [String c EmptyString]
           end
  end.

(** [parts.join(sep)]. *)
Fixpoint join (sep : string) (parts : list string) : string :=
  match parts with
  | [] => EmptyString
  | [p] => p
  | p :: ps => p ++ sep ++ join sep ps
  end.

(** Truthiness of a string: the empty string is falsy. *)
Definition truthy_string (s : string) : bool :=
  match s with EmptyString => false | _ => true end.

(** [a === b] where [a] is a path that may be undefined and [b] a string
    literal. *)
Definition strict_eq (a : option string) (b : string) : bool :=
  match a with
  | Some s => String.eqb s b
  | None => false
  end.

(** [ToNumber] on a path holding a number or nothing: [undefined] becomes
    NaN. *)
Definition toNumber (a : option float) : float :=
  match a with
  | Some f => f
  | None => nan
  end.

(** [a < b] on such a path: any comparison with NaN is false. *)
Definition lt (a : option float) (b : float) : bool :=
  PrimFloat.ltb (toNumber a) b.

Definition comma : ascii := ascii_of_nat 44.
Definition newline : string := String (ascii_of_nat 10) EmptyString.
Definition quote : string := String (ascii_of_nat 34) EmptyString.

(** Decimal rendering of an identifier or a count inside a message. *)
Definition show (n : nat) : string := NilEmpty.string_of_uint (Nat.to_uint n).

(** [Array.prototype.sort(cmp)]: the stable sort by the comparator's sign.
    [insert] puts an element in front of the first one it does not exceed. *)
Section Sort.
Context {A : Type} (cmp : A -> A -> Z).

Fixpoint insert (x : A) (l : list A) : list A :=
  match l with
  | [] => [x]
  | y :: l' => if (cmp x y <=? 0)%Z then x :: l else y :: insert x l'
  end.

Fixpoint sort (l : list A) : list A :=
  match l with
  | [] => []
  | x :: l' => insert x (sort l')
  end.
End Sort.

End JS.


(* ================================================================== *)
(** ** Data model (the Mongoose schemas) *)
(* ================================================================== *)

(** Identifiers the database assigns (ObjectId) are naturals; identifiers the
    platforms assign (comment, review, post and video ids) are strings. *)
Definition ObjectId := nat.

(** Payloads of the YouTube Data API (commentThreads). An item of a list is
    an object that carries its id; a list with a null item is not modelled. *)
Module YouTube.
Record CommentSnippet := mkSnippet {
  textDisplay : option string;
  authorChannelId : option string;
  authorDisplayName : option string;
  authorChannelUrl : option string;
  authorProfileImageUrl : option string;
  likeCount : option Z;
  canReply : option bool;
  isPublic : option bool
}.
Record Comment := mkComment {
  snippet : option CommentSnippet
}.
Record Reply := mkReply {
  reply_id : string;
  reply_snippet : option CommentSnippet
}.
Record ThreadSnippet := mkThreadSnippet {
  topLevelComment : option Comment;
  totalReplyCount : option Z
}.
Record Thread := mkThread {
  id : string;
  thread_snippet : option ThreadSnippet;
  replies : option (list Reply)
}.
Record Video := mkVideo {
  videoId : string
}.
End YouTube.

(** Payloads of the Google Business Profile API (reviews). *)
Module Google.
Record Reviewer := mkReviewer {
  displayName : option string;
  profilePhotoUrl : option string
}.
Record ReviewReply := mkReviewReply {
  reply : option string
}.
Record Review := mkReview {
  reviewId : string;
  reviewer : option Reviewer;
  comment : option string;
  starRating : option Z;
  reviewReply : option ReviewReply
}.
End Google.

(** The body of an Instagram webhook delivery: entries, each with its
    changes; the value of a change is a comment or a message, by its field.
    [media_id] is what [value.media?.id] reads and [message_text] what
    [value.message?.text] reads. *)
Module Instagram.
Record From := mkFrom {
  from_id : option string;
  from_username : option string
}.
Record Value := mkValue {
  id : string;
  text : option string;
  from : option From;
  media_id : option string;
  message_text : option string;
  conversation_id : option string
}.
Record Change := mkChange {
  field : option string;
  value : option Value
}.
Record Entry := mkEntry {
  changes : option (list Change)
}.
Record Payload := mkPayload {
  entry : option (list Entry)
}.
End Instagram.

(** The [aiSuggestion] sub-document written by the response-draft stage.
    [generatedAt] is the clock's reading. *)
Module Suggestion.
Record t := mk {
  content : string;
  confidence : float;
  generatedAt : Z
}.
End Suggestion.

Module Author.
Record t := mk {
  platformId : option string;
  name : option string;
  username : option string;
  profileUrl : option string;
  avatarUrl : option string;
  isVerified : option bool
}.
Definition empty : t := mk None None None None None None.
End Author.

Module Metadata.
Record t := mk {
  postId : option string;
  postUrl : option string;
  videoId : option string;
  parentCommentId : option string;
  likeCount : option Z;
  canReply : option bool;
  isPublic : option bool;
  reviewId : option string;
  reviewReply : option Google.ReviewReply;
  starRating : option Z;
  locationId : option string
}.
Definition empty : t :=
  mk None None None None None None None None None None None.
End Metadata.

(** Modelled from the spec: the Interaction schema (models/Interaction.js is
    not among the sources). The record holds the paths of the data model of
    the specification that the services read and write, under the names the
    services use. The platform's own timestamps ([platformCreatedAt],
    [platformUpdatedAt], [reviewDate]) are left out: nothing reads them. A
    draft built by an adapter has no [_id] and no [createdAt] until it is
    inserted. *)
Module Interaction.
Record t := mk {
  _id : option ObjectId;
  organization : ObjectId;
  platformConnection : option ObjectId;
  platform : string;
  type : string;
  platformId : string;
  platformUrl : option string;
  content : option string;
  contentType : option string;
  language : option string;
  author : Author.t;
  parentId : option string;
  threadId : option string;
  hasReplies : option bool;
  replyCount : option Z;
  status : option string;
  isRead : option bool;
  sentiment : option string;
  sentimentScore : option float;
  sentimentConfidence : option float;
  intent : option string;
  topics : list string;
  aiSuggestion : option Suggestion.t;
  autoReplyEligible : option bool;
  assignedTo : option ObjectId;
  priority : option string;
  urgency : option string;
  rating : option Z;
  metadata : Metadata.t;
  createdAt : option Z
}.

(** A document with only its identity set. *)
Definition blank (org : ObjectId) (plat ty pid : string) : t :=
  mk None org None plat ty pid None None None None Author.empty None None
     None None None None None None None None [] None None None None None
     None Metadata.empty None.

(** Assignments to single paths of a document. *)
Definition set_sentimentResult (s : string) (score conf : float) (i : t) : t :=
  mk (_id i) (organization i) (platformConnection i) (platform i) (type i)
     (platformId i) (platformUrl i) (content i) (contentType i) (language i)
     (author i) (parentId i) (threadId i) (hasReplies i) (replyCount i)
     (status i) (isRead i) (Some s) (Some score) (Some conf) (intent i)
     (topics i) (aiSuggestion i) (autoReplyEligible i) (assignedTo i)
     (priority i) (urgency i) (rating i) (metadata i) (createdAt i).

Definition set_sentiment (s : string) (i : t) : t :=
  mk (_id i) (organization i) (platformConnection i) (platform i) (type i)
     (platformId i) (platformUrl i) (content i) (contentType i) (language i)
     (author i) (parentId i) (threadId i) (hasReplies i) (replyCount i)
     (status i) (isRead i) (Some s) (sentimentScore i)
     (sentimentConfidence i) (intent i)
     (topics i) (aiSuggestion i) (autoReplyEligible i) (assignedTo i)
     (priority i) (urgency i) (rating i) (metadata i) (createdAt i).

Definition set_intent (v : string) (i : t) : t :=
  mk (_id i) (organization i) (platformConnection i) (platform i) (type i)
     (platformId i) (platformUrl i) (content i) (contentType i) (language i)
     (author i) (parentId i) (threadId i) (hasReplies i) (replyCount i)
     (status i) (isRead i) (sentiment i) (sentimentScore i)
     (sentimentConfidence i) (Some v)
     (topics i) (aiSuggestion i) (autoReplyEligible i) (assignedTo i)
     (priority i) (urgency i) (rating i) (metadata i) (createdAt i).

Definition set_topics (v : list string) (i : t) : t :=
  mk (_id i) (organization i) (platformConnection i) (platform i) (type i)
     (platformId i) (platformUrl i) (content i) (contentType i) (language i)
     (author i) (parentId i) (threadId i) (hasReplies i) (replyCount i)
     (status i) (isRead i) (sentiment i) (sentimentScore i)
     (sentimentConfidence i) (intent i)
     v (aiSuggestion i) (autoReplyEligible i) (assignedTo i)
     (priority i) (urgency i) (rating i) (metadata i) (createdAt i).

Definition set_aiSuggestion (v : Suggestion.t) (i : t) : t :=
  mk (_id i) (organization i) (platformConnection i) (platform i) (type i)
     (platformId i) (platformUrl i) (content i) (contentType i) (language i)
     (author i) (parentId i) (threadId i) (hasReplies i) (replyCount i)
     (status i) (isRead i) (sentiment i) (sentimentScore i)
     (sentimentConfidence i) (intent i)
     (topics i) (Some v) (autoReplyEligible i) (assignedTo i)
     (priority i) (urgency i) (rating i) (metadata i) (createdAt i).

Definition set_autoReplyEligible (v : bool) (i : t) : t :=
  mk (_id i) (organization i) (platformConnection i) (platform i) (type i)
     (platformId i) (platformUrl i) (content i) (contentType i) (language i)
     (author i) (parentId i) (threadId i) (hasReplies i) (replyCount i)
     (status i) (isRead i) (sentiment i) (sentimentScore i)
     (sentimentConfidence i) (intent i)
     (topics i) (aiSuggestion i) (Some v) (assignedTo i)
     (priority i) (urgency i) (rating i) (metadata i) (createdAt i).

Definition set_assignment (agent : ObjectId) (st : string) (i : t) : t :=
  mk (_id i) (organization i) (platformConnection i) (platform i) (type i)
     (platformId i) (platformUrl i) (content i) (contentType i) (language i)
     (author i) (parentId i) (threadId i) (hasReplies i) (replyCount i)
     (Some st) (isRead i) (sentiment i) (sentimentScore i)
     (sentimentConfidence i) (intent i)
     (topics i) (aiSuggestion i) (autoReplyEligible i) (Some agent)
     (priority i) (urgency i) (rating i) (metadata i) (createdAt i).

Definition set_priority_urgency (p u : string) (i : t) : t :=
  mk (_id i) (organization i) (platformConnection i) (platform i) (type i)
     (platformId i) (platformUrl i) (content i) (contentType i) (language i)
     (author i) (parentId i) (threadId i) (hasReplies i) (replyCount i)
     (status i) (isRead i) (sentiment i) (sentimentScore i)
     (sentimentConfidence i) (intent i)
     (topics i) (aiSuggestion i) (autoReplyEligible i) (assignedTo i)
     (Some p) (Some u) (rating i) (metadata i) (createdAt i).

(** What insertion adds to a draft: the identifier and the timestamp. *)
Definition stamp (id : ObjectId) (now : Z) (i : t) : t :=
  mk (Some id) (organization i) (platformConnection i) (platform i) (type i)
     (platformId i) (platformUrl i) (content i) (contentType i) (language i)
     (author i) (parentId i) (threadId i) (hasReplies i) (replyCount i)
     (status i) (isRead i) (sentiment i) (sentimentScore i)
     (sentimentConfidence i) (intent i)
     (topics i) (aiSuggestion i) (autoReplyEligible i) (assignedTo i)
     (priority i) (urgency i) (rating i) (metadata i) (Some now).
End Interaction.

Module User.
Record t := mk {
  _id : ObjectId;
  organization : ObjectId;
  email : string;
  firstName : string;
  role : string;
  isActive : bool
}.
End User.

Module KnowledgeBase.
Record t := mk {
  organization : ObjectId;
  title : string;
  content : string;
  isActive : bool;
  isTrainingData : bool;
  trainingWeight : Z
}.
End KnowledgeBase.

Module LastError.
Record t := mk {
  message : string;
  code : string;
  timestamp : Z
}.
End LastError.

(** The PlatformConnection document: credentials, platform data, status and
    the [stats] sub-document. *)
Module PlatformConnection.
Record t := mk {
  _id : ObjectId;
  organization : ObjectId;
  platform : string;
  accessToken : string;
  channelId : option string;
  locationIds : option (list string);
  isActive : bool;
  status : string;
  lastSyncAt : option Z;
  lastError : option LastError.t;
  totalInteractionsSynced : Z;
  lastSyncCount : Z;
  failedSyncAttempts : Z
}.
End PlatformConnection.

(* ================================================================== *)
(** ** The world the services run in *)
(* ================================================================== *)

(** A thrown JavaScript error: its [message] and, when it has one, its
    [code]. *)
Record JsError := mkError {
  message : string;
  code : option string
}.

Definition TypeError (what : string) : JsError := mkError what None.

Inductive Result (A : Type) : Type :=
| Ok (a : A)
| Throw (e : JsError).
Arguments Ok {A} a.
Arguments Throw {A} e.

(** A mail handed to the mailer. [sendEmail] catches the transport's errors,
    so handing a mail over never throws; the HTML body is left out. *)
Record Email := mkEmail {
  to : string;
  subject : string
}.

(** A line written to the console: [console.log] or [console.error], the
    text and, for an error, the detail printed after it. *)
Inductive LogEntry :=
| Log (text : string)
| LogError (text : string) (detail : string).

(** A request to the chat-completion endpoint of the AI provider, by stage.
    The instruction text that accompanies each stage is fixed and left out;
    what varies with the interaction is kept. *)
Inductive ChatRequest :=
| SentimentRequest (content : option string)
| IntentRequest (content : option string)
| TopicsRequest (content : option string)
| ResponseRequest (kbContext : string) (content : option string)
                  (platform : string) (sentiment : string).

(** The external collaborators, fixed for the run of one job: the clock,
    the AI provider, the platform APIs (each takes the access token first)
    and whether the database answers. A call that fails throws the error
    given here. The clock and the availability of the database are read
    once for the run: the time that passes between two calls of one run,
    and a database that fails between two of them, are not modelled, and a
    statement about two runs takes an environment for each.
    - [commentThreads token videoId]: the items of the video's comment
      threads.
    - [channelUploads token channelId]: the uploads playlist of the channel,
      [None] when the answer lists no channel.
    - [playlistItems token playlistId]: the videos of the playlist.
    - [reviews token locationId]: the reviews of the location. *)
Record Env := mkEnv {
  now : Z;
  chat : ChatRequest -> Result string;
  commentThreads : string -> string -> Result (list YouTube.Thread);
  channelUploads : string -> string -> Result (option string);
  playlistItems : string -> string -> Result (list YouTube.Video);
  reviews : string -> string -> Result (list Google.Review);
  storageUp : bool
}.

(** The mutable state: the collections, the outbox of the mailer, the
    console, and the journal of the PlatformConnection documents written by
    [save()] (one entry per call, oldest first). *)
Record World := mkWorld {
  interactions : list Interaction.t;
  nextId : ObjectId;
  users : list User.t;
  knowledge : list KnowledgeBase.t;
  connections : list PlatformConnection.t;
  connectionSaves : list PlatformConnection.t;
  outbox : list Email;
  console : list LogEntry
}.

Definition with_interactions (l : list Interaction.t) (n : ObjectId) (w : World) : World :=
  mkWorld l n (users w) (knowledge w) (connections w) (connectionSaves w)
          (outbox w) (console w).

Definition with_connections (l s : list PlatformConnection.t) (w : World) : World :=
  mkWorld (interactions w) (nextId w) (users w) (knowledge w) l s
          (outbox w) (console w).

Definition with_outbox (l : list Email) (w : World) : World :=
  mkWorld (interactions w) (nextId w) (users w) (knowledge w) (connections w)
          (connectionSaves w) l (console w).

Definition with_console (l : list LogEntry) (w : World) : World :=
  mkWorld (interactions w) (nextId w) (users w) (knowledge w) (connections w)
          (connectionSaves w) (outbox w) l.

(** An operation: from a world to a result and the next world. An error
    keeps the effects made before it was thrown. *)
Definition M (A : Type) : Type := World -> Result A * World.

Definition ret {A} (a : A) : M A := fun w => (Ok a, w).

Definition throw {A} (e : JsError) : M A := fun w => (Throw e, w).

Definition bind {A B} (m : M A) (k : A -> M B) : M B :=
  fun w =>
    match m w with
    | (Ok a, w') => k a w'
    | (Throw e, w') => (Throw e, w')
    end.

(** [try { m } catch (error) { handler error }]. *)
Definition try_catch {A} (m : M A) (handler : JsError -> M A) : M A :=
  fun w =>
    match m w with
    | (Ok a, w') => (Ok a, w')
    | (Throw e, w') => handler e w'
    end.

Definition lift {A} (r : Result A) : M A := fun w => (r, w).

Declare Scope js_scope.
Delimit Scope js_scope with js.
Notation "x <- m ;; k" := (bind m (fun x => k))
  (at level 61, m at next level, right associativity) : js_scope.
Notation "m ;;; k" := (bind m (fun _ => k))
  (at level 61, right associativity) : js_scope.
Local Open Scope js_scope.

Definition console_log (text : string) : M unit :=
  fun w => (Ok tt, with_console (console w ++ [Log text]) w).

Definition console_error (text detail : string) : M unit :=
  fun w => (Ok tt, with_console (console w ++ [LogError text detail]) w).

(** A loop whose body pushes onto a local array: the pieces pushed by each
    round, in order. An error escaping a round ends the loop. *)
Fixpoint for_each {A B} (l : list A) (body : A -> M (list B)) : M (list B) :=
  match l with
  | [] => ret []
  | x :: l' =>
      bs <- body x ;;
      rest <- for_each l' body ;;
      ret (bs ++ rest)
  end.

(** *** The database driver *)

Definition storage_error : JsError :=
  mkError "connection to the database failed" (Some "ECONNREFUSED").

Section Driver.
Variable env : Env.

(** Every call to the database throws when the database does not answer;
    within one run it answers every call or none. *)
Definition db {A} (m : M A) : M A :=
  if storageUp env then m else throw storage_error.

(** [Interaction.findOne(query)]: the first document that matches. *)
Definition Interaction_findOne (query : Interaction.t -> bool)
  : M (option Interaction.t) :=
  db (fun w => (Ok (find query (interactions w)), w)).

(** [Interaction.findById(id)]. *)
Definition has_id (id : ObjectId) (d : Interaction.t) : bool :=
  match Interaction._id d with
  | Some k => Nat.eqb k id
  | None => false
  end.

Definition Interaction_findById (id : ObjectId) : M (option Interaction.t) :=
  Interaction_findOne (has_id id).

(** [Interaction.countDocuments(query)]. *)
Definition Interaction_countDocuments (query : Interaction.t -> bool) : M nat :=
  db (fun w => (Ok (List.length (filter query (interactions w))), w)).

(** [Interaction.insertMany(drafts, { ordered: false })]: each draft gets
    the next identifier and the clock's reading as [createdAt], and goes to
    the end of the collection. An index of the collection is declared in the
    schema, which is not at hand; none is modelled, so what the services
    guarantee against duplicates is what their own lookups guarantee. The
    call inserts every draft or throws having inserted none: a call that
    inserts some of the drafts and throws is not modelled. *)
Fixpoint stamp_all (id : ObjectId) (drafts : list Interaction.t)
  : list Interaction.t :=
  match drafts with
  | [] => []
  | d :: ds => Interaction.stamp id (now env) d :: stamp_all (S id) ds
  end.

Definition Interaction_insertMany (drafts : list Interaction.t) : M unit :=
  db (fun w =>
        (Ok tt,
         with_interactions (interactions w ++ stamp_all (nextId w) drafts)
                           (nextId w + List.length drafts) w)).

(** The first document that matches is replaced by its update. *)
Fixpoint update_first (query : Interaction.t -> bool)
         (update : Interaction.t -> Interaction.t) (l : list Interaction.t)
  : list Interaction.t :=
  match l with
  | [] => []
  | d :: l' => if query d then update d :: l'
               else d :: update_first query update l'
  end.

(** [Interaction.findOneAndUpdate(query, update, { upsert: true, new: true })]:
    the paths of [update] are set on the first document that matches, or on
    a new document when none matches; the document after the update is
    returned. *)
Definition Interaction_findOneAndUpdate (query : Interaction.t -> bool)
           (update : Interaction.t -> Interaction.t) : M Interaction.t :=
  db (fun w =>
        match find query (interactions w) with
        | Some d =>
            (Ok (update d),
             with_interactions (update_first query update (interactions w))
                               (nextId w) w)
        | None =>
            let d := Interaction.stamp (nextId w) (now env)
                       (update (Interaction.blank 0 "" "" "")) in
            (Ok d, with_interactions (interactions w ++ [d]) (S (nextId w)) w)
        end).

(** [interaction.save()]: the stored document with the same [_id] is
    replaced. *)
Definition same_id (i d : Interaction.t) : bool :=
  match Interaction._id i, Interaction._id d with
  | Some a, Some b => Nat.eqb a b
  | _, _ => false
  end.

Definition Interaction_save (i : Interaction.t) : M unit :=
  db (fun w =>
        (Ok tt,
         with_interactions (update_first (same_id i) (fun _ => i) (interactions w))
                           (nextId w) w)).

(** [User.find(query)] and [User.findOne(query)]. *)
Definition User_find (query : User.t -> bool) : M (list User.t) :=
  db (fun w => (Ok (filter query (users w)), w)).

Definition User_findOne (query : User.t -> bool) : M (option User.t) :=
  db (fun w => (Ok (find query (users w)), w)).

(** [PlatformConnection.findOne(query)]. *)
Definition PlatformConnection_findOne (query : PlatformConnection.t -> bool)
  : M (option PlatformConnection.t) :=
  db (fun w => (Ok (find query (connections w)), w)).

(** [connection.save()]: the stored document is replaced and the write is
    journalled. *)
Definition PlatformConnection_save (c : PlatformConnection.t) : M unit :=
  db (fun w =>
        (Ok tt,
         with_connections
           (map (fun d => if Nat.eqb (PlatformConnection._id d)
                                     (PlatformConnection._id c)
                          then c else d) (connections w))
           (connectionSaves w ++ [c]) w)).

(** The mailer: [sendEmail] reports a failure in its return value and never
    throws. The message is put in the outbox; the line the mailer writes to
    the console and the failure of its transport are left out. *)
Definition sendEmail (m : Email) : M unit :=
  fun w => (Ok tt, with_outbox (outbox w ++ [m]) w).
End Driver.

(* ================================================================== *)
(** ** AIService (services/aiService.js) *)
(* ================================================================== *)

Module AIService.

Record SentimentResult := mkSentiment {
  sentiment : string;
  sentimentScore : float;
  sentimentConfidence : float
}.

Definition validIntents : list string :=
  ["inquiry"; "complaint"; "praise"; "feedback"; "support"].

Definition array_includes (l : list string) (s : string) : bool :=
  existsb (String.eqb s) l.

Section WithEnv.
Variable env : Env.

(** The POST to the provider and the reading of
    [response.data.choices[0].message.content]. *)
Definition post (r : ChatRequest) : M string := lift (chat env r).

Definition analyzeSentiment (content : option string) : M SentimentResult :=
  try_catch
    (response <- post (SentimentRequest content) ;;
     let result := JS.trim (JS.toLowerCase response) in
     let sentiment :=
       if JS.includes result "positive" then "positive"
       else if JS.includes result "negative" then "negative"
       else "neutral" in
     let sentimentScore :=
       if String.eqb sentiment "positive" then 0.8%float
       else if String.eqb sentiment "negative" then (-0.8)%float
       else 0%float in
     ret (mkSentiment sentiment sentimentScore 0.85%float))
    (fun error =>
       console_error "Sentiment analysis error:" (message error) ;;;
       ret (mkSentiment "neutral" 0%float 0.5%float)).

Definition kbContext (knowledgeBase : list KnowledgeBase.t) : string :=
  JS.join (JS.newline ++ JS.newline)%string
    (map (fun kb =>
            (KnowledgeBase.title kb ++ ": " ++ KnowledgeBase.content kb)%string)
         knowledgeBase).

(** [interaction.sentiment || 'unknown']. *)
Definition sentiment_or_unknown (s : option string) : string :=
  match s with
  | Some v => if JS.truthy_string v then v else "unknown"
  | None => "unknown"
  end.

Definition generateResponse (interaction : Interaction.t)
           (knowledgeBase : list KnowledgeBase.t) : M (option Suggestion.t) :=
  try_catch
    (response <- post (ResponseRequest (kbContext knowledgeBase)
                         (Interaction.content interaction)
                         (Interaction.platform interaction)
                         (sentiment_or_unknown (Interaction.sentiment interaction))) ;;
     let generatedResponse := JS.trim response in
     ret (Some (Suggestion.mk generatedResponse 0.8%float (now env))))
    (fun error =>
       console_error "AI response generation error:" (message error) ;;;
       ret None).

Definition detectIntent (content : option string) : M string :=
  try_catch
    (response <- post (IntentRequest content) ;;
     let intent := JS.trim (JS.toLowerCase response) in
     ret (if array_includes validIntents intent then intent else "other"))
    (fun error =>
       console_error "Intent detection error:" (message error) ;;;
       ret "other").

Definition extractTopics (content : option string) : M (list string) :=
  try_catch
    (response <- post (TopicsRequest content) ;;
     let topicsStr := JS.trim response in
     ret (filter JS.truthy_string (map JS.trim (JS.split JS.comma topicsStr))))
    (fun error =>
       console_error "Topic extraction error:" (message error) ;;;
       ret []).
End WithEnv.

(** Whether the interaction is eligible for an automatic reply. *)
Definition canAutoReply (interaction : Interaction.t) : bool :=
  if JS.strict_eq (Interaction.sentiment interaction) "negative" then false
  else if JS.lt (Interaction.sentimentConfidence interaction) 0.7%float then false
  else if JS.strict_eq (Interaction.intent interaction) "complaint" then false
  else if JS.strict_eq (Interaction.urgency interaction) "urgent"
          || JS.strict_eq (Interaction.urgency interaction) "high" then false
  else true.

End AIService.

(* ================================================================== *)
(** ** The enrichment job (jobs/processAI.js) *)
(* ================================================================== *)

Module ProcessAI.

Record JobResult := mkJobResult {
  success : bool;
  interactionId : ObjectId;
  sentiment : option string;
  autoReplyEligible : option bool
}.

Definition subject_assignment (i : Interaction.t) : string :=
  ("New " ++ Interaction.type i ++ " assigned to you")%string.

Definition subject_spike (count : nat) : string :=
  ("Alert: " ++ JS.show count ++ " negative comments detected")%string.

Definition show_id (i : Interaction.t) : string :=
  match Interaction._id i with
  | Some k => JS.show k
  | None => "undefined"
  end.

Section WithEnv.
Variable env : Env.

(** [emailService.sendAssignmentNotification(user, interaction)]. *)
Definition sendAssignmentNotification (user : User.t) (i : Interaction.t) : M unit :=
  sendEmail (mkEmail (User.email user) (subject_assignment i)).

(** [emailService.sendNegativeSpikeAlert(user, postId, count)]. *)
Definition sendNegativeSpikeAlert (user : User.t) (postId : string)
           (count : nat) : M unit :=
  sendEmail (mkEmail (User.email user) (subject_spike count)).

(** Modelled from the spec: the document method [interaction.assignTo]
    of models/Interaction.js, which is not among the sources. The
    specification lists [assignedTo] and [status] (with the value
    assigned) as the workflow fields an assignment writes and asks that
    the assignment be persisted on its own; the callers await the method
    and never save after it. The third argument (who assigned) and the
    reason are recorded in a history nothing here reads. *)
Definition assignTo (i : Interaction.t) (userId : ObjectId)
           (reason : string) : M Interaction.t :=
  let i' := Interaction.set_assignment userId "assigned" i in
  Interaction_save env i' ;;;
  ret i'.

(** The query of [assignToAgent] for the candidates. *)
Definition is_candidate (i : Interaction.t) (u : User.t) : bool :=
  Nat.eqb (User.organization u) (Interaction.organization i)
  && String.eqb (User.role u) "agent"
  && User.isActive u.

(** The query that counts an agent's open interactions. *)
Definition is_open_for (agent : User.t) (d : Interaction.t) : bool :=
  match Interaction.assignedTo d with
  | Some a => Nat.eqb a (User._id agent)
  | None => false
  end
  && (JS.strict_eq (Interaction.status d) "assigned"
      || JS.strict_eq (Interaction.status d) "unread").

(** [Promise.all(agents.map(async agent => ({ agent, count })))]. *)
Fixpoint workloads (agents : list User.t) : M (list (User.t * nat)) :=
  match agents with
  | [] => ret []
  | agent :: rest =>
      count <- Interaction_countDocuments env (is_open_for agent) ;;
      others <- workloads rest ;;
      ret ((agent, count) :: others)
  end.

Definition by_count (a b : User.t * nat) : Z :=
  (Z.of_nat (snd a) - Z.of_nat (snd b))%Z.

Definition assignToAgent (interaction : Interaction.t) (reason : string)
  : M Interaction.t :=
  try_catch
    (agents <- User_find env (is_candidate interaction) ;;
     match agents with
     | [] =>
         console_log "No agents available for assignment" ;;;
         ret interaction
     | _ :: _ =>
         agentWorkload <- workloads agents ;;
         match JS.sort by_count agentWorkload with
         | [] => throw (TypeError "Cannot read properties of undefined (reading 'agent')")
         | (selectedAgent, _) :: _ =>
             assigned <- assignTo interaction (User._id selectedAgent) reason ;;
             sendAssignmentNotification selectedAgent assigned ;;;
             console_log ("Assigned interaction " ++ show_id assigned
                          ++ " to agent " ++ User.email selectedAgent)%string ;;;
             ret assigned
         end
     end)
    (fun error =>
       console_error "Agent assignment error:" (message error) ;;;
       ret interaction).

(** The query of [checkNegativeSpike]: negative interactions on the same
    post of the same organization created in the last 24 hours. *)
Definition day_ms : Z := 24 * 60 * 60 * 1000.

Definition is_recent_negative (org : ObjectId) (postId : string)
           (d : Interaction.t) : bool :=
  Nat.eqb (Interaction.organization d) org
  && JS.strict_eq (Metadata.postId (Interaction.metadata d)) postId
  && JS.strict_eq (Interaction.sentiment d) "negative"
  && match Interaction.createdAt d with
     | Some t => (now env - day_ms <=? t)%Z
     | None => false
     end.

Definition is_manager (org : ObjectId) (u : User.t) : bool :=
  Nat.eqb (User.organization u) org
  && (String.eqb (User.role u) "manager" || String.eqb (User.role u) "admin")
  && User.isActive u.

Definition checkNegativeSpike (interaction : Interaction.t) : M Interaction.t :=
  try_catch
    (match Metadata.postId (Interaction.metadata interaction) with
     | None => ret interaction
     | Some postId =>
         if negb (JS.truthy_string postId) then ret interaction
         else
           negativeCount <-
             Interaction_countDocuments env
               (is_recent_negative (Interaction.organization interaction) postId) ;;
           console_log ("Negative comment count for post: "
                        ++ JS.show negativeCount)%string ;;;
           if (3 <=? negativeCount)%nat then
             console_log "ALERT: Negative spike detected!" ;;;
             manager <- User_findOne env
                          (is_manager (Interaction.organization interaction)) ;;
             match manager with
             | Some m => sendNegativeSpikeAlert m postId negativeCount
             | None => ret tt
             end ;;;
             ret (Interaction.set_priority_urgency "urgent" "urgent" interaction)
           else ret interaction
     end)
    (fun error =>
       console_error "Negative spike check error:" (message error) ;;;
       ret interaction).

(** [KnowledgeBase.find({...}).sort({ trainingWeight: -1 }).limit(10)]. *)
Definition is_training_entry (org : ObjectId) (kb : KnowledgeBase.t) : bool :=
  Nat.eqb (KnowledgeBase.organization kb) org
  && KnowledgeBase.isActive kb
  && KnowledgeBase.isTrainingData kb.

Definition by_weight_desc (a b : KnowledgeBase.t) : Z :=
  (KnowledgeBase.trainingWeight b - KnowledgeBase.trainingWeight a)%Z.

Definition findKnowledgeBase (org : ObjectId) : M (list KnowledgeBase.t) :=
  db env (fun w =>
    (Ok (firstn 10 (JS.sort by_weight_desc
                      (filter (is_training_entry org) (knowledge w)))), w)).

(** Steps 1 to 6 of the job: the four AI stages and the eligibility flag.
    The draft is returned beside the document, as the job keeps it in a
    local of its own. *)
Definition enrich (interaction : Interaction.t)
  : M (Interaction.t * option Suggestion.t) :=
  console_log "Analyzing sentiment..." ;;;
  sentimentResult <- AIService.analyzeSentiment env (Interaction.content interaction) ;;
  let interaction :=
    Interaction.set_sentimentResult
      (AIService.sentiment sentimentResult)
      (AIService.sentimentScore sentimentResult)
      (AIService.sentimentConfidence sentimentResult) interaction in
  console_log "Detecting intent..." ;;;
  intent <- AIService.detectIntent env (Interaction.content interaction) ;;
  let interaction := Interaction.set_intent intent interaction in
  console_log "Extracting topics..." ;;;
  topics <- AIService.extractTopics env (Interaction.content interaction) ;;
  let interaction := Interaction.set_topics topics interaction in
  knowledgeBase <- findKnowledgeBase (Interaction.organization interaction) ;;
  console_log "Generating AI response..." ;;;
  aiResponse <- AIService.generateResponse env interaction knowledgeBase ;;
  let interaction :=
    match aiResponse with
    | Some r => Interaction.set_aiSuggestion r interaction
    | None => interaction
    end in
  let interaction :=
    Interaction.set_autoReplyEligible (AIService.canAutoReply interaction)
                                      interaction in
  ret (interaction, aiResponse).

(** Whether step 7 takes the auto-reply branch. *)
Definition autoReplied (interaction : Interaction.t)
           (aiResponse : option Suggestion.t) : bool :=
  match Interaction.autoReplyEligible interaction, aiResponse with
  | Some true, Some _ => true
  | _, _ => false
  end.

(** Steps 7 and 8 of the job: auto-reply or assignment, then the check
    for a spike of negative comments. *)
Definition route (interaction : Interaction.t)
           (aiResponse : option Suggestion.t) : M Interaction.t :=
  interaction <-
    (if autoReplied interaction aiResponse then
       console_log "Interaction is eligible for auto-reply" ;;;
       ret interaction
     else
       console_log "Assigning to agent..." ;;;
       assignToAgent interaction "ai_unable") ;;
  if String.eqb (Interaction.type interaction) "comment"
     && JS.strict_eq (Interaction.sentiment interaction) "negative"
  then checkNegativeSpike interaction
  else ret interaction.

Definition processAI (interactionId : ObjectId) : M JobResult :=
  try_catch
    (console_log ("Processing AI for interaction: " ++ JS.show interactionId)%string ;;;
     found <- Interaction_findById env interactionId ;;
     match found with
     | None =>
         throw (mkError ("Interaction " ++ JS.show interactionId ++ " not found")%string
                        None)
     | Some interaction =>
         enriched <- enrich interaction ;;
         interaction <- route (fst enriched) (snd enriched) ;;
         Interaction_save env interaction ;;;
         console_log ("AI processing completed for interaction: "
                      ++ JS.show interactionId)%string ;;;
         ret (mkJobResult true interactionId
                          (Interaction.sentiment interaction)
                          (Interaction.autoReplyEligible interaction))
     end)
    (fun error =>
       console_error "AI processing error:" (message error) ;;;
       throw error).
End WithEnv.

End ProcessAI.

(* ================================================================== *)
(** ** The webhook job (jobs/processWebhook.js) *)
(* ================================================================== *)

Module ProcessWebhook.

(** [a || b] on strings that may be undefined. *)
Definition or_else (a b : option string) : option string :=
  match a with
  | Some s => if JS.truthy_string s then a else b
  | None => b
  end.

(** How a value that may be undefined prints inside a template literal. *)
Definition template (a : option string) : string :=
  match a with
  | Some s => s
  | None => "undefined"
  end.

(** The update document of the comment branch, as the paths it sets. *)
Definition comment_update (organizationId : ObjectId) (comment : Instagram.Value)
           (d : Interaction.t) : Interaction.t :=
  let from_id := match Instagram.from comment with
                 | Some f => Instagram.from_id f | None => None end in
  let from_username := match Instagram.from comment with
                       | Some f => Instagram.from_username f | None => None end in
  Interaction.mk
    (Interaction._id d) organizationId (Interaction.platformConnection d)
    "instagram" "comment" (Instagram.id comment)
    (Interaction.platformUrl d) (Instagram.text comment)
    (Interaction.contentType d) (Interaction.language d)
    (Author.mk from_id from_username from_username None None None)
    (Interaction.parentId d) (Interaction.threadId d)
    (Interaction.hasReplies d) (Interaction.replyCount d)
    (Some "unread") (Interaction.isRead d)
    (Interaction.sentiment d) (Interaction.sentimentScore d)
    (Interaction.sentimentConfidence d) (Interaction.intent d)
    (Interaction.topics d) (Interaction.aiSuggestion d)
    (Interaction.autoReplyEligible d) (Interaction.assignedTo d)
    (Interaction.priority d) (Interaction.urgency d) (Interaction.rating d)
    (Metadata.mk (Instagram.media_id comment)
       (Some ("https://www.instagram.com/p/"
              ++ template (Instagram.media_id comment))%string)
       None None None None None None None None None)
    (Interaction.createdAt d).

(** The update document of the message branch. *)
Definition message_update (organizationId : ObjectId) (msg : Instagram.Value)
           (from : Instagram.From) (d : Interaction.t) : Interaction.t :=
  Interaction.mk
    (Interaction._id d) organizationId (Interaction.platformConnection d)
    "instagram" "dm" (Instagram.id msg)
    (Interaction.platformUrl d)
    (or_else (Instagram.message_text msg) (Instagram.text msg))
    (Interaction.contentType d) (Interaction.language d)
    (Author.mk (Instagram.from_id from) None (Instagram.from_username from)
               None None None)
    (Interaction.parentId d) (Instagram.conversation_id msg)
    (Interaction.hasReplies d) (Interaction.replyCount d)
    (Some "unread") (Interaction.isRead d)
    (Interaction.sentiment d) (Interaction.sentimentScore d)
    (Interaction.sentimentConfidence d) (Interaction.intent d)
    (Interaction.topics d) (Interaction.aiSuggestion d)
    (Interaction.autoReplyEligible d) (Interaction.assignedTo d)
    (Interaction.priority d) (Interaction.urgency d) (Interaction.rating d)
    (Interaction.metadata d) (Interaction.createdAt d).

(** The query [{ platformId: id }]. *)
Definition by_platformId (id : string) (d : Interaction.t) : bool :=
  String.eqb (Interaction.platformId d) id.

(** The query [{ platformId, organization, platform }] of the Google and
    YouTube handlers. *)
Definition by_identity (organizationId : ObjectId) (platform id : string)
           (d : Interaction.t) : bool :=
  String.eqb (Interaction.platformId d) id
  && Nat.eqb (Interaction.organization d) organizationId
  && String.eqb (Interaction.platform d) platform.

Section WithEnv.
Variable env : Env.

(** The loop over the changes of the first entry: the first change whose
    field is comments or messages is stored and ends the handler. *)
Fixpoint instagram_changes (organizationId : ObjectId)
         (changes : list Instagram.Change) : M (option Interaction.t) :=
  match changes with
  | [] => ret None
  | change :: rest =>
      if JS.strict_eq (Instagram.field change) "comments" then
        match Instagram.value change with
        | None => throw (TypeError "Cannot read properties of undefined (reading 'id')")
        | Some comment =>
            interaction <-
              Interaction_findOneAndUpdate env
                (by_platformId (Instagram.id comment))
                (comment_update organizationId comment) ;;
            ret (Some interaction)
        end
      else if JS.strict_eq (Instagram.field change) "messages" then
        match Instagram.value change with
        | None => throw (TypeError "Cannot read properties of undefined (reading 'id')")
        | Some msg =>
            match Instagram.from msg with
            | None => throw (TypeError "Cannot read properties of undefined (reading 'id')")
            | Some from =>
                interaction <-
                  Interaction_findOneAndUpdate env
                    (by_platformId (Instagram.id msg))
                    (message_update organizationId msg from) ;;
                ret (Some interaction)
            end
        end
      else instagram_changes organizationId rest
  end.

Definition handleInstagramWebhook (payload : Instagram.Payload)
           (organizationId : ObjectId) : M (option Interaction.t) :=
  try_catch
    (match Instagram.entry payload with
     | None | Some [] => ret None
     | Some (entry :: _) =>
         let changes := match Instagram.changes entry with
                        | Some l => l
                        | None => []
                        end in
         instagram_changes organizationId changes
     end)
    (fun error =>
       console_error "Instagram webhook handler error:" (message error) ;;;
       throw error).

(** The job's handler for Google: the review was stored by the
    controller; it is looked up by its identity. *)
Definition handleGoogleWebhook (reviewId : string) (eventType : option string)
           (organizationId : ObjectId) : M (option Interaction.t) :=
  try_catch
    (if JS.strict_eq eventType "NEW_REVIEW" || JS.strict_eq eventType "UPDATE_REVIEW"
     then Interaction_findOne env (by_identity organizationId "google" reviewId)
     else ret None)
    (fun error =>
       console_error "Google webhook handler error:" (message error) ;;;
       throw error).
End WithEnv.

End ProcessWebhook.

(* ================================================================== *)
(** ** PlatformConnection methods (models/PlatformConnection.js) *)
(* ================================================================== *)

Module ConnectionMethods.
Import PlatformConnection.

(** The assignments of [updateSyncStats(count, success)], before the save.
    The counters are integers: the rounding of a JS number beyond 2^53 is
    not modelled. *)
Definition syncStats (now : Z) (count : Z) (success : bool) (c : t) : t :=
  mk (_id c) (organization c) (platform c) (accessToken c) (channelId c)
     (locationIds c) (isActive c)
     (if success then "connected" else "error")
     (Some now) (lastError c)
     (totalInteractionsSynced c + count)%Z
     count
     (if success then 0%Z else (failedSyncAttempts c + 1)%Z).

(** The assignments of [logError(error)], before the save.
    [error.code || 'UNKNOWN']. *)
Definition errorLogged (now : Z) (error : JsError) (c : t) : t :=
  mk (_id c) (organization c) (platform c) (accessToken c) (channelId c)
     (locationIds c) (isActive c)
     "error"
     (lastSyncAt c)
     (Some (LastError.mk (message error)
              (match code error with
               | Some k => if JS.truthy_string k then k else "UNKNOWN"
               | None => "UNKNOWN"
               end)
              now))
     (totalInteractionsSynced c) (lastSyncCount c) (failedSyncAttempts c).

Section WithEnv.
Variable env : Env.

Definition updateSyncStats (c : t) (count : Z) (success : bool) : M t :=
  let c' := syncStats (now env) count success c in
  PlatformConnection_save env c' ;;;
  ret c'.

Definition logError (c : t) (error : JsError) : M t :=
  let c' := errorLogged (now env) error c in
  PlatformConnection_save env c' ;;;
  ret c'.
End WithEnv.
End ConnectionMethods.

(** What a fetch returns: [{ success, count, interactions }]. *)
Record SyncResult := mkSyncResult {
  sync_success : bool;
  sync_count : nat;
  sync_interactions : list Interaction.t
}.

(** The accumulators of a sync run over the results of its fetches:
    [totalCount += result.count] and
    [allInteractions.push(...result.interactions)]. *)
Definition total_count (results : list SyncResult) : nat :=
  fold_left (fun n r => n + sync_count r) results 0.

Definition all_interactions (results : list SyncResult) : list Interaction.t :=
  List.concat (map sync_interactions results).

(* ================================================================== *)
(** ** YouTubeService (integrations/google/youtubeService.js) *)
(* ================================================================== *)

Module YouTubeService.

Definition positiveWords : list string :=
  ["great"; "awesome"; "love"; "amazing"; "excellent"; "good"; "nice"; "perfect"].
Definition negativeWords : list string :=
  ["bad"; "terrible"; "hate"; "awful"; "worst"; "disappointed"; "poor"].

(** The word-list sentiment of a top-level comment. *)
Definition basicSentiment (textDisplay : string) : string :=
  let text := JS.toLowerCase textDisplay in
  if existsb (JS.includes text) positiveWords then "positive"
  else if existsb (JS.includes text) negativeWords then "negative"
  else "neutral".

Definition or_anonymous (a : option string) : option string :=
  ProcessWebhook.or_else a (Some "Anonymous").

Definition or_null (a : option string) : option string :=
  ProcessWebhook.or_else a None.

Definition author_of (s : YouTube.CommentSnippet) : Author.t :=
  Author.mk (or_null (YouTube.authorChannelId s))
            (or_anonymous (YouTube.authorDisplayName s))
            (or_anonymous (YouTube.authorDisplayName s))
            (or_null (YouTube.authorChannelUrl s))
            (or_null (YouTube.authorProfileImageUrl s))
            (Some false).

Definition comment_url (videoId commentId : string) : string :=
  ("https://www.youtube.com/watch?v=" ++ videoId ++ "&lc=" ++ commentId)%string.

(** [n || 0]. *)
Definition or_zero (n : option Z) : Z :=
  match n with Some k => k | None => 0%Z end.

(** [n > 0] where [n] may be undefined. *)
Definition positive_count (n : option Z) : bool :=
  match n with Some k => (0 <? k)%Z | None => false end.

(** The interaction built from a top-level comment. *)
Definition comment_draft (c : PlatformConnection.t) (videoId : string)
           (thread : YouTube.Thread) (ts : YouTube.ThreadSnippet)
           (s : YouTube.CommentSnippet) (textDisplay : string) : Interaction.t :=
  Interaction.mk
    None (PlatformConnection.organization c) (Some (PlatformConnection._id c))
    "youtube" "comment" (YouTube.id thread)
    (Some (comment_url videoId (YouTube.id thread)))
    (Some textDisplay) (Some "text")
    (if JS.truthy_string textDisplay then Some "en" else None)
    (author_of s)
    None (Some (YouTube.id thread))
    (Some (positive_count (YouTube.totalReplyCount ts)))
    (Some (or_zero (YouTube.totalReplyCount ts)))
    (Some "unread") (Some false)
    (Some (basicSentiment textDisplay)) None None None [] None None None None None
    None
    (Metadata.mk None None (Some videoId) None
       (Some (or_zero (YouTube.likeCount s)))
       (Some (match YouTube.canReply s with Some b => b | None => false end))
       (Some true)
       None None None None)
    None.

(** The interaction built from a reply. *)
Definition reply_draft (c : PlatformConnection.t) (videoId : string)
           (thread : YouTube.Thread) (reply : YouTube.Reply)
           (s : YouTube.CommentSnippet) : Interaction.t :=
  Interaction.mk
    None (PlatformConnection.organization c) (Some (PlatformConnection._id c))
    "youtube" "comment" (YouTube.reply_id reply)
    (Some (comment_url videoId (YouTube.reply_id reply)))
    (YouTube.textDisplay s) (Some "text") (Some "en")
    (author_of s)
    (Some (YouTube.id thread)) (Some (YouTube.id thread))
    None None
    (Some "unread") (Some false)
    (Some "neutral") None None None [] None None None None None
    None
    (Metadata.mk None None (Some videoId) (Some (YouTube.id thread))
       (Some (or_zero (YouTube.likeCount s)))
       None None None None None None)
    None.

(** [getChannelVideos(accessToken, channelId, 50)]: the uploads playlist of
    the channel, then its videos; an error of either call is thrown again
    under the function's own message. It touches neither the database nor
    the console. *)
Definition getChannelVideos (env : Env) (accessToken channelId : string)
  : Result (list YouTube.Video) :=
  let wrapped (error : JsError) : Result (list YouTube.Video) :=
    Throw (mkError ("Failed to get channel videos: " ++ message error)%string None) in
  match channelUploads env accessToken channelId with
  | Throw error => wrapped error
  | Ok None => Ok []
  | Ok (Some uploadsPlaylistId) =>
      match playlistItems env accessToken uploadsPlaylistId with
      | Throw error => wrapped error
      | Ok items => Ok items
      end
  end.

(** The query [{ platformId, organization }] of the existence check. *)
Definition by_platformId_org (id : string) (org : ObjectId)
           (d : Interaction.t) : bool :=
  String.eqb (Interaction.platformId d) id
  && Nat.eqb (Interaction.organization d) org.

Section WithEnv.
Variable env : Env.

(** One round of the loop over the replies of a thread. *)
Definition process_reply (c : PlatformConnection.t) (videoId : string)
           (thread : YouTube.Thread) (reply : YouTube.Reply)
  : M (list Interaction.t) :=
  try_catch
    (existingReply <-
       Interaction_findOne env
         (by_platformId_org (YouTube.reply_id reply)
                            (PlatformConnection.organization c)) ;;
     match existingReply with
     | Some _ => ret []
     | None =>
         match YouTube.reply_snippet reply with
         | None =>
             throw (TypeError
               "Cannot read properties of undefined (reading 'textDisplay')")
         | Some replySnippet =>
             ret [reply_draft c videoId thread reply replySnippet]
         end
     end)
    (fun error =>
       console_error ("Error processing reply " ++ YouTube.reply_id reply ++ ":")%string
                     (message error) ;;;
       ret []).

(** One round of the loop over the comment threads. *)
Definition process_thread (c : PlatformConnection.t) (videoId : string)
           (thread : YouTube.Thread) : M (list Interaction.t) :=
  try_catch
    (match YouTube.thread_snippet thread with
     | None =>
         throw (TypeError
           "Cannot read properties of undefined (reading 'topLevelComment')")
     | Some ts =>
         match YouTube.topLevelComment ts with
         | None =>
             throw (TypeError
               "Cannot read properties of undefined (reading 'snippet')")
         | Some top =>
             existingInteraction <-
               Interaction_findOne env
                 (by_platformId_org (YouTube.id thread)
                                    (PlatformConnection.organization c)) ;;
             match existingInteraction with
             | Some _ => ret []
             | None =>
                 match YouTube.snippet top with
                 | None =>
                     throw (TypeError
                       "Cannot read properties of undefined (reading 'textDisplay')")
                 | Some topLevelComment =>
                     match YouTube.textDisplay topLevelComment with
                     | None =>
                         throw (TypeError
                           "Cannot read properties of undefined (reading 'toLowerCase')")
                     | Some textDisplay =>
                         let interaction :=
                           comment_draft c videoId thread ts topLevelComment
                                         textDisplay in
                         replyInteractions <-
                           match YouTube.replies thread with
                           | Some comments =>
                               for_each comments (process_reply c videoId thread)
                           | None => ret []
                           end ;;
                         ret (interaction :: replyInteractions)
                     end
                 end
             end
         end
     end)
    (fun error =>
       console_error ("Error processing comment " ++ YouTube.id thread ++ ":")%string
                     (message error) ;;;
       ret []).

Definition fetchVideoComments (c : PlatformConnection.t) (videoId : string)
  : M SyncResult :=
  try_catch
    (commentThreads <- lift (commentThreads env (PlatformConnection.accessToken c)
                                            videoId) ;;
     interactions <- for_each commentThreads (process_thread c videoId) ;;
     match interactions with
     | [] => ret tt
     | _ :: _ => Interaction_insertMany env interactions
     end ;;;
     ret (mkSyncResult true (List.length interactions) interactions))
    (fun error =>
       console_error "Error fetching video comments:" (message error) ;;;
       throw (mkError ("Failed to fetch video comments: " ++ message error)%string
                      None)).

(** One round of the loop over the channel's videos: the result of the
    video's fetch, or nothing when the fetch threw. *)
Definition process_video (c : PlatformConnection.t) (video : YouTube.Video)
  : M (list SyncResult) :=
  try_catch
    (result <- fetchVideoComments c (YouTube.videoId video) ;;
     ret [result])
    (fun error =>
       console_error ("Error fetching comments for video "
                      ++ YouTube.videoId video ++ ":")%string (message error) ;;;
       ret []).

Definition fetchAllChannelComments (c : PlatformConnection.t) : M SyncResult :=
  try_catch
    (match PlatformConnection.channelId c with
     | None =>
         throw (mkError "Channel ID not found in platform connection" None)
     | Some channelId =>
         if negb (JS.truthy_string channelId) then
           throw (mkError "Channel ID not found in platform connection" None)
         else
           videos <- lift (getChannelVideos env (PlatformConnection.accessToken c)
                                            channelId) ;;
           results <- for_each videos (process_video c) ;;
           let totalCount := total_count results in
           let allInteractions := all_interactions results in
           ConnectionMethods.updateSyncStats env c (Z.of_nat totalCount) true ;;;
           ret (mkSyncResult true totalCount allInteractions)
     end)
    (fun error =>
       ConnectionMethods.logError env c error ;;;
       throw error).
End WithEnv.

End YouTubeService.

(* ================================================================== *)
(** ** GoogleService (integrations/google/googleService.js) *)
(* ================================================================== *)

Module GoogleService.

(** [review.starRating || null]: zero is falsy. *)
Definition rating_or_null (r : option Z) : option Z :=
  match r with
  | Some k => if (k =? 0)%Z then None else Some k
  | None => None
  end.

(** The sentiment a star rating stands for; nothing when the rating is
    absent or zero. *)
Definition ratingSentiment (starRating : option Z) : option string :=
  match starRating with
  | Some r =>
      if (r =? 0)%Z then None
      else if (4 <=? r)%Z then Some "positive"
      else if (r <=? 2)%Z then Some "negative"
      else Some "neutral"
  | None => None
  end.

Definition displayName_of (review : Google.Review) : option string :=
  match Google.reviewer review with
  | Some r => Google.displayName r
  | None => None
  end.

Definition photo_of (review : Google.Review) : option string :=
  match Google.reviewer review with
  | Some r => Google.profilePhotoUrl r
  | None => None
  end.

(** The interaction built from a review, with its sentiment from the
    rating. *)
Definition review_draft (c : PlatformConnection.t) (locationId : string)
           (review : Google.Review) : Interaction.t :=
  Interaction.mk
    None (PlatformConnection.organization c) (Some (PlatformConnection._id c))
    "google" "review" (Google.reviewId review)
    (match Google.reviewReply review with
     | Some r => YouTubeService.or_null (Google.reply r)
     | None => None
     end)
    (ProcessWebhook.or_else (Google.comment review) (Some ""))
    (Some "text")
    (match ProcessWebhook.or_else (displayName_of review) None with
     | Some _ => Some "en"
     | None => None
     end)
    (Author.mk (YouTubeService.or_null (photo_of review))
               (YouTubeService.or_anonymous (displayName_of review))
               (YouTubeService.or_anonymous (displayName_of review))
               (YouTubeService.or_null (photo_of review))
               (YouTubeService.or_null (photo_of review))
               (Some false))
    None None None None
    (Some "unread") (Some false)
    (ratingSentiment (Google.starRating review))
    None None None [] None None None None None
    (rating_or_null (Google.starRating review))
    (Metadata.mk None None None None None None None
       (Some (Google.reviewId review)) (Google.reviewReply review)
       (Google.starRating review) (Some locationId))
    None.

Section WithEnv.
Variable env : Env.

(** One round of the loop over the reviews. *)
Definition process_review (c : PlatformConnection.t) (locationId : string)
           (review : Google.Review) : M (list Interaction.t) :=
  try_catch
    (existingInteraction <-
       Interaction_findOne env
         (YouTubeService.by_platformId_org (Google.reviewId review)
                                           (PlatformConnection.organization c)) ;;
     match existingInteraction with
     | Some _ => ret []
     | None => ret [review_draft c locationId review]
     end)
    (fun error =>
       console_error ("Error processing review " ++ Google.reviewId review ++ ":")%string
                     (message error) ;;;
       ret []).

Definition fetchReviews (c : PlatformConnection.t) (locationId : string)
  : M SyncResult :=
  try_catch
    (reviews <- lift (reviews env (PlatformConnection.accessToken c) locationId) ;;
     interactions <- for_each reviews (process_review c locationId) ;;
     match interactions with
     | [] => ret tt
     | _ :: _ => Interaction_insertMany env interactions
     end ;;;
     ret (mkSyncResult true (List.length interactions) interactions))
    (fun error =>
       console_error "Error fetching reviews:" (message error) ;;;
       throw (mkError ("Failed to fetch reviews: " ++ message error)%string None)).

(** One round of the loop over the locations. *)
Definition process_location (c : PlatformConnection.t) (locationId : string)
  : M (list SyncResult) :=
  try_catch
    (result <- fetchReviews c locationId ;;
     ret [result])
    (fun error =>
       console_error ("Error fetching reviews for location " ++ locationId ++ ":")%string
                     (message error) ;;;
       ret []).

Definition fetchAllReviews (c : PlatformConnection.t) : M SyncResult :=
  try_catch
    (let locationIds := match PlatformConnection.locationIds c with
                        | Some l => l
                        | None => []
                        end in
     match locationIds with
     | [] => ret (mkSyncResult true 0 [])
     | _ :: _ =>
         results <- for_each locationIds (process_location c) ;;
         let totalCount := total_count results in
         let allInteractions := all_interactions results in
         ConnectionMethods.updateSyncStats env c (Z.of_nat totalCount) true ;;;
         ret (mkSyncResult true totalCount allInteractions)
     end)
    (fun error =>
       ConnectionMethods.logError env c error ;;;
       throw error).
End WithEnv.

End GoogleService.

(* ================================================================== *)
(** ** The webhook controller (controllers/webhookController.js) *)
(* ================================================================== *)

Module WebhookController.

(** What [JSON.parse(Buffer.from(message.data, 'base64').toString())]
    yields for each endpoint. *)
Record GoogleEvent := mkGoogleEvent {
  g_eventType : option string;
  locationId : string;
  reviewId : string
}.

Record YouTubeEvent := mkYouTubeEvent {
  videoId : string;
  commentId : string;
  y_eventType : option string
}.

(** The Pub/Sub message of a delivery: [data] is [None] when decoding or
    parsing it throws. *)
Record Message (E : Type) := mkMessage {
  data : option E
}.
Arguments mkMessage {E} data.
Arguments data {E} m.

(** The request: [body] is [None] when [req.body] is undefined, and
    [message] is [None] when the body has no (truthy) message. *)
Record Request (E : Type) := mkRequest {
  body : option (option (Message E))
}.
Arguments mkRequest {E} body.
Arguments body {E} r.

(** The response sent: [res.status(code).json({ success, message | error })]. *)
Record Response := mkResponse {
  statusCode : nat;
  success : bool;
  detail : option string
}.

(** The controller imports [{ processWebhook }] from the job's module, which
    exports the job function itself: the name is undefined and calling it
    throws. *)
Definition processWebhook : M unit :=
  throw (TypeError "processWebhook is not a function").

Definition is_google_connection (locationId : string)
           (c : PlatformConnection.t) : bool :=
  String.eqb (PlatformConnection.platform c) "google"
  && match PlatformConnection.locationIds c with
     | Some l => existsb (String.eqb locationId) l
     | None => false
     end
  && PlatformConnection.isActive c.

Definition is_youtube_connection (c : PlatformConnection.t) : bool :=
  String.eqb (PlatformConnection.platform c) "youtube"
  && PlatformConnection.isActive c.

Section WithEnv.
Variable env : Env.

(** The two handlers. The errors the runtime throws (destructuring an
    undefined body, decoding or parsing the data) carry a text that stands
    for the runtime's own message, which depends on the input. *)
Definition handleGoogleWebhook (req : Request GoogleEvent) : M Response :=
  try_catch
    (match body req with
     | None =>
         throw (TypeError "Cannot destructure property 'message' of 'req.body'")
     | Some None => ret (mkResponse 400 false (Some "Invalid webhook payload"))
     | Some (Some msg) =>
         match data msg with
         | None => throw (mkError "Unexpected token in JSON" None)
         | Some messageData =>
             connection <-
               PlatformConnection_findOne env
                 (is_google_connection (locationId messageData)) ;;
             match connection with
             | None =>
                 console_log ("No active connection found for location "
                              ++ locationId messageData)%string ;;;
                 ret (mkResponse 200 true (Some "No connection found"))
             | Some c =>
                 (if JS.strict_eq (g_eventType messageData) "NEW_REVIEW"
                     || JS.strict_eq (g_eventType messageData) "UPDATE_REVIEW"
                  then
                    try_catch
                      (GoogleService.fetchReviews env c (locationId messageData) ;;;
                       processWebhook)
                      (fun error =>
                         console_error "Error processing Google webhook:"
                                       (message error))
                  else ret tt) ;;;
                 ret (mkResponse 200 true None)
             end
         end
     end)
    (fun error =>
       console_error "Google webhook error:" (message error) ;;;
       ret (mkResponse 200 false (Some (message error)))).

Definition handleYouTubeWebhook (req : Request YouTubeEvent) : M Response :=
  try_catch
    (match body req with
     | None =>
         throw (TypeError "Cannot destructure property 'message' of 'req.body'")
     | Some None => ret (mkResponse 400 false (Some "Invalid webhook payload"))
     | Some (Some msg) =>
         match data msg with
         | None => throw (mkError "Unexpected token in JSON" None)
         | Some messageData =>
             connection <- PlatformConnection_findOne env is_youtube_connection ;;
             match connection with
             | None =>
                 console_log "No active YouTube connection found" ;;;
                 ret (mkResponse 200 true (Some "No connection found"))
             | Some c =>
                 (if JS.strict_eq (y_eventType messageData) "NEW_COMMENT"
                     || JS.strict_eq (y_eventType messageData) "UPDATE_COMMENT"
                  then
                    try_catch
                      (YouTubeService.fetchVideoComments env c (videoId messageData) ;;;
                       processWebhook)
                      (fun error =>
                         console_error "Error processing YouTube webhook:"
                                       (message error))
                  else ret tt) ;;;
                 ret (mkResponse 200 true None)
             end
         end
     end)
    (fun error =>
       console_error "YouTube webhook error:" (message error) ;;;
       ret (mkResponse 200 false (Some (message error)))).
End WithEnv.

End WebhookController.


(* ================================================================== *)
(** ** EmailService: the plain-text version of a mail
       (services/emailService.js) *)
(* ================================================================== *)

Module EmailService.

Definition lt_sign : ascii := ascii_of_nat 60.
Definition gt_sign : ascii := ascii_of_nat 62.

(** Whether a [>] occurs in the text. *)
Fixpoint has_gt (s : string) : bool :=
  match s with
  | EmptyString => false
  | String c s' => Ascii.eqb c gt_sign || has_gt s'
  end.

(** [html.replace(/<[^>]*>/g, '')], read from left to right. Outside a
    match, a [<] that has a [>] somewhere after it opens a match, which runs
    to the first [>] (the class [[^>]] takes every other character, line
    breaks included); a [<] with no [>] after it stays, as every other
    character does. [inTag] tells whether the reading is inside a match. *)
Fixpoint strip (inTag : bool) (s : string) : string :=
  match s with
  | EmptyString => EmptyString
  | String c s' =>
      if inTag then
        if Ascii.eqb c gt_sign then strip false s' else strip true s'
      else if Ascii.eqb c lt_sign && has_gt s' then strip true s'
      else String c (strip false s')
  end.

Definition stripTags (html : string) : string := strip false html.

(** The [text] of the mail options of [sendEmail]:
    [text || html.replace(/<[^>]*>/g, '')]. *)
Definition textVersion (text : option string) (html : string) : string :=
  match text with
  | Some t => if JS.truthy_string t then t else stripTags html
  | None => stripTags html
  end.

End EmailService.

(* ================================================================== *)
(** ** The webhook job, continued (jobs/processWebhook.js) *)
(* ================================================================== *)

(** The body of a Facebook webhook delivery. The value of a change is a
    comment on the feed or a message of a conversation, by its field; the
    identifier the handler keys the document by ([comment_id] for a
    comment, [id] for a message) is taken to be there. *)
Module Facebook.
Record From := mkFrom {
  from_id : option string;
  from_name : option string
}.
Record Value := mkValue {
  item : option string;
  comment_id : string;
  id : string;
  message : option string;
  from : option From;
  post_id : option string;
  thread_id : option string
}.
Record Change := mkChange {
  field : option string;
  value : option Value
}.
Record Entry := mkEntry {
  changes : option (list Change)
}.
Record Payload := mkPayload {
  entry : option (list Entry)
}.
End Facebook.

(** The body of a WhatsApp webhook delivery. [text_body] is what
    [message.text?.body] reads and [contact_name] what
    [value.contacts?.[0]?.profile?.name] reads. *)
Module WhatsApp.
Record Message := mkMessage {
  id : string;
  text_body : option string;
  body : option string;
  from : option string
}.
Record Value := mkValue {
  messages : option (list Message);
  contact_name : option string
}.
Record Change := mkChange {
  value : option Value
}.
Record Entry := mkEntry {
  changes : option (list Change)
}.
Record Payload := mkPayload {
  entry : option (list Entry)
}.
End WhatsApp.

(** A job of the AI queue: the data and the options of [aiQueue.add]. *)
Module AiJob.
Record t := mk {
  interactionId : option ObjectId;
  attempts : nat;
  backoff : nat
}.
End AiJob.

(** The paths of the PlatformConnection document that the sync adapters of
    Google and YouTube never read: the refresh credentials and the business
    account of the Meta platforms ([platformData.businessAccountId], on a
    document whose [platformData] is there). *)
Module ConnectionRest.
Record t := mk {
  refreshToken : option string;
  tokenExpiry : option Z;
  businessAccountId : option string
}.
Definition empty : t := mk None None None.
End ConnectionRest.

(** The whole PlatformConnection document, as a service holds it. *)
Module Connection.
Record t := mk {
  document : PlatformConnection.t;
  rest : ConnectionRest.t
}.
Definition refreshToken (c : t) : option string := ConnectionRest.refreshToken (rest c).
Definition tokenExpiry (c : t) : option Z := ConnectionRest.tokenExpiry (rest c).
Definition businessAccountId (c : t) : option string :=
  ConnectionRest.businessAccountId (rest c).
End Connection.

(** Payloads of the Instagram Graph API: the media of a business account
    with their comments, and its conversations with their messages
    ([messages] is what [conversation.messages?.data] reads). *)
Module Graph.
Record Media := mkMedia {
  media_id : string;
  permalink : option string
}.
Record Comment := mkComment {
  comment_id : string;
  text : option string;
  username : option string;
  comment_from : option Instagram.From
}.
Record Sender := mkSender {
  sender_id : option string;
  sender_username : option string;
  sender_name : option string
}.
Record Message := mkMessage {
  message_id : string;
  message_from : option Sender;
  message : option string
}.
Record Conversation := mkConversation {
  conversation_id : string;
  messages : option (list Message)
}.
End Graph.

(** What the token endpoint of Google answers to a refresh grant;
    [expires_in] is a number of seconds. *)
Record TokenResponse := mkTokenResponse {
  access_token : string;
  expires_in : Z
}.

(** The external collaborators beside those of [Env].
    - [redis]: the error [aiQueue.add] throws when the queue's store is
      unreachable, [None] when it answers.
    - [tokenEndpoint refreshToken]: the POST to
      https://oauth2.googleapis.com/token with a refresh grant.
    - [media token account]: [response.data.data] of the account's media,
      [None] when the answer carries no list.
    - [mediaComments token mediaId]: [response.data.data] of the media's
      comments.
    - [conversations token account]: [response.data.data] of the account's
      conversations. *)
Record Net := mkNet {
  redis : option JsError;
  tokenEndpoint : string -> Result TokenResponse;
  media : string -> string -> Result (option (list Graph.Media));
  mediaComments : string -> string -> Result (option (list Graph.Comment));
  conversations : string -> string -> Result (option (list Graph.Conversation))
}.

(** The state of the backend beside the collections of [World]: the jobs
    waiting in the AI queue and, by the [_id] of the connection, the rest of
    each stored PlatformConnection document. *)
Record Backend := mkBackend {
  world : World;
  aiQueue : list AiJob.t;
  connectionRest : ObjectId -> ConnectionRest.t
}.

Definition with_world (w : World) (s : Backend) : Backend :=
  mkBackend w (aiQueue s) (connectionRest s).

(** An operation over the whole state. *)
Definition B (A : Type) : Type := Backend -> Result A * Backend.

Definition retB {A} (a : A) : B A := fun s => (Ok a, s).

Definition throwB {A} (e : JsError) : B A := fun s => (Throw e, s).

Definition bindB {A C} (m : B A) (k : A -> B C) : B C :=
  fun s =>
    match m s with
    | (Ok a, s') => k a s'
    | (Throw e, s') => (Throw e, s')
    end.

Definition try_catchB {A} (m : B A) (handler : JsError -> B A) : B A :=
  fun s =>
    match m s with
    | (Ok a, s') => (Ok a, s')
    | (Throw e, s') => handler e s'
    end.

(** An operation on the collections, run in the whole state. *)
Definition in_world {A} (m : M A) : B A :=
  fun s =>
    match m (world s) with
    | (r, w) => (r, with_world w s)
    end.

Declare Scope backend_scope.
Delimit Scope backend_scope with backend.
Notation "x <- m ;; k" := (bindB m (fun x => k))
  (at level 61, m at next level, right associativity) : backend_scope.
Notation "m ;;; k" := (bindB m (fun _ => k))
  (at level 61, right associativity) : backend_scope.

Module WebhookJob.
Import ProcessWebhook.

(** The update document of the feed branch of the Facebook handler. *)
Definition feed_update (organizationId : ObjectId) (comment : Facebook.Value)
           (from : Facebook.From) (d : Interaction.t) : Interaction.t :=
  Interaction.mk
    (Interaction._id d) organizationId (Interaction.platformConnection d)
    "facebook" "comment" (Facebook.comment_id comment)
    (Interaction.platformUrl d) (Facebook.message comment)
    (Interaction.contentType d) (Interaction.language d)
    (Author.mk (Facebook.from_id from) (Facebook.from_name from) None None None None)
    (Interaction.parentId d) (Interaction.threadId d)
    (Interaction.hasReplies d) (Interaction.replyCount d)
    (Some "unread") (Interaction.isRead d)
    (Interaction.sentiment d) (Interaction.sentimentScore d)
    (Interaction.sentimentConfidence d) (Interaction.intent d)
    (Interaction.topics d) (Interaction.aiSuggestion d)
    (Interaction.autoReplyEligible d) (Interaction.assignedTo d)
    (Interaction.priority d) (Interaction.urgency d) (Interaction.rating d)
    (Metadata.mk (Facebook.post_id comment)
       (Some ("https://www.facebook.com/" ++ template (Facebook.post_id comment))%string)
       None None None None None None None None None)
    (Interaction.createdAt d).

(** The update document of the conversations branch. *)
Definition conversation_update (organizationId : ObjectId) (msg : Facebook.Value)
           (from : Facebook.From) (d : Interaction.t) : Interaction.t :=
  Interaction.mk
    (Interaction._id d) organizationId (Interaction.platformConnection d)
    "facebook" "dm" (Facebook.id msg)
    (Interaction.platformUrl d) (Facebook.message msg)
    (Interaction.contentType d) (Interaction.language d)
    (Author.mk (Facebook.from_id from) (Facebook.from_name from) None None None None)
    (Interaction.parentId d) (Facebook.thread_id msg)
    (Interaction.hasReplies d) (Interaction.replyCount d)
    (Some "unread") (Interaction.isRead d)
    (Interaction.sentiment d) (Interaction.sentimentScore d)
    (Interaction.sentimentConfidence d) (Interaction.intent d)
    (Interaction.topics d) (Interaction.aiSuggestion d)
    (Interaction.autoReplyEligible d) (Interaction.assignedTo d)
    (Interaction.priority d) (Interaction.urgency d) (Interaction.rating d)
    (Interaction.metadata d) (Interaction.createdAt d).

(** The update document of the WhatsApp handler. *)
Definition whatsapp_update (organizationId : ObjectId) (value : WhatsApp.Value)
           (msg : WhatsApp.Message) (d : Interaction.t) : Interaction.t :=
  Interaction.mk
    (Interaction._id d) organizationId (Interaction.platformConnection d)
    "whatsapp" "dm" (WhatsApp.id msg)
    (Interaction.platformUrl d)
    (or_else (WhatsApp.text_body msg) (WhatsApp.body msg))
    (Interaction.contentType d) (Interaction.language d)
    (Author.mk (WhatsApp.from msg)
               (or_else (WhatsApp.contact_name value) (WhatsApp.from msg))
               None None None None)
    (Interaction.parentId d) (Interaction.threadId d)
    (Interaction.hasReplies d) (Interaction.replyCount d)
    (Some "unread") (Interaction.isRead d)
    (Interaction.sentiment d) (Interaction.sentimentScore d)
    (Interaction.sentimentConfidence d) (Interaction.intent d)
    (Interaction.topics d) (Interaction.aiSuggestion d)
    (Interaction.autoReplyEligible d) (Interaction.assignedTo d)
    (Interaction.priority d) (Interaction.urgency d) (Interaction.rating d)
    (Interaction.metadata d) (Interaction.createdAt d).

(** What the job destructures from the payload of a Google or a YouTube
    delivery: the identifier of the review or of the comment, and the type
    of the event. *)
Record Notice := mkNotice {
  itemId : string;
  eventType : option string
}.

(** The data of a job: the platform with the payload of its shape. A job
    whose platform is none of the five is an [OtherJob]. *)
Inductive JobData :=
| InstagramJob (payload : Instagram.Payload)
| FacebookJob (payload : Facebook.Payload)
| WhatsAppJob (payload : WhatsApp.Payload)
| GoogleJob (payload : Notice)
| YouTubeJob (payload : Notice)
| OtherJob (platform : option string).

Definition platform_of (data : JobData) : option string :=
  match data with
  | InstagramJob _ => Some "instagram"
  | FacebookJob _ => Some "facebook"
  | WhatsAppJob _ => Some "whatsapp"
  | GoogleJob _ => Some "google"
  | YouTubeJob _ => Some "youtube"
  | OtherJob platform => platform
  end.

Definition known_platforms : list string :=
  ["instagram"; "facebook"; "whatsapp"; "google"; "youtube"].

(** What the job returns: [{ success, interactionId, platform }]. *)
Record JobResult := mkJobResult {
  success : bool;
  interactionId : option ObjectId;
  platform : option string
}.

Section WithEnv.
Variable env : Env.
Variable net : Net.

(** The loop of the Facebook handler over the changes of the first entry:
    the first comment on the feed or message of a conversation is stored
    and ends the handler. *)
Fixpoint facebook_changes (organizationId : ObjectId)
         (changes : list Facebook.Change) : M (option Interaction.t) :=
  match changes with
  | [] => ret None
  | change :: rest =>
      let conversations_branch : M (option Interaction.t) :=
        if JS.strict_eq (Facebook.field change) "conversations" then
          match Facebook.value change with
          | None => throw (TypeError "Cannot read properties of undefined (reading 'id')")
          | Some msg =>
              match Facebook.from msg with
              | None =>
                  throw (TypeError "Cannot read properties of undefined (reading 'id')")
              | Some from =>
                  interaction <-
                    Interaction_findOneAndUpdate env
                      (by_platformId (Facebook.id msg))
                      (conversation_update organizationId msg from) ;;
                  ret (Some interaction)
              end
          end
        else facebook_changes organizationId rest in
      if JS.strict_eq (Facebook.field change) "feed" then
        match Facebook.value change with
        | None => throw (TypeError "Cannot read properties of undefined (reading 'item')")
        | Some comment =>
            if JS.strict_eq (Facebook.item comment) "comment" then
              match Facebook.from comment with
              | None =>
                  throw (TypeError "Cannot read properties of undefined (reading 'id')")
              | Some from =>
                  interaction <-
                    Interaction_findOneAndUpdate env
                      (by_platformId (Facebook.comment_id comment))
                      (feed_update organizationId comment from) ;;
                  ret (Some interaction)
              end
            else conversations_branch
        end
      else conversations_branch
  end.

Definition handleFacebookWebhook (payload : Facebook.Payload)
           (organizationId : ObjectId) : M (option Interaction.t) :=
  try_catch
    (match Facebook.entry payload with
     | None | Some [] => ret None
     | Some (entry :: _) =>
         let changes := match Facebook.changes entry with
                        | Some l => l
                        | None => []
                        end in
         facebook_changes organizationId changes
     end)
    (fun error =>
       console_error "Facebook webhook handler error:" (message error) ;;;
       throw error).

(** The loop of the WhatsApp handler: the first message of the first change
    that carries messages is stored and ends the handler. An empty array of
    messages is truthy, and its first element is undefined. *)
Fixpoint whatsapp_changes (organizationId : ObjectId)
         (changes : list WhatsApp.Change) : M (option Interaction.t) :=
  match changes with
  | [] => ret None
  | change :: rest =>
      match WhatsApp.value change with
      | None =>
          throw (TypeError "Cannot read properties of undefined (reading 'messages')")
      | Some value =>
          match WhatsApp.messages value with
          | None => whatsapp_changes organizationId rest
          | Some [] =>
              throw (TypeError "Cannot read properties of undefined (reading 'id')")
          | Some (msg :: _) =>
              interaction <-
                Interaction_findOneAndUpdate env
                  (by_platformId (WhatsApp.id msg))
                  (whatsapp_update organizationId value msg) ;;
              ret (Some interaction)
          end
      end
  end.

Definition handleWhatsAppWebhook (payload : WhatsApp.Payload)
           (organizationId : ObjectId) : M (option Interaction.t) :=
  try_catch
    (match WhatsApp.entry payload with
     | None | Some [] => ret None
     | Some (entry :: _) =>
         let changes := match WhatsApp.changes entry with
                        | Some l => l
                        | None => []
                        end in
         whatsapp_changes organizationId changes
     end)
    (fun error =>
       console_error "WhatsApp webhook handler error:" (message error) ;;;
       throw error).

(** The job's handler for YouTube: the comment was stored by the
    controller; it is looked up by its identity. *)
Definition handleYouTubeWebhook (commentId : string) (eventType : option string)
           (organizationId : ObjectId) : M (option Interaction.t) :=
  try_catch
    (if JS.strict_eq eventType "NEW_COMMENT" || JS.strict_eq eventType "UPDATE_COMMENT"
     then Interaction_findOne env (by_identity organizationId "youtube" commentId)
     else ret None)
    (fun error =>
       console_error "YouTube webhook handler error:" (message error) ;;;
       throw error).

(** The [switch] of the job over the platform. *)
Definition dispatch (data : JobData) (organizationId : ObjectId)
  : M (option Interaction.t) :=
  match data with
  | InstagramJob payload => handleInstagramWebhook env payload organizationId
  | FacebookJob payload => handleFacebookWebhook payload organizationId
  | WhatsAppJob payload => handleWhatsAppWebhook payload organizationId
  | GoogleJob payload =>
      handleGoogleWebhook env (itemId payload) (eventType payload) organizationId
  | YouTubeJob payload =>
      handleYouTubeWebhook (itemId payload) (eventType payload) organizationId
  | OtherJob platform =>
      console_log ("Unknown platform: " ++ template platform)%string ;;;
      ret None
  end.

(** [aiQueue.add(data, options)]. *)
Definition aiQueue_add (job : AiJob.t) : B unit :=
  fun s =>
    match redis net with
    | None => (Ok tt, mkBackend (world s) (aiQueue s ++ [job]) (connectionRest s))
    | Some error => (Throw error, s)
    end.

(** The job: the delivery is handed to the handler of its platform and the
    interaction the handler returns is queued for the AI. *)
Definition processWebhook (data : JobData) (organizationId : ObjectId)
  : B JobResult :=
  try_catchB
    (interaction <-
       in_world
         (console_log ("Processing webhook from " ++ template (platform_of data)
                       ++ " for organization " ++ JS.show organizationId)%string ;;;
          dispatch data organizationId)%js ;;
     match interaction with
     | Some i =>
         aiQueue_add (AiJob.mk (Interaction._id i) 3 2000) ;;;
         in_world
           (console_log ("Interaction created and queued for AI processing: "
                         ++ ProcessAI.show_id i)%string)
     | None => retB tt
     end ;;;
     retB (mkJobResult true
             (match interaction with
              | Some i => Interaction._id i
              | None => None
              end)
             (platform_of data)))%backend
    (fun error =>
       in_world (console_error "Webhook processing error:" (message error)) ;;;
       throwB error)%backend.
End WithEnv.

End WebhookJob.

(* ================================================================== *)
(** ** The verification endpoints of the webhook controller
       (controllers/webhookController.js) *)
(* ================================================================== *)

Module WebhookVerification.

(** The query of a verification request: [hub.mode], [hub.verify_token]
    and [hub.challenge]. *)
Record Query := mkQuery {
  mode : option string;
  verify_token : option string;
  challenge : option string
}.

(** What is sent back: [res.status(code).send(body)]. *)
Record Reply := mkReply {
  statusCode : nat;
  body : option string
}.

(** [a === b] on two values that may be undefined. *)
Definition same (a b : option string) : bool :=
  match a, b with
  | Some x, Some y => String.eqb x y
  | None, None => true
  | _, _ => false
  end.

(** The body of both endpoints; [configured] is the token of the
    environment ([GOOGLE_WEBHOOK_VERIFY_TOKEN] or
    [YOUTUBE_WEBHOOK_VERIFY_TOKEN]), [None] when it is not set. *)
Definition verify (configured : option string) (query : Query) : Reply :=
  if JS.strict_eq (mode query) "subscribe" && same (verify_token query) configured
  then mkReply 200 (challenge query)
  else mkReply 403 (Some "Verification failed").

Definition verifyGoogleWebhook (GOOGLE_WEBHOOK_VERIFY_TOKEN : option string)
  : Query -> Reply :=
  verify GOOGLE_WEBHOOK_VERIFY_TOKEN.

Definition verifyYouTubeWebhook (YOUTUBE_WEBHOOK_VERIFY_TOKEN : option string)
  : Query -> Reply :=
  verify YOUTUBE_WEBHOOK_VERIFY_TOKEN.

End WebhookVerification.

(* ================================================================== *)
(** ** Access tokens (models/PlatformConnection.js,
       integrations/google/googleService.js and youtubeService.js) *)
(* ================================================================== *)

Module Tokens.
Import Connection.

(** [platformConnection.isTokenExpired()]: a connection without an expiry
    is never expired; the comparison is strict. *)
Definition isTokenExpired (now : Z) (c : Connection.t) : bool :=
  match tokenExpiry c with
  | None => false
  | Some expiry => (expiry <? now)%Z
  end.

(** The assignments of [ensureValidToken] before the save. *)
Definition refreshed (now : Z) (accessToken : string) (expiresIn : Z)
           (c : Connection.t) : Connection.t :=
  let d := document c in
  Connection.mk
    (PlatformConnection.mk
       (PlatformConnection._id d) (PlatformConnection.organization d)
       (PlatformConnection.platform d) accessToken
       (PlatformConnection.channelId d) (PlatformConnection.locationIds d)
       (PlatformConnection.isActive d) (PlatformConnection.status d)
       (PlatformConnection.lastSyncAt d) (PlatformConnection.lastError d)
       (PlatformConnection.totalInteractionsSynced d)
       (PlatformConnection.lastSyncCount d)
       (PlatformConnection.failedSyncAttempts d))
    (ConnectionRest.mk (refreshToken c) (Some (now + expiresIn * 1000)%Z)
                       (businessAccountId c)).

Section WithEnv.
Variable env : Env.
Variable net : Net.

(** [PlatformConnection.findOne(query)], the whole document. *)
Definition Connection_findOne (query : PlatformConnection.t -> bool)
  : B (option Connection.t) :=
  (found <- in_world (PlatformConnection_findOne env query) ;;
   fun s =>
     (Ok (match found with
          | Some d => Some (Connection.mk d (connectionRest s (PlatformConnection._id d)))
          | None => None
          end), s))%backend.

(** [connection.save()], the whole document. *)
Definition Connection_save (c : Connection.t) : B unit :=
  (in_world (PlatformConnection_save env (document c)) ;;;
   fun s =>
     (Ok tt,
      mkBackend (world s) (aiQueue s)
        (fun id => if Nat.eqb id (PlatformConnection._id (document c))
                   then rest c else connectionRest s id)))%backend.

(** [googleService.refreshAccessToken(refreshToken)]. *)
Definition refreshAccessToken (refreshToken : string) : Result (string * Z) :=
  match tokenEndpoint net refreshToken with
  | Ok response => Ok (access_token response, expires_in response)
  | Throw error =>
      Throw (mkError ("Failed to refresh token: " ++ message error)%string None)
  end.

(** [ensureValidToken(platformConnection)] of GoogleService: the token and
    the connection as the call leaves it. *)
Definition ensureValidToken (c : Connection.t) : B (string * Connection.t) :=
  if negb (isTokenExpired (now env) c) then
    retB (PlatformConnection.accessToken (document c), c)
  else
    match refreshToken c with
    | None => throwB (mkError "Refresh token not available" None)
    | Some token =>
        if negb (JS.truthy_string token) then
          throwB (mkError "Refresh token not available" None)
        else
          match refreshAccessToken token with
          | Throw error => throwB error
          | Ok (accessToken, expiresIn) =>
              let c' := refreshed (now env) accessToken expiresIn c in
              (Connection_save c' ;;;
               retB (accessToken, c'))%backend
          end
    end.

(** [ensureValidToken] of YouTubeService, which refreshes through
    GoogleService. *)
Definition ensureValidToken_youtube (c : Connection.t) : B (string * Connection.t) :=
  if negb (isTokenExpired (now env) c) then
    retB (PlatformConnection.accessToken (document c), c)
  else
    match refreshToken c with
    | None => throwB (mkError "Refresh token not available" None)
    | Some token =>
        if negb (JS.truthy_string token) then
          throwB (mkError "Refresh token not available" None)
        else
          match refreshAccessToken token with
          | Throw error => throwB error
          | Ok (accessToken, expiresIn) =>
              let c' := refreshed (now env) accessToken expiresIn c in
              (Connection_save c' ;;;
               retB (accessToken, c'))%backend
          end
    end.
End WithEnv.

End Tokens.

(* ================================================================== *)
(** ** The platform controller: manual sync and disconnection
       (controllers/platformController.js) *)
(* ================================================================== *)

Module PlatformController.

(** The request: [req.params.id] and [req.user.organization._id]. The
    identifier is taken to be a well-formed ObjectId; a malformed one makes
    the lookup throw, and the error goes to [next]. *)
Record Request := mkRequest {
  id : ObjectId;
  organization : ObjectId
}.

(** [res.status(code).json({ success, message | error, data })]. *)
Record Response := mkResponse {
  statusCode : nat;
  success : bool;
  detail : string;
  interactionsAdded : option nat
}.

(** How a handler ends: it sends a response or hands an error to [next]. *)
Inductive Outcome :=
| Sent (response : Response)
| Next (error : JsError).

Definition not_found : Response :=
  mkResponse 404 false "Platform connection not found" None.

(** The query [{ _id, organization, isActive: true }] of [syncPlatform]. *)
Definition is_active_connection (req : Request) (c : PlatformConnection.t) : bool :=
  Nat.eqb (PlatformConnection._id c) (id req)
  && Nat.eqb (PlatformConnection.organization c) (organization req)
  && PlatformConnection.isActive c.

(** The query [{ _id, organization }] of [disconnectPlatform]. *)
Definition is_connection (req : Request) (c : PlatformConnection.t) : bool :=
  Nat.eqb (PlatformConnection._id c) (id req)
  && Nat.eqb (PlatformConnection.organization c) (organization req).

(** The assignments of [disconnectPlatform] before the save. *)
Definition disconnected (d : PlatformConnection.t) : PlatformConnection.t :=
  PlatformConnection.mk
    (PlatformConnection._id d) (PlatformConnection.organization d)
    (PlatformConnection.platform d) (PlatformConnection.accessToken d)
    (PlatformConnection.channelId d) (PlatformConnection.locationIds d)
    false "disconnected"
    (PlatformConnection.lastSyncAt d) (PlatformConnection.lastError d)
    (PlatformConnection.totalInteractionsSynced d)
    (PlatformConnection.lastSyncCount d)
    (PlatformConnection.failedSyncAttempts d).

Section WithEnv.
Variable env : Env.
Variable net : Net.

Definition syncPlatform (req : Request) : B Outcome :=
  try_catchB
    (connection <- Tokens.Connection_findOne env (is_active_connection req) ;;
     match connection with
     | None => retB (Sent not_found)
     | Some c =>
         if String.eqb (PlatformConnection.platform (Connection.document c)) "youtube"
         then
           valid <- Tokens.ensureValidToken_youtube env net c ;;
           result <- in_world
                       (YouTubeService.fetchAllChannelComments env
                          (Connection.document (snd valid))) ;;
           retB (Sent (mkResponse 200 true "Sync completed"
                                  (Some (sync_count result))))
         else if String.eqb (PlatformConnection.platform (Connection.document c))
                            "google"
         then
           valid <- Tokens.ensureValidToken env net c ;;
           result <- in_world
                       (GoogleService.fetchAllReviews env
                          (Connection.document (snd valid))) ;;
           retB (Sent (mkResponse 200 true "Sync completed"
                                  (Some (sync_count result))))
         else
           retB (Sent (mkResponse 400 false "Platform sync not implemented" None))
     end)%backend
    (fun error => retB (Next error)).

Definition disconnectPlatform (req : Request) : B Outcome :=
  try_catchB
    (connection <- Tokens.Connection_findOne env (is_connection req) ;;
     match connection with
     | None => retB (Sent not_found)
     | Some c =>
         Tokens.Connection_save env
           (Connection.mk (disconnected (Connection.document c)) (Connection.rest c)) ;;;
         retB (Sent (mkResponse 200 true "Platform disconnected successfully" None))
     end)%backend
    (fun error => retB (Next error)).
End WithEnv.

End PlatformController.

(* ================================================================== *)
(** ** InstagramService (integrations/meta/instagramService.js) *)
(* ================================================================== *)

Module InstagramService.
Import ProcessWebhook.

(** The interaction built from a comment of a media: the paths the object
    literal sets, on a document. *)
Definition comment_paths (c : Connection.t) (media : Graph.Media)
           (comment : Graph.Comment) (d : Interaction.t) : Interaction.t :=
  let from_id := match Graph.comment_from comment with
                 | Some f => Instagram.from_id f | None => None end in
  let from_username := match Graph.comment_from comment with
                       | Some f => Instagram.from_username f | None => None end in
  Interaction.mk
    (Interaction._id d)
    (PlatformConnection.organization (Connection.document c))
    (Some (PlatformConnection._id (Connection.document c)))
    "instagram" "comment" (Graph.comment_id comment)
    (Some (template (Graph.permalink media)))
    (Graph.text comment)
    (Interaction.contentType d) (Interaction.language d)
    (Author.mk from_id (or_else from_username (Graph.username comment))
               (Graph.username comment) None None None)
    (Interaction.parentId d) (Interaction.threadId d)
    (Interaction.hasReplies d) (Interaction.replyCount d)
    (Some "unread") (Interaction.isRead d)
    (Interaction.sentiment d) (Interaction.sentimentScore d)
    (Interaction.sentimentConfidence d) (Interaction.intent d)
    (Interaction.topics d) (Interaction.aiSuggestion d)
    (Interaction.autoReplyEligible d) (Interaction.assignedTo d)
    (Interaction.priority d) (Interaction.urgency d) (Interaction.rating d)
    (Metadata.mk (Some (Graph.media_id media)) (Graph.permalink media)
       None None None None None None None None None)
    (Interaction.createdAt d).

(** The interaction built from a message of a conversation. *)
Definition message_paths (c : Connection.t) (conversation : Graph.Conversation)
           (msg : Graph.Message) (from : Graph.Sender) (d : Interaction.t)
  : Interaction.t :=
  Interaction.mk
    (Interaction._id d)
    (PlatformConnection.organization (Connection.document c))
    (Some (PlatformConnection._id (Connection.document c)))
    "instagram" "dm" (Graph.message_id msg)
    (Interaction.platformUrl d)
    (Graph.message msg)
    (Interaction.contentType d) (Interaction.language d)
    (Author.mk (Graph.sender_id from)
               (or_else (Graph.sender_name from) (Graph.sender_username from))
               (or_else (Graph.sender_username from) (Some "Unknown"))
               None None None)
    (Interaction.parentId d) (Some (Graph.conversation_id conversation))
    (Interaction.hasReplies d) (Interaction.replyCount d)
    (Some "unread") (Interaction.isRead d)
    (Interaction.sentiment d) (Interaction.sentimentScore d)
    (Interaction.sentimentConfidence d) (Interaction.intent d)
    (Interaction.topics d) (Interaction.aiSuggestion d)
    (Interaction.autoReplyEligible d) (Interaction.assignedTo d)
    (Interaction.priority d) (Interaction.urgency d) (Interaction.rating d)
    (Interaction.metadata d) (Interaction.createdAt d).

(** An object literal: its paths on an empty document. *)
Definition literal (paths : Interaction.t -> Interaction.t) : Interaction.t :=
  paths (Interaction.blank 0 "" "" "").

(** [a !== b] on two values that may be undefined. *)
Definition differ (a b : option string) : bool :=
  negb (WebhookVerification.same a b).

Section WithEnv.
Variable env : Env.
Variable net : Net.

(** The loop over the comments of a media, inside the [try] of the media:
    each comment is pushed, then stored. The loop gives what it pushed and
    the error that ended it, if one did: a push made before the error
    stays. *)
Fixpoint store_comments (c : Connection.t) (media : Graph.Media)
         (comments : list Graph.Comment)
  : M (list Interaction.t * option JsError) :=
  match comments with
  | [] => ret ([], None)
  | comment :: rest =>
      let interaction := literal (comment_paths c media comment) in
      try_catch
        (Interaction_findOneAndUpdate env
           (by_platformId (Graph.comment_id comment))
           (comment_paths c media comment) ;;;
         pushed <- store_comments c media rest ;;
         ret (interaction :: fst pushed, snd pushed))
        (fun error => ret ([interaction], Some error))
  end.

(** One round of the loop over the media: what the round pushed; its error
    is logged and the loop goes on. *)
Definition process_media (c : Connection.t) (media : Graph.Media)
  : M (list Interaction.t) :=
  let failed (error : JsError) : M unit :=
    console_error ("Error fetching comments for media "
                   ++ Graph.media_id media ++ ":")%string (message error) in
  match mediaComments net (PlatformConnection.accessToken (Connection.document c))
                      (Graph.media_id media) with
  | Throw error => failed error ;;; ret []
  | Ok data =>
      pushed <- store_comments c media
                  (match data with Some l => l | None => [] end) ;;
      match snd pushed with
      | Some error => failed error
      | None => ret tt
      end ;;;
      ret (fst pushed)
  end.

Definition fetchComments (c : Connection.t) : M (list Interaction.t) :=
  try_catch
    (mediaResponse <-
       lift (media net (PlatformConnection.accessToken (Connection.document c))
                   (template (Connection.businessAccountId c))) ;;
     match mediaResponse with
     | None => throw (TypeError "mediaResponse.data.data is not iterable")
     | Some l => for_each l (process_media c)
     end)
    (fun error =>
       console_error "Instagram fetch comments error:" (message error) ;;;
       throw error).

(** One round of the loop over the messages of a conversation: a message
    the account did not send itself is pushed and stored. *)
Definition process_message (c : Connection.t) (conversation : Graph.Conversation)
           (msg : Graph.Message) : M (list Interaction.t) :=
  match Graph.message_from msg with
  | None => throw (TypeError "Cannot read properties of undefined (reading 'id')")
  | Some from =>
      if differ (Graph.sender_id from) (Connection.businessAccountId c) then
        Interaction_findOneAndUpdate env
          (by_platformId (Graph.message_id msg))
          (message_paths c conversation msg from) ;;;
        ret [literal (message_paths c conversation msg from)]
      else ret []
  end.

Definition process_conversation (c : Connection.t)
           (conversation : Graph.Conversation) : M (list Interaction.t) :=
  for_each (match Graph.messages conversation with Some l => l | None => [] end)
           (process_message c conversation).

Definition fetchMessages (c : Connection.t) : M (list Interaction.t) :=
  try_catch
    (response <-
       lift (conversations net (PlatformConnection.accessToken (Connection.document c))
                           (template (Connection.businessAccountId c))) ;;
     for_each (match response with Some l => l | None => [] end)
              (process_conversation c))
    (fun error =>
       console_error "Instagram fetch messages error:" (message error) ;;;
       throw error).
End WithEnv.

End InstagramService.

(* ================================================================== *)
(** ** Sample data for the scenarios of the specification *)
(* ================================================================== *)

Module Scenario.

Definition network_error : JsError :=
  mkError "timeout of 30000ms exceeded" (Some "ECONNABORTED").

(** A clock reading, in milliseconds. *)
Definition noon : Z := 1700000000000.

(** A run in which the AI provider and the platform APIs are unreachable
    and the database answers. *)
Definition offline : Env :=
  mkEnv noon
        (fun _ => Throw network_error)
        (fun _ _ => Throw network_error)
        (fun _ _ => Throw network_error)
        (fun _ _ => Throw network_error)
        (fun _ _ => Throw network_error)
        true.

(** A run in which the provider answers the first three stages and fails
    the request for a draft. *)
Definition draft_down : Env :=
  mkEnv noon
        (fun r => match r with
                  | SentimentRequest _ => Ok "Positive"
                  | IntentRequest _ => Ok " Praise "
                  | TopicsRequest _ => Ok "delivery, price"
                  | ResponseRequest _ _ _ _ => Throw network_error
                  end)
        (fun _ _ => Throw network_error)
        (fun _ _ => Throw network_error)
        (fun _ _ => Throw network_error)
        (fun _ _ => Throw network_error)
        true.

(** The error of [getChannelVideos] when the platform is unreachable. *)
Definition videos_error : JsError :=
  mkError "Failed to get channel videos: timeout of 30000ms exceeded" None.

(** Organization 1 and its staff. *)
Definition staff (id : ObjectId) (mail role : string) : User.t :=
  User.mk id 1 mail "Sam" role true.

Definition agentA : User.t := staff 10 "a@example.org" "agent".
Definition agentB : User.t := staff 11 "b@example.org" "agent".
Definition agentC : User.t := staff 12 "c@example.org" "agent".
Definition manager : User.t := staff 13 "m@example.org" "manager".

(** An Instagram comment as the webhook handler stores it, created an hour
    before noon. *)
Definition webhook_comment (commentId postId : string) : Instagram.Value :=
  Instagram.mkValue commentId (Some "where is my order")
                    (Some (Instagram.mkFrom (Some "u1") (Some "ann")))
                    (Some postId) None None.

Definition comment (id : ObjectId) (commentId postId : string) : Interaction.t :=
  Interaction.stamp id (noon - 3600000)
    (ProcessWebhook.comment_update 1 (webhook_comment commentId postId)
                                   (Interaction.blank 0 "" "" "")).

Definition negative (d : Interaction.t) : Interaction.t :=
  Interaction.set_sentiment "negative" d.

Definition open_for (agent : User.t) (d : Interaction.t) : Interaction.t :=
  Interaction.set_assignment (User._id agent) "assigned" d.

Definition world (docs : list Interaction.t) (people : list User.t) : World :=
  mkWorld docs 1000 people [] [] [] [] [].

(** Agents A, B and C with 2, 0 and 1 open interactions, and a new
    interaction nobody holds. *)
Definition newcomer : Interaction.t := comment 104 "c104" "p9".

Definition busy_office : World :=
  world [open_for agentA (comment 101 "c101" "p1");
         open_for agentA (comment 102 "c102" "p1");
         open_for agentC (comment 103 "c103" "p2");
         newcomer]
        [agentA; agentB; agentC; manager].

(** A run, a minute before noon, in which the provider answers every
    stage, and the office of the new interaction alone. *)
Definition answering : Env :=
  mkEnv (noon - 60000)
        (fun r => match r with
                  | SentimentRequest _ => Ok "Positive"
                  | IntentRequest _ => Ok " Praise "
                  | TopicsRequest _ => Ok "delivery, price"
                  | ResponseRequest _ _ _ _ => Ok " Thank you for your message! "
                  end)
        (fun _ _ => Throw network_error)
        (fun _ _ => Throw network_error)
        (fun _ _ => Throw network_error)
        (fun _ _ => Throw network_error)
        true.

Definition lone_office : World := world [newcomer] [].

(** Three negative comments on post p1 inside the last day, the third being
    the one under processing: once in an organization with a manager, once in
    one without. *)
Definition third : Interaction.t := negative (comment 203 "c203" "p1").

Definition heated_post (people : list User.t) : World :=
  world [negative (comment 201 "c201" "p1");
         negative (comment 202 "c202" "p1");
         third]
        people.

(** The same post when the third comment has just come in by webhook, and
    a run in which the provider finds it negative. *)
Definition fresh_third (people : list User.t) : World :=
  world [negative (comment 201 "c201" "p1");
         negative (comment 202 "c202" "p1");
         comment 203 "c203" "p1"]
        people.

Definition angry : Env :=
  mkEnv noon
        (fun r => match r with
                  | SentimentRequest _ => Ok "negative"
                  | _ => Throw network_error
                  end)
        (fun _ _ => Throw network_error)
        (fun _ _ => Throw network_error)
        (fun _ _ => Throw network_error)
        (fun _ _ => Throw network_error)
        true.

(** Only two negative comments on the post. *)
Definition second : Interaction.t := negative (comment 202 "c202" "p1").

Definition warm_post : World :=
  world [negative (comment 201 "c201" "p1"); second] [agentA; manager].

(** A run in which the database does not answer either. *)
Definition storage_down : Env :=
  mkEnv noon
        (fun _ => Throw network_error)
        (fun _ _ => Throw network_error)
        (fun _ _ => Throw network_error)
        (fun _ _ => Throw network_error)
        (fun _ _ => Throw network_error)
        false.

(** The Google connection of organization 1, with one location. *)
Definition google_connection : PlatformConnection.t :=
  PlatformConnection.mk 50 1 "google" "token-g" None (Some ["L1"]) true
                        "connected" None None 7 3 2.

(** The YouTube connection of organization 1. *)
Definition youtube_connection : PlatformConnection.t :=
  PlatformConnection.mk 51 1 "youtube" "token-y" (Some "UC1") None true
                        "connected" None None 7 3 2.

(** A Google connection of organization 1 on which no location was picked. *)
Definition bare_connection : PlatformConnection.t :=
  PlatformConnection.mk 52 1 "google" "token-b" None (Some []) true
                        "connected" None None 0 0 0.

Definition connected (w : World) : World :=
  with_connections [google_connection; youtube_connection] [] w.

Definition connected_office : World := connected (world [] [agentA; manager]).

(** The delivery that announces a new review R1 at location L1. *)
Definition review_delivery : WebhookController.Request WebhookController.GoogleEvent :=
  WebhookController.mkRequest
    (Some (Some (WebhookController.mkMessage
                   (Some (WebhookController.mkGoogleEvent (Some "NEW_REVIEW")
                                                          "L1" "R1"))))).

(** The Google review R1, with five stars. *)
Definition five_stars : Google.Review :=
  Google.mkReview "R1" (Some (Google.mkReviewer (Some "Ann") None))
                  (Some "Lovely place") (Some 5%Z) None.

(** A run in which the reviews API answers with review R1 for location L1. *)
Definition reviews_up : Env :=
  mkEnv noon
        (fun _ => Throw network_error)
        (fun _ _ => Throw network_error)
        (fun _ _ => Throw network_error)
        (fun _ _ => Throw network_error)
        (fun _ locationId =>
           if String.eqb locationId "L1" then Ok [five_stars]
           else Throw network_error)
        true.

(** The Instagram delivery of comment c1 on post p1. *)
Definition comment_change (commentId : string) : Instagram.Change :=
  Instagram.mkChange (Some "comments") (Some (webhook_comment commentId "p1")).

Definition instagram_delivery (changes : list Instagram.Change) : Instagram.Payload :=
  Instagram.mkPayload (Some [Instagram.mkEntry (Some changes)]).

(** A change that announces a comment and carries no value. *)
Definition broken_change : Instagram.Change :=
  Instagram.mkChange (Some "comments") None.

(** A YouTube comment of organization 1 whose identifier is R1. *)
Definition youtube_comment_R1 : Interaction.t :=
  Interaction.stamp 300 (noon - 3600000)
    (Interaction.set_sentiment "neutral"
       (Interaction.blank 1 "youtube" "comment" "R1")).

(** Three comment threads of video v1: two plain ones around one that lacks
    its snippet. *)
Definition thread (id text : string) : YouTube.Thread :=
  YouTube.mkThread id
    (Some (YouTube.mkThreadSnippet
             (Some (YouTube.mkComment
                      (Some (YouTube.mkSnippet (Some text) (Some "UCx") (Some "Zoe")
                                               None None (Some 2%Z) (Some true)
                                               (Some true)))))
             (Some 0%Z)))
    None.

Definition thread1 : YouTube.Thread := thread "t1" "Great video".
Definition thread2 : YouTube.Thread := thread "t2" "Sound is bad".
Definition broken_thread : YouTube.Thread := YouTube.mkThread "tb" None None.

(** A run in which the comment threads API answers for video v1. *)
Definition youtube_up : Env :=
  mkEnv noon
        (fun _ => Throw network_error)
        (fun _ videoId =>
           if String.eqb videoId "v1" then Ok [thread1; broken_thread; thread2]
           else Throw network_error)
        (fun _ _ => Ok (Some "UU1"))
        (fun _ _ => Ok [YouTube.mkVideo "v1"; YouTube.mkVideo "v2"])
        (fun _ _ => Throw network_error)
        true.

(** A delivery whose body carries no message. *)
Definition empty_delivery : WebhookController.Request WebhookController.GoogleEvent :=
  WebhookController.mkRequest (Some None).

End Scenario.

(* ================================================================== *)
(** ** Sample data for the further properties *)
(* ================================================================== *)

Module Sample.

(** A run in which the provider answers every stage. *)
Definition provider_up : Env :=
  mkEnv Scenario.noon
        (fun r => match r with
                  | SentimentRequest _ => Ok "Positive"
                  | IntentRequest _ => Ok "praise"
                  | TopicsRequest _ => Ok " delivery , price,, "
                  | ResponseRequest _ _ _ _ => Ok "Thank you for the kind words!"
                  end)
        (fun _ _ => Throw Scenario.network_error)
        (fun _ _ => Throw Scenario.network_error)
        (fun _ _ => Throw Scenario.network_error)
        (fun _ _ => Throw Scenario.network_error)
        true.

(** A run in which the provider fails the sentiment stage only. *)
Definition sentiment_down : Env :=
  mkEnv Scenario.noon
        (fun r => match r with
                  | SentimentRequest _ => Throw Scenario.network_error
                  | IntentRequest _ => Ok "praise"
                  | TopicsRequest _ => Ok "delivery"
                  | ResponseRequest _ _ _ _ => Ok "Thank you!"
                  end)
        (fun _ _ => Throw Scenario.network_error)
        (fun _ _ => Throw Scenario.network_error)
        (fun _ _ => Throw Scenario.network_error)
        (fun _ _ => Throw Scenario.network_error)
        true.

(** Knowledge entries of organization 1 and one of organization 2. *)
Definition entry (org : ObjectId) (title : string) (weight : Z) : KnowledgeBase.t :=
  KnowledgeBase.mk org title "text" true true weight.

Definition library : World :=
  mkWorld [] 1000 []
          [entry 1 "a" 3; entry 2 "b" 9; entry 1 "c" 5;
           KnowledgeBase.mk 1 "d" "text" false true 8; entry 1 "e" 5]
          [] [] [] [].

(** Thread t1 once more, now with a reply under it, and the store after
    its top-level comment was ingested. *)
Definition reply (id text : string) : YouTube.Reply :=
  YouTube.mkReply id
    (Some (YouTube.mkSnippet (Some text) (Some "UCy") (Some "Max")
                             None None None None None)).

Definition answered_thread : YouTube.Thread :=
  YouTube.mkThread "t1" (YouTube.thread_snippet Scenario.thread1)
                   (Some [reply "t1.r1" "Agreed"]).

Definition stored_t1 : Interaction.t :=
  Interaction.stamp 400 (Scenario.noon - 3600000)
    (Interaction.set_sentiment "positive"
       (Interaction.blank 1 "youtube" "comment" "t1")).

(** A run in which the comment threads API answers with that thread for
    video v1. *)
Definition replies_up : Env :=
  mkEnv Scenario.noon
        (fun _ => Throw Scenario.network_error)
        (fun _ videoId =>
           if String.eqb videoId "v1" then Ok [answered_thread]
           else Throw Scenario.network_error)
        (fun _ _ => Ok (Some "UU1"))
        (fun _ _ => Ok [YouTube.mkVideo "v1"; YouTube.mkVideo "v2"])
        (fun _ locationId =>
           if String.eqb locationId "L1" then Ok [Scenario.five_stars]
           else Throw Scenario.network_error)
        true.

(** The network beside the platforms of [Env]: the queue's store answers,
    the token endpoint grants token-2 for an hour, the Graph API lists two
    media, the second of which cannot be read. *)
Definition media1 : Graph.Media := Graph.mkMedia "m1" (Some "https://instagr.am/p/m1").
Definition media2 : Graph.Media := Graph.mkMedia "m2" None.

Definition graph_comment (id text : string) : Graph.Comment :=
  Graph.mkComment id (Some text) (Some "ann")
                  (Some (Instagram.mkFrom (Some "u1") (Some "ann"))).

Definition own_message : Graph.Message :=
  Graph.mkMessage "dm1" (Some (Graph.mkSender (Some "acct") (Some "shop") None))
                  (Some "How can we help?").

Definition guest_message : Graph.Message :=
  Graph.mkMessage "dm2" (Some (Graph.mkSender (Some "u7") None (Some "Ann")))
                  (Some "Is it in stock?").

Definition net_up : Net :=
  mkNet None
        (fun _ => Ok (mkTokenResponse "token-2" 3600))
        (fun _ _ => Ok (Some [media1; media2]))
        (fun _ mediaId =>
           if String.eqb mediaId "m1"
           then Ok (Some [graph_comment "ic1" "Nice"; graph_comment "ic2" "Love it"])
           else Throw Scenario.network_error)
        (fun _ _ => Ok (Some [Graph.mkConversation "t9"
                                (Some [own_message; guest_message])])).

(** The same network when neither the queue's store nor the token endpoint
    answers. *)
Definition net_down : Net :=
  mkNet (Some Scenario.network_error)
        (fun _ => Throw Scenario.network_error)
        (fun _ _ => Throw Scenario.network_error)
        (fun _ _ => Throw Scenario.network_error)
        (fun _ _ => Throw Scenario.network_error).

(** A state of the backend over a world: no job waiting, no connection
    holding refresh credentials. *)
Definition backend (w : World) : Backend :=
  mkBackend w [] (fun _ => ConnectionRest.empty).

(** Deliveries of Facebook and WhatsApp. *)
Definition facebook_comment : Facebook.Value :=
  Facebook.mkValue (Some "comment") "fc1" "" (Some "Too slow")
                   (Some (Facebook.mkFrom (Some "f1") (Some "Bob")))
                   (Some "post1") None.

Definition facebook_like : Facebook.Change :=
  Facebook.mkChange (Some "feed")
    (Some (Facebook.mkValue (Some "like") "" "" None None (Some "post1") None)).

Definition facebook_delivery (changes : list Facebook.Change) : Facebook.Payload :=
  Facebook.mkPayload (Some [Facebook.mkEntry (Some changes)]).

Definition whatsapp_message : WhatsApp.Message :=
  WhatsApp.mkMessage "wamid1" (Some "Hello") None (Some "4915100000").

Definition whatsapp_status : WhatsApp.Change :=
  WhatsApp.mkChange (Some (WhatsApp.mkValue None None)).

Definition whatsapp_delivery (changes : list WhatsApp.Change) : WhatsApp.Payload :=
  WhatsApp.mkPayload (Some [WhatsApp.mkEntry (Some changes)]).

(** The office when its connections hold a refresh token and a token that
    expired a second ago. *)
Definition stale : ConnectionRest.t :=
  ConnectionRest.mk (Some "refresh-1") (Some (Scenario.noon - 1000)%Z) None.

Definition stale_office : Backend :=
  mkBackend Scenario.connected_office [] (fun _ => stale).

(** The run of [Scenario.reviews_up] again, half an hour later. *)
Definition half_an_hour_later : Env :=
  mkEnv (Scenario.noon + 1800000)
        (chat Scenario.reviews_up) (commentThreads Scenario.reviews_up)
        (channelUploads Scenario.reviews_up) (playlistItems Scenario.reviews_up)
        (reviews Scenario.reviews_up) true.

(** The Instagram connection of organization 1, for the account acct. *)
Definition instagram_connection : Connection.t :=
  Connection.mk
    (PlatformConnection.mk 53 1 "instagram" "token-i" None None true
                           "connected" None None 0 0 0)
    (ConnectionRest.mk None None (Some "acct")).

End Sample.

(* ================================================================== *)
(** ** Vocabulary of the properties *)
(* ================================================================== *)

(** The four reasons for which an interaction is not answered
    automatically. *)
Definition ineligible (i : Interaction.t) : Prop :=
  Interaction.sentiment i = Some "negative"
  \/ JS.lt (Interaction.sentimentConfidence i) 0.7%float = true
  \/ Interaction.intent i = Some "complaint"
  \/ Interaction.urgency i = Some "high"
  \/ Interaction.urgency i = Some "urgent".

(** An interaction as the sentiment and intent stages leave it. *)
Definition enriched_sample (s : string) (conf : float) (intent_ : string)
  : Interaction.t :=
  Interaction.set_intent intent_
    (Interaction.set_sentimentResult s 0.8%float conf
       (Interaction.blank 1 "instagram" "comment" "c1")).

(** [a] is the first element of [l] whose key is least: every element
    before it has a greater key, none after it has a smaller one. *)
Definition first_least {A} (key : A -> nat) (l : list A) (a : A) : Prop :=
  exists pre post,
    l = pre ++ a :: post
    /\ (forall b, In b pre -> key a < key b)
    /\ (forall b, In b post -> key a <= key b).

(** The load of an agent: the interactions assigned to the agent whose status
    is assigned or unread. *)
Definition load (w : World) (agent : User.t) : nat :=
  List.length (filter (ProcessAI.is_open_for agent) (interactions w)).

(** The world after an assignment: the stored document replaced, the
    notification in the outbox, the line on the console. *)
Definition after_assignment (w : World) (i' : Interaction.t) (agent : User.t) : World :=
  with_console
    (console w ++ [Log ("Assigned interaction " ++ ProcessAI.show_id i'
                        ++ " to agent " ++ User.email agent)%string])
    (with_outbox
       (outbox w ++ [mkEmail (User.email agent) (ProcessAI.subject_assignment i')])
       (with_interactions
          (update_first (same_id i') (fun _ => i') (interactions w)) (nextId w) w)).

(** The count [checkNegativeSpike] reads from the database: the stored
    interactions of the organization on the post whose sentiment is negative
    and which were created in the last 24 hours. *)
Definition negativeCount (env : Env) (w : World) (org : ObjectId) (postId : string) : nat :=
  List.length (filter (ProcessAI.is_recent_negative env org postId) (interactions w)).

(** The post an interaction hangs on, when it has one ([metadata.postId]
    present and not empty). *)
Definition post_of (i : Interaction.t) : option string :=
  match Metadata.postId (Interaction.metadata i) with
  | Some p => if JS.truthy_string p then Some p else None
  | None => None
  end.

Definition spike_log (n : nat) : LogEntry :=
  Log ("Negative comment count for post: " ++ JS.show n)%string.

(** The notifications a spike sends: one, to the first active manager or
    admin of the organization, when there is one. *)
Definition spike_mail (w : World) (org : ObjectId) (n : nat) : list Email :=
  match find (ProcessAI.is_manager org) (users w) with
  | Some m => [mkEmail (User.email m) (ProcessAI.subject_spike n)]
  | None => []
  end.

(** The four AI stages of the enrichment job, and the stage a request to the
    provider belongs to. *)
Inductive Stage := SentimentStage | IntentStage | TopicsStage | DraftStage.

Definition stage_of (r : ChatRequest) : Stage :=
  match r with
  | SentimentRequest _ => SentimentStage
  | IntentRequest _ => IntentStage
  | TopicsRequest _ => TopicsStage
  | ResponseRequest _ _ _ _ => DraftStage
  end.

(** The provider fails the stage: every call made for it throws. *)
Definition fails (env : Env) (s : Stage) : Prop :=
  forall r, stage_of r = s -> exists e, chat env r = Throw e.

(** What each stage leaves of the provider's answer to its own request:
    the reading of the answer when the provider answers, the default of the
    stage when the call fails. *)
Definition sentiment_read (answer : Result string) : AIService.SentimentResult :=
  match answer with
  | Ok text =>
      let result := JS.trim (JS.toLowerCase text) in
      if JS.includes result "positive"
      then AIService.mkSentiment "positive" 0.8%float 0.85%float
      else if JS.includes result "negative"
      then AIService.mkSentiment "negative" (-0.8)%float 0.85%float
      else AIService.mkSentiment "neutral" 0%float 0.85%float
  | Throw _ => AIService.mkSentiment "neutral" 0%float 0.5%float
  end.

Definition intent_read (answer : Result string) : string :=
  match answer with
  | Ok text =>
      let intent := JS.trim (JS.toLowerCase text) in
      if AIService.array_includes AIService.validIntents intent then intent else "other"
  | Throw _ => "other"
  end.

Definition topics_read (answer : Result string) : list string :=
  match answer with
  | Ok text => filter JS.truthy_string (map JS.trim (JS.split JS.comma (JS.trim text)))
  | Throw _ => []
  end.

(** The draft stage writes a suggestion only when the provider answers. *)
Definition draft_read (env : Env) (answer : Result string) : option Suggestion.t :=
  match answer with
  | Ok text => Some (Suggestion.mk (JS.trim text) 0.8%float (now env))
  | Throw _ => None
  end.

(** The request of the draft stage for an interaction, once its sentiment
    is read, over the knowledge base handed to the stage. *)
Definition draft_request (env : Env) (i : Interaction.t)
           (kb : list KnowledgeBase.t) : ChatRequest :=
  ResponseRequest (AIService.kbContext kb) (Interaction.content i)
                  (Interaction.platform i)
                  (AIService.sentiment
                     (sentiment_read (chat env (SentimentRequest (Interaction.content i))))).

(** The claim as the specification words it: after a failed draft stage
    the interaction holds no draft suggestion. *)
Definition failed_draft_leaves_none : Prop :=
  forall (env : Env) (id : ObjectId) (w w' : World) (r : ProcessAI.JobResult)
         (i' : Interaction.t),
    storageUp env = true ->
    fails env DraftStage ->
    ProcessAI.processAI env id w = (Ok r, w') ->
    find (has_id id) (interactions w') = Some i' ->
    Interaction.aiSuggestion i' = None.

(** The enrichment fields and the identity of two documents agree. *)
Definition same_enrichment (a b : Interaction.t) : Prop :=
  Interaction._id a = Interaction._id b
  /\ Interaction.sentiment a = Interaction.sentiment b
  /\ Interaction.sentimentScore a = Interaction.sentimentScore b
  /\ Interaction.sentimentConfidence a = Interaction.sentimentConfidence b
  /\ Interaction.intent a = Interaction.intent b
  /\ Interaction.topics a = Interaction.topics b
  /\ Interaction.aiSuggestion a = Interaction.aiSuggestion b
  /\ Interaction.autoReplyEligible a = Interaction.autoReplyEligible b.

(** The console lines by which the routing step shows. *)
Definition routing_line (l : LogEntry) : Prop :=
  l = Log "Assigning to agent..." \/ l = Log "Interaction is eligible for auto-reply".

(** The second world is the first one with lines added to its console. *)
Definition logs_only (w w' : World) : Prop :=
  exists lines, w' = with_console (console w ++ lines) w.

(** The status a webhook endpoint answers a request with: 400 when the body
    is there and has no message, 200 otherwise. *)
Definition status_for {E} (req : WebhookController.Request E) : nat :=
  match WebhookController.body req with
  | Some None => 400
  | _ => 200
  end.

(** The claim as the specification words it: every delivery gets a 2xx. *)
Definition always_acknowledged : Prop :=
  forall (env : Env) (req : WebhookController.Request WebhookController.GoogleEvent)
         (w : World),
    exists resp w',
      WebhookController.handleGoogleWebhook env req w = (Ok resp, w')
      /\ 200 <= WebhookController.statusCode resp
      /\ WebhookController.statusCode resp < 300.

(** An operation that only adds lines at the end of the console, whatever
    else it does. *)
Definition appends {A} (m : M A) : Prop :=
  forall w, exists lines, console (snd (m w)) = console w ++ lines.

(** The internal failures of a delivery to the Google endpoint are among
    the lines it wrote: message data that cannot be decoded, a lookup of
    the connection that throws (the database), no connection for the
    location, and, for a review event, the error of the adapter or, when
    the adapter returns, the error of the call that should queue the job. *)
Definition google_failures_logged (env : Env)
           (req : WebhookController.Request WebhookController.GoogleEvent)
           (w : World) (lines : list LogEntry) : Prop :=
  forall msg,
    WebhookController.body req = Some (Some msg) ->
    match WebhookController.data msg with
    | None => exists detail, In (LogError "Google webhook error:" detail) lines
    | Some e =>
        match PlatformConnection_findOne env
                (WebhookController.is_google_connection
                   (WebhookController.locationId e)) w with
        | (Throw error, _) => In (LogError "Google webhook error:" (message error)) lines
        | (Ok None, _) =>
            In (Log ("No active connection found for location "
                     ++ WebhookController.locationId e)%string) lines
        | (Ok (Some c), w1) =>
            JS.strict_eq (WebhookController.g_eventType e) "NEW_REVIEW"
            || JS.strict_eq (WebhookController.g_eventType e) "UPDATE_REVIEW" = true ->
            match GoogleService.fetchReviews env c (WebhookController.locationId e) w1 with
            | (Throw error, _) =>
                In (LogError "Error processing Google webhook:" (message error)) lines
            | (Ok _, _) =>
                In (LogError "Error processing Google webhook:"
                             "processWebhook is not a function") lines
            end
        end
    end.

(** The same for the YouTube endpoint. *)
Definition youtube_failures_logged (env : Env)
           (req : WebhookController.Request WebhookController.YouTubeEvent)
           (w : World) (lines : list LogEntry) : Prop :=
  forall msg,
    WebhookController.body req = Some (Some msg) ->
    match WebhookController.data msg with
    | None => exists detail, In (LogError "YouTube webhook error:" detail) lines
    | Some e =>
        match PlatformConnection_findOne env
                WebhookController.is_youtube_connection w with
        | (Throw error, _) => In (LogError "YouTube webhook error:" (message error)) lines
        | (Ok None, _) => In (Log "No active YouTube connection found") lines
        | (Ok (Some c), w1) =>
            JS.strict_eq (WebhookController.y_eventType e) "NEW_COMMENT"
            || JS.strict_eq (WebhookController.y_eventType e) "UPDATE_COMMENT" = true ->
            match YouTubeService.fetchVideoComments env c (WebhookController.videoId e) w1 with
            | (Throw error, _) =>
                In (LogError "Error processing YouTube webhook:" (message error)) lines
            | (Ok _, _) =>
                In (LogError "Error processing YouTube webhook:"
                             "processWebhook is not a function") lines
            end
        end
    end.

(** An operation that leaves the PlatformConnection collection and its
    journal of writes as they are, whatever it returns. *)
Definition keeps_connections {A} (m : M A) : Prop :=
  forall w,
    connections (snd (m w)) = connections w
    /\ connectionSaves (snd (m w)) = connectionSaves w.

(** An operation that never throws. *)
Definition returns {A} (m : M A) : Prop :=
  forall w, exists a, fst (m w) = Ok a.

(** The channel of a YouTube connection, when it has one
    ([platformData.channelId] present and not empty). *)
Definition channel_of (c : PlatformConnection.t) : option string :=
  match PlatformConnection.channelId c with
  | Some ch => if JS.truthy_string ch then Some ch else None
  | None => None
  end.

(** The error that fails a YouTube sync run before its loop: no channel on
    the connection, or the list of the channel's videos cannot be had. *)
Definition sync_failure (env : Env) (c : PlatformConnection.t) : option JsError :=
  match channel_of c with
  | None => Some (mkError "Channel ID not found in platform connection" None)
  | Some ch =>
      match YouTubeService.getChannelVideos env (PlatformConnection.accessToken c) ch with
      | Ok _ => None
      | Throw e => Some e
      end
  end.

(** What a successful sync run of [n] new interactions writes on the
    connection [c], giving [c']. *)
Definition updated_on_success (now : Z) (c : PlatformConnection.t) (n : nat)
           (c' : PlatformConnection.t) : Prop :=
  PlatformConnection.failedSyncAttempts c' = 0%Z
  /\ PlatformConnection.status c' = "connected"
  /\ PlatformConnection.totalInteractionsSynced c'
     = (PlatformConnection.totalInteractionsSynced c + Z.of_nat n)%Z
  /\ PlatformConnection.lastSyncCount c' = Z.of_nat n
  /\ PlatformConnection.lastSyncAt c' = Some now.

(** What a failed sync run writes on the connection. *)
Definition updated_on_failure (now : Z) (error : JsError)
           (c' : PlatformConnection.t) : Prop :=
  PlatformConnection.status c' = "error"
  /\ exists e, PlatformConnection.lastError c' = Some e
               /\ LastError.message e = message error
               /\ LastError.timestamp e = now.

(** The claim as the specification words it, in two parts: every sync run
    writes the statistics exactly once, and a failed run increments the
    failure counter. *)
Definition stats_written_once : Prop :=
  forall (env : Env) (c : PlatformConnection.t) (w : World),
    storageUp env = true ->
    exists c',
      connectionSaves (snd (GoogleService.fetchAllReviews env c w))
      = connectionSaves w ++ [c'].

Definition failure_counted : Prop :=
  forall (env : Env) (c : PlatformConnection.t) (w w' : World) (e : JsError),
    storageUp env = true ->
    YouTubeService.fetchAllChannelComments env c w = (Throw e, w') ->
    exists c',
      connectionSaves w' = connectionSaves w ++ [c']
      /\ PlatformConnection.failedSyncAttempts c'
         = (PlatformConnection.failedSyncAttempts c + 1)%Z.

(** The drafts a fetch of reviews builds over a store: one for each review
    that no stored document of the organization carries yet, in the order
    of the reviews. *)
Definition review_drafts (c : PlatformConnection.t) (locationId : string)
           (w : World) (rs : list Google.Review) : list Interaction.t :=
  flat_map
    (fun review =>
       match find (YouTubeService.by_platformId_org (Google.reviewId review)
                     (PlatformConnection.organization c)) (interactions w) with
       | Some _ => []
       | None => [GoogleService.review_draft c locationId review]
       end)
    rs.

(** The world after the insertion of drafts. *)
Definition inserted (env : Env) (drafts : list Interaction.t) (w : World) : World :=
  match drafts with
  | [] => w
  | _ :: _ =>
      with_interactions (interactions w ++ stamp_all env (nextId w) drafts)
                        (nextId w + List.length drafts) w
  end.

(** The parts of a comment thread the adapter reads before it builds the
    draft: the thread's snippet, the snippet of its top-level comment and
    the text. A thread that lacks one of them is malformed. *)
Definition top_level (t : YouTube.Thread)
  : option (YouTube.ThreadSnippet * YouTube.CommentSnippet * string) :=
  match YouTube.thread_snippet t with
  | Some ts =>
      match YouTube.topLevelComment ts with
      | Some top =>
          match YouTube.snippet top with
          | Some s =>
              match YouTube.textDisplay s with
              | Some text => Some (ts, s, text)
              | None => None
              end
          | None => None
          end
      | None => None
      end
  | None => None
  end.

(** A thread is plain when it is well formed and carries no replies; its
    draft is the one of its top-level comment. *)
Definition plain_draft (c : PlatformConnection.t) (videoId : string)
           (t : YouTube.Thread) : option Interaction.t :=
  match top_level t, YouTube.replies t with
  | Some (ts, s, text), None =>
      Some (YouTubeService.comment_draft c videoId t ts s text)
  | _, _ => None
  end.

(** No stored document of the organization carries the identifier. *)
Definition unseen (w : World) (org : ObjectId) (id : string) : Prop :=
  find (YouTubeService.by_platformId_org id org) (interactions w) = None.

(** A thread without its snippet or without its top-level comment: the
    adapter throws on it before it looks the thread up. A malformed thread
    that has both lacks the inner snippet or the text, which the adapter
    reads after the lookup. *)
Definition headless (t : YouTube.Thread) : bool :=
  match YouTube.thread_snippet t with
  | Some ts => match YouTube.topLevelComment ts with
               | Some _ => false
               | None => true
               end
  | None => true
  end.

(** A comment or message change the Instagram handler throws on: a change
    of either field without its value, or a message without its sender. *)
Definition malformed_change (change : Instagram.Change) : bool :=
  if JS.strict_eq (Instagram.field change) "comments" then
    match Instagram.value change with
    | Some _ => false
    | None => true
    end
  else if JS.strict_eq (Instagram.field change) "messages" then
    match Instagram.value change with
    | Some msg => match Instagram.from msg with
                  | Some _ => false
                  | None => true
                  end
    | None => true
    end
  else false.

(** The claim as the specification words it, for the Instagram webhook
    handler: of two comment changes, the first malformed, the second is
    stored. *)
Definition webhook_isolates_bad_items : Prop :=
  forall (env : Env) (organizationId : ObjectId) (good : Instagram.Value) (w : World),
    storageUp env = true ->
    exists r w',
      ProcessWebhook.handleInstagramWebhook env
        (Instagram.mkPayload
           (Some [Instagram.mkEntry
                    (Some [Instagram.mkChange (Some "comments") None;
                           Instagram.mkChange (Some "comments") (Some good)])]))
        organizationId w = (Ok r, w')
      /\ exists d, In d (interactions w')
                   /\ Interaction.platformId d = Instagram.id good.

(** A text holds a tag when one of its [<] has a [>] somewhere after it. *)
Definition holds_tag (s : string) : Prop :=
  exists a b c, s = (a ++ "<" ++ b ++ ">" ++ c)%string.

(** The same, computed. *)
Fixpoint tagged (s : string) : bool :=
  match s with
  | EmptyString => false
  | String c s' =>
      (Ascii.eqb c EmailService.lt_sign && EmailService.has_gt s') || tagged s'
  end.

(** The provider answers the stage: every call made for it returns. *)
Definition answers (env : Env) (s : Stage) : Prop :=
  forall r, stage_of r = s -> exists text, chat env r = Ok text.

(** Knowledge entries from the heaviest to the lightest. *)
Definition heavier (a b : KnowledgeBase.t) : Prop :=
  (KnowledgeBase.trainingWeight b <= KnowledgeBase.trainingWeight a)%Z.

(** A topic as [extractTopics] gives it: not empty, nothing to trim, no
    comma. *)
Definition clean_topic (t : string) : Prop :=
  t <> ""
  /\ JS.trim t = t
  /\ ~ In JS.comma (list_ascii_of_string t).

(** An operation that only writes to the console, whatever it returns. *)
Definition only_logs {A} (m : M A) : Prop :=
  forall w, logs_only w (snd (m w)).

(** A stored document of the organization carries the identifier. *)
Definition seen (w : World) (org : ObjectId) (id : string) : Prop :=
  find (YouTubeService.by_platformId_org id org) (interactions w) <> None.

(** The thread has the parts the adapter reads before it looks the
    top-level comment up: its snippet and, in it, the top-level comment. *)
Definition addressed (t : YouTube.Thread) : Prop :=
  exists ts top,
    YouTube.thread_snippet t = Some ts /\ YouTube.topLevelComment ts = Some top.

(** What a sync run leaves in the collection of the interactions, in a run
    for which the database answers every call or none: a run that returns
    added as many documents as it reports, a run that throws added none.
    (A write that fails after an earlier one went through is outside such
    runs.) *)
Definition accounted (w : World) (run : Result SyncResult * World) : Prop :=
  match run with
  | (Ok r, w') =>
      List.length (interactions w') = List.length (interactions w) + sync_count r
      /\ List.length (sync_interactions r) = sync_count r
  | (Throw _, w') => interactions w' = interactions w
  end.

(** The common shape of [fetchVideoComments] and [fetchReviews]: the call
    to the platform, the loop over its items, the bulk insertion. *)
Definition fetch (env : Env) {T} (answer : Result (list T))
           (round : T -> M (list Interaction.t)) (text prefix : string)
  : M SyncResult :=
  try_catch
    (items <- lift answer ;;
     interactions <- for_each items round ;;
     match interactions with
     | [] => ret tt
     | _ :: _ => Interaction_insertMany env interactions
     end ;;;
     ret (mkSyncResult true (List.length interactions) interactions))
    (fun error =>
       console_error text (message error) ;;;
       throw (mkError (prefix ++ message error)%string None)).

(** What a webhook handler that stores by an upsert leaves behind. When it
    returns an interaction, the interaction is stored, unread, under the
    handler's platform and the organization of the delivery, and the
    collection kept its size or grew by one; when it returns nothing, the
    world is as it was; when it throws, the error was logged under [text]
    and nothing else changed. *)
Definition stores_at_most_one (platform text : string) (org : ObjectId) (w : World)
           (run : Result (option Interaction.t) * World) : Prop :=
  match run with
  | (Ok (Some d), w') =>
      In d (interactions w')
      /\ Interaction.platform d = platform
      /\ Interaction.organization d = org
      /\ Interaction.status d = Some "unread"
      /\ (List.length (interactions w') = List.length (interactions w)
          \/ List.length (interactions w') = S (List.length (interactions w)))
      /\ exists l n, w' = with_interactions l n w
  | (Ok None, w') => w' = w
  | (Throw e, w') => w' = with_console (console w ++ [LogError text (message e)]) w
  end.

(** The loop of a handler, before its errors are logged. *)
Definition loop_stores (platform : string) (org : ObjectId) (w : World)
           (run : Result (option Interaction.t) * World) : Prop :=
  match run with
  | (Ok (Some d), w') =>
      In d (interactions w')
      /\ Interaction.platform d = platform
      /\ Interaction.organization d = org
      /\ Interaction.status d = Some "unread"
      /\ (List.length (interactions w') = List.length (interactions w)
          \/ List.length (interactions w') = S (List.length (interactions w)))
      /\ exists l n, w' = with_interactions l n w
  | (Ok None, w') => w' = w
  | (Throw e, w') => w' = w
  end.

(** Whether the loop of a handler ends at a change, by storing it or by
    throwing on it; a change it does not end at is passed over. *)
Definition instagram_stops (change : Instagram.Change) : bool :=
  JS.strict_eq (Instagram.field change) "comments"
  || JS.strict_eq (Instagram.field change) "messages".

Definition facebook_stops (change : Facebook.Change) : bool :=
  (JS.strict_eq (Facebook.field change) "feed"
   && match Facebook.value change with
      | Some v => JS.strict_eq (Facebook.item v) "comment"
      | None => true
      end)
  || JS.strict_eq (Facebook.field change) "conversations".

Definition whatsapp_stops (change : WhatsApp.Change) : bool :=
  match WhatsApp.value change with
  | Some v => match WhatsApp.messages v with Some _ => true | None => false end
  | None => true
  end.

(** A handler that only reads: it leaves the world as it is, and what it
    returns is a stored document of the organization and the platform under
    the identifier asked for. *)
Definition reads_only (platform text id : string) (org : ObjectId) (w : World)
           (run : Result (option Interaction.t) * World) : Prop :=
  match run with
  | (Ok (Some d), w') =>
      w' = w
      /\ In d (interactions w)
      /\ Interaction.platformId d = id
      /\ Interaction.organization d = org
      /\ Interaction.platform d = platform
  | (Ok None, w') => w' = w
  | (Throw e, w') => w' = with_console (console w ++ [LogError text (message e)]) w
  end.

(** The job queued for an interaction a handler returned. *)
Definition job_of (d : option Interaction.t) : list AiJob.t :=
  match d with
  | Some i => [AiJob.mk (Interaction._id i) 3 2000]
  | None => []
  end.

(** What a run of the webhook job leaves behind. A run that returns reports
    success under the platform of the delivery; the interaction its handler
    returned, if any, is stored and queued for the AI, once, under its
    identifier; without one nothing is queued and the collection is as it
    was. A run that throws queued nothing and logged the error. *)
Definition job_accounted (data : WebhookJob.JobData) (s : Backend)
           (run : Result WebhookJob.JobResult * Backend) : Prop :=
  match run with
  | (Ok res, s') =>
      WebhookJob.success res = true
      /\ WebhookJob.platform res = WebhookJob.platform_of data
      /\ connectionRest s' = connectionRest s
      /\ exists d,
           WebhookJob.interactionId res
           = match d with Some i => Interaction._id i | None => None end
           /\ aiQueue s' = aiQueue s ++ job_of d
           /\ match d with
              | Some i => In i (interactions (world s'))
              | None => interactions (world s') = interactions (world s)
              end
  | (Throw e, s') =>
      aiQueue s' = aiQueue s
      /\ connectionRest s' = connectionRest s
      /\ exists lines,
           console (world s')
           = console (world s) ++ lines
             ++ [LogError "Webhook processing error:" (message e)]
  end.

(** The two services that keep a token valid: GoogleService and
    YouTubeService. *)
Definition token_services (env : Env) (net : Net)
  : list (Connection.t -> B (string * Connection.t)) :=
  [Tokens.ensureValidToken env net; Tokens.ensureValidToken_youtube env net].

(** The refresh token a service sends: the one of the connection when it is
    there and not empty. *)
Definition usable_refresh_token (c : Connection.t) : option string :=
  match Connection.refreshToken c with
  | Some token => if JS.truthy_string token then Some token else None
  | None => None
  end.

(** The whole document a lookup finds in a state. *)
Definition finds (env : Env) (query : PlatformConnection.t -> bool) (s : Backend)
  : Result (option Connection.t) :=
  fst (Tokens.Connection_findOne env query s).

(** What a fetch that returns reports: the collection has grown by exactly
    the count, which is the number of interactions returned. Nothing is
    said of a fetch that throws. *)
Definition counted (w : World) (run : Result SyncResult * World) : Prop :=
  match run with
  | (Ok r, w') =>
      List.length (interactions w') = List.length (interactions w) + sync_count r
      /\ List.length (sync_interactions r) = sync_count r
  | (Throw _, _) => True
  end.

(** What a sync over all the locations or videos reports when it returns:
    no more than the collection has grown by, the count being the number
    of interactions returned. *)
Definition not_over_counted (w : World) (run : Result SyncResult * World) : Prop :=
  match run with
  | (Ok r, w') =>
      List.length (interactions w) + sync_count r <= List.length (interactions w')
      /\ List.length (sync_interactions r) = sync_count r
  | (Throw _, _) => True
  end.

(** What a manual sync leaves behind. The handler never throws: it sends a
    response or hands an error to [next]. A response that reports a number
    of added interactions is a 200 and the collection holds at least that
    many documents more; a response without one is a 404 or a 400 and
    nothing changed. No path queues anything for the AI, and none removes
    a document. *)
Definition sync_answered (s : Backend)
           (run : Result PlatformController.Outcome * Backend) : Prop :=
  match run with
  | (Ok (PlatformController.Sent r), s1) =>
      aiQueue s1 = aiQueue s
      /\ match PlatformController.interactionsAdded r with
         | Some n =>
             PlatformController.statusCode r = 200
             /\ List.length (interactions (world s)) + n
                <= List.length (interactions (world s1))
         | None =>
             (PlatformController.statusCode r = 404
              \/ PlatformController.statusCode r = 400)
             /\ s1 = s
         end
  | (Ok (PlatformController.Next error), s1) =>
      aiQueue s1 = aiQueue s
      /\ List.length (interactions (world s)) <= List.length (interactions (world s1))
  | (Throw _, _) => False
  end.

(** The identifiers of the stored interactions, in the order of the
    collection. *)
Definition platform_ids (w : World) : list string :=
  map Interaction.platformId (interactions w).

(** What an upsert by identifier does to them: an identifier that is not
    there is added at the end. *)
Definition add_missing (ids : list string) (id : string) : list string :=
  if existsb (fun k => String.eqb k id) ids then ids else ids ++ [id].

(** The comments the Graph API lists under the media of an account, each
    with its media: those of the media whose comments can be read. *)
Definition listed_comments (net : Net) (token : string) (ms : list Graph.Media)
  : list (Graph.Media * Graph.Comment) :=
  flat_map (fun m => match mediaComments net token (Graph.media_id m) with
                     | Ok (Some l) => map (pair m) l
                     | _ => []
                     end) ms.

(** The first comment of each of those media. *)
Definition first_comments (net : Net) (token : string) (ms : list Graph.Media)
  : list (Graph.Media * Graph.Comment) :=
  flat_map (fun m => match mediaComments net token (Graph.media_id m) with
                     | Ok (Some (comment :: _)) => [(m, comment)]
                     | _ => []
                     end) ms.

(** What [fetchComments] logs when the database does not answer: for each
    media in turn, the error of the request for its comments when the media
    cannot be read, the error of the database when it has a first comment
    to store, nothing when it has no comment. *)
Definition unstored_lines (net : Net) (token : string) (ms : list Graph.Media)
  : list LogEntry :=
  flat_map
    (fun m =>
       let text := ("Error fetching comments for media " ++ Graph.media_id m ++ ":")%string in
       match mediaComments net token (Graph.media_id m) with
       | Ok (Some (_ :: _)) => [LogError text (message storage_error)]
       | Ok _ => []
       | Throw error => [LogError text (message error)]
       end) ms.

(** The interaction [fetchComments] builds from a listed comment. *)
Definition comment_interaction (c : Connection.t) (mc : Graph.Media * Graph.Comment)
  : Interaction.t :=
  InstagramService.literal (InstagramService.comment_paths c (fst mc) (snd mc)).

(** A direct message [fetchMessages] wrote for the connection: an
    Instagram dm of its organization whose author is not the account
    itself. *)
Definition guest_dm (c : Connection.t) (d : Interaction.t) : Prop :=
  Interaction.platform d = "instagram"
  /\ Interaction.type d = "dm"
  /\ Interaction.organization d = PlatformConnection.organization (Connection.document c)
  /\ InstagramService.differ (Author.platformId (Interaction.author d))
                             (Connection.businessAccountId c) = true.

(** Every document of the second world is one of the first or a message
    written for the connection. *)
Definition only_guest_dms (c : Connection.t) (w w' : World) : Prop :=
  forall d, In d (interactions w') -> In d (interactions w) \/ guest_dm c d.

(* ================================================================== *)
(** * Properties *)
(* ================================================================== *)

(** ** Auxiliary facts *)

Lemma strict_eq_true (a : option string) (b : string) :
  JS.strict_eq a b = true <-> a = Some b.
Proof.
  destruct a as [s|]; simpl.
  - rewrite String.eqb_eq. split; [intros ->; reflexivity | intros [= ->]; reflexivity].
  - split; discriminate.
Qed.

Lemma strict_eq_false (a : option string) (b : string) :
  JS.strict_eq a b = false <-> a <> Some b.
Proof.
  rewrite <- strict_eq_true. destruct (JS.strict_eq a b); split; congruence.
Qed.

Lemma db_up (env : Env) {A} (m : M A) :
  storageUp env = true -> db env m = m.
Proof. intros H. unfold db. rewrite H. reflexivity. Qed.

Lemma update_first_ids (j : Interaction.t) (l : list Interaction.t) :
  map Interaction._id (update_first (same_id j) (fun _ => j) l)
  = map Interaction._id l.
Proof.
  induction l as [|d l IH]; simpl; [reflexivity|].
  destruct (same_id j d) eqn:Hs; simpl.
  - f_equal. unfold same_id in Hs.
    destruct (Interaction._id j) as [a|], (Interaction._id d) as [b|];
      try discriminate.
    apply Nat.eqb_eq in Hs. congruence.
  - f_equal. exact IH.
Qed.

Lemma update_first_stored (j : Interaction.t) (l : list Interaction.t) (id : ObjectId) :
  Interaction._id j = Some id ->
  In (Some id) (map Interaction._id l) ->
  In j (update_first (same_id j) (fun _ => j) l).
Proof.
  intros Hj. induction l as [|d l IH]; simpl; [tauto|].
  intros [Hd|Hin].
  - unfold same_id. rewrite Hj, Hd, Nat.eqb_refl. left. reflexivity.
  - destruct (same_id j d); [left; reflexivity|right; auto].
Qed.

Lemma find_has_id_in (id : ObjectId) (l : list Interaction.t) (i : Interaction.t) :
  find (has_id id) l = Some i ->
  Interaction._id i = Some id /\ In (Some id) (map Interaction._id l).
Proof.
  intros Hf. apply find_some in Hf. destruct Hf as [Hin Hid].
  unfold has_id in Hid. destruct (Interaction._id i) as [k|] eqn:Hk; [|discriminate].
  apply Nat.eqb_eq in Hid. subst k. split; [reflexivity|].
  rewrite <- Hk. apply in_map. exact Hin.
Qed.

Lemma bind_ok {A B} (m : M A) (k : A -> M B) (w w' : World) (a : A) :
  m w = (Ok a, w') -> bind m k w = k a w'.
Proof. intros H. unfold bind. rewrite H. reflexivity. Qed.

Lemma bind_log {B} (text : string) (k : unit -> M B) (w : World) :
  bind (console_log text) k w = k tt (with_console (console w ++ [Log text]) w).
Proof. reflexivity. Qed.

Lemma logs_only_refl (w : World) : logs_only w w.
Proof. exists []. rewrite app_nil_r. destruct w; reflexivity. Qed.

Lemma logs_only_line (w : World) (l : list LogEntry) :
  logs_only w (with_console (console w ++ l) w).
Proof. exists l. reflexivity. Qed.

Lemma logs_only_trans (a b c : World) :
  logs_only a b -> logs_only b c -> logs_only a c.
Proof.
  intros [l1 ->] [l2 ->]. exists (l1 ++ l2).
  unfold with_console; cbn. rewrite app_assoc. reflexivity.
Qed.

Lemma logs_only_frame (w w' : World) :
  logs_only w w' ->
  interactions w' = interactions w /\ nextId w' = nextId w
  /\ users w' = users w /\ knowledge w' = knowledge w
  /\ outbox w' = outbox w
  /\ exists lines, console w' = console w ++ lines.
Proof. intros [l ->]. cbn. repeat split. exists l. reflexivity. Qed.

(** ** Eligibility for an automatic reply *)

Section Eligibility.
Import Interaction.
Local Open Scope float_scope.

Lemma canAutoReply_false_iff (i : Interaction.t) :
  AIService.canAutoReply i = false <-> ineligible i.
Proof.
  unfold AIService.canAutoReply, ineligible.
  destruct (JS.strict_eq (sentiment i) "negative") eqn:Hs.
  { apply strict_eq_true in Hs. tauto. }
  destruct (JS.lt (sentimentConfidence i) 0.7) eqn:Hc.
  { tauto. }
  destruct (JS.strict_eq (intent i) "complaint") eqn:Hi.
  { apply strict_eq_true in Hi. tauto. }
  destruct (JS.strict_eq (urgency i) "urgent") eqn:Hu.
  { apply strict_eq_true in Hu. simpl. tauto. }
  destruct (JS.strict_eq (urgency i) "high") eqn:Hh.
  { apply strict_eq_true in Hh. simpl. tauto. }
  apply strict_eq_false in Hs, Hi, Hu, Hh. simpl.
  split; [discriminate|].
  intros [H|[H|[H|[H|H]]]]; congruence.
Qed.

Lemma canAutoReply_true_iff (i : Interaction.t) :
  AIService.canAutoReply i = true <-> ~ ineligible i.
Proof.
  rewrite <- canAutoReply_false_iff.
  destruct (AIService.canAutoReply i); split; congruence.
Qed.

(** C1. [canAutoReply] returns false exactly when the sentiment is
    negative, or the sentiment confidence is below 0.7, or the intent is a
    complaint, or the urgency is high or urgent, and true otherwise. In
    particular: with a confidence of exactly 0.70 and no other reason the
    interaction is eligible; with a confidence of 0.69 it is not; with a
    negative sentiment it is not, whatever the confidence; with the intent
    complaint it is not, even when the sentiment is positive. *)
Theorem C1_canAutoReply_rule :
  (forall i, AIService.canAutoReply i = false <-> ineligible i)
  /\ (forall i, AIService.canAutoReply i = true <-> ~ ineligible i)
  /\ (forall i,
        sentimentConfidence i = Some 0.70 ->
        sentiment i <> Some "negative" ->
        intent i <> Some "complaint" ->
        urgency i <> Some "high" ->
        urgency i <> Some "urgent" ->
        AIService.canAutoReply i = true)
  /\ (forall i,
        sentimentConfidence i = Some 0.69 ->
        AIService.canAutoReply i = false)
  /\ (forall i c,
        sentiment i = Some "negative" ->
        sentimentConfidence i = c ->
        AIService.canAutoReply i = false)
  /\ (forall i,
        intent i = Some "complaint" ->
        sentiment i = Some "positive" ->
        AIService.canAutoReply i = false).
Proof.
  split; [exact canAutoReply_false_iff|].
  split; [exact canAutoReply_true_iff|].
  split.
  { intros i Hc Hs Hi Hh Hu. apply canAutoReply_true_iff.
    unfold ineligible. rewrite Hc.
    intros [H|[H|[H|[H|H]]]]; try congruence.
    vm_compute in H. discriminate. }
  split.
  { intros i Hc. apply canAutoReply_false_iff.
    unfold ineligible. rewrite Hc. right; left. reflexivity. }
  split.
  { intros i c Hs _. apply canAutoReply_false_iff. left. exact Hs. }
  intros i Hi _. apply canAutoReply_false_iff. right; right; left. exact Hi.
Qed.

Lemma C1_canAutoReply_rule_witness :
  AIService.canAutoReply (enriched_sample "positive" 0.70 "praise") = true
  /\ AIService.canAutoReply (enriched_sample "positive" 0.69 "praise") = false
  /\ AIService.canAutoReply (enriched_sample "negative" 0.99 "praise") = false
  /\ AIService.canAutoReply (enriched_sample "positive" 0.99 "complaint") = false.
Proof.
  destruct C1_canAutoReply_rule as (_ & _ & H70 & H69 & Hneg & Hcomp).
  split; [|split; [|split]].
  - apply H70; simpl; congruence.
  - apply H69. reflexivity.
  - apply (Hneg _ (Some 0.99)); reflexivity.
  - apply Hcomp; reflexivity.
Defined.

(** C10. An interaction without any sentiment confidence is not made
    ineligible by the confidence threshold: it is refused only for one of
    the other three reasons, and a document with no sentiment, no intent,
    no urgency and no confidence is eligible. *)
Theorem C10_absent_confidence_passes :
  (forall i,
     sentimentConfidence i = None ->
     (AIService.canAutoReply i = false <->
      sentiment i = Some "negative"
      \/ intent i = Some "complaint"
      \/ urgency i = Some "high"
      \/ urgency i = Some "urgent"))
  /\ (forall i,
        sentiment i = None ->
        sentimentConfidence i = None ->
        intent i = None ->
        urgency i = None ->
        AIService.canAutoReply i = true).
Proof.
  split.
  - intros i Hc. rewrite canAutoReply_false_iff. unfold ineligible.
    rewrite Hc. change (JS.lt None 0.7) with false.
    split.
    + intros [H|[H|H]]; [tauto|discriminate|tauto].
    + tauto.
  - intros i Hs Hc Hi Hu. apply canAutoReply_true_iff. unfold ineligible.
    rewrite Hs, Hc, Hi, Hu. change (JS.lt None 0.7) with false.
    intros [H|[H|[H|[H|H]]]]; discriminate.
Qed.

Lemma C10_absent_confidence_passes_witness :
  AIService.canAutoReply (blank 1%nat "instagram" "comment" "c1") = true.
Proof.
  apply (proj2 C10_absent_confidence_passes); reflexivity.
Defined.
End Eligibility.


(** ** Routing: assignment to the least-loaded agent *)

(** [JS.sort] is a sort: it permutes its list and leaves it ordered by the
    comparator (here, by count). *)
Lemma insert_permutation {A} (cmp : A -> A -> Z) (x : A) (l : list A) :
  Permutation (x :: l) (JS.insert cmp x l).
Proof.
  induction l as [|y l IH]; simpl; [apply Permutation_refl|].
  destruct (cmp x y <=? 0)%Z; [apply Permutation_refl|].
  eapply Permutation_trans; [apply perm_swap|]. apply perm_skip. exact IH.
Qed.

Lemma sort_permutation {A} (cmp : A -> A -> Z) (l : list A) :
  Permutation l (JS.sort cmp l).
Proof.
  induction l as [|x l IH]; simpl; [apply Permutation_refl|].
  eapply Permutation_trans; [apply perm_skip; exact IH|].
  apply insert_permutation.
Qed.

Lemma insert_sorted (x : User.t * nat) (l : list (User.t * nat)) :
  Sorted (fun a b => snd a <= snd b) l ->
  Sorted (fun a b => snd a <= snd b) (JS.insert ProcessAI.by_count x l).
Proof.
  induction l as [|y l IH]; simpl; intros Hs.
  - repeat constructor.
  - unfold ProcessAI.by_count at 1.
    destruct (Z.of_nat (snd x) - Z.of_nat (snd y) <=? 0)%Z eqn:Hc.
    + apply Z.leb_le in Hc. constructor; [exact Hs|]. constructor. lia.
    + apply Z.leb_gt in Hc. inversion Hs as [|? ? Hl Hhd]; subst.
      constructor; [apply IH; exact Hl|].
      destruct l as [|z l]; simpl.
      * constructor. lia.
      * unfold ProcessAI.by_count at 1.
        destruct (Z.of_nat (snd x) - Z.of_nat (snd z) <=? 0)%Z.
        -- constructor. lia.
        -- inversion Hhd; subst. constructor. assumption.
Qed.

Lemma sort_sorted (l : list (User.t * nat)) :
  Sorted (fun a b => snd a <= snd b) (JS.sort ProcessAI.by_count l).
Proof.
  induction l as [|x l IH]; simpl; [constructor|].
  apply insert_sorted. exact IH.
Qed.

Lemma first_least_bound {A} (key : A -> nat) (l : list A) (a b : A) :
  first_least key l a -> In b l -> key a <= key b.
Proof.
  intros (pre & post & -> & Hpre & Hpost) Hb.
  apply in_app_or in Hb. destruct Hb as [Hb|[<-|Hb]].
  - apply Nat.lt_le_incl. auto.
  - apply Nat.le_refl.
  - auto.
Qed.

Lemma sort_head_first_least (l : list (User.t * nat)) :
  l <> [] ->
  exists a rest, JS.sort ProcessAI.by_count l = a :: rest /\ first_least snd l a.
Proof.
  induction l as [|x l IH]; [congruence|]. intros _.
  destruct l as [|y l'].
  - exists x, []. split; [reflexivity|].
    exists [], []. simpl. repeat split; intros b [].
  - destruct IH as (a & rest & Hs & Ha); [discriminate|].
    change (JS.sort ProcessAI.by_count (x :: y :: l'))
      with (JS.insert ProcessAI.by_count x (JS.sort ProcessAI.by_count (y :: l'))).
    rewrite Hs. simpl. unfold ProcessAI.by_count at 1.
    destruct (Z.of_nat (snd x) - Z.of_nat (snd a) <=? 0)%Z eqn:Hc.
    + apply Z.leb_le in Hc.
      exists x, (a :: rest). split; [reflexivity|].
      exists [], (y :: l'). split; [reflexivity|]. split; [intros b []|].
      intros b Hb. pose proof (first_least_bound _ _ _ _ Ha Hb). lia.
    + apply Z.leb_gt in Hc.
      exists a, (JS.insert ProcessAI.by_count x rest). split; [reflexivity|].
      destruct Ha as (pre & post & Hl & Hpre & Hpost).
      exists (x :: pre), post. rewrite Hl. split; [reflexivity|].
      split; [|exact Hpost].
      intros b [<-|Hb]; [lia|auto].
Qed.

Lemma first_least_map {A B} (f : A -> B) (key : B -> nat) (l : list A) (b : B) :
  first_least key (map f l) b ->
  exists a, b = f a /\ first_least (fun x => key (f x)) l a.
Proof.
  intros (pre & post & Hl & Hpre & Hpost).
  apply map_eq_app in Hl. destruct Hl as (l1 & l2 & -> & <- & Hl2).
  apply map_eq_cons in Hl2. destruct Hl2 as (a & l3 & -> & <- & <-).
  exists a. split; [reflexivity|].
  exists l1, l3. split; [reflexivity|]. split.
  - intros x Hx. apply Hpre. apply in_map. exact Hx.
  - intros x Hx. apply Hpost. apply in_map. exact Hx.
Qed.

Section Routing.
Import Interaction.
Variable env : Env.
Hypothesis storage_up : storageUp env = true.

Lemma workloads_run (agents : list User.t) (w : World) :
  ProcessAI.workloads env agents w = (Ok (map (fun a => (a, load w a)) agents), w).
Proof.
  induction agents as [|a agents IH]; simpl; [reflexivity|].
  unfold bind, Interaction_countDocuments. rewrite db_up, IH by assumption. reflexivity.
Qed.

Lemma assignToAgent_none (i : Interaction.t) (reason : string) (w : World) :
  filter (ProcessAI.is_candidate i) (users w) = [] ->
  ProcessAI.assignToAgent env i reason w =
  (Ok i, with_console (console w ++ [Log "No agents available for assignment"]) w).
Proof.
  intros Hnone. unfold ProcessAI.assignToAgent, try_catch, bind, User_find.
  rewrite db_up, Hnone by assumption. reflexivity.
Qed.

Lemma assignToAgent_some (i : Interaction.t) (reason : string) (w : World) :
  filter (ProcessAI.is_candidate i) (users w) <> [] ->
  exists agent,
    first_least (load w) (filter (ProcessAI.is_candidate i) (users w)) agent
    /\ ProcessAI.assignToAgent env i reason w =
       (Ok (set_assignment (User._id agent) "assigned" i),
        after_assignment w (set_assignment (User._id agent) "assigned" i) agent).
Proof.
  intros Hsome. unfold ProcessAI.assignToAgent, try_catch, bind at 1, User_find.
  rewrite db_up by assumption.
  destruct (filter (ProcessAI.is_candidate i) (users w)) as [|a0 agents] eqn:Hag;
    [congruence|].
  unfold bind at 1. rewrite workloads_run.
  destruct (sort_head_first_least (map (fun a => (a, load w a)) (a0 :: agents)))
    as ([sel n] & rest & Hsort & Hleast); [discriminate|].
  rewrite Hsort.
  apply first_least_map in Hleast. destruct Hleast as (agent & Hsel & Hleast).
  injection Hsel as -> ->.
  exists agent. split; [exact Hleast|].
  unfold ProcessAI.assignTo, bind, Interaction_save, ProcessAI.sendAssignmentNotification,
    sendEmail, console_log, ret.
  rewrite db_up by assumption. reflexivity.
Qed.

Lemma checkNegativeSpike_no_post (i : Interaction.t) (w : World) :
  post_of i = None ->
  ProcessAI.checkNegativeSpike env i w = (Ok i, w).
Proof.
  unfold post_of, ProcessAI.checkNegativeSpike, try_catch.
  destruct (Metadata.postId (metadata i)) as [p|]; [|reflexivity].
  destruct (JS.truthy_string p); [discriminate|reflexivity].
Qed.

Lemma checkNegativeSpike_below (i : Interaction.t) (w : World) (p : string) :
  post_of i = Some p ->
  negativeCount env w (organization i) p <= 2 ->
  ProcessAI.checkNegativeSpike env i w =
  (Ok i, with_console (console w ++ [spike_log (negativeCount env w (organization i) p)]) w).
Proof.
  unfold post_of, ProcessAI.checkNegativeSpike, try_catch.
  destruct (Metadata.postId (metadata i)) as [q|]; [|discriminate].
  destruct (JS.truthy_string q) eqn:Hq; [|discriminate].
  intros [= ->] Hn. cbn [negb].
  unfold bind, Interaction_countDocuments, console_log. rewrite db_up by assumption.
  fold (negativeCount env w (organization i) p).
  destruct (3 <=? negativeCount env w (organization i) p)%nat eqn:H3.
  - apply Nat.leb_le in H3. lia.
  - reflexivity.
Qed.

Lemma checkNegativeSpike_reached (i : Interaction.t) (w : World) (p : string) :
  post_of i = Some p ->
  3 <= negativeCount env w (organization i) p ->
  let n := negativeCount env w (organization i) p in
  let w1 := with_console
              (console w ++ [spike_log n; Log "ALERT: Negative spike detected!"]) w in
  ProcessAI.checkNegativeSpike env i w =
  (Ok (set_priority_urgency "urgent" "urgent" i),
   match find (ProcessAI.is_manager (organization i)) (users w) with
   | Some m =>
       with_outbox (outbox w ++ [mkEmail (User.email m) (ProcessAI.subject_spike n)]) w1
   | None => w1
   end).
Proof.
  unfold post_of, ProcessAI.checkNegativeSpike, try_catch.
  destruct (Metadata.postId (metadata i)) as [q|]; [|discriminate].
  destruct (JS.truthy_string q) eqn:Hq; [|discriminate].
  intros [= ->] Hn. cbn [negb].
  unfold bind, Interaction_countDocuments, console_log. rewrite db_up by assumption.
  fold (negativeCount env w (organization i) p).
  apply Nat.leb_le in Hn. rewrite Hn.
  unfold User_findOne. rewrite db_up by assumption. cbn [with_console users].
  destruct (find (ProcessAI.is_manager (organization i)) (users w)) as [m|];
    unfold ProcessAI.sendNegativeSpikeAlert, sendEmail, ret, with_console, with_outbox;
    cbn; rewrite <- app_assoc; reflexivity.
Qed.

(** Whatever the spike check does, it returns; it marks the interaction
    urgent or leaves it alone; it leaves the collections alone and only
    appends to the console. *)
Lemma checkNegativeSpike_frame (i : Interaction.t) (w : World) :
  exists i' w',
    ProcessAI.checkNegativeSpike env i w = (Ok i', w')
    /\ (i' = i \/ i' = set_priority_urgency "urgent" "urgent" i)
    /\ interactions w' = interactions w
    /\ (exists lines, console w' = console w ++ lines)
    /\ (exists mails, outbox w' = outbox w ++ mails).
Proof.
  destruct (post_of i) as [p|] eqn:Hp.
  - destruct (Nat.le_gt_cases (negativeCount env w (organization i) p) 2) as [Hn|Hn].
    + rewrite (checkNegativeSpike_below _ _ _ Hp Hn).
      do 2 eexists. split; [reflexivity|]. split; [left; reflexivity|].
      split; [reflexivity|]. split; [eexists; reflexivity|].
      exists []. symmetry. apply app_nil_r.
    + rewrite (checkNegativeSpike_reached _ _ _ Hp Hn).
      do 2 eexists. split; [reflexivity|]. split; [right; reflexivity|].
      destruct (find _ (users w)); repeat split;
        try (eexists; reflexivity); exists []; symmetry; apply app_nil_r.
  - rewrite (checkNegativeSpike_no_post _ _ Hp).
    exists i, w. split; [reflexivity|]. split; [left; reflexivity|].
    split; [reflexivity|]. split; exists []; symmetry; apply app_nil_r.
Qed.

Lemma same_enrichment_refl (i : Interaction.t) : same_enrichment i i.
Proof. repeat split. Qed.

Lemma same_enrichment_trans (a b c : Interaction.t) :
  same_enrichment a b -> same_enrichment b c -> same_enrichment a c.
Proof.
  unfold same_enrichment.
  intros (H1 & H2 & H3 & H4 & H5 & H6 & H7 & H8) (G1 & G2 & G3 & G4 & G5 & G6 & G7 & G8).
  repeat split; congruence.
Qed.

(** The routing step always returns; it changes neither the identity nor
    the enrichment fields of the interaction, it keeps the identifiers of
    the stored documents, and it shows on the console. *)
Lemma route_frame (i : Interaction.t) (aiResponse : option Suggestion.t) (w : World) :
  exists i' w',
    ProcessAI.route env i aiResponse w = (Ok i', w')
    /\ same_enrichment i i'
    /\ map _id (interactions w') = map _id (interactions w)
    /\ exists lines,
         console w' = console w ++ lines
         /\ (exists l, In l lines /\ routing_line l)
         /\ (aiResponse = None -> In (Log "Assigning to agent...") lines).
Proof.
  assert (Hfirst : exists i1 w1 lines,
             (if ProcessAI.autoReplied i aiResponse
              then bind (console_log "Interaction is eligible for auto-reply")
                        (fun _ => ret i)
              else bind (console_log "Assigning to agent...")
                        (fun _ => ProcessAI.assignToAgent env i "ai_unable")) w
             = (Ok i1, w1)
             /\ same_enrichment i i1
             /\ map _id (interactions w1) = map _id (interactions w)
             /\ console w1 = console w ++ lines
             /\ (exists l, In l lines /\ routing_line l)
             /\ (aiResponse = None -> In (Log "Assigning to agent...") lines)).
  { destruct (ProcessAI.autoReplied i aiResponse) eqn:Hauto.
    - rewrite bind_log. do 3 eexists. split; [reflexivity|].
      split; [apply same_enrichment_refl|]. split; [reflexivity|].
      split; [reflexivity|]. split.
      + eexists. split; [left; reflexivity|right; reflexivity].
      + intros ->. unfold ProcessAI.autoReplied in Hauto.
        destruct (autoReplyEligible i) as [[|]|]; discriminate.
    - rewrite bind_log.
      destruct (filter (ProcessAI.is_candidate i) (users w)) as [|a0 rest] eqn:Hag.
      + rewrite assignToAgent_none by exact Hag.
        do 3 eexists. split; [reflexivity|].
        split; [apply same_enrichment_refl|]. split; [reflexivity|].
        split; [cbn; rewrite <- app_assoc; reflexivity|]. split.
        * eexists. split; [left; reflexivity|left; reflexivity].
        * intros _. left. reflexivity.
      + destruct (assignToAgent_some i "ai_unable"
                    (with_console (console w ++ [Log "Assigning to agent..."]) w))
          as (agent & _ & Hrun).
        { cbn [users with_console]. rewrite Hag. discriminate. }
        rewrite Hrun. do 3 eexists. split; [reflexivity|].
        split; [repeat split|].
        split; [cbn; apply update_first_ids|].
        split; [cbn; rewrite <- app_assoc; reflexivity|]. split.
        * eexists. split; [left; reflexivity|left; reflexivity].
        * intros _. left. reflexivity. }
  destruct Hfirst as (i1 & w1 & lines & Hrun & Hsame & Hids & Hcon & Hline & Hnone).
  unfold ProcessAI.route. rewrite (bind_ok _ _ _ _ _ Hrun).
  destruct (String.eqb (type i1) "comment" && JS.strict_eq (sentiment i1) "negative").
  - destruct (checkNegativeSpike_frame i1 w1)
      as (i' & w' & Hc & Hi & Hint & (more & Hmore) & _).
    exists i', w'. split; [exact Hc|]. split.
    { eapply same_enrichment_trans; [exact Hsame|].
      destruct Hi as [->| ->]; repeat split. }
    split; [rewrite Hint; exact Hids|].
    exists (lines ++ more). split; [rewrite Hmore, Hcon, app_assoc; reflexivity|].
    split.
    + destruct Hline as (l & Hl & Hr). exists l. split; [|exact Hr].
      apply in_or_app. left. exact Hl.
    + intros Hn. apply in_or_app. left. auto.
  - exists i1, w1. split; [reflexivity|]. split; [exact Hsame|].
    split; [exact Hids|]. exists lines. auto.
Qed.

Lemma first_least_three {A} (key : A -> nat) (a b c x : A) :
  first_least key [a; b; c] x ->
  key a = 2 -> key b = 0 -> key c = 1 -> x = b.
Proof.
  intros (pre & post & Hl & Hpre & Hpost) Ha Hb Hc.
  destruct pre as [|p1 [|p2 [|p3 pre]]]; simpl in Hl.
  - injection Hl as <- <-. specialize (Hpost b (or_introl eq_refl)). lia.
  - injection Hl as <- <- <-. reflexivity.
  - injection Hl as <- <- <- <-. specialize (Hpre b (or_intror (or_introl eq_refl))). lia.
  - injection Hl as _ _ _ Hl. destruct pre; discriminate.
Qed.

(** C5. An interaction that is not auto-replied is assigned by the routing
    step to the least-loaded active agent of its organization, the load
    being the number of the agent's interactions whose status is assigned or
    unread, and a tie going to the agent met first; with agents A (2 open),
    B (0 open) and C (1 open) it goes to B. Without any active agent it is
    left as it was and the condition is logged. *)
Theorem C5_least_loaded_assignment
        (i : Interaction.t) (aiResponse : option Suggestion.t) (w : World) :
  ProcessAI.autoReplied i aiResponse = false ->
  let agents := filter (ProcessAI.is_candidate i) (users w) in
  exists i' w',
    ProcessAI.route env i aiResponse w = (Ok i', w')
    /\ (agents = [] ->
        assignedTo i' = assignedTo i
        /\ status i' = status i
        /\ In (Log "No agents available for assignment") (console w'))
    /\ (agents <> [] ->
        exists agent,
          first_least (load w) agents agent
          /\ assignedTo i' = Some (User._id agent)
          /\ status i' = Some "assigned"
          /\ exists mail, In mail (outbox w') /\ to mail = User.email agent)
    /\ (forall a b c,
          agents = [a; b; c] ->
          load w a = 2 -> load w b = 0 -> load w c = 1 ->
          assignedTo i' = Some (User._id b)).
Proof.
  intros Hauto agents.
  assert (Hroute : exists i1 w1,
             ProcessAI.assignToAgent env i "ai_unable"
               (with_console (console w ++ [Log "Assigning to agent..."]) w) = (Ok i1, w1)
             /\ (agents = [] ->
                 i1 = i /\ In (Log "No agents available for assignment") (console w1))
             /\ (agents <> [] ->
                 exists agent, first_least (load w) agents agent
                               /\ i1 = set_assignment (User._id agent) "assigned" i
                               /\ exists mail, In mail (outbox w1)
                                                /\ to mail = User.email agent)).
  { destruct agents as [|a0 rest] eqn:Hag.
    - rewrite assignToAgent_none by exact Hag.
      do 2 eexists. split; [reflexivity|]. split; [|congruence].
      intros _. split; [reflexivity|]. cbn. apply in_or_app. right. left. reflexivity.
    - destruct (assignToAgent_some i "ai_unable"
                  (with_console (console w ++ [Log "Assigning to agent..."]) w))
        as (agent & Hleast & Hrun).
      { cbn [users with_console]. fold agents. rewrite Hag. discriminate. }
      rewrite Hrun. do 2 eexists. split; [reflexivity|]. split; [congruence|].
      intros _. exists agent. split; [|split; [reflexivity|]].
      { cbn [users with_console] in Hleast. fold agents in Hleast.
        rewrite Hag in Hleast. exact Hleast. }
      eexists. split; [cbn; apply in_or_app; right; left; reflexivity|].
      reflexivity. }
  destruct Hroute as (i1 & w1 & Hrun & Hnone & Hsome).
  assert (Hend : exists i' w',
             ProcessAI.route env i aiResponse w = (Ok i', w')
             /\ assignedTo i' = assignedTo i1
             /\ status i' = status i1
             /\ (exists lines, console w' = console w1 ++ lines)
             /\ (exists mails, outbox w' = outbox w1 ++ mails)).
  { unfold ProcessAI.route. rewrite Hauto.
    unfold bind at 1. unfold bind at 1. unfold console_log at 1. rewrite Hrun.
    destruct (String.eqb (type i1) "comment" && JS.strict_eq (sentiment i1) "negative").
    - destruct (checkNegativeSpike_frame i1 w1) as (i' & w' & Hc & Hi & _ & Hl & Hm).
      exists i', w'. destruct Hi as [->| ->]; auto.
    - exists i1, w1. repeat split; exists []; symmetry; apply app_nil_r. }
  destruct Hend as (i' & w' & Hr & Ha & Hs & (lines & Hl) & (mails & Hm)).
  exists i', w'. split; [exact Hr|]. split; [|split].
  - intros Hag. destruct (Hnone Hag) as [-> Hin].
    repeat split; try assumption. rewrite Hl. apply in_or_app. left. exact Hin.
  - intros Hag. destruct (Hsome Hag) as (agent & Hleast & -> & mail & Hmail & Hto).
    exists agent. split; [exact Hleast|]. rewrite Ha, Hs.
    split; [reflexivity|]. split; [reflexivity|].
    exists mail. split; [|exact Hto]. rewrite Hm. apply in_or_app. left. exact Hmail.
  - intros a b c Hag Hla Hlb Hlc.
    destruct Hsome as (agent & Hleast & -> & _); [rewrite Hag; discriminate|].
    rewrite Hag in Hleast.
    rewrite (first_least_three _ _ _ _ _ Hleast Hla Hlb Hlc) in Ha.
    exact Ha.
Qed.

(** C4, as amended. For a negative comment on a post, the count being the
    one the database gives for the last 24 hours: at 2 or fewer nothing
    happens (no notification, the interaction unchanged); from 3 on the
    interaction under processing, and no other, is marked urgent, and one
    notification goes to the first active manager or admin of the
    organization when it has one, none otherwise. *)
Theorem C4_negative_spike_threshold (i : Interaction.t) (w : World) (p : string) :
  post_of i = Some p ->
  let n := negativeCount env w (organization i) p in
  exists i' w',
    ProcessAI.checkNegativeSpike env i w = (Ok i', w')
    /\ interactions w' = interactions w
    /\ (n <= 2 -> i' = i /\ outbox w' = outbox w)
    /\ (3 <= n ->
        urgency i' = Some "urgent"
        /\ priority i' = Some "urgent"
        /\ outbox w' = outbox w ++ spike_mail w (organization i) n
        /\ List.length (spike_mail w (organization i) n) <= 1).
Proof.
  intros Hp n.
  destruct (Nat.le_gt_cases n 2) as [Hn|Hn].
  - subst n. rewrite (checkNegativeSpike_below _ _ _ Hp Hn).
    do 2 eexists. split; [reflexivity|]. split; [reflexivity|].
    split; [intros _; split; reflexivity|]. intros H3. lia.
  - pose proof (checkNegativeSpike_reached _ _ _ Hp Hn) as Hrun.
    cbv zeta in Hrun. fold n in Hrun. rewrite Hrun.
    do 2 eexists. split; [reflexivity|].
    unfold spike_mail.
    destruct (find (ProcessAI.is_manager (organization i)) (users w)) as [m|].
    + split; [reflexivity|]. split; [intros H2; lia|]. intros _.
      repeat split. simpl. lia.
    + split; [reflexivity|]. split; [intros H2; lia|]. intros _.
      repeat split. cbn. rewrite app_nil_r. reflexivity. simpl. lia.
Qed.
End Routing.

Lemma C5_least_loaded_assignment_witness :
  storageUp Scenario.offline = true
  /\ ProcessAI.autoReplied Scenario.newcomer None = false
  /\ exists i' w',
       ProcessAI.route Scenario.offline Scenario.newcomer None Scenario.busy_office
       = (Ok i', w')
       /\ Interaction.assignedTo i' = Some (User._id Scenario.agentB).
Proof.
  split; [reflexivity|]. split; [reflexivity|].
  destruct (C5_least_loaded_assignment Scenario.offline eq_refl
              Scenario.newcomer None Scenario.busy_office eq_refl)
    as (i' & w' & Hrun & _ & _ & Habc).
  exists i', w'. split; [exact Hrun|].
  apply (Habc Scenario.agentA Scenario.agentB Scenario.agentC); reflexivity.
Defined.

(** The same scenario, run: the newcomer goes to B, who is told by mail. *)
Example least_loaded_scenario :
  let r := ProcessAI.route Scenario.offline Scenario.newcomer None Scenario.busy_office in
  (match fst r with
   | Ok i' => Interaction.assignedTo i'
   | Throw _ => None
   end) = Some 11
  /\ outbox (snd r) = [mkEmail "b@example.org" "New comment assigned to you"].
Proof. vm_compute. split; reflexivity. Qed.

Lemma C4_negative_spike_threshold_witness :
  storageUp Scenario.offline = true
  /\ post_of Scenario.third = Some "p1"
  /\ negativeCount Scenario.offline
       (Scenario.heated_post [Scenario.agentA; Scenario.manager]) 1 "p1" = 3
  /\ exists i' w',
       ProcessAI.checkNegativeSpike Scenario.offline Scenario.third
         (Scenario.heated_post [Scenario.agentA; Scenario.manager]) = (Ok i', w')
       /\ Interaction.urgency i' = Some "urgent"
       /\ outbox w' = [mkEmail "m@example.org" "Alert: 3 negative comments detected"].
Proof.
  split; [reflexivity|]. split; [reflexivity|]. split; [reflexivity|].
  destruct (C4_negative_spike_threshold Scenario.offline eq_refl Scenario.third
              (Scenario.heated_post [Scenario.agentA; Scenario.manager]) "p1" eq_refl)
    as (i' & w' & Hrun & _ & _ & Hreached).
  exists i', w'. split; [exact Hrun|].
  destruct Hreached as (Hu & _ & Hout & _); [vm_compute; lia|].
  split; [exact Hu|]. rewrite Hout. reflexivity.
Defined.

(** The third negative comment on a post, through the whole job. With an
    agent at hand the assignment stores the interaction before the count is
    read: the count is 3, the interaction is marked urgent and the manager is
    told. Without any agent the interaction is stored only at the end of the
    job: the count read is 2 and nothing is escalated. *)
Example third_comment_scenarios :
  let run people :=
    let r := ProcessAI.processAI Scenario.angry 203 (Scenario.fresh_third people) in
    (map to (outbox (snd r)),
     map Interaction.urgency (filter (has_id 203) (interactions (snd r)))) in
  run [Scenario.agentA; Scenario.manager]
  = (["a@example.org"; "m@example.org"], [Some "urgent"])
  /\ run [Scenario.manager] = ([], [None]).
Proof. vm_compute. split; reflexivity. Qed.

(** The claim as the specification words it: from the third negative comment
    on, exactly one notification is sent. *)
Definition spike_always_notifies : Prop :=
  forall (env : Env) (i : Interaction.t) (w : World) (p : string),
    storageUp env = true ->
    post_of i = Some p ->
    3 <= negativeCount env w (Interaction.organization i) p ->
    exists i' w',
      ProcessAI.checkNegativeSpike env i w = (Ok i', w')
      /\ List.length (outbox w') = S (List.length (outbox w)).

(** C4, counterexample. In an organization without an active manager or
    admin the third negative comment on a post is marked urgent and nobody
    is notified. *)
Lemma C4_no_manager_no_notification :
  let w := Scenario.heated_post [Scenario.agentA] in
  negativeCount Scenario.offline w 1 "p1" = 3
  /\ (exists i',
        ProcessAI.checkNegativeSpike Scenario.offline Scenario.third w
        = (Ok i', with_console [Log "Negative comment count for post: 3";
                                Log "ALERT: Negative spike detected!"] w)
        /\ Interaction.urgency i' = Some "urgent")
  /\ ~ spike_always_notifies.
Proof.
  split; [reflexivity|]. split.
  - eexists. split; [vm_compute; reflexivity|reflexivity].
  - intros H.
    destruct (H Scenario.offline Scenario.third
                (Scenario.heated_post [Scenario.agentA]) "p1" eq_refl eq_refl)
      as (i' & w' & Hrun & Hlen).
    + vm_compute. lia.
    + vm_compute in Hrun. injection Hrun as _ <-. discriminate Hlen.
Qed.

(** ** Enrichment: a failing stage falls back to its default *)

Section Enrichment.
Import Interaction.
Variable env : Env.
Hypothesis storage_up : storageUp env = true.

Lemma analyzeSentiment_run (c : option string) (w : World) :
  exists r w',
    AIService.analyzeSentiment env c w = (Ok r, w')
    /\ logs_only w w'
    /\ In (AIService.sentiment r) ["positive"; "negative"; "neutral"]
    /\ (fails env SentimentStage ->
        r = AIService.mkSentiment "neutral" 0%float 0.5%float).
Proof.
  unfold AIService.analyzeSentiment, try_catch, bind, AIService.post, lift.
  destruct (chat env (SentimentRequest c)) as [resp|e] eqn:Hc.
  - do 2 eexists. split; [reflexivity|]. split; [apply logs_only_refl|]. split.
    + cbn. destruct (JS.includes _ "positive"); [tauto|].
      destruct (JS.includes _ "negative"); tauto.
    + intros Hf. destruct (Hf (SentimentRequest c) eq_refl) as [e He]. congruence.
  - do 2 eexists. split; [reflexivity|]. split; [apply logs_only_line|].
    split; [cbn; tauto|reflexivity].
Qed.

Lemma detectIntent_run (c : option string) (w : World) :
  exists r w',
    AIService.detectIntent env c w = (Ok r, w')
    /\ logs_only w w'
    /\ In r ("other" :: AIService.validIntents)
    /\ (fails env IntentStage -> r = "other").
Proof.
  unfold AIService.detectIntent, try_catch, bind, AIService.post, lift.
  destruct (chat env (IntentRequest c)) as [resp|e] eqn:Hc.
  - do 2 eexists. split; [reflexivity|]. split; [apply logs_only_refl|]. split.
    + cbn [ret]. unfold AIService.array_includes.
      destruct (existsb _ AIService.validIntents) eqn:Hex; [|left; reflexivity].
      right. apply existsb_exists in Hex. destruct Hex as (x & Hin & Hx).
      apply String.eqb_eq in Hx. rewrite Hx. exact Hin.
    + intros Hf. destruct (Hf (IntentRequest c) eq_refl) as [e He]. congruence.
  - do 2 eexists. split; [reflexivity|]. split; [apply logs_only_line|].
    split; [left; reflexivity|reflexivity].
Qed.

Lemma extractTopics_run (c : option string) (w : World) :
  exists r w',
    AIService.extractTopics env c w = (Ok r, w')
    /\ logs_only w w'
    /\ (fails env TopicsStage -> r = []).
Proof.
  unfold AIService.extractTopics, try_catch, bind, AIService.post, lift.
  destruct (chat env (TopicsRequest c)) as [resp|e] eqn:Hc.
  - do 2 eexists. split; [reflexivity|]. split; [apply logs_only_refl|].
    intros Hf. destruct (Hf (TopicsRequest c) eq_refl) as [e He]. congruence.
  - do 2 eexists. split; [reflexivity|]. split; [apply logs_only_line|]. reflexivity.
Qed.

Lemma generateResponse_run (i : Interaction.t) (kb : list KnowledgeBase.t) (w : World) :
  exists r w',
    AIService.generateResponse env i kb w = (Ok r, w')
    /\ logs_only w w'
    /\ (fails env DraftStage -> r = None).
Proof.
  unfold AIService.generateResponse, try_catch, bind, AIService.post, lift.
  match goal with
  | |- context [chat env ?r] => destruct (chat env r) as [resp|e] eqn:Hc
  end.
  - do 2 eexists. split; [reflexivity|]. split; [apply logs_only_refl|].
    intros Hf.
    match type of Hc with
    | chat env ?r = _ => destruct (Hf r eq_refl) as [e He]
    end.
    congruence.
  - do 2 eexists. split; [reflexivity|]. split; [apply logs_only_line|]. reflexivity.
Qed.


(** The enrichment never throws while the database answers: it returns the
    document with every stage's fields set, the fields of a failed stage at
    their defaults. *)
Lemma enrich_run (i : Interaction.t) (w : World) :
  exists i1 ai w1,
    ProcessAI.enrich env i w = (Ok (i1, ai), w1)
    /\ _id i1 = _id i
    /\ logs_only w w1
    /\ (fails env SentimentStage ->
        sentiment i1 = Some "neutral"
        /\ sentimentScore i1 = Some 0%float
        /\ sentimentConfidence i1 = Some 0.5%float)
    /\ (fails env IntentStage -> intent i1 = Some "other")
    /\ (fails env TopicsStage -> topics i1 = [])
    /\ (fails env DraftStage -> ai = None /\ aiSuggestion i1 = aiSuggestion i)
    /\ (exists s, sentiment i1 = Some s /\ In s ["positive"; "negative"; "neutral"])
    /\ (exists t, intent i1 = Some t /\ In t ("other" :: AIService.validIntents))
    /\ autoReplyEligible i1 = Some (AIService.canAutoReply i1).
Proof.
  unfold ProcessAI.enrich.
  rewrite bind_log. cbv beta zeta.
  destruct (analyzeSentiment_run (content i)
              (with_console (console w ++ [Log "Analyzing sentiment..."]) w))
    as (r1 & w1 & H1 & L1 & S1 & F1).
  rewrite (bind_ok _ _ _ _ _ H1). cbv beta zeta.
  rewrite bind_log. cbv beta zeta.
  match goal with
  | |- context [bind (AIService.detectIntent env ?c) _ ?w0] =>
      destruct (detectIntent_run c w0) as (r2 & w2 & H2 & L2 & S2 & F2)
  end.
  rewrite (bind_ok _ _ _ _ _ H2). cbv beta zeta.
  rewrite bind_log. cbv beta zeta.
  match goal with
  | |- context [bind (AIService.extractTopics env ?c) _ ?w0] =>
      destruct (extractTopics_run c w0) as (r3 & w3 & H3 & L3 & F3)
  end.
  rewrite (bind_ok _ _ _ _ _ H3). cbv beta zeta.
  unfold ProcessAI.findKnowledgeBase. rewrite db_up by assumption.
  match goal with
  | |- context [bind ?m _ w3] => rewrite (bind_ok m _ w3 _ _ eq_refl)
  end.
  cbv beta zeta. rewrite bind_log. cbv beta zeta.
  match goal with
  | |- context [bind (AIService.generateResponse env ?j ?kb) _ ?w0] =>
      destruct (generateResponse_run j kb w0) as (r4 & w4 & H4 & L4 & F4)
  end.
  rewrite (bind_ok _ _ _ _ _ H4). cbv beta zeta.
  unfold ret.
  assert (Lall : logs_only w w4).
  { eapply logs_only_trans; [apply logs_only_line|].
    eapply logs_only_trans; [exact L1|].
    eapply logs_only_trans; [apply logs_only_line|].
    eapply logs_only_trans; [exact L2|].
    eapply logs_only_trans; [apply logs_only_line|].
    eapply logs_only_trans; [exact L3|].
    eapply logs_only_trans; [apply logs_only_line|exact L4]. }
  do 3 eexists. split; [reflexivity|].
  split; [destruct r4; reflexivity|].
  split; [exact Lall|].
  split; [intros Hf; rewrite (F1 Hf); destruct r4; repeat split|].
  split; [intros Hf; rewrite (F2 Hf); destruct r4; reflexivity|].
  split; [intros Hf; rewrite (F3 Hf); destruct r4; reflexivity|].
  split; [intros Hf; rewrite (F4 Hf); split; reflexivity|].
  split; [exists (AIService.sentiment r1); split; [destruct r4; reflexivity|exact S1]|].
  split; [exists r2; split; [destruct r4; reflexivity|exact S2]|].
  destruct r4; reflexivity.
Qed.

(** The knowledge base handed to the draft stage is read from the
    collection alone. *)
Lemma findKnowledgeBase_run (org : ObjectId) (w : World) :
  ProcessAI.findKnowledgeBase env org w
  = (Ok (firstn 10 (JS.sort ProcessAI.by_weight_desc
                      (filter (ProcessAI.is_training_entry org) (knowledge w)))), w).
Proof. unfold ProcessAI.findKnowledgeBase. rewrite db_up by assumption. reflexivity. Qed.

Lemma sentiment_read_truthy (answer : Result string) :
  AIService.sentiment_or_unknown (Some (AIService.sentiment (sentiment_read answer)))
  = AIService.sentiment (sentiment_read answer).
Proof.
  unfold sentiment_read. destruct answer as [text|e]; [|reflexivity].
  cbv zeta. destruct (JS.includes _ "positive"); [reflexivity|].
  destruct (JS.includes _ "negative"); reflexivity.
Qed.

(** Each stage, run: what it returns is the reading of the answer to its
    own request, and it only writes to the console. *)
Lemma analyzeSentiment_reads (c : option string) (w : World) :
  exists w',
    AIService.analyzeSentiment env c w
    = (Ok (sentiment_read (chat env (SentimentRequest c))), w')
    /\ logs_only w w'.
Proof.
  unfold AIService.analyzeSentiment, try_catch, bind, AIService.post, lift, sentiment_read.
  destruct (chat env (SentimentRequest c)) as [text|e].
  - exists w. split; [|apply logs_only_refl]. cbv zeta. cbn.
    destruct (JS.includes _ "positive"); [reflexivity|].
    destruct (JS.includes _ "negative"); reflexivity.
  - eexists. split; [reflexivity|apply logs_only_line].
Qed.

Lemma detectIntent_reads (c : option string) (w : World) :
  exists w',
    AIService.detectIntent env c w = (Ok (intent_read (chat env (IntentRequest c))), w')
    /\ logs_only w w'.
Proof.
  unfold AIService.detectIntent, try_catch, bind, AIService.post, lift, intent_read.
  destruct (chat env (IntentRequest c)) as [text|e].
  - exists w. split; [reflexivity|apply logs_only_refl].
  - eexists. split; [reflexivity|apply logs_only_line].
Qed.

Lemma extractTopics_reads (c : option string) (w : World) :
  exists w',
    AIService.extractTopics env c w = (Ok (topics_read (chat env (TopicsRequest c))), w')
    /\ logs_only w w'.
Proof.
  unfold AIService.extractTopics, try_catch, bind, AIService.post, lift, topics_read.
  destruct (chat env (TopicsRequest c)) as [text|e].
  - exists w. split; [reflexivity|apply logs_only_refl].
  - eexists. split; [reflexivity|apply logs_only_line].
Qed.

Lemma generateResponse_reads (i : Interaction.t) (kb : list KnowledgeBase.t) (w : World) :
  exists w',
    AIService.generateResponse env i kb w
    = (Ok (draft_read env
             (chat env (ResponseRequest (AIService.kbContext kb) (content i) (platform i)
                          (AIService.sentiment_or_unknown (sentiment i))))), w')
    /\ logs_only w w'.
Proof.
  unfold AIService.generateResponse, try_catch, bind, AIService.post, lift, draft_read.
  destruct (chat env _) as [text|e].
  - exists w. split; [reflexivity|apply logs_only_refl].
  - eexists. split; [reflexivity|apply logs_only_line].
Qed.

(** The enrichment, stage by stage: every field is the reading of the
    answer to the request of its own stage, whatever the other stages
    did. *)
Lemma enrich_reads (i : Interaction.t) (w : World) :
  let kb := firstn 10 (JS.sort ProcessAI.by_weight_desc
                         (filter (ProcessAI.is_training_entry (organization i))
                                 (knowledge w))) in
  let s := sentiment_read (chat env (SentimentRequest (content i))) in
  let draft := draft_read env (chat env (draft_request env i kb)) in
  exists i1 w1,
    ProcessAI.enrich env i w = (Ok (i1, draft), w1)
    /\ logs_only w w1
    /\ _id i1 = _id i
    /\ sentiment i1 = Some (AIService.sentiment s)
    /\ sentimentScore i1 = Some (AIService.sentimentScore s)
    /\ sentimentConfidence i1 = Some (AIService.sentimentConfidence s)
    /\ intent i1 = Some (intent_read (chat env (IntentRequest (content i))))
    /\ topics i1 = topics_read (chat env (TopicsRequest (content i)))
    /\ aiSuggestion i1 = match draft with
                         | Some r => Some r
                         | None => aiSuggestion i
                         end.
Proof.
  intros kb s draft. unfold ProcessAI.enrich.
  rewrite bind_log. cbv beta zeta.
  match goal with
  | |- context [bind (AIService.analyzeSentiment env ?c) _ ?w0] =>
      destruct (analyzeSentiment_reads c w0) as (w1 & H1 & L1)
  end.
  rewrite (bind_ok _ _ _ _ _ H1). cbv beta zeta.
  rewrite bind_log. cbv beta zeta.
  match goal with
  | |- context [bind (AIService.detectIntent env ?c) _ ?w0] =>
      destruct (detectIntent_reads c w0) as (w2 & H2 & L2)
  end.
  rewrite (bind_ok _ _ _ _ _ H2). cbv beta zeta.
  rewrite bind_log. cbv beta zeta.
  match goal with
  | |- context [bind (AIService.extractTopics env ?c) _ ?w0] =>
      destruct (extractTopics_reads c w0) as (w3 & H3 & L3)
  end.
  rewrite (bind_ok _ _ _ _ _ H3). cbv beta zeta.
  assert (Lkb : logs_only w w3).
  { eapply logs_only_trans; [apply logs_only_line|].
    eapply logs_only_trans; [exact L1|].
    eapply logs_only_trans; [apply logs_only_line|].
    eapply logs_only_trans; [exact L2|].
    eapply logs_only_trans; [apply logs_only_line|exact L3]. }
  match goal with
  | |- context [bind (ProcessAI.findKnowledgeBase env ?o) _ w3] =>
      rewrite (bind_ok _ _ _ _ _ (findKnowledgeBase_run o w3))
  end.
  destruct (logs_only_frame _ _ Lkb) as (_ & _ & _ & Hknow & _).
  cbn [organization Interaction.set_topics Interaction.set_intent
       Interaction.set_sentimentResult].
  rewrite Hknow. fold kb.
  cbv beta zeta. rewrite bind_log. cbv beta zeta.
  match goal with
  | |- context [bind (AIService.generateResponse env ?j ?k) _ ?w0] =>
      destruct (generateResponse_reads j k w0) as (w4 & H4 & L4)
  end.
  rewrite (bind_ok _ _ _ _ _ H4). cbv beta zeta.
  cbn [content platform sentiment Interaction.set_topics Interaction.set_intent
       Interaction.set_sentimentResult].
  rewrite (sentiment_read_truthy (chat env (SentimentRequest (content i)))).
  change (chat env (ResponseRequest (AIService.kbContext kb) (content i)
                      (platform i)
                      (AIService.sentiment
                         (sentiment_read (chat env (SentimentRequest (content i)))))))
    with (chat env (draft_request env i kb)).
  fold draft. unfold ret.
  do 2 eexists. split; [reflexivity|].
  split.
  { eapply logs_only_trans; [exact Lkb|].
    eapply logs_only_trans; [apply logs_only_line|exact L4]. }
  destruct draft; repeat split.
Qed.

(** C3, as amended. While the database answers, the job completes for
    every stored interaction, whatever the provider does: the enriched
    document is stored under the same identifier and the routing step is
    reached. Every stage runs, and the field of each stage is the reading
    of the answer to its own request, whatever the other stages did: a
    sentiment, intent or topics stage whose call fails leaves its default
    (neutral with score 0, other, no topics); a draft stage whose call
    fails writes nothing, so the suggestion the interaction carried before
    the run, none for a newly ingested one, is what it carries after, and
    the interaction goes to assignment. *)
Theorem C3_stage_failure_isolated (id : ObjectId) (i : Interaction.t) (w : World) :
  find (has_id id) (interactions w) = Some i ->
  exists i' w' kb lines,
    ProcessAI.processAI env id w
    = (Ok (ProcessAI.mkJobResult true id (sentiment i') (autoReplyEligible i')), w')
    /\ _id i' = Some id
    /\ In i' (interactions w')
    /\ console w' = console w ++ lines
    /\ (exists l, In l lines /\ routing_line l)
    /\ (let s := sentiment_read (chat env (SentimentRequest (content i))) in
        sentiment i' = Some (AIService.sentiment s)
        /\ sentimentScore i' = Some (AIService.sentimentScore s)
        /\ sentimentConfidence i' = Some (AIService.sentimentConfidence s))
    /\ intent i' = Some (intent_read (chat env (IntentRequest (content i))))
    /\ topics i' = topics_read (chat env (TopicsRequest (content i)))
    /\ ProcessAI.findKnowledgeBase env (organization i) w = (Ok kb, w)
    /\ (let draft := draft_read env (chat env (draft_request env i kb)) in
        aiSuggestion i' = match draft with
                          | Some r => Some r
                          | None => aiSuggestion i
                          end
        /\ (draft = None -> In (Log "Assigning to agent...") lines))
    /\ (fails env SentimentStage ->
        sentiment i' = Some "neutral"
        /\ sentimentScore i' = Some 0%float
        /\ sentimentConfidence i' = Some 0.5%float)
    /\ (fails env IntentStage -> intent i' = Some "other")
    /\ (fails env TopicsStage -> topics i' = [])
    /\ (fails env DraftStage ->
        aiSuggestion i' = aiSuggestion i
        /\ (aiSuggestion i = None -> aiSuggestion i' = None)
        /\ In (Log "Assigning to agent...") lines)
    /\ (exists s, sentiment i' = Some s /\ In s ["positive"; "negative"; "neutral"])
    /\ (exists t, intent i' = Some t /\ In t ("other" :: AIService.validIntents)).
Proof.
  intros Hfound.
  destruct (find_has_id_in _ _ _ Hfound) as [Hid Hstored].
  unfold ProcessAI.processAI, try_catch.
  rewrite bind_log. cbv beta.
  unfold Interaction_findById, Interaction_findOne. rewrite db_up by assumption.
  match goal with
  | |- context [bind ?m _ ?w0] => rewrite (bind_ok m _ w0 _ _ eq_refl)
  end.
  cbn [interactions with_console]. rewrite Hfound.
  match goal with
  | |- context [bind (ProcessAI.enrich env i) _ ?w0] =>
      destruct (enrich_reads i w0)
        as (i1 & w1 & H1 & L1 & Hid1 & Rs & Rc & Rf & Ri & Rt & Rd);
      destruct (enrich_run i w0)
        as (i1' & ai' & w1' & H1' & _ & _ & Fs & Fi & Ft & Fd & Ps & Pi & _)
  end.
  rewrite H1 in H1'. injection H1' as <- <- <-.
  cbn [knowledge with_console] in H1, Rd.
  set (kb := firstn 10 (JS.sort ProcessAI.by_weight_desc
                          (filter (ProcessAI.is_training_entry (organization i))
                                  (knowledge w)))) in *.
  set (draft := draft_read env (chat env (draft_request env i kb))) in *.
  rewrite (bind_ok _ _ _ _ _ H1). cbn [fst snd].
  destruct (route_frame env storage_up i1 draft w1)
    as (i2 & w2 & H2 & Hsame & Hids & lines & Hcon & Hline & Hnone).
  rewrite (bind_ok _ _ _ _ _ H2).
  unfold Interaction_save. rewrite db_up by assumption.
  match goal with
  | |- context [bind ?m _ w2] => rewrite (bind_ok m _ w2 _ _ eq_refl)
  end.
  rewrite bind_log. unfold ret.
  destruct Hsame as (E1 & E2 & E3 & E4 & E5 & E6 & E7 & E8).
  destruct L1 as [l1 Hl1].
  assert (Hint1 : interactions w1 = interactions w) by (rewrite Hl1; reflexivity).
  exists i2. eexists. exists kb.
  exists ([Log ("Processing AI for interaction: " ++ JS.show id)%string] ++ l1 ++ lines
          ++ [Log ("AI processing completed for interaction: " ++ JS.show id)%string]).
  split; [reflexivity|].
  split; [congruence|].
  split.
  { cbn. apply update_first_stored with (id := id); [congruence|].
    rewrite Hids, Hint1. exact Hstored. }
  split.
  { cbn. rewrite Hcon, Hl1. cbn. rewrite <- !app_assoc. reflexivity. }
  assert (Hlines : forall l, In l lines ->
            In l ([Log ("Processing AI for interaction: " ++ JS.show id)%string]
                  ++ l1 ++ lines
                  ++ [Log ("AI processing completed for interaction: "
                           ++ JS.show id)%string])).
  { intros l Hl. apply in_or_app. right. apply in_or_app. right.
    apply in_or_app. left. exact Hl. }
  split.
  { destruct Hline as (l & Hl & Hr). exists l. split; [apply Hlines; exact Hl|exact Hr]. }
  split; [cbv zeta; rewrite <- E2, <- E3, <- E4; repeat split; assumption|].
  split; [rewrite <- E5; exact Ri|].
  split; [rewrite <- E6; exact Rt|].
  split; [apply findKnowledgeBase_run|].
  split.
  { cbv zeta. fold draft. split; [rewrite <- E7; exact Rd|].
    intros Hd. apply Hlines. apply Hnone. exact Hd. }
  split; [intros Hf; rewrite <- E2, <- E3, <- E4; auto|].
  split; [intros Hf; rewrite <- E5; auto|].
  split; [intros Hf; rewrite <- E6; auto|].
  split.
  { intros Hf. destruct (Fd Hf) as [Hnone' Hsug].
    split; [congruence|]. split; [congruence|].
    apply Hlines. apply Hnone. exact Hnone'. }
  split; [rewrite <- E2; exact Ps|rewrite <- E5; exact Pi].
Qed.
End Enrichment.

Lemma draft_down_fails : fails Scenario.draft_down DraftStage.
Proof.
  intros r Hr. exists Scenario.network_error.
  destruct r; try discriminate. reflexivity.
Qed.

Lemma C3_stage_failure_isolated_witness :
  storageUp Scenario.draft_down = true
  /\ find (has_id 104) (interactions Scenario.busy_office) = Some Scenario.newcomer
  /\ fails Scenario.draft_down DraftStage
  /\ exists i' w',
       ProcessAI.processAI Scenario.draft_down 104 Scenario.busy_office
       = (Ok (ProcessAI.mkJobResult true 104 (Interaction.sentiment i')
                (Interaction.autoReplyEligible i')), w')
       /\ In i' (interactions w')
       /\ Interaction.aiSuggestion i' = None
       /\ In (Log "Assigning to agent...") (console w')
       /\ (exists s, Interaction.sentiment i' = Some s)
       /\ (exists t, Interaction.intent i' = Some t).
Proof.
  split; [reflexivity|]. split; [reflexivity|]. split; [exact draft_down_fails|].
  destruct (C3_stage_failure_isolated Scenario.draft_down eq_refl 104
              Scenario.newcomer Scenario.busy_office eq_refl)
    as (i' & w' & kb & lines & Hrun & _ & Hin & Hcon & _ & _ & _ & _ & _ & _
        & _ & _ & _ & Hd & (s & Hs & _) & (t & Ht & _)).
  destruct (Hd draft_down_fails) as (Hsug & _ & Hlog).
  exists i', w'. split; [exact Hrun|]. split; [exact Hin|].
  split; [exact Hsug|]. split; [rewrite Hcon; apply in_or_app; right; exact Hlog|].
  split; eauto.
Defined.

(** The same run, computed: the draft fails, the three other stages leave
    what the provider answered, and the interaction goes to agent B. *)
Example draft_failure_scenario :
  let r := ProcessAI.processAI Scenario.draft_down 104 Scenario.busy_office in
  fst r = Ok (ProcessAI.mkJobResult true 104 (Some "positive") (Some true))
  /\ map (fun d => (Interaction.sentiment d, Interaction.intent d,
                    Interaction.topics d, Interaction.aiSuggestion d,
                    Interaction.assignedTo d))
         (filter (has_id 104) (interactions (snd r)))
     = [(Some "positive", Some "praise", ["delivery"; "price"], None, Some 11)].
Proof. vm_compute. split; reflexivity. Qed.

(** C3, counterexample. The job runs twice on one interaction (a delivery
    that comes twice queues it twice). The first run stores a draft; in the
    second the draft stage fails and writes nothing, so the interaction
    keeps the draft of the first run: it is not left without a
    suggestion. *)
Lemma C3_stale_draft_kept :
  let first := ProcessAI.processAI Scenario.answering 104 Scenario.lone_office in
  let second := ProcessAI.processAI Scenario.draft_down 104 (snd first) in
  let draft := Suggestion.mk "Thank you for your message!" 0.8%float
                             (Scenario.noon - 60000) in
  fails Scenario.draft_down DraftStage
  /\ (exists res, fst first = Ok res)
  /\ map Interaction.aiSuggestion (interactions (snd first)) = [Some draft]
  /\ (exists res, fst second = Ok res)
  /\ map Interaction.aiSuggestion (interactions (snd second)) = [Some draft]
  /\ ~ failed_draft_leaves_none.
Proof.
  cbv zeta. split; [exact draft_down_fails|].
  split; [eexists; vm_compute; reflexivity|].
  split; [vm_compute; reflexivity|].
  split; [eexists; vm_compute; reflexivity|].
  split; [vm_compute; reflexivity|].
  intros H.
  set (w1 := snd (ProcessAI.processAI Scenario.answering 104 Scenario.lone_office)).
  destruct (ProcessAI.processAI Scenario.draft_down 104 w1)
    as [[res|e] w'] eqn:Hrun; [|vm_compute in Hrun; discriminate].
  destruct (find (has_id 104) (interactions w')) as [i'|] eqn:Hfind.
  - pose proof (H Scenario.draft_down 104 w1 w' res i'
                  eq_refl draft_down_fails Hrun Hfind) as Hnone.
    vm_compute in Hrun. injection Hrun as _ <-.
    vm_compute in Hfind. injection Hfind as <-. discriminate Hnone.
  - vm_compute in Hrun. injection Hrun as _ <-. vm_compute in Hfind. discriminate.
Qed.

(** ** The webhook endpoints always answer *)

Lemma appends_ret {A} (a : A) : appends (ret a).
Proof. intros w. exists []. cbn. rewrite app_nil_r. reflexivity. Qed.

Lemma appends_throw {A} (e : JsError) : appends (@throw A e).
Proof. intros w. exists []. cbn. rewrite app_nil_r. reflexivity. Qed.

Lemma appends_lift {A} (r : Result A) : appends (lift r).
Proof. intros w. exists []. cbn. rewrite app_nil_r. reflexivity. Qed.

Lemma appends_console_log (text : string) : appends (console_log text).
Proof. intros w. eexists. reflexivity. Qed.

Lemma appends_console_error (text detail : string) :
  appends (console_error text detail).
Proof. intros w. eexists. reflexivity. Qed.

Lemma appends_bind {A B} (m : M A) (k : A -> M B) :
  appends m -> (forall a, appends (k a)) -> appends (bind m k).
Proof.
  intros Hm Hk w. unfold bind. destruct (Hm w) as [l1 H1].
  destruct (m w) as [[a|e] w1]; cbn [snd] in *.
  - destruct (Hk a w1) as [l2 H2]. exists (l1 ++ l2).
    rewrite H2, H1, app_assoc. reflexivity.
  - exists l1. exact H1.
Qed.

Lemma appends_try_catch {A} (m : M A) (h : JsError -> M A) :
  appends m -> (forall e, appends (h e)) -> appends (try_catch m h).
Proof.
  intros Hm Hh w. unfold try_catch. destruct (Hm w) as [l1 H1].
  destruct (m w) as [[a|e] w1]; cbn [snd] in *.
  - exists l1. exact H1.
  - destruct (Hh e w1) as [l2 H2]. exists (l1 ++ l2).
    rewrite H2, H1, app_assoc. reflexivity.
Qed.

Lemma appends_db (env : Env) {A} (m : M A) : appends m -> appends (db env m).
Proof. intros Hm. unfold db. destruct (storageUp env); [exact Hm|apply appends_throw]. Qed.

Lemma appends_for_each {A B} (l : list A) (body : A -> M (list B)) :
  (forall x, appends (body x)) -> appends (for_each l body).
Proof.
  intros Hb. induction l as [|x l IH]; simpl.
  - apply appends_ret.
  - apply appends_bind; [apply Hb|]. intros bs.
    apply appends_bind; [exact IH|]. intros rest. apply appends_ret.
Qed.

Ltac appends :=
  repeat first
    [ apply appends_ret | apply appends_throw | apply appends_lift
    | apply appends_console_log | apply appends_console_error
    | apply appends_db; intros ?; exists []; cbn; rewrite app_nil_r; reflexivity
    | apply appends_for_each; intros ?
    | apply appends_try_catch; [|intros ?]
    | apply appends_bind; [|intros ?]
    | match goal with
      | |- appends (match ?x with _ => _ end) => destruct x
      | |- appends (if ?x then _ else _) => destruct x
      end ].

Section Acknowledgment.
Import WebhookController.
Variable env : Env.

Lemma appends_fetchReviews (c : PlatformConnection.t) (locationId : string) :
  appends (GoogleService.fetchReviews env c locationId).
Proof.
  unfold GoogleService.fetchReviews, GoogleService.process_review,
    Interaction_findOne, Interaction_insertMany.
  appends.
Qed.

Lemma appends_fetchVideoComments (c : PlatformConnection.t) (videoId : string) :
  appends (YouTubeService.fetchVideoComments env c videoId).
Proof.
  unfold YouTubeService.fetchVideoComments, YouTubeService.process_thread,
    YouTubeService.process_reply, Interaction_findOne, Interaction_insertMany.
  appends.
Qed.

(** The lookup of the connection leaves the world as it is. *)
Lemma PlatformConnection_findOne_same (q : PlatformConnection.t -> bool) (w : World) :
  snd (PlatformConnection_findOne env q w) = w.
Proof.
  unfold PlatformConnection_findOne, db. destruct (storageUp env); reflexivity.
Qed.

(** The block of an event: the adapter, then the job, whose name is
    undefined in the controller; its error is caught and logged. *)
Lemma event_block (fetch : M SyncResult) (text : string) (w : World) :
  appends fetch ->
  exists lines detail,
    try_catch (fetch ;;; processWebhook)
              (fun error => console_error text (message error)) w
    = (Ok tt, with_console (console w ++ lines ++ [LogError text detail])
                           (snd (fetch w)))
    /\ console (snd (fetch w)) = console w ++ lines
    /\ detail = match fetch w with
                | (Throw error, _) => message error
                | (Ok _, _) => "processWebhook is not a function"
                end.
Proof.
  intros Hfetch. destruct (Hfetch w) as [lines Hlines].
  unfold try_catch, bind, processWebhook.
  destruct (fetch w) as [[r|error] w2]; cbn [snd] in *.
  - exists lines. eexists. split; [|split; [exact Hlines|reflexivity]].
    cbn. unfold console_error. rewrite Hlines, <- app_assoc. reflexivity.
  - exists lines, (message error). split; [|split; [exact Hlines|reflexivity]].
    cbn. unfold console_error. rewrite Hlines, <- app_assoc. reflexivity.
Qed.

(** The answer of each endpoint: its status, the lines it wrote, and the
    internal failures among them. *)
Lemma handleGoogleWebhook_answer (req : Request GoogleEvent) (w : World) :
  exists resp w' lines,
    handleGoogleWebhook env req w = (Ok resp, w')
    /\ console w' = console w ++ lines
    /\ statusCode resp = status_for req
    /\ (statusCode resp = 200 -> success resp = false ->
        exists detail, In (LogError "Google webhook error:" detail) lines)
    /\ google_failures_logged env req w lines.
Proof.
  unfold handleGoogleWebhook, google_failures_logged, status_for, try_catch at 1.
  destruct (body req) as [[msg|]|].
  - destruct (data msg) as [e|] eqn:Hdata.
    + unfold bind at 1.
      pose proof (PlatformConnection_findOne_same
                    (is_google_connection (locationId e)) w) as Hsame.
      destruct (PlatformConnection_findOne env _ w) as [[[c|]|error] w1] eqn:Hfind;
        cbn [snd] in Hsame; subst w1.
      * unfold bind at 1.
        destruct (JS.strict_eq (g_eventType e) "NEW_REVIEW"
                  || JS.strict_eq (g_eventType e) "UPDATE_REVIEW") eqn:Hevent.
        -- destruct (event_block (GoogleService.fetchReviews env c (locationId e))
                       "Error processing Google webhook:" w
                       (appends_fetchReviews c (locationId e)))
             as (lines & detail & Hrun & Hlines & Hdetail).
           rewrite Hrun.
           do 2 eexists. exists (lines ++ [LogError "Error processing Google webhook:"
                                                    detail]).
           split; [reflexivity|]. split; [reflexivity|]. split; [reflexivity|].
           split; [discriminate|].
           intros msg0 [= <-]. rewrite Hdata, Hfind. intros _. subst detail.
           destruct (GoogleService.fetchReviews env c (locationId e) w) as [[r|error] w2];
             apply in_or_app; right; left; reflexivity.
        -- do 2 eexists. exists []. split; [reflexivity|].
           split; [rewrite app_nil_r; reflexivity|]. split; [reflexivity|].
           split; [discriminate|].
           intros msg0 [= <-]. rewrite Hdata, Hfind. intros Hno. congruence.
      * do 3 eexists. split; [reflexivity|]. split; [reflexivity|].
        split; [reflexivity|]. split; [discriminate|].
        intros msg0 [= <-]. rewrite Hdata, Hfind. left. reflexivity.
      * do 3 eexists. split; [reflexivity|]. split; [reflexivity|].
        split; [reflexivity|]. split; [intros _ _; eexists; left; reflexivity|].
        intros msg0 [= <-]. rewrite Hdata, Hfind. left. reflexivity.
    + do 3 eexists. split; [reflexivity|]. split; [reflexivity|].
      split; [reflexivity|]. split; [intros _ _; eexists; left; reflexivity|].
      intros msg0 [= <-]. rewrite Hdata. eexists. left. reflexivity.
  - do 2 eexists. exists []. split; [reflexivity|].
    split; [rewrite app_nil_r; reflexivity|]. split; [reflexivity|].
    split; [discriminate|]. intros msg0. discriminate.
  - do 3 eexists. split; [reflexivity|]. split; [reflexivity|].
    split; [reflexivity|]. split; [intros _ _; eexists; left; reflexivity|].
    intros msg0. discriminate.
Qed.

Lemma handleYouTubeWebhook_answer (req : Request YouTubeEvent) (w : World) :
  exists resp w' lines,
    handleYouTubeWebhook env req w = (Ok resp, w')
    /\ console w' = console w ++ lines
    /\ statusCode resp = status_for req
    /\ (statusCode resp = 200 -> success resp = false ->
        exists detail, In (LogError "YouTube webhook error:" detail) lines)
    /\ youtube_failures_logged env req w lines.
Proof.
  unfold handleYouTubeWebhook, youtube_failures_logged, status_for, try_catch at 1.
  destruct (body req) as [[msg|]|].
  - destruct (data msg) as [e|] eqn:Hdata.
    + unfold bind at 1.
      pose proof (PlatformConnection_findOne_same is_youtube_connection w) as Hsame.
      destruct (PlatformConnection_findOne env _ w) as [[[c|]|error] w1] eqn:Hfind;
        cbn [snd] in Hsame; subst w1.
      * unfold bind at 1.
        destruct (JS.strict_eq (y_eventType e) "NEW_COMMENT"
                  || JS.strict_eq (y_eventType e) "UPDATE_COMMENT") eqn:Hevent.
        -- destruct (event_block (YouTubeService.fetchVideoComments env c (videoId e))
                       "Error processing YouTube webhook:" w
                       (appends_fetchVideoComments c (videoId e)))
             as (lines & detail & Hrun & Hlines & Hdetail).
           rewrite Hrun.
           do 2 eexists. exists (lines ++ [LogError "Error processing YouTube webhook:"
                                                    detail]).
           split; [reflexivity|]. split; [reflexivity|]. split; [reflexivity|].
           split; [discriminate|].
           intros msg0 [= <-]. rewrite Hdata. intros _. subst detail.
           destruct (YouTubeService.fetchVideoComments env c (videoId e) w)
             as [[r|error] w2];
             apply in_or_app; right; left; reflexivity.
        -- do 2 eexists. exists []. split; [reflexivity|].
           split; [rewrite app_nil_r; reflexivity|]. split; [reflexivity|].
           split; [discriminate|].
           intros msg0 [= <-]. rewrite Hdata. intros Hno. congruence.
      * do 3 eexists. split; [reflexivity|]. split; [reflexivity|].
        split; [reflexivity|]. split; [discriminate|].
        intros msg0 [= <-]. rewrite Hdata. left. reflexivity.
      * do 3 eexists. split; [reflexivity|]. split; [reflexivity|].
        split; [reflexivity|]. split; [intros _ _; eexists; left; reflexivity|].
        intros msg0 [= <-]. rewrite Hdata. left. reflexivity.
    + do 3 eexists. split; [reflexivity|]. split; [reflexivity|].
      split; [reflexivity|]. split; [intros _ _; eexists; left; reflexivity|].
      intros msg0 [= <-]. rewrite Hdata. eexists. left. reflexivity.
  - do 2 eexists. exists []. split; [reflexivity|].
    split; [rewrite app_nil_r; reflexivity|]. split; [reflexivity|].
    split; [discriminate|]. intros msg0. discriminate.
  - do 3 eexists. split; [reflexivity|]. split; [reflexivity|].
    split; [reflexivity|]. split; [intros _ _; eexists; left; reflexivity|].
    intros msg0. discriminate.
Qed.
End Acknowledgment.

(** C6, as amended. Every delivery is answered, whatever the state of the
    database, of the platform API and of the payload: with 400 when the body
    carries no message, and with 200 in every other case, internal failures
    included. Every internal failure is among the lines the endpoint wrote
    on the console: message data that cannot be decoded and a failing
    lookup of the connection (answered with [success: false]), a missing
    connection, and, for a review or comment event, the error of the
    adapter (a persistence error inside it included) or, when the adapter
    returns, the error of the call that should queue the job. *)
Theorem C6_webhook_acknowledged (env : Env) (w : World) :
  (forall req, exists resp w' lines,
      WebhookController.handleGoogleWebhook env req w = (Ok resp, w')
      /\ console w' = console w ++ lines
      /\ WebhookController.statusCode resp = status_for req
      /\ (WebhookController.statusCode resp = 200 ->
          WebhookController.success resp = false ->
          exists detail, In (LogError "Google webhook error:" detail) lines)
      /\ google_failures_logged env req w lines)
  /\ (forall req, exists resp w' lines,
         WebhookController.handleYouTubeWebhook env req w = (Ok resp, w')
         /\ console w' = console w ++ lines
         /\ WebhookController.statusCode resp = status_for req
         /\ (WebhookController.statusCode resp = 200 ->
             WebhookController.success resp = false ->
             exists detail, In (LogError "YouTube webhook error:" detail) lines)
         /\ youtube_failures_logged env req w lines).
Proof.
  split; intros req.
  - apply handleGoogleWebhook_answer.
  - apply handleYouTubeWebhook_answer.
Qed.

(** C6, counterexample. A delivery whose body has no message is answered
    with 400, not with a success. *)
Lemma C6_missing_message_rejected :
  ~ always_acknowledged
  /\ forall env w,
       WebhookController.handleGoogleWebhook env Scenario.empty_delivery w
       = (Ok (WebhookController.mkResponse 400 false (Some "Invalid webhook payload")), w).
Proof.
  split.
  - intros H.
    destruct (H Scenario.offline Scenario.empty_delivery (Scenario.world [] []))
      as (resp & w' & Hrun & Hlo & Hhi).
    vm_compute in Hrun. injection Hrun as <- _. vm_compute in Hhi. lia.
  - reflexivity.
Qed.

(** Three internal failures, run: the reviews API is unreachable, no
    connection matches the location, the database does not answer. Each is
    logged, and each delivery is answered with 200. *)
Example webhook_failure_scenarios :
  let run env w :=
    match WebhookController.handleGoogleWebhook env Scenario.review_delivery w with
    | (Ok resp, w') => (WebhookController.statusCode resp, console w')
    | (Throw _, w') => (0, console w')
    end in
  run Scenario.offline Scenario.connected_office
  = (200, [LogError "Error fetching reviews:" "timeout of 30000ms exceeded";
           LogError "Error processing Google webhook:"
                    "Failed to fetch reviews: timeout of 30000ms exceeded"])
  /\ run Scenario.offline (Scenario.world [] [])
     = (200, [Log "No active connection found for location L1"])
  /\ run Scenario.storage_down Scenario.connected_office
     = (200, [LogError "Google webhook error:" "connection to the database failed"]).
Proof. vm_compute. repeat split. Qed.

(** ** Sync runs and the statistics of the connection *)

Lemma keeps_ret {A} (a : A) : keeps_connections (ret a).
Proof. intros w. split; reflexivity. Qed.

Lemma keeps_throw {A} (e : JsError) : keeps_connections (@throw A e).
Proof. intros w. split; reflexivity. Qed.

Lemma keeps_lift {A} (r : Result A) : keeps_connections (lift r).
Proof. intros w. split; reflexivity. Qed.

Lemma keeps_bind {A B} (m : M A) (k : A -> M B) :
  keeps_connections m -> (forall a, keeps_connections (k a)) ->
  keeps_connections (bind m k).
Proof.
  intros Hm Hk w. unfold bind. specialize (Hm w).
  destruct (m w) as [[a|e] w1]; cbn [snd] in *.
  - destruct (Hk a w1) as [H1 H2]. destruct Hm as [G1 G2]. split; congruence.
  - exact Hm.
Qed.

Lemma keeps_try_catch {A} (m : M A) (h : JsError -> M A) :
  keeps_connections m -> (forall e, keeps_connections (h e)) ->
  keeps_connections (try_catch m h).
Proof.
  intros Hm Hh w. unfold try_catch. specialize (Hm w).
  destruct (m w) as [[a|e] w1]; cbn [snd] in *.
  - exact Hm.
  - destruct (Hh e w1) as [H1 H2]. destruct Hm as [G1 G2]. split; congruence.
Qed.

Lemma keeps_console_log (text : string) : keeps_connections (console_log text).
Proof. intros w. split; reflexivity. Qed.

Lemma keeps_console_error (text detail : string) :
  keeps_connections (console_error text detail).
Proof. intros w. split; reflexivity. Qed.

Lemma keeps_db (env : Env) {A} (m : M A) :
  keeps_connections m -> keeps_connections (db env m).
Proof. intros Hm. unfold db. destruct (storageUp env); [exact Hm|apply keeps_throw]. Qed.

Lemma keeps_for_each {A B} (l : list A) (body : A -> M (list B)) :
  (forall x, keeps_connections (body x)) -> keeps_connections (for_each l body).
Proof.
  intros Hb. induction l as [|x l IH]; simpl.
  - apply keeps_ret.
  - apply keeps_bind; [apply Hb|]. intros bs.
    apply keeps_bind; [exact IH|]. intros rest. apply keeps_ret.
Qed.

Lemma returns_for_each {A B} (l : list A) (body : A -> M (list B)) :
  (forall x, returns (body x)) -> returns (for_each l body).
Proof.
  intros Hb. induction l as [|x l IH]; simpl; intros w.
  - eexists. reflexivity.
  - unfold bind. destruct (Hb x w) as [bs Hx].
    destruct (body x w) as [r w1]. cbn [fst] in Hx. subst r.
    destruct (IH w1) as [rest Hr].
    destruct (for_each l body w1) as [r w2]. cbn [fst] in Hr. subst r.
    eexists. reflexivity.
Qed.

Lemma returns_caught {A} (m : M A) (h : JsError -> M A) :
  (forall e, returns (h e)) -> returns (try_catch m h).
Proof.
  intros Hh w. unfold try_catch. destruct (m w) as [[a|e] w1].
  - eexists. reflexivity.
  - apply Hh.
Qed.

Ltac keeps :=
  repeat first
    [ apply keeps_ret | apply keeps_throw | apply keeps_lift
    | apply keeps_console_log | apply keeps_console_error
    | apply keeps_db; intros ?; split; reflexivity
    | apply keeps_for_each; intros ?
    | apply keeps_try_catch; [|intros ?]
    | apply keeps_bind; [|intros ?]
    | match goal with
      | |- keeps_connections (match ?x with _ => _ end) => destruct x
      | |- keeps_connections (if ?x then _ else _) => destruct x
      end ].

Section Sync.
Import PlatformConnection.
Variable env : Env.

Lemma keeps_findOne (q : Interaction.t -> bool) :
  keeps_connections (Interaction_findOne env q).
Proof. unfold Interaction_findOne. keeps. Qed.

Lemma keeps_insertMany (l : list Interaction.t) :
  keeps_connections (Interaction_insertMany env l).
Proof. unfold Interaction_insertMany. keeps. Qed.

Lemma keeps_fetchReviews (c : t) (locationId : string) :
  keeps_connections (GoogleService.fetchReviews env c locationId).
Proof.
  unfold GoogleService.fetchReviews, GoogleService.process_review.
  keeps; try apply keeps_findOne; apply keeps_insertMany.
Qed.

Lemma keeps_fetchVideoComments (c : t) (videoId : string) :
  keeps_connections (YouTubeService.fetchVideoComments env c videoId).
Proof.
  unfold YouTubeService.fetchVideoComments, YouTubeService.process_thread,
    YouTubeService.process_reply.
  keeps; try apply keeps_findOne; apply keeps_insertMany.
Qed.

Hypothesis storage_up : storageUp env = true.

(** A loop whose rounds catch their errors runs to its end and leaves the
    connections alone. *)
Lemma sync_loop {A B} (l : list A) (body : A -> M (list B)) (w : World) :
  (forall x, keeps_connections (body x)) ->
  (forall x, returns (body x)) ->
  exists results w1,
    for_each l body w = (Ok results, w1)
    /\ connections w1 = connections w
    /\ connectionSaves w1 = connectionSaves w.
Proof.
  intros Hk Hr.
  destruct (returns_for_each l body Hr w) as [results Hres].
  destruct (keeps_for_each l body Hk w) as [Hc Hs].
  destruct (for_each l body w) as [r w1]. cbn [fst snd] in *. subst r.
  exists results, w1. auto.
Qed.

Lemma process_location_returns (c : t) (locationId : string) :
  returns (GoogleService.process_location env c locationId).
Proof.
  apply returns_caught. intros e w. eexists. reflexivity.
Qed.

Lemma process_video_returns (c : t) (video : YouTube.Video) :
  returns (YouTubeService.process_video env c video).
Proof.
  apply returns_caught. intros e w. eexists. reflexivity.
Qed.

Lemma keeps_process_location (c : t) (locationId : string) :
  keeps_connections (GoogleService.process_location env c locationId).
Proof.
  unfold GoogleService.process_location. keeps; apply keeps_fetchReviews.
Qed.

Lemma keeps_process_video (c : t) (video : YouTube.Video) :
  keeps_connections (YouTubeService.process_video env c video).
Proof.
  unfold YouTubeService.process_video. keeps; apply keeps_fetchVideoComments.
Qed.

Lemma updateSyncStats_run (c : t) (count : Z) (success : bool) (w : World) :
  exists w',
    ConnectionMethods.updateSyncStats env c count success w
    = (Ok (ConnectionMethods.syncStats (now env) count success c), w')
    /\ connectionSaves w'
       = connectionSaves w ++ [ConnectionMethods.syncStats (now env) count success c].
Proof.
  unfold ConnectionMethods.updateSyncStats, PlatformConnection_save, bind.
  rewrite db_up by assumption. eexists. split; reflexivity.
Qed.

Lemma logError_run (c : t) (error : JsError) (w : World) :
  exists w',
    ConnectionMethods.logError env c error w
    = (Ok (ConnectionMethods.errorLogged (now env) error c), w')
    /\ connectionSaves w'
       = connectionSaves w ++ [ConnectionMethods.errorLogged (now env) error c].
Proof.
  unfold ConnectionMethods.logError, PlatformConnection_save, bind.
  rewrite db_up by assumption. eexists. split; reflexivity.
Qed.

(** A sync run over the locations of a Google connection that has some. *)
Lemma fetchAllReviews_run (c : t) (l : list string) (w : World) :
  locationIds c = Some l -> l <> [] ->
  exists r w',
    GoogleService.fetchAllReviews env c w = (Ok r, w')
    /\ sync_success r = true
    /\ connectionSaves w'
       = connectionSaves w
         ++ [ConnectionMethods.syncStats (now env) (Z.of_nat (sync_count r)) true c].
Proof.
  intros Hl Hne. unfold GoogleService.fetchAllReviews, try_catch. rewrite Hl.
  destruct l as [|l0 l']; [congruence|].
  destruct (sync_loop (l0 :: l') (GoogleService.process_location env c) w
              (keeps_process_location c) (process_location_returns c))
    as (results & w1 & Hloop & _ & Hs).
  rewrite (bind_ok _ _ _ _ _ Hloop). cbv zeta.
  destruct (updateSyncStats_run c (Z.of_nat (total_count results)) true w1)
    as (w2 & Hrun & Hsaves).
  rewrite (bind_ok _ _ _ _ _ Hrun).
  do 2 eexists. split; [reflexivity|]. split; [reflexivity|].
  cbn [sync_count]. rewrite Hsaves, Hs. reflexivity.
Qed.

(** A sync run over a Google connection without locations returns at once
    and writes nothing. *)
Lemma fetchAllReviews_nothing (c : t) (w : World) :
  locationIds c = None \/ locationIds c = Some [] ->
  GoogleService.fetchAllReviews env c w = (Ok (mkSyncResult true 0 []), w).
Proof.
  intros [H|H]; unfold GoogleService.fetchAllReviews, try_catch; rewrite H;
    reflexivity.
Qed.

(** A sync run over the videos of a channel whose list can be had. *)
Lemma fetchAllChannelComments_run (c : t) (ch : string) (videos : list YouTube.Video)
      (w : World) :
  channel_of c = Some ch ->
  YouTubeService.getChannelVideos env (accessToken c) ch = Ok videos ->
  exists r w',
    YouTubeService.fetchAllChannelComments env c w = (Ok r, w')
    /\ sync_success r = true
    /\ connectionSaves w'
       = connectionSaves w
         ++ [ConnectionMethods.syncStats (now env) (Z.of_nat (sync_count r)) true c].
Proof.
  unfold channel_of. intros Hch Hv.
  unfold YouTubeService.fetchAllChannelComments, try_catch.
  destruct (channelId c) as [ch'|]; [|discriminate].
  destruct (JS.truthy_string ch') eqn:Ht; [|discriminate].
  injection Hch as ->. cbn [negb].
  rewrite Hv.
  match goal with
  | |- context [bind (lift (Ok videos)) ?k w] =>
      rewrite (bind_ok (lift (Ok videos)) k w w videos eq_refl)
  end.
  destruct (sync_loop videos (YouTubeService.process_video env c) w
              (keeps_process_video c) (process_video_returns c))
    as (results & w1 & Hloop & _ & Hs).
  rewrite (bind_ok _ _ _ _ _ Hloop). cbv zeta.
  destruct (updateSyncStats_run c (Z.of_nat (total_count results)) true w1)
    as (w2 & Hrun & Hsaves).
  rewrite (bind_ok _ _ _ _ _ Hrun).
  do 2 eexists. split; [reflexivity|]. split; [reflexivity|].
  cbn [sync_count]. rewrite Hsaves, Hs. reflexivity.
Qed.

(** A YouTube sync run fails when the connection has no channel or the list
    of the channel's videos cannot be had; the error is recorded in one
    write and thrown again. *)
Lemma fetchAllChannelComments_failed (c : t) (w : World) (error : JsError) :
  sync_failure env c = Some error ->
  exists w',
    YouTubeService.fetchAllChannelComments env c w = (Throw error, w')
    /\ connectionSaves w'
       = connectionSaves w ++ [ConnectionMethods.errorLogged (now env) error c].
Proof.
  unfold sync_failure, channel_of. intros Hf.
  unfold YouTubeService.fetchAllChannelComments, try_catch.
  destruct (channelId c) as [ch|].
  - destruct (JS.truthy_string ch); cbn [negb].
    + destruct (YouTubeService.getChannelVideos env (accessToken c) ch)
        as [videos|e] eqn:Hv;
        [discriminate|].
      injection Hf as ->.
      cbn [lift bind].
      destruct (logError_run c error w) as (w' & Hrun & Hs).
      rewrite (bind_ok _ _ _ _ _ Hrun). eexists. split; [reflexivity|exact Hs].
    + injection Hf as <-. cbn [throw].
      destruct (logError_run c (mkError "Channel ID not found in platform connection" None) w)
        as (w' & Hrun & Hs).
      rewrite (bind_ok _ _ _ _ _ Hrun). eexists. split; [reflexivity|exact Hs].
  - injection Hf as <-. cbn [throw].
    destruct (logError_run c (mkError "Channel ID not found in platform connection" None) w)
      as (w' & Hrun & Hs).
    rewrite (bind_ok _ _ _ _ _ Hrun). eexists. split; [reflexivity|exact Hs].
Qed.

(** C7, as amended. A sync run that reaches the end of its loop writes the
    statistics of the connection exactly once, however many of its fetches
    failed: failure counter 0, status connected, the count added to the
    total. A YouTube run that fails before its loop writes once too: status
    error and the error recorded. A Google run over a connection without
    locations returns success and writes nothing. *)
Theorem C7_sync_statistics (c : t) (w : World) :
  (forall l, locationIds c = Some l -> l <> [] ->
     exists r w' c',
       GoogleService.fetchAllReviews env c w = (Ok r, w')
       /\ connectionSaves w' = connectionSaves w ++ [c']
       /\ updated_on_success (now env) c (sync_count r) c')
  /\ (forall ch videos,
        channel_of c = Some ch ->
        YouTubeService.getChannelVideos env (accessToken c) ch = Ok videos ->
        exists r w' c',
          YouTubeService.fetchAllChannelComments env c w = (Ok r, w')
          /\ connectionSaves w' = connectionSaves w ++ [c']
          /\ updated_on_success (now env) c (sync_count r) c')
  /\ (forall error,
        sync_failure env c = Some error ->
        exists w' c',
          YouTubeService.fetchAllChannelComments env c w = (Throw error, w')
          /\ connectionSaves w' = connectionSaves w ++ [c']
          /\ updated_on_failure (now env) error c')
  /\ (locationIds c = None \/ locationIds c = Some [] ->
      GoogleService.fetchAllReviews env c w = (Ok (mkSyncResult true 0 []), w)).
Proof.
  split; [|split; [|split]].
  - intros l Hl Hne.
    destruct (fetchAllReviews_run c l w Hl Hne) as (r & w' & Hrun & _ & Hs).
    do 3 eexists. split; [exact Hrun|]. split; [exact Hs|]. repeat split.
  - intros ch videos Hch Hv.
    destruct (fetchAllChannelComments_run c ch videos w Hch Hv)
      as (r & w' & Hrun & _ & Hs).
    do 3 eexists. split; [exact Hrun|]. split; [exact Hs|]. repeat split.
  - intros error Hf.
    destruct (fetchAllChannelComments_failed c w error Hf) as (w' & Hrun & Hs).
    do 2 eexists. split; [exact Hrun|]. split; [exact Hs|].
    split; [reflexivity|]. eexists. repeat split.
  - apply fetchAllReviews_nothing.
Qed.
End Sync.

Lemma C7_sync_statistics_witness :
  storageUp Scenario.offline = true
  /\ PlatformConnection.locationIds Scenario.google_connection = Some ["L1"]
  /\ sync_failure Scenario.offline Scenario.youtube_connection
     = Some Scenario.videos_error
  /\ (exists r w' c',
        GoogleService.fetchAllReviews Scenario.offline Scenario.google_connection
                                      Scenario.connected_office = (Ok r, w')
        /\ connectionSaves w' = [c']
        /\ PlatformConnection.failedSyncAttempts c' = 0%Z
        /\ PlatformConnection.status c' = "connected")
  /\ (exists w' c',
        YouTubeService.fetchAllChannelComments Scenario.offline
          Scenario.youtube_connection Scenario.connected_office
        = (Throw Scenario.videos_error, w')
        /\ connectionSaves w' = [c']
        /\ PlatformConnection.status c' = "error").
Proof.
  split; [reflexivity|]. split; [reflexivity|]. split; [reflexivity|].
  destruct (C7_sync_statistics Scenario.offline eq_refl Scenario.google_connection
              Scenario.connected_office) as (Hg & _).
  destruct (C7_sync_statistics Scenario.offline eq_refl Scenario.youtube_connection
              Scenario.connected_office) as (_ & _ & Hy & _).
  split.
  - destruct (Hg ["L1"] eq_refl) as (r & w' & c' & Hrun & Hs & Hf & Hst & _);
      [discriminate|].
    exists r, w', c'. auto.
  - destruct (Hy Scenario.videos_error eq_refl) as (w' & c' & Hrun & Hs & Hst & _).
    exists w', c'. auto.
Defined.

(** A YouTube sync run, computed: of the channel's two videos the first
    gives two drafts around a malformed thread and the second cannot be
    fetched; the run succeeds and writes the connection once. *)
Example channel_sync_scenario :
  let r := YouTubeService.fetchAllChannelComments Scenario.youtube_up
             Scenario.youtube_connection Scenario.connected_office in
  (match fst r with
   | Ok result => Some (sync_success result, sync_count result)
   | Throw _ => None
   end) = Some (true, 2)
  /\ map (fun c => (PlatformConnection.status c,
                    PlatformConnection.failedSyncAttempts c,
                    PlatformConnection.totalInteractionsSynced c,
                    PlatformConnection.lastSyncCount c))
         (connectionSaves (snd r))
     = [("connected", 0%Z, 9%Z, 2%Z)]
  /\ console (snd r)
     = [LogError "Error processing comment tb:"
                 "Cannot read properties of undefined (reading 'topLevelComment')";
        LogError "Error fetching video comments:" "timeout of 30000ms exceeded";
        LogError "Error fetching comments for video v2:"
                 "Failed to fetch video comments: timeout of 30000ms exceeded"].
Proof. vm_compute. repeat split. Qed.

(** C7, counterexample. A Google sync run over a connection without
    locations writes no statistics at all; and a failed YouTube run records
    its error and leaves the failure counter where it was. *)
Lemma C7_runs_without_update :
  ~ stats_written_once
  /\ ~ failure_counted
  /\ GoogleService.fetchAllReviews Scenario.offline Scenario.bare_connection
       Scenario.connected_office
     = (Ok (mkSyncResult true 0 []), Scenario.connected_office).
Proof.
  split; [|split].
  - intros H.
    destruct (H Scenario.offline Scenario.bare_connection Scenario.connected_office
                eq_refl) as [c' Hc].
    vm_compute in Hc. discriminate.
  - intros H.
    destruct (fetchAllChannelComments_failed Scenario.offline eq_refl
                Scenario.youtube_connection Scenario.connected_office
                Scenario.videos_error eq_refl) as (w' & Hrun & Hs).
    destruct (H Scenario.offline _ _ _ _ eq_refl Hrun) as (c' & Hc & Hn).
    rewrite Hs in Hc. apply app_inv_head in Hc. injection Hc as <-.
    vm_compute in Hn. discriminate.
  - reflexivity.
Qed.

(** ** Ingestion: reviews *)

Lemma find_app_left {A} (q : A -> bool) (l l' : list A) (x : A) :
  find q l = Some x -> find q (l ++ l') = Some x.
Proof.
  induction l as [|y l IH]; simpl; [discriminate|].
  destruct (q y); auto.
Qed.

Lemma find_some_in {A} (q : A -> bool) (l : list A) (x : A) :
  In x l -> q x = true -> find q l <> None.
Proof.
  intros Hin Hq Hnone. apply (find_none _ _ Hnone) in Hin. congruence.
Qed.

Lemma stamp_all_in (env : Env) (n : ObjectId) (l : list Interaction.t)
      (d : Interaction.t) :
  In d l -> exists k, In (Interaction.stamp k (now env) d) (stamp_all env n l).
Proof.
  revert n. induction l as [|x l IH]; intros n; simpl; [tauto|].
  intros [->|Hin].
  - exists n. left. reflexivity.
  - destruct (IH (S n) Hin) as [k Hk]. exists k. right. exact Hk.
Qed.

Section Reviews.
Variable env : Env.
Hypothesis storage_up : storageUp env = true.

Lemma reviews_loop (c : PlatformConnection.t) (locationId : string)
      (rs : list Google.Review) (w : World) :
  for_each rs (GoogleService.process_review env c locationId) w
  = (Ok (review_drafts c locationId w rs), w).
Proof.
  induction rs as [|r rs IH]; [reflexivity|].
  cbn [for_each]. unfold bind at 1.
  unfold GoogleService.process_review at 1, try_catch, bind at 1, Interaction_findOne.
  rewrite db_up by assumption.
  unfold review_drafts. cbn [flat_map]. fold (review_drafts c locationId w rs).
  destruct (find _ (interactions w)); cbn [ret]; unfold bind; rewrite IH; reflexivity.
Qed.

(** A fetch of reviews whose API call succeeds: the drafts of the reviews
    not stored yet are inserted, and counted. *)
Lemma fetchReviews_run (c : PlatformConnection.t) (locationId : string)
      (rs : list Google.Review) (w : World) :
  reviews env (PlatformConnection.accessToken c) locationId = Ok rs ->
  GoogleService.fetchReviews env c locationId w
  = (Ok (mkSyncResult true (List.length (review_drafts c locationId w rs))
                      (review_drafts c locationId w rs)),
     inserted env (review_drafts c locationId w rs) w).
Proof.
  intros Hapi. unfold GoogleService.fetchReviews, try_catch. rewrite Hapi.
  rewrite (bind_ok (lift (Ok rs)) _ w w rs eq_refl).
  rewrite (bind_ok _ _ _ _ _ (reviews_loop c locationId rs w)).
  unfold inserted.
  destruct (review_drafts c locationId w rs) as [|d ds]; [reflexivity|].
  unfold Interaction_insertMany. rewrite db_up by assumption. reflexivity.
Qed.

(** After a fetch, every review of the batch is carried by a stored
    document, so the same batch builds no draft. *)
Lemma review_drafts_after (c : PlatformConnection.t) (locationId : string)
      (rs : list Google.Review) (w : World) :
  review_drafts c locationId (inserted env (review_drafts c locationId w rs) w) rs = [].
Proof.
  set (ds := review_drafts c locationId w rs).
  assert (Hall : forall r, In r rs ->
             find (YouTubeService.by_platformId_org (Google.reviewId r)
                     (PlatformConnection.organization c))
                  (interactions (inserted env ds w)) <> None).
  { intros r Hr.
    destruct (find (YouTubeService.by_platformId_org (Google.reviewId r)
                      (PlatformConnection.organization c)) (interactions w))
      as [d|] eqn:Hf.
    - assert (Hkeep : find (YouTubeService.by_platformId_org (Google.reviewId r)
                              (PlatformConnection.organization c))
                        (interactions (inserted env ds w)) = Some d).
      { unfold inserted. destruct ds; [exact Hf|]. cbn. apply find_app_left. exact Hf. }
      rewrite Hkeep. discriminate.
    - assert (Hd : In (GoogleService.review_draft c locationId r) ds).
      { unfold ds, review_drafts. apply in_flat_map. exists r. split; [exact Hr|].
        rewrite Hf. left. reflexivity. }
      destruct (stamp_all_in env (nextId w) ds _ Hd) as [k Hk].
      apply find_some_in with (x := Interaction.stamp k (now env)
                                      (GoogleService.review_draft c locationId r)).
      + unfold inserted. destruct ds as [|d0 ds']; [destruct Hd|].
        cbn [interactions with_interactions]. apply in_or_app. right. exact Hk.
      + unfold YouTubeService.by_platformId_org. cbn.
        rewrite String.eqb_refl, Nat.eqb_refl. reflexivity. }
  clearbody ds. unfold review_drafts.
  induction rs as [|r rs IH]; [reflexivity|]. cbn [flat_map].
  destruct (find _ (interactions (inserted env ds w))) eqn:Hf.
  - apply IH. intros r' Hr'. apply Hall. right. exact Hr'.
  - exfalso. apply (Hall r (or_introl eq_refl)). exact Hf.
Qed.

Lemma ratingSentiment_cases :
  (forall r, (4 <= r)%Z -> GoogleService.ratingSentiment (Some r) = Some "positive")
  /\ (forall r, (r <= 2)%Z -> r <> 0%Z ->
                GoogleService.ratingSentiment (Some r) = Some "negative")
  /\ GoogleService.ratingSentiment (Some 3%Z) = Some "neutral"
  /\ GoogleService.ratingSentiment (Some 0%Z) = None
  /\ GoogleService.ratingSentiment None = None.
Proof.
  unfold GoogleService.ratingSentiment. repeat split.
  - intros r Hr. destruct (Z.eqb_spec r 0); [lia|].
    destruct (Z.leb_spec 4 r); [reflexivity|lia].
  - intros r Hr Hz. destruct (Z.eqb_spec r 0); [lia|].
    destruct (Z.leb_spec 4 r); [lia|].
    destruct (Z.leb_spec r 2); [reflexivity|lia].
Qed.

(** C9. The star rating of a review pre-classifies its sentiment: on the
    scale of stars, from one star up, 4 or more is positive, 2 or less is
    negative and 3 is neutral. A review not stored yet becomes a new
    document with the sentiment of its rating and the status unread
    (positive for 5 stars); a second delivery of the same batch creates
    nothing and leaves the collection as it is. *)
Theorem C9_review_preclassified (c : PlatformConnection.t) (locationId : string)
        (rs : list Google.Review) (w : World) :
  reviews env (PlatformConnection.accessToken c) locationId = Ok rs ->
  (forall r, (4 <= r)%Z -> GoogleService.ratingSentiment (Some r) = Some "positive")
  /\ (forall r, (1 <= r)%Z -> (r <= 2)%Z ->
                GoogleService.ratingSentiment (Some r) = Some "negative")
  /\ GoogleService.ratingSentiment (Some 3%Z) = Some "neutral"
  /\ exists result w1,
       GoogleService.fetchReviews env c locationId w = (Ok result, w1)
       /\ (forall review,
             In review rs ->
             find (YouTubeService.by_platformId_org (Google.reviewId review)
                     (PlatformConnection.organization c)) (interactions w) = None ->
             exists k,
               let d := Interaction.stamp k (now env)
                          (GoogleService.review_draft c locationId review) in
               In d (interactions w1)
               /\ ~ In d (interactions w)
               /\ In (GoogleService.review_draft c locationId review)
                     (sync_interactions result)
               /\ Interaction.platformId d = Google.reviewId review
               /\ Interaction.organization d = PlatformConnection.organization c
               /\ Interaction.type d = "review"
               /\ Interaction.status d = Some "unread"
               /\ Interaction.sentiment d
                  = GoogleService.ratingSentiment (Google.starRating review)
               /\ (Google.starRating review = Some 5%Z ->
                   Interaction.sentiment d = Some "positive"))
       /\ GoogleService.fetchReviews env c locationId w1
          = (Ok (mkSyncResult true 0 []), w1).
Proof.
  intros Hapi.
  destruct ratingSentiment_cases as (H4 & H2 & H3 & _ & _).
  split; [exact H4|].
  split; [intros r H1 Hr; apply H2; [exact Hr|lia]|].
  split; [exact H3|].
  do 2 eexists. split; [apply (fetchReviews_run c locationId rs w Hapi)|]. split.
  - intros review Hin Hnew.
    assert (Hd : In (GoogleService.review_draft c locationId review)
                    (review_drafts c locationId w rs)).
    { unfold review_drafts. apply in_flat_map. exists review. split; [exact Hin|].
      rewrite Hnew. left. reflexivity. }
    destruct (stamp_all_in env (nextId w) _ _ Hd) as [k Hk].
    exists k. cbv zeta. split; [|split; [|split; [exact Hd|]]].
    + unfold inserted. destruct (review_drafts c locationId w rs); [destruct Hd|].
      cbn [interactions with_interactions]. apply in_or_app. right. exact Hk.
    + intros Hold. refine (find_some_in _ _ _ Hold _ Hnew).
      unfold YouTubeService.by_platformId_org. cbn.
      rewrite String.eqb_refl, Nat.eqb_refl. reflexivity.
    + repeat split. cbn. intros ->. reflexivity.
  - rewrite (fetchReviews_run c locationId rs _ Hapi).
    rewrite review_drafts_after. reflexivity.
Qed.
End Reviews.

Lemma C9_review_preclassified_witness :
  storageUp Scenario.reviews_up = true
  /\ reviews Scenario.reviews_up "token-g" "L1" = Ok [Scenario.five_stars]
  /\ exists result w1 k,
       GoogleService.fetchReviews Scenario.reviews_up Scenario.google_connection "L1"
                                  Scenario.connected_office = (Ok result, w1)
       /\ In (Interaction.stamp k Scenario.noon
                (GoogleService.review_draft Scenario.google_connection "L1"
                                            Scenario.five_stars))
             (interactions w1)
       /\ Interaction.sentiment
            (GoogleService.review_draft Scenario.google_connection "L1"
                                        Scenario.five_stars) = Some "positive"
       /\ GoogleService.fetchReviews Scenario.reviews_up Scenario.google_connection
                                     "L1" w1
          = (Ok (mkSyncResult true 0 []), w1).
Proof.
  split; [reflexivity|]. split; [reflexivity|].
  destruct (C9_review_preclassified Scenario.reviews_up eq_refl
              Scenario.google_connection "L1" [Scenario.five_stars]
              Scenario.connected_office eq_refl)
    as (_ & _ & _ & result & w1 & Hrun & Hnew & Hagain).
  destruct (Hnew Scenario.five_stars (or_introl eq_refl) eq_refl)
    as (k & Hin & _ & _ & _ & _ & _ & _ & _ & Hpos).
  exists result, w1, k. split; [exact Hrun|]. split; [exact Hin|].
  split; [apply Hpos; reflexivity|exact Hagain].
Defined.

(** The same scenario, run: the first delivery stores one unread, positive
    review; the second stores nothing more. *)
Example five_star_scenario :
  let first := GoogleService.fetchReviews Scenario.reviews_up
                 Scenario.google_connection "L1" Scenario.connected_office in
  let second := GoogleService.fetchReviews Scenario.reviews_up
                  Scenario.google_connection "L1" (snd first) in
  map (fun d => (Interaction._id d, Interaction.platformId d,
                 Interaction.sentiment d, Interaction.status d,
                 Interaction.rating d))
      (interactions (snd first))
  = [(Some 1000, "R1", Some "positive", Some "unread", Some 5%Z)]
  /\ interactions (snd second) = interactions (snd first)
  /\ fst second = Ok (mkSyncResult true 0 []).
Proof. vm_compute. repeat split. Qed.

(** ** Ingestion: the upsert of the webhook handlers *)

Lemma update_first_same (q : Interaction.t -> bool)
      (u : Interaction.t -> Interaction.t) (l : list Interaction.t) (d : Interaction.t) :
  find q l = Some d -> u d = d -> update_first q u l = l.
Proof.
  induction l as [|x l IH]; simpl; [reflexivity|].
  destruct (q x) eqn:Hq.
  - intros [= ->] Hu. rewrite Hu. reflexivity.
  - intros Hf Hu. f_equal. auto.
Qed.

Lemma find_update_first (q : Interaction.t -> bool)
      (u : Interaction.t -> Interaction.t) (l : list Interaction.t) (d : Interaction.t) :
  find q l = Some d -> q (u d) = true -> find q (update_first q u l) = Some (u d).
Proof.
  induction l as [|x l IH]; simpl; [discriminate|].
  destruct (q x) eqn:Hq.
  - intros [= ->] Hu. simpl. rewrite Hu. reflexivity.
  - intros Hf Hu. simpl. rewrite Hq. auto.
Qed.

Lemma find_app_none {A} (q : A -> bool) (l : list A) (x : A) :
  find q l = None -> q x = true -> find q (l ++ [x]) = Some x.
Proof.
  induction l as [|y l IH]; simpl.
  - intros _ ->. reflexivity.
  - destruct (q y); [discriminate|auto].
Qed.

Lemma update_first_app_none (q : Interaction.t -> bool)
      (u : Interaction.t -> Interaction.t) (l : list Interaction.t) (x : Interaction.t) :
  find q l = None -> q x = true -> update_first q u (l ++ [x]) = l ++ [u x].
Proof.
  induction l as [|y l IH]; simpl.
  - intros _ ->. reflexivity.
  - destruct (q y); [discriminate|]. intros Hf Hq. f_equal. auto.
Qed.

Lemma update_first_length (q : Interaction.t -> bool)
      (u : Interaction.t -> Interaction.t) (l : list Interaction.t) :
  List.length (update_first q u l) = List.length l.
Proof.
  induction l as [|x l IH]; simpl; [reflexivity|].
  destruct (q x); simpl; [reflexivity|]. f_equal. exact IH.
Qed.

Section Upsert.
Variable env : Env.
Hypothesis storage_up : storageUp env = true.

(** An update as the handlers write them: it makes the document match the
    query it is looked up by, setting it twice is setting it once, and it
    leaves the identifier and the timestamp of the document alone. *)
Variable query : Interaction.t -> bool.
Variable update : Interaction.t -> Interaction.t.
Hypothesis update_matches : forall d, query (update d) = true.
Hypothesis update_twice : forall d, update (update d) = update d.
Hypothesis update_stamp :
  forall k t d, update (Interaction.stamp k t d) = Interaction.stamp k t (update d).
Hypothesis query_stamp :
  forall k t d, query (Interaction.stamp k t d) = query d.

(** After an upsert the document it returned is the one the query finds. *)
Lemma findOneAndUpdate_found (w w1 : World) (d1 : Interaction.t) :
  Interaction_findOneAndUpdate env query update w = (Ok d1, w1) ->
  find query (interactions w1) = Some d1.
Proof.
  unfold Interaction_findOneAndUpdate. rewrite db_up by assumption.
  destruct (find query (interactions w)) as [d|] eqn:Hf.
  - intros [= <- <-]. cbn [interactions with_interactions].
    apply find_update_first; [exact Hf|apply update_matches].
  - intros [= <- <-]. cbn [interactions with_interactions].
    apply find_app_none; [exact Hf|].
    rewrite query_stamp. apply update_matches.
Qed.

(** The upsert is idempotent: after a first call, a second call with the
    same query and update returns the same document and changes nothing. *)
Lemma findOneAndUpdate_again (w w1 : World) (d1 : Interaction.t) :
  Interaction_findOneAndUpdate env query update w = (Ok d1, w1) ->
  Interaction_findOneAndUpdate env query update w1 = (Ok d1, w1).
Proof.
  unfold Interaction_findOneAndUpdate. rewrite !db_up by assumption.
  destruct (find query (interactions w)) as [d|] eqn:Hf.
  - intros [= <- <-]. cbn [interactions with_interactions nextId].
    rewrite (find_update_first _ _ _ _ Hf (update_matches d)).
    rewrite update_twice.
    rewrite (update_first_same query update (update_first query update (interactions w))
               (update d)).
    + reflexivity.
    + apply find_update_first; [exact Hf|apply update_matches].
    + apply update_twice.
  - intros [= <- <-]. cbn [interactions with_interactions nextId].
    set (fresh := Interaction.stamp (nextId w) (now env)
                    (update (Interaction.blank 0 "" "" ""))).
    assert (Hq : query fresh = true).
    { unfold fresh. rewrite query_stamp. apply update_matches. }
    assert (Hu : update fresh = fresh).
    { unfold fresh. rewrite update_stamp, update_twice. reflexivity. }
    rewrite (find_app_none _ _ _ Hf Hq), Hu.
    rewrite (update_first_app_none _ update _ _ Hf Hq), Hu.
    reflexivity.
Qed.
End Upsert.

Section InstagramWebhook.
Variable env : Env.
Hypothesis storage_up : storageUp env = true.

(** Delivering the same Instagram payload a second time returns the same
    interaction and leaves the collection as the first delivery left it. *)
Lemma instagram_changes_again (organizationId : ObjectId)
      (changes : list Instagram.Change) (w w1 : World) (r : option Interaction.t) :
  ProcessWebhook.instagram_changes env organizationId changes w = (Ok r, w1) ->
  ProcessWebhook.instagram_changes env organizationId changes w1 = (Ok r, w1).
Proof.
  induction changes as [|change rest IH]; cbn [ProcessWebhook.instagram_changes].
  - intros [= <- <-]. reflexivity.
  - destruct (JS.strict_eq (Instagram.field change) "comments").
    + destruct (Instagram.value change) as [comment|]; [|discriminate].
      unfold bind.
      destruct (Interaction_findOneAndUpdate env _ _ w) as [[d|e] w'] eqn:Hup;
        [|discriminate].
      intros [= <- <-].
      rewrite (findOneAndUpdate_again env storage_up
                 (ProcessWebhook.by_platformId (Instagram.id comment))
                 (ProcessWebhook.comment_update organizationId comment)
                 (fun d => String.eqb_refl _) (fun d => eq_refl)
                 (fun k t d => eq_refl) (fun k t d => eq_refl) _ _ _ Hup).
      reflexivity.
    + destruct (JS.strict_eq (Instagram.field change) "messages"); [|exact IH].
      destruct (Instagram.value change) as [msg|]; [|discriminate].
      destruct (Instagram.from msg) as [from|]; [|discriminate].
      unfold bind.
      destruct (Interaction_findOneAndUpdate env _ _ w) as [[d|e] w'] eqn:Hup;
        [|discriminate].
      intros [= <- <-].
      rewrite (findOneAndUpdate_again env storage_up
                 (ProcessWebhook.by_platformId (Instagram.id msg))
                 (ProcessWebhook.message_update organizationId msg from)
                 (fun d => String.eqb_refl _) (fun d => eq_refl)
                 (fun k t d => eq_refl) (fun k t d => eq_refl) _ _ _ Hup).
      reflexivity.
Qed.

Lemma instagram_redelivery (payload : Instagram.Payload) (organizationId : ObjectId)
      (w w1 : World) (r : option Interaction.t) :
  ProcessWebhook.handleInstagramWebhook env payload organizationId w = (Ok r, w1) ->
  ProcessWebhook.handleInstagramWebhook env payload organizationId w1 = (Ok r, w1).
Proof.
  unfold ProcessWebhook.handleInstagramWebhook, try_catch.
  destruct (Instagram.entry payload) as [[|entry entries]|].
  - intros [= <- <-]. reflexivity.
  - destruct (ProcessWebhook.instagram_changes env organizationId _ w)
      as [[r0|e] w0] eqn:Hrun; [|discriminate].
    intros [= <- <-].
    rewrite (instagram_changes_again _ _ _ _ _ Hrun). reflexivity.
  - intros [= <- <-]. reflexivity.
Qed.

(** The upsert of a comment ignores the organization: once a comment is
    stored for one organization, its delivery for another organization
    finds that very document and hands it over, the collection keeping its
    size. *)
Lemma comment_changes_owner (comment : Instagram.Value) (o1 o2 : ObjectId)
      (w w1 : World) (d1 : Interaction.t) :
  Interaction_findOneAndUpdate env
    (ProcessWebhook.by_platformId (Instagram.id comment))
    (ProcessWebhook.comment_update o1 comment) w = (Ok d1, w1) ->
  exists w2,
    Interaction_findOneAndUpdate env
      (ProcessWebhook.by_platformId (Instagram.id comment))
      (ProcessWebhook.comment_update o2 comment) w1
    = (Ok (ProcessWebhook.comment_update o2 comment d1), w2)
    /\ Interaction._id (ProcessWebhook.comment_update o2 comment d1) = Interaction._id d1
    /\ Interaction.organization (ProcessWebhook.comment_update o2 comment d1) = o2
    /\ List.length (interactions w2) = List.length (interactions w1).
Proof.
  intros Hfirst.
  pose proof (findOneAndUpdate_found env storage_up
                (ProcessWebhook.by_platformId (Instagram.id comment))
                (ProcessWebhook.comment_update o1 comment)
                (fun d => String.eqb_refl _) (fun k t d => eq_refl) _ _ _ Hfirst)
    as Hfound.
  unfold Interaction_findOneAndUpdate. rewrite db_up by assumption.
  rewrite Hfound. eexists. split; [reflexivity|].
  split; [reflexivity|]. split; [reflexivity|].
  cbn [interactions with_interactions]. apply update_first_length.
Qed.
End InstagramWebhook.

(** The lookup of the job's Google and YouTube handlers is by the whole
    identity: a document it finds has the organization, the platform and the
    identifier asked for. *)
Lemma by_identity_separates (organizationId : ObjectId) (platform id : string)
      (d : Interaction.t) :
  ProcessWebhook.by_identity organizationId platform id d = true ->
  Interaction.organization d = organizationId
  /\ Interaction.platform d = platform
  /\ Interaction.platformId d = id.
Proof.
  unfold ProcessWebhook.by_identity. intros H.
  apply andb_prop in H. destruct H as [H Hp].
  apply andb_prop in H. destruct H as [Hi Ho].
  apply String.eqb_eq in Hp, Hi. apply Nat.eqb_eq in Ho. auto.
Qed.

(** C2, the failing input, run. Organization 1 receives comment c1; the
    same comment is then delivered for organization 2. The upsert looks the
    document up by [platformId] alone: one document remains, the one of
    organization 1, now owned by organization 2. Likewise a review whose
    identifier is that of a stored YouTube comment of the organization is
    taken for stored, the existence check ignoring the platform. *)
Theorem C2_upsert_ignores_organization :
  let deliver org w :=
    ProcessWebhook.handleInstagramWebhook Scenario.offline
      (Scenario.instagram_delivery [Scenario.comment_change "c1"]) org w in
  let identity d :=
    (Interaction._id d, Interaction.organization d, Interaction.platform d,
     Interaction.platformId d) in
  let w1 := snd (deliver 1 (Scenario.world [] [])) in
  let w2 := snd (deliver 2 w1) in
  map identity (interactions w1) = [(Some 1000, 1, "instagram", "c1")]
  /\ map identity (interactions w2) = [(Some 1000, 2, "instagram", "c1")]
  /\ GoogleService.fetchReviews Scenario.reviews_up Scenario.google_connection "L1"
       (Scenario.connected (Scenario.world [Scenario.youtube_comment_R1] []))
     = (Ok (mkSyncResult true 0 []),
        Scenario.connected (Scenario.world [Scenario.youtube_comment_R1] [])).
Proof. vm_compute. repeat split. Qed.

(** ** Ingestion: a malformed item in a batch *)

Lemma for_each_app {A B} (l1 l2 : list A) (body : A -> M (list B))
      (w w1 w2 : World) (b1 b2 : list B) :
  for_each l1 body w = (Ok b1, w1) ->
  for_each l2 body w1 = (Ok b2, w2) ->
  for_each (l1 ++ l2) body w = (Ok (b1 ++ b2), w2).
Proof.
  revert w b1. induction l1 as [|x l1 IH]; intros w b1; cbn [for_each app].
  - intros [= <- <-]. exact (fun H => H).
  - unfold bind. destruct (body x w) as [[bs|e] wx]; [|discriminate].
    destruct (for_each l1 body wx) as [[rest|e] wr] eqn:Hrest; [|discriminate].
    intros [= <- <-] H2.
    rewrite (IH wx rest Hrest H2). unfold ret.
    rewrite app_assoc. reflexivity.
Qed.

Section Batch.
Variable env : Env.
Hypothesis storage_up : storageUp env = true.
Variable c : PlatformConnection.t.
Variable videoId : string.

(** A plain thread not stored yet gives its draft and logs nothing. *)
Lemma process_thread_plain (t : YouTube.Thread) (d : Interaction.t) (w : World) :
  plain_draft c videoId t = Some d ->
  unseen w (PlatformConnection.organization c) (YouTube.id t) ->
  YouTubeService.process_thread env c videoId t w = (Ok [d], w).
Proof.
  unfold plain_draft, top_level, unseen, YouTubeService.process_thread, try_catch.
  destruct (YouTube.thread_snippet t) as [ts|]; [|discriminate].
  destruct (YouTube.topLevelComment ts) as [top|]; [|discriminate].
  destruct (YouTube.snippet top) as [s|]; [|discriminate].
  destruct (YouTube.textDisplay s) as [text|]; [|discriminate].
  destruct (YouTube.replies t); [discriminate|].
  intros [= <-] Hnew.
  unfold bind at 1, Interaction_findOne. rewrite db_up by assumption.
  rewrite Hnew. reflexivity.
Qed.

(** A malformed thread not stored yet gives nothing and logs one error. *)
Lemma process_thread_malformed (t : YouTube.Thread) (w : World) :
  top_level t = None ->
  unseen w (PlatformConnection.organization c) (YouTube.id t) ->
  exists detail,
    YouTubeService.process_thread env c videoId t w
    = (Ok [],
       with_console
         (console w ++ [LogError ("Error processing comment " ++ YouTube.id t ++ ":")%string
                                 detail]) w).
Proof.
  unfold top_level, unseen, YouTubeService.process_thread, try_catch.
  intros Hbad Hnew.
  destruct (YouTube.thread_snippet t) as [ts|]; [|eexists; reflexivity].
  destruct (YouTube.topLevelComment ts) as [top|]; [|eexists; reflexivity].
  unfold bind at 1, Interaction_findOne. rewrite db_up by assumption.
  rewrite Hnew.
  destruct (YouTube.snippet top) as [s|]; [|eexists; reflexivity].
  destruct (YouTube.textDisplay s) as [text|]; [discriminate|].
  eexists; reflexivity.
Qed.

(** The drafts of a list of plain threads, in the order of the threads. *)
Lemma plain_threads_loop (ts : list YouTube.Thread) (ds : list Interaction.t)
      (w : World) :
  Forall2 (fun t d => plain_draft c videoId t = Some d) ts ds ->
  Forall (fun t => unseen w (PlatformConnection.organization c) (YouTube.id t)) ts ->
  for_each ts (YouTubeService.process_thread env c videoId) w = (Ok ds, w).
Proof.
  intros Hd. induction Hd as [|t d ts ds Ht _ IH]; intros Hnew; [reflexivity|].
  inversion Hnew as [|? ? Hn Hrest]; subst.
  cbn [for_each]. unfold bind.
  rewrite (process_thread_plain t d w Ht Hn), (IH Hrest). reflexivity.
Qed.

(** A headless thread logs one error, stored or not. *)
Lemma process_thread_headless (t : YouTube.Thread) (w : World) :
  headless t = true ->
  exists detail,
    YouTubeService.process_thread env c videoId t w
    = (Ok [],
       with_console
         (console w ++ [LogError ("Error processing comment " ++ YouTube.id t ++ ":")%string
                                 detail]) w).
Proof.
  unfold headless, YouTubeService.process_thread, try_catch.
  destruct (YouTube.thread_snippet t) as [ts|]; [|eexists; reflexivity].
  destruct (YouTube.topLevelComment ts) as [top|]; [discriminate|].
  eexists; reflexivity.
Qed.

(** A thread with its snippet and top-level comment that is already stored
    is skipped before its text is read: nothing is built, nothing logged. *)
Lemma process_thread_stored (t : YouTube.Thread) (w : World) :
  headless t = false ->
  ~ unseen w (PlatformConnection.organization c) (YouTube.id t) ->
  YouTubeService.process_thread env c videoId t w = (Ok [], w).
Proof.
  unfold headless, unseen, YouTubeService.process_thread, try_catch.
  destruct (YouTube.thread_snippet t) as [ts|]; [|discriminate].
  destruct (YouTube.topLevelComment ts) as [top|]; [|discriminate].
  intros _ Hseen.
  unfold bind at 1, Interaction_findOne. rewrite db_up by assumption.
  destruct (find _ (interactions w)) as [d|]; [reflexivity|].
  exfalso. apply Hseen. reflexivity.
Qed.

(** The batch around one malformed thread: the drafts of the others, and on
    the console what the round of the malformed thread wrote. *)
Lemma malformed_batch (pre post : list YouTube.Thread) (bad : YouTube.Thread)
      (dpre dpost : list Interaction.t) (w w1 : World) :
  commentThreads env (PlatformConnection.accessToken c) videoId
  = Ok (pre ++ bad :: post) ->
  Forall2 (fun t d => plain_draft c videoId t = Some d) pre dpre ->
  Forall2 (fun t d => plain_draft c videoId t = Some d) post dpost ->
  Forall (fun t => unseen w (PlatformConnection.organization c) (YouTube.id t)) pre ->
  Forall (fun t => unseen w (PlatformConnection.organization c) (YouTube.id t)) post ->
  YouTubeService.process_thread env c videoId bad w = (Ok [], w1) ->
  logs_only w w1 ->
  exists w',
    YouTubeService.fetchVideoComments env c videoId w
    = (Ok (mkSyncResult true (List.length pre + List.length post) (dpre ++ dpost)), w')
    /\ console w' = console w1
    /\ interactions w'
       = interactions w ++ stamp_all env (nextId w) (dpre ++ dpost)
    /\ List.length (pre ++ bad :: post) = S (List.length (dpre ++ dpost)).
Proof.
  intros Hapi Hpre Hpost Hnpre Hnpost Hrun [lines ->].
  set (w1 := with_console (console w ++ lines) w) in *.
  assert (Hnpost1 : Forall (fun t => unseen w1 (PlatformConnection.organization c)
                                            (YouTube.id t)) post) by exact Hnpost.
  assert (Hloop : for_each (pre ++ bad :: post)
                    (YouTubeService.process_thread env c videoId) w
                  = (Ok (dpre ++ dpost), w1)).
  { apply for_each_app with (w1 := w).
    - apply plain_threads_loop; assumption.
    - cbn [for_each]. unfold bind at 1. rewrite Hrun.
      unfold bind. rewrite (plain_threads_loop post dpost w1 Hpost Hnpost1).
      reflexivity. }
  assert (Hlen : List.length (dpre ++ dpost) = List.length pre + List.length post).
  { rewrite length_app, (Forall2_length Hpre), (Forall2_length Hpost). reflexivity. }
  unfold YouTubeService.fetchVideoComments, try_catch. rewrite Hapi.
  rewrite (bind_ok (lift (Ok (pre ++ bad :: post))) _ w w _ eq_refl).
  rewrite (bind_ok _ _ _ _ _ Hloop).
  rewrite <- Hlen.
  destruct (dpre ++ dpost) as [|d ds] eqn:Hds.
  - eexists. split; [reflexivity|]. split; [reflexivity|].
    split; [cbn; rewrite app_nil_r; reflexivity|].
    rewrite length_app. rewrite ?Hds in Hlen. cbn [List.length] in *. lia.
  - unfold Interaction_insertMany. rewrite db_up by assumption.
    eexists. split; [reflexivity|]. split; [reflexivity|]. split; [reflexivity|].
    rewrite length_app. rewrite ?Hds in Hlen. cbn [List.length] in *. lia.
Qed.
End Batch.

(* ================================================================== *)
(** * Further properties of the code *)
(* ================================================================== *)

(** ** The plain-text version of a mail *)

Lemma has_gt_app (a b : string) :
  EmailService.has_gt (a ++ b) = EmailService.has_gt a || EmailService.has_gt b.
Proof.
  induction a as [|c a IH]; simpl; [reflexivity|].
  rewrite IH. apply orb_assoc.
Qed.

Lemma has_gt_split (s : string) :
  EmailService.has_gt s = true -> exists b c, s = (b ++ ">" ++ c)%string.
Proof.
  induction s as [|x s IH]; simpl; [discriminate|].
  destruct (Ascii.eqb x EmailService.gt_sign) eqn:Hx; simpl.
  - intros _. apply Ascii.eqb_eq in Hx. subst x. exists "", s. reflexivity.
  - intros H. destruct (IH H) as (b & c & ->). exists (String x b), c. reflexivity.
Qed.

Lemma tagged_holds (s : string) : tagged s = true <-> holds_tag s.
Proof.
  split.
  - induction s as [|x s IH]; simpl; [discriminate|].
    destruct (Ascii.eqb x EmailService.lt_sign && EmailService.has_gt s) eqn:Hx; simpl.
    + intros _. apply andb_prop in Hx. destruct Hx as [Hx Hg].
      apply Ascii.eqb_eq in Hx. subst x.
      destruct (has_gt_split s Hg) as (b & c & ->). exists "", b, c. reflexivity.
    + intros H. destruct (IH H) as (a & b & c & ->).
      exists (String x a), b, c. reflexivity.
  - intros (a & b & c & ->). induction a as [|x a IH]; simpl in *.
    + rewrite has_gt_app. simpl. rewrite orb_true_r. reflexivity.
    + rewrite IH. apply orb_true_r.
Qed.

Lemma strip_has_gt (b : bool) (s : string) :
  EmailService.has_gt s = false -> EmailService.has_gt (EmailService.strip b s) = false.
Proof.
  revert b. induction s as [|x s IH]; intros b; simpl; [reflexivity|].
  intros H. apply orb_false_elim in H. destruct H as [Hx Hs]. rewrite Hx.
  destruct b.
  - apply IH, Hs.
  - rewrite Hs, andb_false_r. simpl. rewrite Hx. simpl. apply IH, Hs.
Qed.

Lemma strip_untagged (b : bool) (s : string) : tagged (EmailService.strip b s) = false.
Proof.
  revert b. induction s as [|x s IH]; intros b; simpl; [reflexivity|].
  destruct b.
  - destruct (Ascii.eqb x EmailService.gt_sign); apply IH.
  - destruct (Ascii.eqb x EmailService.lt_sign) eqn:Hx; simpl.
    + destruct (EmailService.has_gt s) eqn:Hg; [apply IH|].
      simpl. rewrite Hx, IH, strip_has_gt by assumption. reflexivity.
    + rewrite Hx, IH. reflexivity.
Qed.

Lemma strip_plain (s : string) : tagged s = false -> EmailService.strip false s = s.
Proof.
  induction s as [|x s IH]; simpl; [reflexivity|].
  intros H. apply orb_false_elim in H. destruct H as [Hx Hs].
  rewrite Hx, IH by assumption. reflexivity.
Qed.

(** X1. The text version that [sendEmail] derives from the HTML body holds
    no tag: none of its [<] has a [>] after it. An HTML body that holds no
    tag is its own text version, so deriving the text twice gives the same
    text; and a text the caller gives, when it is not empty, is used as it
    is. *)
Theorem X1_text_version_has_no_tag (html : string) :
  ~ holds_tag (EmailService.textVersion None html)
  /\ EmailService.textVersion (Some "") html = EmailService.textVersion None html
  /\ (~ holds_tag html -> EmailService.textVersion None html = html)
  /\ EmailService.stripTags (EmailService.stripTags html) = EmailService.stripTags html
  /\ (forall c text, EmailService.textVersion (Some (String c text)) html = String c text).
Proof.
  assert (Hclean : tagged (EmailService.stripTags html) = false)
    by apply strip_untagged.
  split.
  { intros H. apply tagged_holds in H. cbn in H. congruence. }
  split; [reflexivity|].
  split.
  { intros H. apply strip_plain. destruct (tagged html) eqn:Ht; [|reflexivity].
    exfalso. apply H, tagged_holds, Ht. }
  split; [apply strip_plain, Hclean|reflexivity].
Qed.

Lemma X1_text_version_has_no_tag_witness :
  ~ holds_tag "2 < 3"
  /\ EmailService.textVersion None "2 < 3" = "2 < 3"
  /\ EmailService.textVersion None "<h2>New Assignment</h2><p>Hi <b>Sam</b>, 2 > 1</p>"
     = "New AssignmentHi Sam, 2 > 1".
Proof.
  assert (Hplain : ~ holds_tag "2 < 3").
  { intros H. apply tagged_holds in H. discriminate H. }
  split; [exact Hplain|].
  split; [|reflexivity].
  destruct (X1_text_version_has_no_tag "2 < 3") as (_ & _ & H & _).
  exact (H Hplain).
Defined.

(** ** The enrichment job: what is loaded, what is decided *)

Lemma canAutoReply_assignment (agent : ObjectId) (st : string) (i : Interaction.t) :
  AIService.canAutoReply (Interaction.set_assignment agent st i)
  = AIService.canAutoReply i.
Proof. reflexivity. Qed.

Lemma canAutoReply_negative (i : Interaction.t) :
  JS.strict_eq (Interaction.sentiment i) "negative" = true ->
  AIService.canAutoReply i = false.
Proof. intros H. unfold AIService.canAutoReply. rewrite H. reflexivity. Qed.

Lemma canAutoReply_positive (i : Interaction.t) :
  AIService.canAutoReply i = true ->
  JS.strict_eq (Interaction.sentiment i) "negative" = false.
Proof.
  unfold AIService.canAutoReply.
  destruct (JS.strict_eq (Interaction.sentiment i) "negative"); [discriminate|reflexivity].
Qed.

Section Decision.
Import Interaction.
Variable env : Env.
Hypothesis storage_up : storageUp env = true.

Lemma generateResponse_answers (i : Interaction.t) (kb : list KnowledgeBase.t)
      (w : World) :
  answers env DraftStage ->
  exists s, AIService.generateResponse env i kb w = (Ok (Some s), w).
Proof.
  intros Ha. unfold AIService.generateResponse, try_catch, bind, AIService.post, lift.
  match goal with
  | |- context [chat env ?r] => destruct (Ha r eq_refl) as [text Ht]; rewrite Ht
  end.
  eexists. reflexivity.
Qed.

(** The enrichment, once more: what it leaves alone, and the flag it
    sets. *)
Lemma enrich_decides (i : Interaction.t) (w : World) :
  exists i1 ai w1,
    ProcessAI.enrich env i w = (Ok (i1, ai), w1)
    /\ _id i1 = _id i
    /\ logs_only w w1
    /\ assignedTo i1 = assignedTo i
    /\ status i1 = status i
    /\ autoReplyEligible i1 = Some (AIService.canAutoReply i1)
    /\ (fails env SentimentStage ->
        sentimentConfidence i1 = Some 0.5%float
        /\ AIService.canAutoReply i1 = false)
    /\ (answers env DraftStage -> exists s, ai = Some s).
Proof.
  unfold ProcessAI.enrich.
  rewrite bind_log. cbv beta zeta.
  destruct (analyzeSentiment_run env (content i)
              (with_console (console w ++ [Log "Analyzing sentiment..."]) w))
    as (r1 & w1 & H1 & L1 & S1 & F1).
  rewrite (bind_ok _ _ _ _ _ H1). cbv beta zeta.
  rewrite bind_log. cbv beta zeta.
  match goal with
  | |- context [bind (AIService.detectIntent env ?c) _ ?w0] =>
      destruct (detectIntent_run env c w0) as (r2 & w2 & H2 & L2 & S2 & F2)
  end.
  rewrite (bind_ok _ _ _ _ _ H2). cbv beta zeta.
  rewrite bind_log. cbv beta zeta.
  match goal with
  | |- context [bind (AIService.extractTopics env ?c) _ ?w0] =>
      destruct (extractTopics_run env c w0) as (r3 & w3 & H3 & L3 & F3)
  end.
  rewrite (bind_ok _ _ _ _ _ H3). cbv beta zeta.
  unfold ProcessAI.findKnowledgeBase. rewrite db_up by assumption.
  match goal with
  | |- context [bind ?m _ w3] => rewrite (bind_ok m _ w3 _ _ eq_refl)
  end.
  cbv beta zeta. rewrite bind_log. cbv beta zeta.
  match goal with
  | |- context [bind (AIService.generateResponse env ?j ?kb) _ ?w0] =>
      destruct (generateResponse_run env j kb w0) as (r4 & w4 & H4 & L4 & F4);
      pose proof (generateResponse_answers j kb w0) as A4
  end.
  rewrite (bind_ok _ _ _ _ _ H4). cbv beta zeta.
  unfold ret.
  assert (Lall : logs_only w w4).
  { eapply logs_only_trans; [apply logs_only_line|].
    eapply logs_only_trans; [exact L1|].
    eapply logs_only_trans; [apply logs_only_line|].
    eapply logs_only_trans; [exact L2|].
    eapply logs_only_trans; [apply logs_only_line|].
    eapply logs_only_trans; [exact L3|].
    eapply logs_only_trans; [apply logs_only_line|exact L4]. }
  do 3 eexists. split; [reflexivity|].
  split; [destruct r4; reflexivity|].
  split; [exact Lall|].
  split; [destruct r4; reflexivity|].
  split; [destruct r4; reflexivity|].
  split; [destruct r4; reflexivity|].
  split.
  { intros Hf. rewrite (F1 Hf). destruct r4; split; reflexivity. }
  intros Ha. destruct (A4 Ha) as [s Hs]. rewrite Hs in H4.
  injection H4 as <- _. exists s. reflexivity.
Qed.

(** The routing step, by the branch it takes. *)
Lemma route_decides (i : Interaction.t) (aiResponse : option Suggestion.t) (w : World) :
  exists i' w' lines,
    ProcessAI.route env i aiResponse w = (Ok i', w')
    /\ same_enrichment i i'
    /\ AIService.canAutoReply i' = AIService.canAutoReply i
    /\ map _id (interactions w') = map _id (interactions w)
    /\ console w' = console w ++ lines
    /\ (ProcessAI.autoReplied i aiResponse = true ->
        AIService.canAutoReply i = true ->
        i' = i
        /\ w' = with_console
                  (console w ++ [Log "Interaction is eligible for auto-reply"]) w)
    /\ (ProcessAI.autoReplied i aiResponse = false ->
        In (Log "Assigning to agent...") lines).
Proof.
  assert (Hfirst : exists i1 w1 lines,
             (if ProcessAI.autoReplied i aiResponse
              then bind (console_log "Interaction is eligible for auto-reply")
                        (fun _ => ret i)
              else bind (console_log "Assigning to agent...")
                        (fun _ => ProcessAI.assignToAgent env i "ai_unable")) w
             = (Ok i1, w1)
             /\ same_enrichment i i1
             /\ AIService.canAutoReply i1 = AIService.canAutoReply i
             /\ type i1 = type i
             /\ map _id (interactions w1) = map _id (interactions w)
             /\ console w1 = console w ++ lines
             /\ (ProcessAI.autoReplied i aiResponse = true ->
                 i1 = i
                 /\ w1 = with_console
                           (console w ++ [Log "Interaction is eligible for auto-reply"]) w)
             /\ (ProcessAI.autoReplied i aiResponse = false ->
                 In (Log "Assigning to agent...") lines)).
  { destruct (ProcessAI.autoReplied i aiResponse) eqn:Hauto.
    - rewrite bind_log. do 3 eexists. split; [reflexivity|].
      split; [apply same_enrichment_refl|]. split; [reflexivity|].
      split; [reflexivity|]. split; [reflexivity|]. split; [reflexivity|].
      split; [intros _; split; reflexivity|discriminate].
    - rewrite bind_log.
      destruct (filter (ProcessAI.is_candidate i) (users w)) as [|a0 rest] eqn:Hag.
      + rewrite (assignToAgent_none env storage_up) by exact Hag.
        do 3 eexists. split; [reflexivity|].
        split; [apply same_enrichment_refl|]. split; [reflexivity|].
        split; [reflexivity|]. split; [reflexivity|].
        split; [cbn; rewrite <- app_assoc; reflexivity|].
        split; [discriminate|]. intros _. left. reflexivity.
      + destruct (assignToAgent_some env storage_up i "ai_unable"
                    (with_console (console w ++ [Log "Assigning to agent..."]) w))
          as (agent & _ & Hrun).
        { cbn [users with_console]. rewrite Hag. discriminate. }
        rewrite Hrun. do 3 eexists. split; [reflexivity|].
        split; [repeat split|]. split; [reflexivity|].
        split; [reflexivity|].
        split; [cbn; apply update_first_ids|].
        split; [cbn; rewrite <- app_assoc; reflexivity|].
        split; [discriminate|]. intros _. left. reflexivity. }
  destruct Hfirst
    as (i1 & w1 & lines & Hrun & Hsame & Hcan & Hty & Hids & Hcon & Hyes & Hno).
  unfold ProcessAI.route. rewrite (bind_ok _ _ _ _ _ Hrun).
  destruct (String.eqb (type i1) "comment" && JS.strict_eq (sentiment i1) "negative")
    eqn:Hspike.
  - apply andb_prop in Hspike. destruct Hspike as [_ Hneg].
    pose proof (canAutoReply_negative i1 Hneg) as Hcan1.
    destruct (checkNegativeSpike_frame env storage_up i1 w1)
      as (i' & w' & Hc & Hi & Hint & (more & Hmore) & _).
    exists i', w', (lines ++ more). split; [exact Hc|]. split.
    { eapply same_enrichment_trans; [exact Hsame|].
      destruct Hi as [->| ->]; repeat split. }
    split.
    { rewrite <- Hcan, Hcan1. destruct Hi as [->| ->]; [exact Hcan1|].
      unfold AIService.canAutoReply. cbn [sentiment set_priority_urgency].
      rewrite Hneg. reflexivity. }
    split; [rewrite Hint; exact Hids|].
    split; [rewrite Hmore, Hcon, app_assoc; reflexivity|].
    split.
    + intros _ Hyes'. rewrite <- Hcan, Hcan1 in Hyes'. discriminate.
    + intros Hn. apply in_or_app. left. auto.
  - exists i1, w1, lines. split; [reflexivity|]. split; [exact Hsame|].
    split; [exact Hcan|]. split; [exact Hids|]. split; [exact Hcon|].
    split; [intros Ha _; exact (Hyes Ha)|exact Hno].
Qed.

(** The job while the database answers, by its steps. *)
Lemma processAI_decides (id : ObjectId) (i : Interaction.t) (w : World) :
  find (has_id id) (interactions w) = Some i ->
  exists i1 ai i' w' lines,
    ProcessAI.processAI env id w
    = (Ok (ProcessAI.mkJobResult true id (sentiment i') (autoReplyEligible i')), w')
    /\ In i' (interactions w')
    /\ console w' = console w ++ lines
    /\ autoReplyEligible i1 = Some (AIService.canAutoReply i1)
    /\ autoReplyEligible i' = autoReplyEligible i1
    /\ AIService.canAutoReply i' = AIService.canAutoReply i1
    /\ sentimentConfidence i' = sentimentConfidence i1
    /\ (fails env SentimentStage ->
        sentimentConfidence i1 = Some 0.5%float
        /\ AIService.canAutoReply i1 = false)
    /\ (answers env DraftStage -> exists s, ai = Some s)
    /\ (ProcessAI.autoReplied i1 ai = true ->
        assignedTo i' = assignedTo i
        /\ status i' = status i
        /\ outbox w' = outbox w
        /\ In (Log "Interaction is eligible for auto-reply") lines)
    /\ (ProcessAI.autoReplied i1 ai = false ->
        In (Log "Assigning to agent...") lines).
Proof.
  intros Hfound.
  destruct (find_has_id_in _ _ _ Hfound) as [Hid Hstored].
  unfold ProcessAI.processAI, try_catch.
  rewrite bind_log. cbv beta.
  unfold Interaction_findById, Interaction_findOne. rewrite db_up by assumption.
  match goal with
  | |- context [bind ?m _ ?w0] => rewrite (bind_ok m _ w0 _ _ eq_refl)
  end.
  cbn [interactions with_console]. rewrite Hfound.
  match goal with
  | |- context [bind (ProcessAI.enrich env i) _ ?w0] =>
      destruct (enrich_decides i w0)
        as (i1 & ai & w1 & H1 & Hid1 & L1 & Has1 & Hst1 & Hflag & Fs & Fd)
  end.
  rewrite (bind_ok _ _ _ _ _ H1). cbn [fst snd].
  destruct (route_decides i1 ai w1)
    as (i2 & w2 & lines & H2 & Hsame & Hcan & Hids & Hcon & Hyes & Hno).
  rewrite (bind_ok _ _ _ _ _ H2).
  unfold Interaction_save. rewrite db_up by assumption.
  match goal with
  | |- context [bind ?m _ w2] => rewrite (bind_ok m _ w2 _ _ eq_refl)
  end.
  rewrite bind_log. unfold ret.
  destruct Hsame as (E1 & E2 & E3 & E4 & E5 & E6 & E7 & E8).
  destruct (logs_only_frame _ _ L1) as (Hint1 & _ & _ & _ & Hout1 & (l1 & Hl1)).
  cbn [console with_console interactions outbox] in Hint1, Hout1, Hl1.
  exists i1, ai, i2. eexists. eexists.
  split; [reflexivity|].
  split.
  { cbn. apply update_first_stored with (id := id); [congruence|].
    rewrite Hids, Hint1. exact Hstored. }
  split.
  { cbn. rewrite Hcon, Hl1. rewrite <- !app_assoc. reflexivity. }
  split; [exact Hflag|]. split; [congruence|]. split; [exact Hcan|].
  split; [congruence|]. split; [exact Fs|]. split; [exact Fd|].
  split.
  - intros Hauto.
    assert (Hel : AIService.canAutoReply i1 = true).
    { unfold ProcessAI.autoReplied in Hauto. rewrite Hflag in Hauto.
      destruct (AIService.canAutoReply i1); [reflexivity|discriminate]. }
    destruct (Hyes Hauto Hel) as [-> ->].
    cbn [console with_console] in Hcon. apply app_inv_head in Hcon. subst lines.
    split; [exact Has1|]. split; [exact Hst1|].
    split; [cbn; exact Hout1|].
    repeat (rewrite in_app_iff || cbn [In]). auto 10.
  - intros Hauto. pose proof (Hno Hauto) as Hline.
    repeat (rewrite in_app_iff || cbn [In]). auto 10.
Qed.

(** X3. While the database answers, the flag the job stores agrees with
    the eligibility rule on the stored document. When the document is
    eligible and the provider answers the request for a draft, the job
    takes the auto-reply branch: the interaction is not assigned, its
    status stays, and no mail is sent. When it is not eligible, it goes to
    assignment. *)
Theorem X3_eligible_is_not_assigned (id : ObjectId) (i : Interaction.t) (w : World) :
  find (has_id id) (interactions w) = Some i ->
  exists i' w' lines,
    ProcessAI.processAI env id w
    = (Ok (ProcessAI.mkJobResult true id (sentiment i') (autoReplyEligible i')), w')
    /\ In i' (interactions w')
    /\ console w' = console w ++ lines
    /\ autoReplyEligible i' = Some (AIService.canAutoReply i')
    /\ (AIService.canAutoReply i' = true -> answers env DraftStage ->
        assignedTo i' = assignedTo i
        /\ status i' = status i
        /\ outbox w' = outbox w
        /\ In (Log "Interaction is eligible for auto-reply") lines)
    /\ (AIService.canAutoReply i' = false ->
        In (Log "Assigning to agent...") lines).
Proof.
  intros Hfound.
  destruct (processAI_decides id i w Hfound)
    as (i1 & ai & i' & w' & lines & Hrun & Hin & Hcon & Hflag & Hsame & Hcan & _
        & _ & Fd & Hyes & Hno).
  exists i', w', lines. split; [exact Hrun|]. split; [exact Hin|].
  split; [exact Hcon|]. split; [congruence|].
  split.
  - intros Hel Ha. destruct (Fd Ha) as [s ->]. apply Hyes.
    unfold ProcessAI.autoReplied. rewrite Hflag, <- Hcan, Hel. reflexivity.
  - intros Hel. apply Hno. unfold ProcessAI.autoReplied.
    rewrite Hflag, <- Hcan, Hel. destruct ai; reflexivity.
Qed.

(** X4. While the database answers, an interaction whose sentiment stage
    failed is never answered automatically, whatever the other stages
    return: its confidence is the default 0.5, below the threshold, so the
    job reports it as not eligible and hands it to assignment. *)
Theorem X4_failed_sentiment_goes_to_an_agent (id : ObjectId) (i : Interaction.t)
        (w : World) :
  find (has_id id) (interactions w) = Some i ->
  fails env SentimentStage ->
  exists i' w' lines,
    ProcessAI.processAI env id w
    = (Ok (ProcessAI.mkJobResult true id (sentiment i') (Some false)), w')
    /\ In i' (interactions w')
    /\ sentimentConfidence i' = Some 0.5%float
    /\ AIService.canAutoReply i' = false
    /\ autoReplyEligible i' = Some false
    /\ console w' = console w ++ lines
    /\ In (Log "Assigning to agent...") lines.
Proof.
  intros Hfound Hf.
  destruct (processAI_decides id i w Hfound)
    as (i1 & ai & i' & w' & lines & Hrun & Hin & Hcon & Hflag & Hsame & Hcan & Hconf
        & Fs & _ & _ & Hno).
  destruct (Fs Hf) as [Hhalf Hnot].
  assert (Heligible : autoReplyEligible i' = Some false) by congruence.
  exists i', w', lines. rewrite Heligible in Hrun.
  split; [exact Hrun|]. split; [exact Hin|]. split; [congruence|].
  split; [congruence|]. split; [exact Heligible|]. split; [exact Hcon|].
  apply Hno. unfold ProcessAI.autoReplied. rewrite Hflag, Hnot. reflexivity.
Qed.

(** X2. The job on an interaction that cannot be loaded: when no stored
    document has the identifier, or when the database does not answer, the
    job logs the error and throws it; no stage runs, nothing is stored and
    no mail is sent. *)
Theorem X2_job_without_its_interaction (any : Env) (id : ObjectId) (w : World) :
  let started := Log ("Processing AI for interaction: " ++ JS.show id)%string in
  let missing := ("Interaction " ++ JS.show id ++ " not found")%string in
  (storageUp any = true ->
   find (has_id id) (interactions w) = None ->
   ProcessAI.processAI any id w
   = (Throw (mkError missing None),
      with_console (console w ++ [started; LogError "AI processing error:" missing]) w))
  /\ (storageUp any = false ->
      ProcessAI.processAI any id w
      = (Throw storage_error,
         with_console
           (console w ++ [started;
                          LogError "AI processing error:" (message storage_error)]) w)).
Proof.
  cbv zeta. split.
  - intros Hup Hnone.
    unfold ProcessAI.processAI, try_catch. rewrite bind_log. cbv beta.
    unfold Interaction_findById, Interaction_findOne. rewrite db_up by assumption.
    match goal with
    | |- context [bind ?m _ ?w0] => rewrite (bind_ok m _ w0 _ _ eq_refl)
    end.
    cbn [interactions with_console]. rewrite Hnone.
    unfold throw, bind, console_error, with_console. cbn.
    rewrite <- app_assoc. reflexivity.
  - intros Hdown.
    unfold ProcessAI.processAI, try_catch. rewrite bind_log. cbv beta.
    unfold Interaction_findById, Interaction_findOne, db. rewrite Hdown.
    unfold throw, bind, console_error, with_console. cbn.
    rewrite <- app_assoc. reflexivity.
Qed.
End Decision.

Lemma provider_up_answers (s : Stage) : answers Sample.provider_up s.
Proof. intros r _. destruct r; eexists; reflexivity. Qed.

Lemma sentiment_down_fails : fails Sample.sentiment_down SentimentStage.
Proof.
  intros r Hr. exists Scenario.network_error.
  destruct r; try discriminate. reflexivity.
Qed.

Lemma X3_eligible_is_not_assigned_witness :
  storageUp Sample.provider_up = true
  /\ find (has_id 104) (interactions Scenario.busy_office) = Some Scenario.newcomer
  /\ answers Sample.provider_up DraftStage
  /\ exists i' w',
       ProcessAI.processAI Sample.provider_up 104 Scenario.busy_office
       = (Ok (ProcessAI.mkJobResult true 104 (Some "positive") (Some true)), w')
       /\ In i' (interactions w')
       /\ AIService.canAutoReply i' = true
       /\ Interaction.assignedTo i' = None
       /\ outbox w' = [].
Proof.
  split; [reflexivity|]. split; [reflexivity|].
  split; [apply provider_up_answers|].
  destruct (X3_eligible_is_not_assigned Sample.provider_up eq_refl 104
              Scenario.newcomer Scenario.busy_office eq_refl)
    as (i' & w' & lines & Hrun & Hin & _ & Hflag & Hyes & _).
  assert (Hres : fst (ProcessAI.processAI Sample.provider_up 104 Scenario.busy_office)
                 = Ok (ProcessAI.mkJobResult true 104 (Some "positive") (Some true)))
    by (vm_compute; reflexivity).
  rewrite Hrun in Hres. cbn [fst] in Hres. injection Hres as Hs He.
  assert (Hel : AIService.canAutoReply i' = true) by congruence.
  destruct (Hyes Hel (provider_up_answers DraftStage)) as (Ha & _ & Ho & _).
  exists i', w'. rewrite Hs, He in Hrun.
  split; [exact Hrun|]. split; [exact Hin|]. split; [exact Hel|].
  split; [exact Ha|exact Ho].
Defined.

Lemma X4_failed_sentiment_goes_to_an_agent_witness :
  storageUp Sample.sentiment_down = true
  /\ find (has_id 104) (interactions Scenario.busy_office) = Some Scenario.newcomer
  /\ fails Sample.sentiment_down SentimentStage
  /\ exists i' w' lines,
       ProcessAI.processAI Sample.sentiment_down 104 Scenario.busy_office
       = (Ok (ProcessAI.mkJobResult true 104 (Interaction.sentiment i') (Some false)), w')
       /\ In i' (interactions w')
       /\ console w' = console Scenario.busy_office ++ lines
       /\ In (Log "Assigning to agent...") lines.
Proof.
  split; [reflexivity|]. split; [reflexivity|].
  split; [apply sentiment_down_fails|].
  destruct (X4_failed_sentiment_goes_to_an_agent Sample.sentiment_down eq_refl 104
              Scenario.newcomer Scenario.busy_office eq_refl sentiment_down_fails)
    as (i' & w' & lines & Hrun & Hin & _ & _ & _ & Hcon & Hline).
  exists i', w', lines. auto.
Defined.

(** The same run, computed: the provider finds the interaction a praise and
    drafts an answer, and the sentiment stage alone fails; the draft is kept
    and the interaction goes to agent B. *)
Example failed_sentiment_scenario :
  let r := ProcessAI.processAI Sample.sentiment_down 104 Scenario.busy_office in
  fst r = Ok (ProcessAI.mkJobResult true 104 (Some "neutral") (Some false))
  /\ map (fun d => (Interaction.intent d, Interaction.assignedTo d,
                    Interaction.status d))
         (filter (has_id 104) (interactions (snd r)))
     = [(Some "praise", Some 11, Some "assigned")]
  /\ map to (outbox (snd r)) = ["b@example.org"].
Proof. vm_compute. repeat split. Qed.

Lemma X2_job_without_its_interaction_witness :
  ProcessAI.processAI Scenario.offline 7 (Scenario.world [] [])
  = (Throw (mkError "Interaction 7 not found" None),
     with_console
       [Log "Processing AI for interaction: 7";
        LogError "AI processing error:" "Interaction 7 not found"]
       (Scenario.world [] []))
  /\ fst (ProcessAI.processAI Scenario.storage_down 104 Scenario.busy_office)
     = Throw storage_error.
Proof.
  destruct (X2_job_without_its_interaction Scenario.offline 7 (Scenario.world [] []))
    as [Hmissing _].
  destruct (X2_job_without_its_interaction Scenario.storage_down 104 Scenario.busy_office)
    as [_ Hdown].
  split.
  - exact (Hmissing eq_refl eq_refl).
  - rewrite (Hdown eq_refl). reflexivity.
Defined.

(** ** The knowledge base handed to the draft stage *)

Lemma insert_heavier (x : KnowledgeBase.t) (l : list KnowledgeBase.t) :
  Sorted heavier l -> Sorted heavier (JS.insert ProcessAI.by_weight_desc x l).
Proof.
  unfold heavier.
  induction l as [|y l IH]; simpl; intros Hs.
  - repeat constructor.
  - unfold ProcessAI.by_weight_desc at 1.
    destruct (KnowledgeBase.trainingWeight y - KnowledgeBase.trainingWeight x <=? 0)%Z
      eqn:Hc.
    + apply Z.leb_le in Hc. constructor; [exact Hs|]. constructor. lia.
    + apply Z.leb_gt in Hc. inversion Hs as [|? ? Hl Hhd]; subst.
      constructor; [apply IH; exact Hl|].
      destruct l as [|z l]; simpl.
      * constructor. lia.
      * unfold ProcessAI.by_weight_desc at 1.
        destruct (KnowledgeBase.trainingWeight z - KnowledgeBase.trainingWeight x <=? 0)%Z.
        -- constructor. lia.
        -- inversion Hhd; subst. constructor. assumption.
Qed.

Lemma sort_heavier (l : list KnowledgeBase.t) :
  StronglySorted heavier (JS.sort ProcessAI.by_weight_desc l).
Proof.
  apply Sorted_StronglySorted.
  - intros a b c. unfold heavier. lia.
  - induction l as [|x l IH]; simpl; [constructor|].
    apply insert_heavier. exact IH.
Qed.

Lemma StronglySorted_app {A} (R : A -> A -> Prop) (l1 l2 : list A) :
  StronglySorted R (l1 ++ l2) ->
  StronglySorted R l1 /\ (forall a b, In a l1 -> In b l2 -> R a b).
Proof.
  induction l1 as [|x l1 IH]; simpl; intros Hs.
  - split; [constructor|intros a b []].
  - inversion Hs as [|? ? Hl Hall]; subst.
    destruct (IH Hl) as [H1 H2]. rewrite Forall_forall in Hall. split.
    + constructor; [exact H1|]. rewrite Forall_forall. intros b Hb.
      apply Hall. apply in_or_app. left. exact Hb.
    + intros a b [<-|Ha] Hb; [apply Hall; apply in_or_app; right; exact Hb|auto].
Qed.

(** X5. The knowledge base the job hands to the draft stage: at most ten
    entries, each an active training entry of the interaction's
    organization, from the heaviest to the lightest; an entry left out
    weighs no more than any entry kept, and none is left out when there are
    ten or fewer. *)
Theorem X5_knowledge_base_selection (env : Env) (org : ObjectId) (w : World) :
  storageUp env = true ->
  let candidates := filter (ProcessAI.is_training_entry org) (knowledge w) in
  exists kb,
    ProcessAI.findKnowledgeBase env org w = (Ok kb, w)
    /\ List.length kb <= 10
    /\ (forall e, In e kb ->
          In e (knowledge w)
          /\ KnowledgeBase.organization e = org
          /\ KnowledgeBase.isActive e = true
          /\ KnowledgeBase.isTrainingData e = true)
    /\ StronglySorted heavier kb
    /\ (forall e a, In e candidates -> ~ In e kb -> In a kb -> heavier a e)
    /\ (List.length candidates <= 10 -> Permutation candidates kb).
Proof.
  intros Hup candidates.
  unfold ProcessAI.findKnowledgeBase. rewrite db_up by assumption.
  fold candidates.
  set (sorted := JS.sort ProcessAI.by_weight_desc candidates).
  pose proof (sort_permutation ProcessAI.by_weight_desc candidates) as Hperm.
  fold sorted in Hperm.
  pose proof (sort_heavier candidates) as Hsorted. fold sorted in Hsorted.
  rewrite <- (firstn_skipn 10 sorted) in Hsorted.
  destruct (StronglySorted_app _ _ _ Hsorted) as [Hkept Hrest].
  assert (Hin : forall e, In e (firstn 10 sorted) -> In e candidates).
  { intros e He. apply (Permutation_in _ (Permutation_sym Hperm)).
    rewrite <- (firstn_skipn 10 sorted). apply in_or_app. left. exact He. }
  exists (firstn 10 sorted). split; [reflexivity|].
  split; [apply firstn_le_length|].
  split.
  { intros e He. apply Hin in He. apply filter_In in He. destruct He as [Hk Hq].
    unfold ProcessAI.is_training_entry in Hq.
    apply andb_prop in Hq. destruct Hq as [Hq Ht].
    apply andb_prop in Hq. destruct Hq as [Ho Ha].
    apply Nat.eqb_eq in Ho. auto. }
  split; [exact Hkept|].
  split.
  { intros e a He Hout Ha. apply Hrest; [exact Ha|].
    apply (Permutation_in _ Hperm) in He.
    rewrite <- (firstn_skipn 10 sorted) in He.
    apply in_app_or in He. destruct He as [He|He]; [contradiction|exact He]. }
  intros Hlen. rewrite firstn_all2; [exact Hperm|].
  rewrite <- (Permutation_length Hperm). exact Hlen.
Qed.

Lemma X5_knowledge_base_selection_witness :
  storageUp Scenario.offline = true
  /\ exists kb,
       ProcessAI.findKnowledgeBase Scenario.offline 1 Sample.library
       = (Ok kb, Sample.library)
       /\ map KnowledgeBase.title kb = ["c"; "e"; "a"].
Proof.
  split; [reflexivity|].
  destruct (X5_knowledge_base_selection Scenario.offline 1 Sample.library eq_refl)
    as (kb & Hrun & _).
  exists kb. split; [exact Hrun|].
  assert (Hkb : fst (ProcessAI.findKnowledgeBase Scenario.offline 1 Sample.library)
                = Ok (firstn 10 (JS.sort ProcessAI.by_weight_desc
                                   (filter (ProcessAI.is_training_entry 1)
                                           (knowledge Sample.library)))))
    by reflexivity.
  rewrite Hrun in Hkb. cbn [fst] in Hkb. injection Hkb as ->. reflexivity.
Defined.

(** ** The topics the provider's answer is cut into *)

Lemma split_no_separator (sep : ascii) (s p : string) :
  In p (JS.split sep s) -> ~ In sep (list_ascii_of_string p).
Proof.
  revert p. induction s as [|c s IH]; simpl; intros p.
  - intros [<-|[]]. simpl. tauto.
  - destruct (Ascii.eqb c sep) eqn:Hc.
    + intros [<-|Hp]; [simpl; tauto|auto].
    + apply Ascii.eqb_neq in Hc.
      destruct (JS.split sep s) as [|q qs] eqn:Hs.
      * intros [<-|[]]. simpl. intros [H|[]]. congruence.
      * intros [<-|Hp].
        -- simpl. intros [H|H]; [congruence|]. exact (IH q (or_introl eq_refl) H).
        -- apply IH. right. exact Hp.
Qed.

Lemma trimStart_chars (x : ascii) (s : string) :
  In x (list_ascii_of_string (JS.trimStart s)) -> In x (list_ascii_of_string s).
Proof.
  induction s as [|c s IH]; simpl; [tauto|].
  destruct (JS.is_space c); [right; auto|simpl; tauto].
Qed.

Lemma trimEnd_chars (x : ascii) (s : string) :
  In x (list_ascii_of_string (JS.trimEnd s)) -> In x (list_ascii_of_string s).
Proof.
  induction s as [|c s IH]; simpl; [tauto|].
  destruct (JS.is_space c && JS.all_space s); simpl; [tauto|].
  intros [H|H]; [left; exact H|right; auto].
Qed.

Lemma all_space_trimEnd (s : string) :
  JS.all_space s = false -> JS.all_space (JS.trimEnd s) = false.
Proof.
  induction s as [|c s IH]; simpl; [discriminate|].
  intros H. rewrite H. simpl.
  destruct (JS.is_space c); [|reflexivity]. simpl in *. auto.
Qed.

Lemma trimEnd_trimEnd (s : string) : JS.trimEnd (JS.trimEnd s) = JS.trimEnd s.
Proof.
  induction s as [|c s IH]; simpl; [reflexivity|].
  destruct (JS.is_space c && JS.all_space s) eqn:H; [reflexivity|].
  simpl. rewrite IH.
  destruct (JS.is_space c); [|reflexivity]. simpl in *.
  rewrite all_space_trimEnd by exact H. reflexivity.
Qed.

Lemma trimStart_head (s : string) :
  JS.trimStart s = ""
  \/ exists c r, JS.trimStart s = String c r /\ JS.is_space c = false.
Proof.
  induction s as [|c s IH]; simpl; [left; reflexivity|].
  destruct (JS.is_space c) eqn:Hc; [exact IH|].
  right. exists c, s. split; [reflexivity|exact Hc].
Qed.

Lemma trim_trim (s : string) : JS.trim (JS.trim s) = JS.trim s.
Proof.
  unfold JS.trim.
  destruct (trimStart_head s) as [->|(c & r & -> & Hc)]; [reflexivity|].
  assert (Hkept : JS.trimEnd (String c r) = String c (JS.trimEnd r)).
  { simpl. rewrite Hc. reflexivity. }
  rewrite Hkept.
  assert (Hstart : JS.trimStart (String c (JS.trimEnd r)) = String c (JS.trimEnd r)).
  { simpl. rewrite Hc. reflexivity. }
  rewrite Hstart, <- Hkept. apply trimEnd_trimEnd.
Qed.

(** X6. The topics [extractTopics] returns are clean, whatever the
    provider answers: none is empty, none has white space at either end and
    none holds a comma; the call never throws and only writes to the
    console. *)
Theorem X6_topics_are_clean (env : Env) (content : option string) (w : World) :
  exists topics w',
    AIService.extractTopics env content w = (Ok topics, w')
    /\ logs_only w w'
    /\ Forall clean_topic topics.
Proof.
  unfold AIService.extractTopics, try_catch, bind, AIService.post, lift.
  destruct (chat env (TopicsRequest content)) as [text|e].
  - do 2 eexists. split; [reflexivity|]. split; [apply logs_only_refl|].
    rewrite Forall_forall. intros t Ht.
    apply filter_In in Ht. destruct Ht as [Ht Hfull].
    apply in_map_iff in Ht. destruct Ht as (p & <- & Hp).
    split; [destruct (JS.trim p); [discriminate|congruence]|].
    split; [apply trim_trim|].
    intros Hcomma. apply (split_no_separator _ _ _ Hp).
    apply trimStart_chars. apply trimEnd_chars. exact Hcomma.
  - do 2 eexists. split; [reflexivity|]. split; [apply logs_only_line|]. constructor.
Qed.

(** An answer with stray commas and blanks, computed. *)
Example topics_scenario :
  fst (AIService.extractTopics Sample.provider_up None (Scenario.world [] []))
  = Ok ["delivery"; "price"].
Proof. vm_compute. reflexivity. Qed.

(** ** Operations that only write to the console *)

Lemma only_logs_ret {A} (a : A) : only_logs (ret a).
Proof. intros w. apply logs_only_refl. Qed.

Lemma only_logs_throw {A} (e : JsError) : only_logs (@throw A e).
Proof. intros w. apply logs_only_refl. Qed.

Lemma only_logs_lift {A} (r : Result A) : only_logs (lift r).
Proof. intros w. apply logs_only_refl. Qed.

Lemma only_logs_console_log (text : string) : only_logs (console_log text).
Proof. intros w. apply logs_only_line. Qed.

Lemma only_logs_console_error (text detail : string) :
  only_logs (console_error text detail).
Proof. intros w. apply logs_only_line. Qed.

Lemma only_logs_bind {A B} (m : M A) (k : A -> M B) :
  only_logs m -> (forall a, only_logs (k a)) -> only_logs (bind m k).
Proof.
  intros Hm Hk w. unfold bind. specialize (Hm w).
  destruct (m w) as [[a|e] w1]; cbn [snd] in *.
  - eapply logs_only_trans; [exact Hm|apply Hk].
  - exact Hm.
Qed.

Lemma only_logs_try_catch {A} (m : M A) (h : JsError -> M A) :
  only_logs m -> (forall e, only_logs (h e)) -> only_logs (try_catch m h).
Proof.
  intros Hm Hh w. unfold try_catch. specialize (Hm w).
  destruct (m w) as [[a|e] w1]; cbn [snd] in *.
  - exact Hm.
  - eapply logs_only_trans; [exact Hm|apply Hh].
Qed.

Lemma only_logs_for_each {A B} (l : list A) (body : A -> M (list B)) :
  (forall x, only_logs (body x)) -> only_logs (for_each l body).
Proof.
  intros Hb. induction l as [|x l IH]; simpl.
  - apply only_logs_ret.
  - apply only_logs_bind; [apply Hb|]. intros bs.
    apply only_logs_bind; [exact IH|]. intros rest. apply only_logs_ret.
Qed.

Lemma only_logs_findOne (env : Env) (q : Interaction.t -> bool) :
  only_logs (Interaction_findOne env q).
Proof.
  intros w. unfold Interaction_findOne, db.
  destruct (storageUp env); apply logs_only_refl.
Qed.

Ltac logs :=
  repeat first
    [ apply only_logs_ret | apply only_logs_throw | apply only_logs_lift
    | apply only_logs_console_log | apply only_logs_console_error
    | apply only_logs_findOne
    | apply only_logs_for_each; intros ?
    | apply only_logs_try_catch; [|intros ?]
    | apply only_logs_bind; [|intros ?]
    | match goal with
      | |- only_logs (match ?x with _ => _ end) => destruct x
      | |- only_logs (if ?x then _ else _) => destruct x
      end ].

(** A loop whose rounds catch their errors and only log: it runs to its
    end, and each round ran over the collections the loop started from. *)
Lemma loop_run {A B} (l : list A) (body : A -> M (list B)) (w : World) :
  (forall x, only_logs (body x)) ->
  (forall x, returns (body x)) ->
  exists rs w',
    for_each l body w = (Ok rs, w')
    /\ logs_only w w'
    /\ forall x, In x l ->
         exists wx ds wx',
           logs_only w wx /\ body x wx = (Ok ds, wx') /\ incl ds rs.
Proof.
  intros Hl Hr. revert w. induction l as [|x l IH]; intros w.
  - exists [], w. split; [reflexivity|]. split; [apply logs_only_refl|]. intros x [].
  - cbn [for_each]. unfold bind at 1.
    destruct (Hr x w) as [ds Hds]. pose proof (Hl x w) as Hlog.
    destruct (body x w) as [r w1] eqn:Hx. cbn [fst snd] in *. subst r.
    destruct (IH w1) as (rs & w2 & Hrest & Hlog2 & Hrounds).
    unfold bind. rewrite Hrest. cbn [ret].
    exists (ds ++ rs), w2. split; [reflexivity|].
    split; [eapply logs_only_trans; eassumption|].
    intros y [<-|Hy].
    + exists w, ds, w1. split; [apply logs_only_refl|]. split; [exact Hx|].
      apply incl_appl, incl_refl.
    + destruct (Hrounds y Hy) as (wy & dy & wy' & Hwy & Hby & Hincl).
      exists wy, dy, wy'. split; [eapply logs_only_trans; eassumption|].
      split; [exact Hby|]. apply incl_appr. exact Hincl.
Qed.


Lemma stamp_all_length (env : Env) (n : ObjectId) (l : list Interaction.t) :
  List.length (stamp_all env n l) = List.length l.
Proof.
  revert n. induction l as [|d l IH]; intros n; simpl; [reflexivity|].
  rewrite IH. reflexivity.
Qed.

Lemma total_count_from (rs : list SyncResult) (n : nat) :
  fold_left (fun k r => k + sync_count r) rs n = n + total_count rs.
Proof.
  unfold total_count. revert n. induction rs as [|r rs IH]; intros n; simpl.
  - lia.
  - rewrite IH, (IH (sync_count r)). lia.
Qed.

Lemma total_count_app (a b : list SyncResult) :
  total_count (a ++ b) = total_count a + total_count b.
Proof.
  unfold total_count at 1. rewrite fold_left_app. fold (total_count a).
  apply total_count_from.
Qed.

Lemma all_interactions_length (rs : list SyncResult) :
  (forall r, In r rs -> List.length (sync_interactions r) = sync_count r) ->
  List.length (all_interactions rs) = total_count rs.
Proof.
  unfold all_interactions.
  induction rs as [|r rs IH]; intros Hall; [reflexivity|].
  cbn [map List.concat]. rewrite length_app, IH, (Hall r (or_introl eq_refl)).
  - change (r :: rs) with ([r] ++ rs). rewrite total_count_app.
    unfold total_count at 2. simpl. reflexivity.
  - intros r' Hr'. apply Hall. right. exact Hr'.
Qed.

Section Fetch.
Variable env : Env.

Lemma fetchVideoComments_fetch (c : PlatformConnection.t) (videoId : string) :
  YouTubeService.fetchVideoComments env c videoId
  = fetch env (commentThreads env (PlatformConnection.accessToken c) videoId)
          (YouTubeService.process_thread env c videoId)
          "Error fetching video comments:" "Failed to fetch video comments: ".
Proof. reflexivity. Qed.

Lemma fetchReviews_fetch (c : PlatformConnection.t) (locationId : string) :
  GoogleService.fetchReviews env c locationId
  = fetch env (reviews env (PlatformConnection.accessToken c) locationId)
          (GoogleService.process_review env c locationId)
          "Error fetching reviews:" "Failed to fetch reviews: ".
Proof. reflexivity. Qed.

(** What a fetch does, by the answer of the platform and of the
    database. *)
Lemma fetch_run {T} (answer : Result (list T)) (round : T -> M (list Interaction.t))
      (text prefix : string) (w : World) :
  (forall x, only_logs (round x)) ->
  (forall x, returns (round x)) ->
  match answer with
  | Throw error =>
      fetch env answer round text prefix w
      = (Throw (mkError (prefix ++ message error)%string None),
         with_console (console w ++ [LogError text (message error)]) w)
  | Ok items =>
      exists ds wa,
        for_each items round w = (Ok ds, wa)
        /\ logs_only w wa
        /\ (forall x, In x items ->
              exists wx dx wx',
                logs_only w wx /\ round x wx = (Ok dx, wx') /\ incl dx ds)
        /\ match ds with
           | [] => fetch env answer round text prefix w = (Ok (mkSyncResult true 0 []), wa)
           | _ :: _ =>
               if storageUp env then
                 fetch env answer round text prefix w
                 = (Ok (mkSyncResult true (List.length ds) ds),
                    with_interactions (interactions wa ++ stamp_all env (nextId wa) ds)
                                      (nextId wa + List.length ds) wa)
               else
                 fetch env answer round text prefix w
                 = (Throw (mkError (prefix ++ message storage_error)%string None),
                    with_console
                      (console wa ++ [LogError text (message storage_error)]) wa)
           end
  end.
Proof.
  intros Hl Hr. destruct answer as [items|error]; [|reflexivity].
  destruct (loop_run items round w Hl Hr) as (ds & wa & Hloop & Hlog & Hrounds).
  exists ds, wa. split; [exact Hloop|]. split; [exact Hlog|]. split; [exact Hrounds|].
  unfold fetch, try_catch.
  rewrite (bind_ok (lift (Ok items)) _ w w items eq_refl).
  rewrite (bind_ok _ _ _ _ _ Hloop).
  destruct ds as [|d ds]; [reflexivity|].
  unfold Interaction_insertMany, db. destruct (storageUp env); reflexivity.
Qed.

Lemma fetch_accounted {T} (answer : Result (list T))
      (round : T -> M (list Interaction.t)) (text prefix : string) (w : World) :
  (forall x, only_logs (round x)) ->
  (forall x, returns (round x)) ->
  accounted w (fetch env answer round text prefix w).
Proof.
  intros Hl Hr. pose proof (fetch_run answer round text prefix w Hl Hr) as Hrun.
  destruct answer as [items|error].
  - destruct Hrun as (ds & wa & _ & Hlog & _ & Hrun).
    destruct (logs_only_frame _ _ Hlog) as (Hint & _).
    destruct ds as [|d ds].
    + rewrite Hrun. cbn. rewrite Hint. split; [lia|reflexivity].
    + destruct (storageUp env); rewrite Hrun;
        cbn [accounted interactions with_interactions with_console sync_count
             sync_interactions].
      * rewrite length_app, stamp_all_length, Hint. split; [lia|reflexivity].
      * exact Hint.
  - rewrite Hrun. reflexivity.
Qed.

Lemma process_reply_logs (c : PlatformConnection.t) (videoId : string)
      (t : YouTube.Thread) (r : YouTube.Reply) :
  only_logs (YouTubeService.process_reply env c videoId t r).
Proof. unfold YouTubeService.process_reply. logs. Qed.

Lemma process_thread_logs (c : PlatformConnection.t) (videoId : string)
      (t : YouTube.Thread) :
  only_logs (YouTubeService.process_thread env c videoId t).
Proof.
  unfold YouTubeService.process_thread. logs; try apply process_reply_logs.
Qed.

Lemma process_thread_returns (c : PlatformConnection.t) (videoId : string)
      (t : YouTube.Thread) :
  returns (YouTubeService.process_thread env c videoId t).
Proof. apply returns_caught. intros e w. eexists. reflexivity. Qed.


Lemma process_review_logs (c : PlatformConnection.t) (locationId : string)
      (r : Google.Review) :
  only_logs (GoogleService.process_review env c locationId r).
Proof. unfold GoogleService.process_review. logs. Qed.

Lemma process_review_returns (c : PlatformConnection.t) (locationId : string)
      (r : Google.Review) :
  returns (GoogleService.process_review env c locationId r).
Proof. apply returns_caught. intros e w. eexists. reflexivity. Qed.

Lemma fetchVideoComments_accounted (c : PlatformConnection.t) (videoId : string)
      (w : World) :
  accounted w (YouTubeService.fetchVideoComments env c videoId w).
Proof.
  rewrite fetchVideoComments_fetch.
  apply fetch_accounted; intros t;
    [apply process_thread_logs|apply process_thread_returns].
Qed.

Lemma fetchReviews_accounted (c : PlatformConnection.t) (locationId : string)
      (w : World) :
  accounted w (GoogleService.fetchReviews env c locationId w).
Proof.
  rewrite fetchReviews_fetch.
  apply fetch_accounted; intros t;
    [apply process_review_logs|apply process_review_returns].
Qed.

(** A loop over fetches whose errors are caught: the results it gathers
    account for what it added. *)
Lemma caught_fetch_accounted {T} (x : T) (run : T -> M SyncResult)
      (failed : T -> JsError -> M unit) (w : World) :
  (forall wx, accounted wx (run x wx)) ->
  (forall e, only_logs (failed x e)) ->
  (forall e, returns (failed x e)) ->
  exists rs w',
    try_catch (result <- run x ;; ret [result])
              (fun error => failed x error ;;; ret []) w
    = (Ok rs, w')
    /\ List.length (interactions w') = List.length (interactions w) + total_count rs
    /\ (forall r, In r rs -> List.length (sync_interactions r) = sync_count r).
Proof.
  intros Hrun Hlog Hret.
  pose proof (Hrun w) as Hx. unfold accounted in Hx.
  unfold try_catch, bind at 1.
  destruct (run x w) as [[r|e] w1].
  - destruct Hx as [Hgrow Hlen]. exists [r], w1. split; [reflexivity|].
    split; [unfold total_count; cbn; lia|].
    intros r' [<-|[]]. exact Hlen.
  - destruct (Hret e w1) as [u Hu]. pose proof (Hlog e w1) as Hl.
    unfold bind.
    destruct (failed x e w1) as [ru w1']. cbn [fst snd] in *. subst ru.
    destruct (logs_only_frame _ _ Hl) as (Hint & _).
    exists [], w1'. split; [reflexivity|].
    split; [unfold total_count; cbn; rewrite Hint, Hx; lia|intros r []].
Qed.

Lemma sync_loop_accounted {T} (l : list T) (run : T -> M SyncResult)
      (failed : T -> JsError -> M unit) (w : World) :
  (forall x wx, accounted wx (run x wx)) ->
  (forall x e, only_logs (failed x e)) ->
  (forall x e, returns (failed x e)) ->
  exists rs w',
    for_each l (fun x => try_catch (result <- run x ;; ret [result])
                                   (fun error => failed x error ;;; ret [])) w
    = (Ok rs, w')
    /\ List.length (interactions w') = List.length (interactions w) + total_count rs
    /\ (forall r, In r rs -> List.length (sync_interactions r) = sync_count r).
Proof.
  intros Hrun Hlog Hret. revert w. induction l as [|x l IH]; intros w.
  - exists [], w. split; [reflexivity|]. split; [cbn; lia|intros r []].
  - cbn [for_each].
    destruct (caught_fetch_accounted x run failed w (Hrun x) (Hlog x) (Hret x))
      as (r1 & w1 & Hx & Hgrow1 & Hall1).
    rewrite (bind_ok _ _ _ _ _ Hx).
    destruct (IH w1) as (rs & w2 & Hrest & Hgrow2 & Hall).
    rewrite (bind_ok _ _ _ _ _ Hrest). cbn [ret].
    exists (r1 ++ rs), w2. split; [reflexivity|].
    split; [rewrite total_count_app; lia|].
    intros r' Hr'. apply in_app_or in Hr'. destruct Hr'; auto.
Qed.

(** While the database does not answer, a fetch only logs. *)
Lemma fetchReviews_down (c : PlatformConnection.t) (locationId : string) :
  storageUp env = false ->
  only_logs (GoogleService.fetchReviews env c locationId).
Proof.
  intros Hdown.
  unfold GoogleService.fetchReviews, GoogleService.process_review,
    Interaction_insertMany, db.
  rewrite Hdown. logs.
Qed.

Lemma fetchVideoComments_down (c : PlatformConnection.t) (videoId : string) :
  storageUp env = false ->
  only_logs (YouTubeService.fetchVideoComments env c videoId).
Proof.
  intros Hdown.
  unfold YouTubeService.fetchVideoComments, YouTubeService.process_thread,
    YouTubeService.process_reply, Interaction_insertMany, db.
  rewrite Hdown. logs.
Qed.

Lemma logError_rethrows (c : PlatformConnection.t) (error : JsError) (w : World) :
  exists e' w',
    (ConnectionMethods.logError env c error ;;; @throw SyncResult error) w
    = (Throw e', w')
    /\ interactions w' = interactions w.
Proof.
  unfold ConnectionMethods.logError, PlatformConnection_save, db, bind, throw.
  destruct (storageUp env); do 2 eexists; split; reflexivity.
Qed.

Lemma updateSyncStats_interactions (c : PlatformConnection.t) (n : Z) (w : World) :
  match ConnectionMethods.updateSyncStats env c n true w with
  | (Ok _, w') => interactions w' = interactions w
  | (Throw _, w') => w' = w /\ storageUp env = false
  end.
Proof.
  unfold ConnectionMethods.updateSyncStats, PlatformConnection_save, db, bind, throw.
  destruct (storageUp env); cbn; auto.
Qed.

(** The end of a sync run, after its loop gathered [rs]: the write of the
    statistics and the result, or the error handed to the handler of the
    run. *)
Lemma sync_end_accounted (c : PlatformConnection.t) (rs : list SyncResult)
      (w w1 : World) (body : M SyncResult) :
  List.length (interactions w1) = List.length (interactions w) + total_count rs ->
  (forall r, In r rs -> List.length (sync_interactions r) = sync_count r) ->
  (storageUp env = false -> interactions w1 = interactions w) ->
  body w
  = (ConnectionMethods.updateSyncStats env c (Z.of_nat (total_count rs)) true ;;;
     ret (mkSyncResult true (total_count rs) (all_interactions rs))) w1 ->
  accounted w
    (try_catch body
       (fun error => ConnectionMethods.logError env c error ;;; throw error) w).
Proof.
  intros Hgrow Hall Hdown Hbody. unfold try_catch. rewrite Hbody. unfold bind at 1.
  pose proof (updateSyncStats_interactions c (Z.of_nat (total_count rs)) w1) as Hst.
  destruct (ConnectionMethods.updateSyncStats env c _ true w1) as [[c'|e] w2].
  - cbn [ret accounted sync_count sync_interactions]. rewrite Hst.
    split; [exact Hgrow|apply all_interactions_length, Hall].
  - destruct Hst as [-> Hst].
    destruct (logError_rethrows c e w1) as (e' & w' & Hthrow & Hint).
    rewrite Hthrow. cbn [accounted]. rewrite Hint. auto.
Qed.

Lemma sync_fails_accounted (c : PlatformConnection.t) (error : JsError)
      (w : World) (body : M SyncResult) :
  body w = (Throw error, w) ->
  accounted w
    (try_catch body
       (fun error => ConnectionMethods.logError env c error ;;; throw error) w).
Proof.
  intros Hbody. unfold try_catch. rewrite Hbody.
  destruct (logError_rethrows c error w) as (e' & w' & Hthrow & Hint).
  rewrite Hthrow. exact Hint.
Qed.

Lemma fetchAllReviews_accounted (c : PlatformConnection.t) (w : World) :
  accounted w (GoogleService.fetchAllReviews env c w).
Proof.
  unfold GoogleService.fetchAllReviews.
  destruct (PlatformConnection.locationIds c) as [[|l0 l]|];
    try (cbn; split; [lia|reflexivity]).
  set (run := GoogleService.fetchReviews env c).
  set (failed := fun (locationId : string) (error : JsError) =>
                   console_error ("Error fetching reviews for location "
                                  ++ locationId ++ ":")%string (message error)).
  destruct (sync_loop_accounted (l0 :: l) run failed w)
    as (rs & w1 & Hloop & Hgrow & Hall).
  { intros x wx. apply fetchReviews_accounted. }
  { intros x e. apply only_logs_console_error. }
  { intros x e wx. eexists. reflexivity. }
  apply (sync_end_accounted c rs w w1); try assumption.
  - intros Hdown.
    assert (Hlogs : only_logs (for_each (l0 :: l) (GoogleService.process_location env c))).
    { apply only_logs_for_each. intros x. unfold GoogleService.process_location.
      apply only_logs_try_catch; [|intros e; logs].
      apply only_logs_bind; [apply fetchReviews_down, Hdown|].
      intros r. apply only_logs_ret. }
    specialize (Hlogs w).
    change (for_each (l0 :: l) (GoogleService.process_location env c) w)
      with (for_each (l0 :: l)
              (fun x => try_catch (result <- run x ;; ret [result])
                                  (fun error => failed x error ;;; ret [])) w)
      in Hlogs.
    rewrite Hloop in Hlogs. apply logs_only_frame in Hlogs. apply Hlogs.
  - exact (bind_ok (for_each (l0 :: l) (GoogleService.process_location env c))
                   _ w w1 rs Hloop).
Qed.

Lemma fetchAllChannelComments_accounted (c : PlatformConnection.t) (w : World) :
  accounted w (YouTubeService.fetchAllChannelComments env c w).
Proof.
  unfold YouTubeService.fetchAllChannelComments.
  destruct (PlatformConnection.channelId c) as [channelId|];
    [|eapply sync_fails_accounted; reflexivity].
  destruct (JS.truthy_string channelId); cbn [negb];
    [|eapply sync_fails_accounted; reflexivity].
  destruct (YouTubeService.getChannelVideos env (PlatformConnection.accessToken c)
              channelId) as [videos|error] eqn:Hvideos;
    [|eapply sync_fails_accounted; reflexivity].
  set (run := fun video => YouTubeService.fetchVideoComments env c (YouTube.videoId video)).
  set (failed := fun (video : YouTube.Video) (error : JsError) =>
                   console_error ("Error fetching comments for video "
                                  ++ YouTube.videoId video ++ ":")%string
                                 (message error)).
  destruct (sync_loop_accounted videos run failed w)
    as (rs & w1 & Hloop & Hgrow & Hall).
  { intros x wx. apply fetchVideoComments_accounted. }
  { intros x e. apply only_logs_console_error. }
  { intros x e wx. eexists. reflexivity. }
  apply (sync_end_accounted c rs w w1); try assumption.
  - intros Hdown.
    assert (Hlogs : only_logs (for_each videos (YouTubeService.process_video env c))).
    { apply only_logs_for_each. intros x. unfold YouTubeService.process_video.
      apply only_logs_try_catch; [|intros e; logs].
      apply only_logs_bind; [apply fetchVideoComments_down, Hdown|].
      intros r. apply only_logs_ret. }
    specialize (Hlogs w).
    change (for_each videos (YouTubeService.process_video env c) w)
      with (for_each videos
              (fun x => try_catch (result <- run x ;; ret [result])
                                  (fun error => failed x error ;;; ret [])) w)
      in Hlogs.
    rewrite Hloop in Hlogs. apply logs_only_frame in Hlogs. apply Hlogs.
  - rewrite (bind_ok (lift (Ok videos)) _ w w videos eq_refl).
    exact (bind_ok (for_each videos (YouTubeService.process_video env c))
                   _ w w1 rs Hloop).
Qed.


(** X7. A reply under a top-level comment that is already stored is not
    ingested: when the top-level comment of every thread of the answer is
    stored for the organization, [fetchVideoComments] builds no draft,
    inserts nothing and leaves the world as it is, whatever replies the
    threads carry. The adapter looks at the replies of a thread only after
    it has built the draft of its top-level comment. *)
Theorem X7_replies_under_a_stored_comment (c : PlatformConnection.t)
        (videoId : string) (threads : list YouTube.Thread) (w : World) :
  storageUp env = true ->
  commentThreads env (PlatformConnection.accessToken c) videoId = Ok threads ->
  Forall (fun t => addressed t
                   /\ seen w (PlatformConnection.organization c) (YouTube.id t))
         threads ->
  YouTubeService.fetchVideoComments env c videoId w
  = (Ok (mkSyncResult true 0 []), w).
Proof.
  intros Hup Hanswer Hall.
  assert (Hloop : for_each threads (YouTubeService.process_thread env c videoId) w
                  = (Ok [], w)).
  { clear Hanswer. induction threads as [|t ts IH]; [reflexivity|].
    inversion Hall as [|? ? [(s & top & Hs & Htop) Hseen] Hrest]; subst.
    cbn [for_each].
    assert (Hround : YouTubeService.process_thread env c videoId t w = (Ok [], w)).
    { unfold YouTubeService.process_thread, try_catch. rewrite Hs, Htop.
      unfold bind, Interaction_findOne. rewrite db_up by assumption.
      unfold seen in Hseen.
      destruct (find _ (interactions w)); [reflexivity|congruence]. }
    rewrite (bind_ok _ _ _ _ _ Hround).
    rewrite (bind_ok _ _ _ _ _ (IH Hrest)). reflexivity. }
  unfold YouTubeService.fetchVideoComments, try_catch. rewrite Hanswer.
  rewrite (bind_ok (lift (Ok threads)) _ w w threads eq_refl).
  rewrite (bind_ok _ _ _ _ _ Hloop). reflexivity.
Qed.


(** X9. What a fetch reports is what it added. A fetch of the reviews of
    a location or of the comments of a video that returns has added to
    the collection exactly as many documents as its count says, and
    returns that many interactions. A run over all the locations or all
    the videos that returns reports no more than the collection has grown
    by, and returns as many interactions as it reports. *)
Theorem X9_sync_count_is_growth (c : PlatformConnection.t) (w : World) :
  (forall locationId, counted w (GoogleService.fetchReviews env c locationId w))
  /\ (forall videoId, counted w (YouTubeService.fetchVideoComments env c videoId w))
  /\ not_over_counted w (GoogleService.fetchAllReviews env c w)
  /\ not_over_counted w (YouTubeService.fetchAllChannelComments env c w).
Proof.
  split; [|split; [|split]].
  - intros x. pose proof (fetchReviews_accounted c x w) as H.
    destruct (GoogleService.fetchReviews env c x w) as [[r|e] w']; [exact H|exact I].
  - intros x. pose proof (fetchVideoComments_accounted c x w) as H.
    destruct (YouTubeService.fetchVideoComments env c x w) as [[r|e] w'];
      [exact H|exact I].
  - pose proof (fetchAllReviews_accounted c w) as H.
    destruct (GoogleService.fetchAllReviews env c w) as [[r|e] w']; [|exact I].
    destruct H as [Hgrow Hlen]. split; [rewrite Hgrow; apply le_n|exact Hlen].
  - pose proof (fetchAllChannelComments_accounted c w) as H.
    destruct (YouTubeService.fetchAllChannelComments env c w) as [[r|e] w']; [|exact I].
    destruct H as [Hgrow Hlen]. split; [rewrite Hgrow; apply le_n|exact Hlen].
Qed.
End Fetch.

(** A channel of two videos, one of which cannot be fetched, computed: the
    run reports the two comments it added. *)
Example sync_growth_scenario :
  let r := YouTubeService.fetchAllChannelComments Scenario.youtube_up
             Scenario.youtube_connection Scenario.connected_office in
  option_map sync_count (match fst r with Ok x => Some x | Throw _ => None end) = Some 2
  /\ List.length (interactions (snd r)) = 2
  /\ interactions Scenario.connected_office = [].
Proof. vm_compute. repeat split. Qed.

Lemma X7_replies_under_a_stored_comment_witness :
  storageUp Sample.replies_up = true
  /\ YouTube.replies Sample.answered_thread = Some [Sample.reply "t1.r1" "Agreed"]
  /\ addressed Sample.answered_thread
  /\ seen (Scenario.world [Sample.stored_t1] []) 1 "t1"
  /\ unseen (Scenario.world [Sample.stored_t1] []) 1 "t1.r1"
  /\ YouTubeService.fetchVideoComments Sample.replies_up Scenario.youtube_connection
       "v1" (Scenario.world [Sample.stored_t1] [])
     = (Ok (mkSyncResult true 0 []), Scenario.world [Sample.stored_t1] []).
Proof.
  assert (Haddressed : addressed Sample.answered_thread).
  { do 2 eexists. split; reflexivity. }
  assert (Hseen : seen (Scenario.world [Sample.stored_t1] []) 1 "t1")
    by (unfold seen; cbn; discriminate).
  split; [reflexivity|]. split; [reflexivity|]. split; [exact Haddressed|].
  split; [exact Hseen|]. split; [reflexivity|].
  apply (X7_replies_under_a_stored_comment Sample.replies_up
           Scenario.youtube_connection "v1" [Sample.answered_thread]
           (Scenario.world [Sample.stored_t1] []) eq_refl eq_refl).
  constructor; [split; assumption|constructor].
Defined.


(** ** The webhook job: what a delivery stores and queues *)

Lemma update_first_in (q : Interaction.t -> bool) (u : Interaction.t -> Interaction.t)
      (l : list Interaction.t) (d : Interaction.t) :
  find q l = Some d -> In (u d) (update_first q u l).
Proof.
  induction l as [|x l IH]; simpl; [discriminate|].
  destruct (q x).
  - intros [= ->]. left. reflexivity.
  - intros Hf. right. auto.
Qed.

Lemma with_interactions_same (w : World) :
  with_interactions (interactions w) (nextId w) w = w.
Proof. destruct w; reflexivity. Qed.

Lemma caught_stores (platform text : string) (org : ObjectId)
      (m : M (option Interaction.t)) (w : World) :
  loop_stores platform org w (m w) ->
  stores_at_most_one platform text org w
    (try_catch m (fun error => console_error text (message error) ;;; throw error) w).
Proof.
  unfold loop_stores, stores_at_most_one, try_catch.
  destruct (m w) as [[[d|]|e] w']; try exact (fun H => H).
  intros ->. reflexivity.
Qed.

Section Upserts.
Variable env : Env.

(** An upsert whose update writes the platform, the organization and the
    status. *)
Lemma upsert_stores (platform : string) (org : ObjectId)
      (q : Interaction.t -> bool) (u : Interaction.t -> Interaction.t) (w : World) :
  (forall d, Interaction.platform (u d) = platform
             /\ Interaction.organization (u d) = org
             /\ Interaction.status (u d) = Some "unread") ->
  loop_stores platform org w
    ((interaction <- Interaction_findOneAndUpdate env q u ;; ret (Some interaction)) w).
Proof.
  intros Hu. unfold bind, Interaction_findOneAndUpdate, db.
  destruct (storageUp env); [|reflexivity].
  destruct (find q (interactions w)) as [d|] eqn:Hf; cbn [ret loop_stores].
  - destruct (Hu d) as (H1 & H2 & H3).
    split; [apply update_first_in, Hf|]. split; [exact H1|]. split; [exact H2|].
    split; [exact H3|]. split; [left; apply update_first_length|].
    do 2 eexists. reflexivity.
  - destruct (Hu (Interaction.blank 0 "" "" "")) as (H1 & H2 & H3).
    split; [cbn; apply in_or_app; right; left; reflexivity|].
    split; [exact H1|]. split; [exact H2|]. split; [exact H3|].
    split; [right; cbn; rewrite length_app; cbn; lia|].
    do 2 eexists. reflexivity.
Qed.

Lemma instagram_changes_stores (org : ObjectId) (changes : list Instagram.Change)
      (w : World) :
  loop_stores "instagram" org w (ProcessWebhook.instagram_changes env org changes w).
Proof.
  induction changes as [|change rest IH]; cbn [ProcessWebhook.instagram_changes];
    [reflexivity|].
  destruct (JS.strict_eq (Instagram.field change) "comments").
  - destruct (Instagram.value change) as [comment|]; [|reflexivity].
    apply upsert_stores. intros d. repeat split.
  - destruct (JS.strict_eq (Instagram.field change) "messages"); [|exact IH].
    destruct (Instagram.value change) as [msg|]; [|reflexivity].
    destruct (Instagram.from msg) as [from|]; [|reflexivity].
    apply upsert_stores. intros d. repeat split.
Qed.

Lemma facebook_changes_stores (org : ObjectId) (changes : list Facebook.Change)
      (w : World) :
  loop_stores "facebook" org w (WebhookJob.facebook_changes env org changes w).
Proof.
  induction changes as [|change rest IH]; cbn [WebhookJob.facebook_changes];
    [reflexivity|].
  assert (Hconv :
            loop_stores "facebook" org w
              ((if JS.strict_eq (Facebook.field change) "conversations" then
                  match Facebook.value change with
                  | None =>
                      throw (TypeError "Cannot read properties of undefined (reading 'id')")
                  | Some msg =>
                      match Facebook.from msg with
                      | None =>
                          throw (TypeError
                                   "Cannot read properties of undefined (reading 'id')")
                      | Some from =>
                          interaction <-
                            Interaction_findOneAndUpdate env
                              (ProcessWebhook.by_platformId (Facebook.id msg))
                              (WebhookJob.conversation_update org msg from) ;;
                          ret (Some interaction)
                      end
                  end
                else WebhookJob.facebook_changes env org rest) w)).
  { destruct (JS.strict_eq (Facebook.field change) "conversations"); [|exact IH].
    destruct (Facebook.value change) as [msg|]; [|reflexivity].
    destruct (Facebook.from msg) as [from|]; [|reflexivity].
    apply upsert_stores. intros d. repeat split. }
  cbv zeta.
  destruct (JS.strict_eq (Facebook.field change) "feed"); [|exact Hconv].
  destruct (Facebook.value change) as [comment|] eqn:Hv; [|reflexivity].
  destruct (JS.strict_eq (Facebook.item comment) "comment"); [|exact Hconv].
  destruct (Facebook.from comment) as [from|]; [|reflexivity].
  apply upsert_stores. intros d. repeat split.
Qed.

Lemma whatsapp_changes_stores (org : ObjectId) (changes : list WhatsApp.Change)
      (w : World) :
  loop_stores "whatsapp" org w (WebhookJob.whatsapp_changes env org changes w).
Proof.
  induction changes as [|change rest IH]; cbn [WebhookJob.whatsapp_changes];
    [reflexivity|].
  destruct (WhatsApp.value change) as [value|]; [|reflexivity].
  destruct (WhatsApp.messages value) as [[|msg msgs]|]; [reflexivity| |exact IH].
  apply upsert_stores. intros d. repeat split.
Qed.

Lemma handleInstagramWebhook_stores (org : ObjectId) (w : World)
      (payload : Instagram.Payload) :
  stores_at_most_one "instagram" "Instagram webhook handler error:" org w
    (ProcessWebhook.handleInstagramWebhook env payload org w).
Proof.
  unfold ProcessWebhook.handleInstagramWebhook. apply caught_stores.
  destruct (Instagram.entry payload) as [[|entry entries]|]; try reflexivity.
  apply instagram_changes_stores.
Qed.

Lemma handleFacebookWebhook_stores (org : ObjectId) (w : World)
      (payload : Facebook.Payload) :
  stores_at_most_one "facebook" "Facebook webhook handler error:" org w
    (WebhookJob.handleFacebookWebhook env payload org w).
Proof.
  unfold WebhookJob.handleFacebookWebhook. apply caught_stores.
  destruct (Facebook.entry payload) as [[|entry entries]|]; try reflexivity.
  apply facebook_changes_stores.
Qed.

Lemma handleWhatsAppWebhook_stores (org : ObjectId) (w : World)
      (payload : WhatsApp.Payload) :
  stores_at_most_one "whatsapp" "WhatsApp webhook handler error:" org w
    (WebhookJob.handleWhatsAppWebhook env payload org w).
Proof.
  unfold WebhookJob.handleWhatsAppWebhook. apply caught_stores.
  destruct (WhatsApp.entry payload) as [[|entry entries]|]; try reflexivity.
  apply whatsapp_changes_stores.
Qed.

(** X10. A delivery stores at most one interaction. Whatever the payload,
    the handlers of Instagram, Facebook and WhatsApp deliveries leave the
    collection with the size it had or one document more, and never touch
    the other collections. The interaction a handler returns is stored,
    unread, under the handler's platform and the organization of the
    delivery; a handler that returns nothing changed nothing; a handler
    that throws logged its error and changed nothing else. *)
Theorem X10_delivery_stores_at_most_one (org : ObjectId) (w : World) :
  (forall payload,
     stores_at_most_one "instagram" "Instagram webhook handler error:" org w
       (ProcessWebhook.handleInstagramWebhook env payload org w))
  /\ (forall payload,
        stores_at_most_one "facebook" "Facebook webhook handler error:" org w
          (WebhookJob.handleFacebookWebhook env payload org w))
  /\ (forall payload,
        stores_at_most_one "whatsapp" "WhatsApp webhook handler error:" org w
          (WebhookJob.handleWhatsAppWebhook env payload org w)).
Proof.
  split; [|split]; intros payload.
  - apply handleInstagramWebhook_stores.
  - apply handleFacebookWebhook_stores.
  - apply handleWhatsAppWebhook_stores.
Qed.
End Upserts.

(** ** The webhook job: the one change of a delivery that is read *)

Section FirstChange.
Variable env : Env.

Lemma instagram_passes (org : ObjectId) (pre rest : list Instagram.Change) :
  forallb (fun c => negb (instagram_stops c)) pre = true ->
  ProcessWebhook.instagram_changes env org (pre ++ rest)
  = ProcessWebhook.instagram_changes env org rest.
Proof.
  induction pre as [|c pre IH]; [reflexivity|].
  cbn [forallb]. intros H. apply andb_prop in H. destruct H as [Hc Hpre].
  unfold instagram_stops in Hc. apply negb_true_iff, orb_false_elim in Hc.
  destruct Hc as [H1 H2].
  cbn [app ProcessWebhook.instagram_changes]. rewrite H1, H2. exact (IH Hpre).
Qed.

Lemma instagram_ends (org : ObjectId) (c : Instagram.Change)
      (post : list Instagram.Change) :
  instagram_stops c = true ->
  ProcessWebhook.instagram_changes env org (c :: post)
  = ProcessWebhook.instagram_changes env org [c].
Proof.
  unfold instagram_stops. intros H. cbn [ProcessWebhook.instagram_changes].
  destruct (JS.strict_eq (Instagram.field c) "comments"); [reflexivity|].
  cbn [orb] in H. rewrite H. reflexivity.
Qed.

Lemma facebook_passes (org : ObjectId) (pre rest : list Facebook.Change) :
  forallb (fun c => negb (facebook_stops c)) pre = true ->
  WebhookJob.facebook_changes env org (pre ++ rest)
  = WebhookJob.facebook_changes env org rest.
Proof.
  induction pre as [|c pre IH]; [reflexivity|].
  cbn [forallb]. intros H. apply andb_prop in H. destruct H as [Hc Hpre].
  unfold facebook_stops in Hc. apply negb_true_iff, orb_false_elim in Hc.
  destruct Hc as [H1 H2].
  cbn [app WebhookJob.facebook_changes]. cbv zeta. rewrite H2.
  destruct (JS.strict_eq (Facebook.field c) "feed"); [|exact (IH Hpre)].
  cbn [andb] in H1.
  destruct (Facebook.value c) as [v|]; [|discriminate].
  rewrite H1. exact (IH Hpre).
Qed.

Lemma facebook_ends (org : ObjectId) (c : Facebook.Change)
      (post : list Facebook.Change) :
  facebook_stops c = true ->
  WebhookJob.facebook_changes env org (c :: post)
  = WebhookJob.facebook_changes env org [c].
Proof.
  unfold facebook_stops. intros H. cbn [WebhookJob.facebook_changes]. cbv zeta.
  destruct (JS.strict_eq (Facebook.field c) "feed"); cbn [andb orb] in H.
  - destruct (Facebook.value c) as [v|]; [|reflexivity].
    destruct (JS.strict_eq (Facebook.item v) "comment"); [reflexivity|].
    cbn [orb] in H. rewrite H. reflexivity.
  - rewrite H. reflexivity.
Qed.

Lemma whatsapp_passes (org : ObjectId) (pre rest : list WhatsApp.Change) :
  forallb (fun c => negb (whatsapp_stops c)) pre = true ->
  WebhookJob.whatsapp_changes env org (pre ++ rest)
  = WebhookJob.whatsapp_changes env org rest.
Proof.
  induction pre as [|c pre IH]; [reflexivity|].
  cbn [forallb]. intros H. apply andb_prop in H. destruct H as [Hc Hpre].
  unfold whatsapp_stops in Hc.
  cbn [app WebhookJob.whatsapp_changes].
  destruct (WhatsApp.value c) as [v|]; [|discriminate].
  destruct (WhatsApp.messages v); [discriminate|]. exact (IH Hpre).
Qed.

Lemma whatsapp_ends (org : ObjectId) (c : WhatsApp.Change)
      (post : list WhatsApp.Change) :
  whatsapp_stops c = true ->
  WebhookJob.whatsapp_changes env org (c :: post)
  = WebhookJob.whatsapp_changes env org [c].
Proof.
  unfold whatsapp_stops. intros H. cbn [WebhookJob.whatsapp_changes].
  destruct (WhatsApp.value c) as [v|]; [|reflexivity].
  destruct (WhatsApp.messages v) as [[|m ms]|]; [reflexivity|reflexivity|discriminate].
Qed.

(** X11. Of a delivery, only the first change its handler stops at is
    read. Whatever comes after that change in the first entry, and every
    entry after the first, is dropped: the handler does what it does for
    the delivery of that change alone. A delivery without any such change
    (also one without entries or without changes) returns nothing and
    leaves the world as it is, without a call to the database. *)
Theorem X11_only_the_first_change_is_read (org : ObjectId) (w : World) :
  (forall pre c post entries,
     forallb (fun c => negb (instagram_stops c)) pre = true ->
     instagram_stops c = true ->
     ProcessWebhook.handleInstagramWebhook env
       (Instagram.mkPayload
          (Some (Instagram.mkEntry (Some (pre ++ c :: post)) :: entries))) org w
     = ProcessWebhook.handleInstagramWebhook env
         (Instagram.mkPayload (Some [Instagram.mkEntry (Some [c])])) org w)
  /\ (forall pre c post entries,
        forallb (fun c => negb (facebook_stops c)) pre = true ->
        facebook_stops c = true ->
        WebhookJob.handleFacebookWebhook env
          (Facebook.mkPayload
             (Some (Facebook.mkEntry (Some (pre ++ c :: post)) :: entries))) org w
        = WebhookJob.handleFacebookWebhook env
            (Facebook.mkPayload (Some [Facebook.mkEntry (Some [c])])) org w)
  /\ (forall pre c post entries,
        forallb (fun c => negb (whatsapp_stops c)) pre = true ->
        whatsapp_stops c = true ->
        WebhookJob.handleWhatsAppWebhook env
          (WhatsApp.mkPayload
             (Some (WhatsApp.mkEntry (Some (pre ++ c :: post)) :: entries))) org w
        = WebhookJob.handleWhatsAppWebhook env
            (WhatsApp.mkPayload (Some [WhatsApp.mkEntry (Some [c])])) org w)
  /\ (forall changes entries,
        forallb (fun c => negb (instagram_stops c)) changes = true ->
        ProcessWebhook.handleInstagramWebhook env
          (Instagram.mkPayload (Some (Instagram.mkEntry (Some changes) :: entries)))
          org w
        = (Ok None, w))
  /\ (forall changes entries,
        forallb (fun c => negb (facebook_stops c)) changes = true ->
        WebhookJob.handleFacebookWebhook env
          (Facebook.mkPayload (Some (Facebook.mkEntry (Some changes) :: entries)))
          org w
        = (Ok None, w))
  /\ (forall changes entries,
        forallb (fun c => negb (whatsapp_stops c)) changes = true ->
        WebhookJob.handleWhatsAppWebhook env
          (WhatsApp.mkPayload (Some (WhatsApp.mkEntry (Some changes) :: entries)))
          org w
        = (Ok None, w)).
Proof.
  repeat split.
  - intros pre c post entries Hpre Hc.
    unfold ProcessWebhook.handleInstagramWebhook. cbn [Instagram.entry Instagram.changes].
    rewrite (instagram_passes org pre (c :: post) Hpre), (instagram_ends org c post Hc).
    reflexivity.
  - intros pre c post entries Hpre Hc.
    unfold WebhookJob.handleFacebookWebhook. cbn [Facebook.entry Facebook.changes].
    rewrite (facebook_passes org pre (c :: post) Hpre), (facebook_ends org c post Hc).
    reflexivity.
  - intros pre c post entries Hpre Hc.
    unfold WebhookJob.handleWhatsAppWebhook. cbn [WhatsApp.entry WhatsApp.changes].
    rewrite (whatsapp_passes org pre (c :: post) Hpre), (whatsapp_ends org c post Hc).
    reflexivity.
  - intros changes entries Hall.
    unfold ProcessWebhook.handleInstagramWebhook. cbn [Instagram.entry Instagram.changes].
    rewrite <- (app_nil_r changes), (instagram_passes org changes [] Hall). reflexivity.
  - intros changes entries Hall.
    unfold WebhookJob.handleFacebookWebhook. cbn [Facebook.entry Facebook.changes].
    rewrite <- (app_nil_r changes), (facebook_passes org changes [] Hall). reflexivity.
  - intros changes entries Hall.
    unfold WebhookJob.handleWhatsAppWebhook. cbn [WhatsApp.entry WhatsApp.changes].
    rewrite <- (app_nil_r changes), (whatsapp_passes org changes [] Hall). reflexivity.
Qed.

(** X13. An empty array of messages ends the WhatsApp handler with an
    error: the array is truthy and its first element is undefined, so the
    handler throws on it, logs the error and stores nothing, also when a
    later change of the delivery carries a message. *)
Theorem X13_empty_messages_array_throws (org : ObjectId) (w : World)
        (value : WhatsApp.Value) (post : list WhatsApp.Change)
        (entries : list WhatsApp.Entry) :
  WhatsApp.messages value = Some [] ->
  let error := TypeError "Cannot read properties of undefined (reading 'id')" in
  WebhookJob.handleWhatsAppWebhook env
    (WhatsApp.mkPayload
       (Some (WhatsApp.mkEntry (Some (WhatsApp.mkChange (Some value) :: post))
              :: entries))) org w
  = (Throw error,
     with_console
       (console w ++ [LogError "WhatsApp webhook handler error:" (message error)]) w).
Proof.
  intros Hempty. cbv zeta.
  unfold WebhookJob.handleWhatsAppWebhook, try_catch.
  cbn [WhatsApp.entry WhatsApp.changes WebhookJob.whatsapp_changes WhatsApp.value].
  rewrite Hempty. reflexivity.
Qed.
End FirstChange.

Lemma X11_only_the_first_change_is_read_witness :
  let skipped := [Sample.facebook_like; Sample.facebook_like] in
  let comment := Facebook.mkChange (Some "feed") (Some Sample.facebook_comment) in
  forallb (fun c => negb (facebook_stops c)) skipped = true
  /\ facebook_stops comment = true
  /\ WebhookJob.handleFacebookWebhook Scenario.offline
       (Sample.facebook_delivery (skipped ++ comment :: [comment; Sample.facebook_like]))
       1 (Scenario.world [] [])
     = WebhookJob.handleFacebookWebhook Scenario.offline
         (Sample.facebook_delivery [comment]) 1 (Scenario.world [] [])
  /\ List.length
       (interactions
          (snd (WebhookJob.handleFacebookWebhook Scenario.offline
                  (Sample.facebook_delivery [comment]) 1 (Scenario.world [] []))))
     = 1
  /\ WebhookJob.handleFacebookWebhook Scenario.storage_down
       (Sample.facebook_delivery skipped) 1 (Scenario.world [] [])
     = (Ok None, Scenario.world [] []).
Proof.
  cbv zeta.
  destruct (X11_only_the_first_change_is_read Scenario.offline 1 (Scenario.world [] []))
    as (_ & Hfirst & _).
  destruct (X11_only_the_first_change_is_read Scenario.storage_down 1
              (Scenario.world [] []))
    as (_ & _ & _ & _ & Hnone & _).
  split; [reflexivity|]. split; [reflexivity|].
  split.
  { exact (Hfirst [Sample.facebook_like; Sample.facebook_like]
                  (Facebook.mkChange (Some "feed") (Some Sample.facebook_comment))
                  [Facebook.mkChange (Some "feed") (Some Sample.facebook_comment);
                   Sample.facebook_like] [] eq_refl eq_refl). }
  split; [reflexivity|].
  exact (Hnone [Sample.facebook_like; Sample.facebook_like] [] eq_refl).
Defined.

Lemma X13_empty_messages_array_throws_witness :
  fst (WebhookJob.handleWhatsAppWebhook Scenario.offline
         (Sample.whatsapp_delivery
            [WhatsApp.mkChange (Some (WhatsApp.mkValue (Some []) None));
             WhatsApp.mkChange
               (Some (WhatsApp.mkValue (Some [Sample.whatsapp_message]) (Some "Ann")))])
         1 (Scenario.world [] []))
  = Throw (TypeError "Cannot read properties of undefined (reading 'id')").
Proof.
  pose proof (X13_empty_messages_array_throws Scenario.offline 1 (Scenario.world [] [])
                (WhatsApp.mkValue (Some []) None)
                [WhatsApp.mkChange
                   (Some (WhatsApp.mkValue (Some [Sample.whatsapp_message]) (Some "Ann")))]
                [] eq_refl) as Hthrows.
  cbv zeta in Hthrows. unfold Sample.whatsapp_delivery. rewrite Hthrows. reflexivity.
Defined.

(** ** The webhook job: the handlers that only look up *)

Section Lookups.
Variable env : Env.

Lemma lookup_reads_only (platform text id first second : string)
      (eventType : option string) (org : ObjectId) (w : World) :
  reads_only platform text id org w
    (try_catch
       (if JS.strict_eq eventType first || JS.strict_eq eventType second
        then Interaction_findOne env (ProcessWebhook.by_identity org platform id)
        else ret None)
       (fun error => console_error text (message error) ;;; throw error) w).
Proof.
  unfold try_catch.
  destruct (JS.strict_eq eventType first || JS.strict_eq eventType second);
    [|reflexivity].
  unfold Interaction_findOne, db. destruct (storageUp env); [|reflexivity].
  destruct (find _ (interactions w)) as [d|] eqn:Hf; [|reflexivity].
  apply find_some in Hf. destruct Hf as [Hin Hq].
  destruct (by_identity_separates _ _ _ _ Hq) as (Ho & Hp & Hi).
  cbn. auto.
Qed.

(** X14. The job's handlers for Google and YouTube only read. They leave
    the world as it is (an error apart, which they log), and the document
    they return is a stored one that has the identifier, the organization
    and the platform asked for: the document of another organization or of
    another platform under the same identifier is never returned. For an
    event of another type they return nothing without a call to the
    database. *)
Theorem X14_lookup_handlers_only_read (id : string) (eventType : option string)
        (org : ObjectId) (w : World) :
  reads_only "google" "Google webhook handler error:" id org w
    (ProcessWebhook.handleGoogleWebhook env id eventType org w)
  /\ reads_only "youtube" "YouTube webhook handler error:" id org w
       (WebhookJob.handleYouTubeWebhook env id eventType org w)
  /\ (eventType <> Some "NEW_REVIEW" -> eventType <> Some "UPDATE_REVIEW" ->
      ProcessWebhook.handleGoogleWebhook env id eventType org w = (Ok None, w))
  /\ (eventType <> Some "NEW_COMMENT" -> eventType <> Some "UPDATE_COMMENT" ->
      WebhookJob.handleYouTubeWebhook env id eventType org w = (Ok None, w)).
Proof.
  split; [apply lookup_reads_only|]. split; [apply lookup_reads_only|].
  split; intros H1 H2; apply strict_eq_false in H1, H2.
  - unfold ProcessWebhook.handleGoogleWebhook, try_catch. rewrite H1, H2. reflexivity.
  - unfold WebhookJob.handleYouTubeWebhook, try_catch. rewrite H1, H2. reflexivity.
Qed.
End Lookups.

Lemma X14_lookup_handlers_only_read_witness :
  let stored := Scenario.world [Sample.stored_t1] [] in
  WebhookJob.handleYouTubeWebhook Scenario.offline "t1" (Some "NEW_COMMENT") 1 stored
  = (Ok (Some Sample.stored_t1), stored)
  /\ WebhookJob.handleYouTubeWebhook Scenario.offline "t1" (Some "NEW_COMMENT") 2 stored
     = (Ok None, stored)
  /\ WebhookJob.handleYouTubeWebhook Scenario.storage_down "t1" (Some "DELETE_COMMENT")
       1 stored
     = (Ok None, stored).
Proof.
  cbv zeta. split; [reflexivity|]. split; [reflexivity|].
  destruct (X14_lookup_handlers_only_read Scenario.storage_down "t1"
              (Some "DELETE_COMMENT") 1 (Scenario.world [Sample.stored_t1] []))
    as (_ & _ & _ & Hother).
  apply Hother; discriminate.
Defined.

(** ** The webhook job: what it queues *)

Section Job.
Variable env : Env.
Variable net : Net.

(** What the handler of a delivery leaves behind, whatever the platform. *)
Lemma dispatch_outcome (data : WebhookJob.JobData) (org : ObjectId) (w : World) :
  match WebhookJob.dispatch env data org w with
  | (Ok (Some d), w') =>
      In d (interactions w') /\ exists lines, console w' = console w ++ lines
  | (Ok None, w') =>
      interactions w' = interactions w /\ exists lines, console w' = console w ++ lines
  | (Throw e, w') => exists lines, console w' = console w ++ lines
  end.
Proof.
  assert (Hstores : forall platform text run,
             stores_at_most_one platform text org w run ->
             match run with
             | (Ok (Some d), w') =>
                 In d (interactions w') /\ exists lines, console w' = console w ++ lines
             | (Ok None, w') =>
                 interactions w' = interactions w
                 /\ exists lines, console w' = console w ++ lines
             | (Throw e, w') => exists lines, console w' = console w ++ lines
             end).
  { intros platform text [[[d|]|e] w'] H; cbn in H.
    - destruct H as (Hin & _ & _ & _ & _ & l & n & ->). split; [exact Hin|].
      exists []. cbn. rewrite app_nil_r. reflexivity.
    - subst w'. split; [reflexivity|]. exists []. rewrite app_nil_r. reflexivity.
    - subst w'. eexists. reflexivity. }
  assert (Hreads : forall platform text id run,
             reads_only platform text id org w run ->
             match run with
             | (Ok (Some d), w') =>
                 In d (interactions w') /\ exists lines, console w' = console w ++ lines
             | (Ok None, w') =>
                 interactions w' = interactions w
                 /\ exists lines, console w' = console w ++ lines
             | (Throw e, w') => exists lines, console w' = console w ++ lines
             end).
  { intros platform text id [[[d|]|e] w'] H; cbn in H.
    - destruct H as (-> & Hin & _). split; [exact Hin|].
      exists []. rewrite app_nil_r. reflexivity.
    - subst w'. split; [reflexivity|]. exists []. rewrite app_nil_r. reflexivity.
    - subst w'. eexists. reflexivity. }
  destruct data as [payload|payload|payload|payload|payload|platform];
    cbn [WebhookJob.dispatch].
  - eapply Hstores. apply handleInstagramWebhook_stores.
  - eapply Hstores. apply handleFacebookWebhook_stores.
  - eapply Hstores. apply handleWhatsAppWebhook_stores.
  - eapply Hreads. apply lookup_reads_only.
  - eapply Hreads. apply lookup_reads_only.
  - cbn. split; [reflexivity|]. eexists. reflexivity.
Qed.

(** X15. The job queues what its handler stored, once. A run that returns
    reports success under the platform of the delivery; when its handler
    returned an interaction, that interaction is in the collection and one
    job with its identifier (3 attempts, backoff 2000) was added to the AI
    queue; when it returned none, nothing was queued and the collection is
    as it was. A run that throws (the handler's error, or the queue's)
    queued nothing and logged the error. *)
Theorem X15_job_queues_what_it_stored (data : WebhookJob.JobData) (org : ObjectId)
        (s : Backend) :
  job_accounted data s (WebhookJob.processWebhook env net data org s).
Proof.
  unfold WebhookJob.processWebhook, try_catchB.
  unfold bindB at 1, bindB at 1, in_world at 1.
  rewrite bind_log.
  pose proof (dispatch_outcome data org
                (with_console
                   (console (world s)
                    ++ [Log ("Processing webhook from "
                             ++ ProcessWebhook.template (WebhookJob.platform_of data)
                             ++ " for organization " ++ JS.show org)%string])
                   (world s))) as Hd.
  destruct (WebhookJob.dispatch env data org _) as [[[i|]|e] w1].
  - destruct Hd as [Hin (lines & Hlines)].
    cbn [console with_console] in Hlines.
    unfold bindB at 1, WebhookJob.aiQueue_add.
    destruct (redis net) as [error|]; cbn.
    + split; [reflexivity|]. split; [reflexivity|].
      exists ([Log ("Processing webhook from "
                    ++ ProcessWebhook.template (WebhookJob.platform_of data)
                    ++ " for organization " ++ JS.show org)%string] ++ lines).
      rewrite Hlines, <- !app_assoc. reflexivity.
    + split; [reflexivity|]. split; [reflexivity|]. split; [reflexivity|].
      exists (Some i). split; [reflexivity|]. split; [reflexivity|exact Hin].
  - destruct Hd as [Hint _]. cbn.
    split; [reflexivity|]. split; [reflexivity|]. split; [reflexivity|].
    exists None. split; [reflexivity|]. split; [cbn; symmetry; apply app_nil_r|exact Hint].
  - destruct Hd as (lines & Hlines). cbn [console with_console] in Hlines. cbn.
    split; [reflexivity|]. split; [reflexivity|].
    exists ([Log ("Processing webhook from "
                  ++ ProcessWebhook.template (WebhookJob.platform_of data)
                  ++ " for organization " ++ JS.show org)%string] ++ lines).
    rewrite Hlines, <- !app_assoc. reflexivity.
Qed.
End Job.

(** A WhatsApp delivery, computed: the message is stored and its job
    queued; with the queue's store down the message is stored and the job
    throws. *)
Example whatsapp_job_scenario :
  let data := WebhookJob.WhatsAppJob
                (Sample.whatsapp_delivery
                   [Sample.whatsapp_status;
                    WhatsApp.mkChange
                      (Some (WhatsApp.mkValue (Some [Sample.whatsapp_message])
                                              (Some "Ann")))]) in
  let start := Sample.backend (Scenario.world [] []) in
  let up := WebhookJob.processWebhook Scenario.offline Sample.net_up data 1 start in
  let down := WebhookJob.processWebhook Scenario.offline Sample.net_down data 1 start in
  fst up = Ok (WebhookJob.mkJobResult true (Some 1000) (Some "whatsapp"))
  /\ aiQueue (snd up) = [AiJob.mk (Some 1000) 3 2000]
  /\ map (fun d => (Interaction.platformId d, Interaction.content d,
                    Author.name (Interaction.author d)))
         (interactions (world (snd up)))
     = [("wamid1", Some "Hello", Some "Ann")]
  /\ fst down = Throw Scenario.network_error
  /\ aiQueue (snd down) = []
  /\ List.length (interactions (world (snd down))) = 1.
Proof. vm_compute. repeat split. Qed.

(* ------------------------------------------------------------------ *)
(** *** A delivery that comes twice *)
(* ------------------------------------------------------------------ *)

Section Redelivery.
Variable env : Env.

(** Once an upsert has returned, the same upsert on any world with the
    collection it left returns the same document and changes nothing. *)
Lemma upsert_settled (query : Interaction.t -> bool)
      (update : Interaction.t -> Interaction.t)
      (update_matches : forall d, query (update d) = true)
      (update_twice : forall d, update (update d) = update d)
      (update_stamp :
         forall k t d, update (Interaction.stamp k t d) = Interaction.stamp k t (update d))
      (query_stamp : forall k t d, query (Interaction.stamp k t d) = query d)
      (w w1 : World) (d1 : Interaction.t) :
  Interaction_findOneAndUpdate env query update w = (Ok d1, w1) ->
  forall wb, interactions wb = interactions w1 ->
  Interaction_findOneAndUpdate env query update wb = (Ok d1, wb).
Proof.
  intros Hup wb Hwb.
  destruct (storageUp env) eqn:Hs.
  - pose proof (findOneAndUpdate_again env Hs query update update_matches
                  update_twice update_stamp query_stamp w w1 d1 Hup) as Hagain.
    revert Hagain. unfold Interaction_findOneAndUpdate.
    rewrite !db_up by assumption. rewrite Hwb.
    destruct (find query (interactions w1)) as [d|].
    + intros [= Hd Hw1]. apply (f_equal interactions) in Hw1.
      cbn [interactions with_interactions] in Hw1.
      rewrite Hw1, Hd, <- Hwb. destruct wb; reflexivity.
    + intros [= _ Hw1]. apply (f_equal interactions) in Hw1.
      cbn [interactions with_interactions] in Hw1.
      apply (f_equal (@List.length _)) in Hw1.
      rewrite length_app in Hw1. cbn in Hw1. lia.
  - revert Hup. unfold Interaction_findOneAndUpdate, db. rewrite Hs. discriminate.
Qed.

Lemma instagram_changes_settled (org : ObjectId) (changes : list Instagram.Change)
      (w w1 : World) (r : option Interaction.t) :
  ProcessWebhook.instagram_changes env org changes w = (Ok r, w1) ->
  forall wb, interactions wb = interactions w1 ->
  ProcessWebhook.instagram_changes env org changes wb = (Ok r, wb).
Proof.
  induction changes as [|change rest IH]; cbn [ProcessWebhook.instagram_changes].
  - intros [= <- <-] wb _. reflexivity.
  - destruct (JS.strict_eq (Instagram.field change) "comments").
    + destruct (Instagram.value change) as [comment|]; [|discriminate].
      unfold bind.
      destruct (Interaction_findOneAndUpdate env _ _ w) as [[d|e] w'] eqn:Hup;
        [|discriminate].
      intros [= <- <-] wb Hwb.
      rewrite (upsert_settled
                 (ProcessWebhook.by_platformId (Instagram.id comment))
                 (ProcessWebhook.comment_update org comment)
                 (fun d => String.eqb_refl _) (fun d => eq_refl)
                 (fun k t d => eq_refl) (fun k t d => eq_refl) _ _ _ Hup wb Hwb).
      reflexivity.
    + destruct (JS.strict_eq (Instagram.field change) "messages"); [|exact IH].
      destruct (Instagram.value change) as [msg|]; [|discriminate].
      destruct (Instagram.from msg) as [from|]; [|discriminate].
      unfold bind.
      destruct (Interaction_findOneAndUpdate env _ _ w) as [[d|e] w'] eqn:Hup;
        [|discriminate].
      intros [= <- <-] wb Hwb.
      rewrite (upsert_settled
                 (ProcessWebhook.by_platformId (Instagram.id msg))
                 (ProcessWebhook.message_update org msg from)
                 (fun d => String.eqb_refl _) (fun d => eq_refl)
                 (fun k t d => eq_refl) (fun k t d => eq_refl) _ _ _ Hup wb Hwb).
      reflexivity.
Qed.

Lemma facebook_changes_settled (org : ObjectId) (changes : list Facebook.Change)
      (w w1 : World) (r : option Interaction.t) :
  WebhookJob.facebook_changes env org changes w = (Ok r, w1) ->
  forall wb, interactions wb = interactions w1 ->
  WebhookJob.facebook_changes env org changes wb = (Ok r, wb).
Proof.
  induction changes as [|change rest IH]; cbn [WebhookJob.facebook_changes].
  - intros [= <- <-] wb _. reflexivity.
  - assert (Hconv :
      (if JS.strict_eq (Facebook.field change) "conversations" then
         match Facebook.value change with
         | None => throw (TypeError "Cannot read properties of undefined (reading 'id')")
         | Some msg =>
             match Facebook.from msg with
             | None =>
                 throw (TypeError "Cannot read properties of undefined (reading 'id')")
             | Some from =>
                 interaction <-
                   Interaction_findOneAndUpdate env
                     (ProcessWebhook.by_platformId (Facebook.id msg))
                     (WebhookJob.conversation_update org msg from) ;;
                 ret (Some interaction)
             end
         end
       else WebhookJob.facebook_changes env org rest) w = (Ok r, w1) ->
      forall wb, interactions wb = interactions w1 ->
      (if JS.strict_eq (Facebook.field change) "conversations" then
         match Facebook.value change with
         | None => throw (TypeError "Cannot read properties of undefined (reading 'id')")
         | Some msg =>
             match Facebook.from msg with
             | None =>
                 throw (TypeError "Cannot read properties of undefined (reading 'id')")
             | Some from =>
                 interaction <-
                   Interaction_findOneAndUpdate env
                     (ProcessWebhook.by_platformId (Facebook.id msg))
                     (WebhookJob.conversation_update org msg from) ;;
                 ret (Some interaction)
             end
         end
       else WebhookJob.facebook_changes env org rest) wb = (Ok r, wb)).
    { destruct (JS.strict_eq (Facebook.field change) "conversations"); [|exact IH].
      destruct (Facebook.value change) as [msg|]; [|discriminate].
      destruct (Facebook.from msg) as [from|]; [|discriminate].
      unfold bind.
      destruct (Interaction_findOneAndUpdate env _ _ w) as [[d|e] w'] eqn:Hup;
        [|discriminate].
      intros [= <- <-] wb Hwb.
      rewrite (upsert_settled
                 (ProcessWebhook.by_platformId (Facebook.id msg))
                 (WebhookJob.conversation_update org msg from)
                 (fun d => String.eqb_refl _) (fun d => eq_refl)
                 (fun k t d => eq_refl) (fun k t d => eq_refl) _ _ _ Hup wb Hwb).
      reflexivity. }
    destruct (JS.strict_eq (Facebook.field change) "feed"); [|exact Hconv].
    destruct (Facebook.value change) as [comment|]; [|discriminate].
    destruct (JS.strict_eq (Facebook.item comment) "comment"); [|exact Hconv].
    destruct (Facebook.from comment) as [from|]; [|discriminate].
    unfold bind.
    destruct (Interaction_findOneAndUpdate env _ _ w) as [[d|e] w'] eqn:Hup;
      [|discriminate].
    intros [= <- <-] wb Hwb.
    rewrite (upsert_settled
               (ProcessWebhook.by_platformId (Facebook.comment_id comment))
               (WebhookJob.feed_update org comment from)
               (fun d => String.eqb_refl _) (fun d => eq_refl)
               (fun k t d => eq_refl) (fun k t d => eq_refl) _ _ _ Hup wb Hwb).
    reflexivity.
Qed.

Lemma whatsapp_changes_settled (org : ObjectId) (changes : list WhatsApp.Change)
      (w w1 : World) (r : option Interaction.t) :
  WebhookJob.whatsapp_changes env org changes w = (Ok r, w1) ->
  forall wb, interactions wb = interactions w1 ->
  WebhookJob.whatsapp_changes env org changes wb = (Ok r, wb).
Proof.
  induction changes as [|change rest IH]; cbn [WebhookJob.whatsapp_changes].
  - intros [= <- <-] wb _. reflexivity.
  - destruct (WhatsApp.value change) as [value|]; [|discriminate].
    destruct (WhatsApp.messages value) as [[|msg msgs]|];
      [discriminate| |exact IH].
    unfold bind.
    destruct (Interaction_findOneAndUpdate env _ _ w) as [[d|e] w'] eqn:Hup;
      [|discriminate].
    intros [= <- <-] wb Hwb.
    rewrite (upsert_settled
               (ProcessWebhook.by_platformId (WhatsApp.id msg))
               (WebhookJob.whatsapp_update org value msg)
               (fun d => String.eqb_refl _) (fun d => eq_refl)
               (fun k t d => eq_refl) (fun k t d => eq_refl) _ _ _ Hup wb Hwb).
    reflexivity.
Qed.

(** A handler that catches, logs and rethrows returns what its body
    returns. *)
Lemma caught_settled {A} (body : M A) (text : string) (w w1 : World) (r : A) :
  (forall w w1, body w = (Ok r, w1) ->
     forall wb, interactions wb = interactions w1 -> body wb = (Ok r, wb)) ->
  try_catch body (fun error => console_error text (message error) ;;; throw error) w
  = (Ok r, w1) ->
  forall wb, interactions wb = interactions w1 ->
  try_catch body (fun error => console_error text (message error) ;;; throw error) wb
  = (Ok r, wb).
Proof.
  intros Hbody. unfold try_catch.
  destruct (body w) as [[r0|e] w0] eqn:Hrun; [|discriminate].
  intros [= -> <-] wb Hwb. rewrite (Hbody _ _ Hrun wb Hwb). reflexivity.
Qed.

Lemma lookup_settled (platform id : string) (org : ObjectId) (wanted : bool)
      (w w1 : World) (r : option Interaction.t) :
  (if wanted
   then Interaction_findOne env (ProcessWebhook.by_identity org platform id)
   else ret None) w = (Ok r, w1) ->
  forall wb, interactions wb = interactions w1 ->
  (if wanted
   then Interaction_findOne env (ProcessWebhook.by_identity org platform id)
   else ret None) wb = (Ok r, wb).
Proof.
  destruct wanted.
  - unfold Interaction_findOne, db. destruct (storageUp env); [|discriminate].
    intros [= <- <-] wb ->. reflexivity.
  - intros [= <- <-] wb _. reflexivity.
Qed.

Lemma dispatch_settled (data : WebhookJob.JobData) (org : ObjectId)
      (w w1 : World) (r : option Interaction.t) :
  WebhookJob.dispatch env data org w = (Ok r, w1) ->
  forall wb, interactions wb = interactions w1 ->
  exists wb', WebhookJob.dispatch env data org wb = (Ok r, wb') /\ logs_only wb wb'.
Proof.
  destruct data as [payload|payload|payload|notice|notice|platform];
    cbn [WebhookJob.dispatch]; intros Hrun wb Hwb.
  - exists wb. split; [|apply logs_only_refl].
    revert w w1 Hrun wb Hwb. unfold ProcessWebhook.handleInstagramWebhook.
    intros w w1. apply caught_settled. clear w w1.
    destruct (Instagram.entry payload) as [[|entry entries]|].
    + intros w w1 [= <-] wb _. reflexivity.
    + intros w w1. apply instagram_changes_settled.
    + intros w w1 [= <-] wb _. reflexivity.
  - exists wb. split; [|apply logs_only_refl].
    revert w w1 Hrun wb Hwb. unfold WebhookJob.handleFacebookWebhook.
    intros w w1. apply caught_settled. clear w w1.
    destruct (Facebook.entry payload) as [[|entry entries]|].
    + intros w w1 [= <-] wb _. reflexivity.
    + intros w w1. apply facebook_changes_settled.
    + intros w w1 [= <-] wb _. reflexivity.
  - exists wb. split; [|apply logs_only_refl].
    revert w w1 Hrun wb Hwb. unfold WebhookJob.handleWhatsAppWebhook.
    intros w w1. apply caught_settled. clear w w1.
    destruct (WhatsApp.entry payload) as [[|entry entries]|].
    + intros w w1 [= <-] wb _. reflexivity.
    + intros w w1. apply whatsapp_changes_settled.
    + intros w w1 [= <-] wb _. reflexivity.
  - exists wb. split; [|apply logs_only_refl].
    revert w w1 Hrun wb Hwb. unfold ProcessWebhook.handleGoogleWebhook.
    intros w w1. apply caught_settled. clear w w1.
    intros w w1. apply lookup_settled.
  - exists wb. split; [|apply logs_only_refl].
    revert w w1 Hrun wb Hwb. unfold WebhookJob.handleYouTubeWebhook.
    intros w w1. apply caught_settled. clear w w1.
    intros w w1. apply lookup_settled.
  - revert Hrun. cbn. intros [= <- _]. eexists. split; [reflexivity|].
    eexists. reflexivity.
Qed.
End Redelivery.

Section Again.
Variable env : Env.
Variable net : Net.

(** The job, by the outcome of its handler. *)
Lemma processWebhook_run (data : WebhookJob.JobData) (org : ObjectId) (s : Backend) :
  WebhookJob.processWebhook env net data org s
  = match WebhookJob.dispatch env data org
            (with_console
               (console (world s)
                ++ [Log ("Processing webhook from "
                         ++ ProcessWebhook.template (WebhookJob.platform_of data)
                         ++ " for organization " ++ JS.show org)%string])
               (world s)) with
    | (Ok (Some i), w1) =>
        match redis net with
        | None =>
            (Ok (WebhookJob.mkJobResult true (Interaction._id i)
                                        (WebhookJob.platform_of data)),
             mkBackend
               (with_console
                  (console w1
                   ++ [Log ("Interaction created and queued for AI processing: "
                            ++ ProcessAI.show_id i)%string]) w1)
               (aiQueue s ++ [AiJob.mk (Interaction._id i) 3 2000])
               (connectionRest s))
        | Some error =>
            (Throw error,
             mkBackend
               (with_console
                  (console w1
                   ++ [LogError "Webhook processing error:" (message error)]) w1)
               (aiQueue s) (connectionRest s))
        end
    | (Ok None, w1) =>
        (Ok (WebhookJob.mkJobResult true None (WebhookJob.platform_of data)),
         mkBackend w1 (aiQueue s) (connectionRest s))
    | (Throw e, w1) =>
        (Throw e,
         mkBackend
           (with_console
              (console w1 ++ [LogError "Webhook processing error:" (message e)]) w1)
           (aiQueue s) (connectionRest s))
    end.
Proof.
  unfold WebhookJob.processWebhook, try_catchB.
  unfold bindB at 1, bindB at 1, in_world at 1.
  rewrite bind_log.
  destruct (WebhookJob.dispatch env data org _) as [[[i|]|e] w1].
  - unfold bindB at 1, WebhookJob.aiQueue_add.
    destruct (redis net) as [error|]; reflexivity.
  - reflexivity.
  - reflexivity.
Qed.

(** X12. A delivery that comes twice is stored once and queued twice. When
    the job has returned for a delivery, running it again on the state it
    left returns the same result and leaves the collection as it is: no
    second document. The AI queue, which is not looked up, receives the
    job of the interaction a second time. *)
Theorem X12_redelivery_stores_once (data : WebhookJob.JobData) (org : ObjectId)
        (s s1 : Backend) (res : WebhookJob.JobResult) :
  WebhookJob.processWebhook env net data org s = (Ok res, s1) ->
  exists s2 d,
    WebhookJob.processWebhook env net data org s1 = (Ok res, s2)
    /\ interactions (world s2) = interactions (world s1)
    /\ aiQueue s1 = aiQueue s ++ job_of d
    /\ aiQueue s2 = aiQueue s1 ++ job_of d.
Proof.
  rewrite !processWebhook_run.
  destruct (WebhookJob.dispatch env data org _) as [[r|e] w1] eqn:Hrun at 1;
    [|discriminate].
  assert (Hsettled :
    forall wb, interactions wb = interactions w1 ->
      exists wb', WebhookJob.dispatch env data org wb = (Ok r, wb')
                  /\ interactions wb' = interactions w1).
  { intros wb Hwb.
    destruct (dispatch_settled env data org _ _ r Hrun wb Hwb)
      as (wb' & Hagain & [lines' ->]).
    eexists. split; [exact Hagain|exact Hwb]. }
  destruct r as [i|].
  - destruct (redis net) as [error|] eqn:Hredis; [discriminate|].
    intros [= <- <-]. cbn [world aiQueue connectionRest console with_console].
    match goal with
    | |- context [WebhookJob.dispatch env data org ?wb] =>
        destruct (Hsettled wb eq_refl) as (wb' & -> & Hint)
    end.
    eexists. exists (Some i). split; [reflexivity|].
    cbn [world aiQueue interactions with_console job_of].
    split; [exact Hint|]. split; reflexivity.
  - intros [= <- <-]. cbn [world aiQueue connectionRest console with_console].
    match goal with
    | |- context [WebhookJob.dispatch env data org ?wb] =>
        destruct (Hsettled wb eq_refl) as (wb' & -> & Hint)
    end.
    eexists. exists None. split; [reflexivity|].
    cbn [world aiQueue interactions with_console job_of].
    split; [exact Hint|]. rewrite !app_nil_r. split; reflexivity.
Qed.
End Again.

Lemma X12_redelivery_stores_once_witness :
  let data := WebhookJob.FacebookJob
                (Sample.facebook_delivery
                   [Sample.facebook_like;
                    Facebook.mkChange (Some "feed") (Some Sample.facebook_comment)]) in
  let first := WebhookJob.processWebhook Scenario.offline Sample.net_up data 1
                 (Sample.backend (Scenario.world [] [])) in
  exists s2 d,
    WebhookJob.processWebhook Scenario.offline Sample.net_up data 1 (snd first)
    = (Ok (WebhookJob.mkJobResult true (Some 1000) (Some "facebook")), s2)
    /\ interactions (world s2) = interactions (world (snd first))
    /\ aiQueue (snd first) = [] ++ job_of d
    /\ aiQueue s2 = aiQueue (snd first) ++ job_of d.
Proof.
  intros data first.
  apply (X12_redelivery_stores_once Scenario.offline Sample.net_up data 1
           (Sample.backend (Scenario.world [] [])) (snd first)
           (WebhookJob.mkJobResult true (Some 1000) (Some "facebook"))).
  reflexivity.
Defined.

(* ================================================================== *)
(** ** A malformed item: the bulk adapter and the webhook handler *)
(* ================================================================== *)

Section Malformed.
Variable env : Env.
Hypothesis storage_up : storageUp env = true.
Variable c : PlatformConnection.t.
Variable videoId : string.

Lemma malformed_change_stops (change : Instagram.Change) :
  malformed_change change = true -> instagram_stops change = true.
Proof.
  unfold malformed_change, instagram_stops.
  destruct (JS.strict_eq (Instagram.field change) "comments"); [reflexivity|].
  destruct (JS.strict_eq (Instagram.field change) "messages"); [reflexivity|discriminate].
Qed.

Lemma malformed_change_throws (org : ObjectId) (change : Instagram.Change)
      (post : list Instagram.Change) (w : World) :
  malformed_change change = true ->
  ProcessWebhook.instagram_changes env org (change :: post) w
  = (Throw (TypeError "Cannot read properties of undefined (reading 'id')"), w).
Proof.
  unfold malformed_change. cbn [ProcessWebhook.instagram_changes].
  destruct (JS.strict_eq (Instagram.field change) "comments").
  - destruct (Instagram.value change); [discriminate|reflexivity].
  - destruct (JS.strict_eq (Instagram.field change) "messages"); [|discriminate].
    destruct (Instagram.value change) as [msg|]; [|reflexivity].
    destruct (Instagram.from msg); [discriminate|reflexivity].
Qed.

(** C8, as amended. In a batch of comment threads fetched for a video, one
    of them malformed and the others plain and not stored yet, the YouTube
    adapter builds the drafts of the other threads in their order, inserts
    them and returns normally, while the database answers. It logs one
    error, for the malformed thread; it logs none when that thread has its
    snippet and its top-level comment and is already stored, for it is
    then skipped as stored before its text is read. The Instagram webhook
    handler does not isolate: whatever the delivery, it stores at most one
    item; when the first entry carries a comment or message change, it
    handles the first such change and nothing after it; and when that
    change is malformed it logs the error, throws it again and stores
    nothing. *)
Theorem C8_malformed_item_isolated
        (pre post : list YouTube.Thread) (bad : YouTube.Thread)
        (dpre dpost : list Interaction.t) (w : World) :
  commentThreads env (PlatformConnection.accessToken c) videoId
  = Ok (pre ++ bad :: post) ->
  Forall2 (fun t d => plain_draft c videoId t = Some d) pre dpre ->
  Forall2 (fun t d => plain_draft c videoId t = Some d) post dpost ->
  Forall (fun t => unseen w (PlatformConnection.organization c) (YouTube.id t)) pre ->
  Forall (fun t => unseen w (PlatformConnection.organization c) (YouTube.id t)) post ->
  top_level bad = None ->
  (exists w',
     YouTubeService.fetchVideoComments env c videoId w
     = (Ok (mkSyncResult true (List.length pre + List.length post) (dpre ++ dpost)), w')
     /\ interactions w'
        = interactions w ++ stamp_all env (nextId w) (dpre ++ dpost)
     /\ List.length (pre ++ bad :: post) = S (List.length (dpre ++ dpost))
     /\ (headless bad = true
         \/ unseen w (PlatformConnection.organization c) (YouTube.id bad) ->
         exists detail,
           console w'
           = console w
             ++ [LogError ("Error processing comment " ++ YouTube.id bad ++ ":")%string
                          detail])
     /\ (headless bad = false ->
         ~ unseen w (PlatformConnection.organization c) (YouTube.id bad) ->
         console w' = console w))
  /\ (forall payload org w0,
        stores_at_most_one "instagram" "Instagram webhook handler error:" org w0
          (ProcessWebhook.handleInstagramWebhook env payload org w0))
  /\ (forall passed change after entries org w0,
        forallb (fun x => negb (instagram_stops x)) passed = true ->
        instagram_stops change = true ->
        ProcessWebhook.handleInstagramWebhook env
          (Instagram.mkPayload
             (Some (Instagram.mkEntry (Some (passed ++ change :: after)) :: entries)))
          org w0
        = ProcessWebhook.handleInstagramWebhook env
            (Instagram.mkPayload (Some [Instagram.mkEntry (Some [change])])) org w0)
  /\ (forall passed change after entries org w0,
        forallb (fun x => negb (instagram_stops x)) passed = true ->
        malformed_change change = true ->
        let error := TypeError "Cannot read properties of undefined (reading 'id')" in
        ProcessWebhook.handleInstagramWebhook env
          (Instagram.mkPayload
             (Some (Instagram.mkEntry (Some (passed ++ change :: after)) :: entries)))
          org w0
        = (Throw error,
           with_console
             (console w0
              ++ [LogError "Instagram webhook handler error:" (message error)]) w0)).
Proof.
  intros Hapi Hpre Hpost Hnpre Hnpost Hbad.
  split; [|split; [|split]].
  - destruct (headless bad) eqn:Hhead.
    + destruct (process_thread_headless env c videoId bad w Hhead) as [detail Hrun].
      destruct (malformed_batch env storage_up c videoId pre post bad dpre dpost w _
                  Hapi Hpre Hpost Hnpre Hnpost Hrun)
        as (w' & Hfetch & Hcon & Hint & Hlen); [eexists; reflexivity|].
      exists w'. split; [exact Hfetch|]. split; [exact Hint|]. split; [exact Hlen|].
      split; [intros _; exists detail; exact Hcon|discriminate].
    + destruct (find (YouTubeService.by_platformId_org (YouTube.id bad)
                        (PlatformConnection.organization c)) (interactions w))
        as [d|] eqn:Hfind.
      * assert (Hseen : ~ unseen w (PlatformConnection.organization c) (YouTube.id bad)).
        { unfold unseen. rewrite Hfind. discriminate. }
        pose proof (process_thread_stored env storage_up c videoId bad w Hhead Hseen)
          as Hrun.
        destruct (malformed_batch env storage_up c videoId pre post bad dpre dpost w w
                    Hapi Hpre Hpost Hnpre Hnpost Hrun (logs_only_refl w))
          as (w' & Hfetch & Hcon & Hint & Hlen).
        exists w'. split; [exact Hfetch|]. split; [exact Hint|]. split; [exact Hlen|].
        split; [|intros _ _; exact Hcon].
        intros [Hno|Hno]; [discriminate|contradiction].
      * destruct (process_thread_malformed env storage_up c videoId bad w Hbad Hfind)
          as [detail Hrun].
        destruct (malformed_batch env storage_up c videoId pre post bad dpre dpost w _
                    Hapi Hpre Hpost Hnpre Hnpost Hrun)
          as (w' & Hfetch & Hcon & Hint & Hlen); [eexists; reflexivity|].
        exists w'. split; [exact Hfetch|]. split; [exact Hint|]. split; [exact Hlen|].
        split; [intros _; exists detail; exact Hcon|].
        intros _ Hseen. exfalso. apply Hseen. exact Hfind.
  - intros payload org w0. apply handleInstagramWebhook_stores.
  - intros passed change after entries org w0 Hpassed Hstops.
    unfold ProcessWebhook.handleInstagramWebhook. cbn [Instagram.entry Instagram.changes].
    rewrite (instagram_passes env org passed (change :: after) Hpassed).
    rewrite (instagram_ends env org change after Hstops). reflexivity.
  - intros passed change after entries org w0 Hpassed Hmal error.
    unfold ProcessWebhook.handleInstagramWebhook, try_catch.
    cbn [Instagram.entry Instagram.changes].
    rewrite (instagram_passes env org passed (change :: after) Hpassed).
    rewrite (malformed_change_throws org change after w0 Hmal). reflexivity.
Qed.
End Malformed.

Lemma C8_malformed_item_isolated_witness :
  storageUp Scenario.youtube_up = true
  /\ commentThreads Scenario.youtube_up "token-y" "v1"
     = Ok ([Scenario.thread1] ++ Scenario.broken_thread :: [Scenario.thread2])
  /\ top_level Scenario.broken_thread = None
  /\ exists d1 d2 detail w',
       plain_draft Scenario.youtube_connection "v1" Scenario.thread1 = Some d1
       /\ plain_draft Scenario.youtube_connection "v1" Scenario.thread2 = Some d2
       /\ YouTubeService.fetchVideoComments Scenario.youtube_up
            Scenario.youtube_connection "v1" Scenario.connected_office
          = (Ok (mkSyncResult true 2 [d1; d2]), w')
       /\ console w' = [LogError "Error processing comment tb:" detail].
Proof.
  split; [reflexivity|]. split; [reflexivity|]. split; [reflexivity|].
  destruct (plain_draft Scenario.youtube_connection "v1" Scenario.thread1)
    as [d1|] eqn:H1; [|discriminate].
  destruct (plain_draft Scenario.youtube_connection "v1" Scenario.thread2)
    as [d2|] eqn:H2; [|discriminate].
  destruct (C8_malformed_item_isolated Scenario.youtube_up eq_refl
              Scenario.youtube_connection "v1"
              [Scenario.thread1] [Scenario.thread2] Scenario.broken_thread
              [d1] [d2] Scenario.connected_office eq_refl)
    as ((w' & Hrun & _ & _ & Hlog & _) & _).
  - repeat constructor. exact H1.
  - repeat constructor. exact H2.
  - repeat constructor.
  - repeat constructor.
  - reflexivity.
  - destruct (Hlog (or_introl eq_refl)) as [detail Hcon].
    exists d1, d2, detail, w'. repeat split; assumption.
Defined.

(** The same batch, run: two drafts in the order of the threads, with the
    word-list sentiment, and one error on the console. *)
Example malformed_thread_scenario :
  let r := YouTubeService.fetchVideoComments Scenario.youtube_up
             Scenario.youtube_connection "v1" Scenario.connected_office in
  map (fun d => (Interaction._id d, Interaction.platformId d, Interaction.sentiment d))
      (interactions (snd r))
  = [(Some 1000, "t1", Some "positive"); (Some 1001, "t2", Some "negative")]
  /\ console (snd r)
     = [LogError "Error processing comment tb:"
                 "Cannot read properties of undefined (reading 'topLevelComment')"].
Proof. vm_compute. split; reflexivity. Qed.

(** C8, counterexample. The Instagram webhook handler, given a malformed
    comment change followed by a well-formed one, logs the error, throws it
    again and stores nothing: the malformed item aborts its sibling. *)
Lemma C8_webhook_aborts_on_malformed :
  ~ webhook_isolates_bad_items
  /\ ProcessWebhook.handleInstagramWebhook Scenario.offline
       (Scenario.instagram_delivery [Scenario.broken_change; Scenario.comment_change "c1"])
       1 (Scenario.world [] [])
     = (Throw (TypeError "Cannot read properties of undefined (reading 'id')"),
        with_console
          [LogError "Instagram webhook handler error:"
                    "Cannot read properties of undefined (reading 'id')"]
          (Scenario.world [] [])).
Proof.
  split; [|reflexivity].
  intros H.
  destruct (H Scenario.offline 1 (Scenario.webhook_comment "c1" "p1")
              (Scenario.world [] []) eq_refl) as (r & w' & Hrun & _).
  vm_compute in Hrun. discriminate.
Qed.

(* ================================================================== *)
(** ** Tokens and the platform controller *)
(* ================================================================== *)

Lemma with_world_same (s : Backend) : with_world (world s) s = s.
Proof. destruct s; reflexivity. Qed.

Lemma token_services_same (env : Env) (net : Net)
      (ensure : Connection.t -> B (string * Connection.t)) :
  In ensure (token_services env net) -> ensure = Tokens.ensureValidToken env net.
Proof. intros [<-|[<-|[]]]; reflexivity. Qed.

Lemma isTokenExpired_false (now : Z) (c : Connection.t) :
  Tokens.isTokenExpired now c = false
  <-> (forall t, Connection.tokenExpiry c = Some t -> (now <= t)%Z).
Proof.
  unfold Tokens.isTokenExpired.
  destruct (Connection.tokenExpiry c) as [expiry|].
  - rewrite Z.ltb_ge. split.
    + intros H t [= <-]. exact H.
    + intros H. apply H. reflexivity.
  - split; [intros _ t; discriminate|reflexivity].
Qed.

Lemma find_replaced (query : PlatformConnection.t -> bool)
      (d d' : PlatformConnection.t) (l : list PlatformConnection.t) :
  (forall x, query x = true -> PlatformConnection._id x = PlatformConnection._id d) ->
  query d' = true ->
  find query l = Some d ->
  find query
       (map (fun x => if Nat.eqb (PlatformConnection._id x) (PlatformConnection._id d)
                      then d' else x) l)
  = Some d'.
Proof.
  intros Hid Hq. induction l as [|x l IH]; cbn [find map]; [discriminate|].
  destruct (Nat.eqb (PlatformConnection._id x) (PlatformConnection._id d)) eqn:Hx.
  - intros _. rewrite Hq. reflexivity.
  - destruct (query x) eqn:Hqx.
    + apply Hid in Hqx. rewrite Hqx, Nat.eqb_refl in Hx. discriminate.
    + exact IH.
Qed.

Lemma Connection_findOne_run (env : Env) (query : PlatformConnection.t -> bool)
      (s : Backend) :
  Tokens.Connection_findOne env query s
  = if storageUp env then
      (Ok (match find query (connections (world s)) with
           | Some d => Some (Connection.mk d (connectionRest s (PlatformConnection._id d)))
           | None => None
           end), s)
    else (Throw storage_error, s).
Proof.
  unfold Tokens.Connection_findOne, bindB, in_world, PlatformConnection_findOne, db.
  destruct (storageUp env); cbn; rewrite with_world_same; reflexivity.
Qed.

Section Token.
Variable env : Env.
Variable net : Net.

(** X16. A token that has not expired costs nothing. For a connection
    without an expiry, or whose expiry is not before the present moment
    (the moment of the expiry included), both services return the stored
    token: the token endpoint is not called and nothing is written, the
    database being reachable or not. *)
Theorem X16_valid_token_costs_nothing
        (ensure : Connection.t -> B (string * Connection.t))
        (c : Connection.t) (s : Backend) :
  In ensure (token_services env net) ->
  (forall t, Connection.tokenExpiry c = Some t -> (now env <= t)%Z) ->
  ensure c s = (Ok (PlatformConnection.accessToken (Connection.document c), c), s).
Proof.
  intros Hin Hvalid. rewrite (token_services_same env net ensure Hin).
  apply isTokenExpired_false in Hvalid.
  unfold Tokens.ensureValidToken. rewrite Hvalid. reflexivity.
Qed.

(** How a call that refreshes runs. *)
Lemma ensureValidToken_expired (c : Connection.t) (s : Backend) :
  Tokens.isTokenExpired (now env) c = true ->
  Tokens.ensureValidToken env net c s
  = match usable_refresh_token c with
    | None => (Throw (mkError "Refresh token not available" None), s)
    | Some token =>
        match tokenEndpoint net token with
        | Throw error =>
            (Throw (mkError ("Failed to refresh token: " ++ message error)%string None), s)
        | Ok response =>
            let c' := Tokens.refreshed (now env) (access_token response)
                                       (expires_in response) c in
            if storageUp env then
              (Ok (access_token response, c'),
               mkBackend
                 (with_connections
                    (map (fun d => if Nat.eqb (PlatformConnection._id d)
                                              (PlatformConnection._id (Connection.document c))
                                   then Connection.document c' else d)
                         (connections (world s)))
                    (connectionSaves (world s) ++ [Connection.document c'])
                    (world s))
                 (aiQueue s)
                 (fun id => if Nat.eqb id (PlatformConnection._id (Connection.document c))
                            then Connection.rest c' else connectionRest s id))
            else (Throw storage_error, s)
        end
    end.
Proof.
  intros Hexpired. unfold Tokens.ensureValidToken, usable_refresh_token.
  rewrite Hexpired. cbn [negb].
  destruct (Connection.refreshToken c) as [token|]; [|reflexivity].
  destruct (JS.truthy_string token); cbn [negb]; [|reflexivity].
  unfold Tokens.refreshAccessToken.
  destruct (tokenEndpoint net token) as [response|error]; [|reflexivity].
  unfold bindB, Tokens.Connection_save, bindB, in_world, PlatformConnection_save, db.
  destruct (storageUp env); cbn.
  - reflexivity.
  - rewrite with_world_same. reflexivity.
Qed.

(** X17. A call that fails has written nothing. When a service throws, the
    token had expired and the state is as it was; the error says which step
    failed: no refresh token to send (absent or empty), the token endpoint
    (its message after "Failed to refresh token: "), or the save of the
    connection. *)
Theorem X17_failed_refresh_writes_nothing
        (ensure : Connection.t -> B (string * Connection.t))
        (c : Connection.t) (s s' : Backend) (e : JsError) :
  In ensure (token_services env net) ->
  ensure c s = (Throw e, s') ->
  s' = s
  /\ Tokens.isTokenExpired (now env) c = true
  /\ match usable_refresh_token c with
     | None => e = mkError "Refresh token not available" None
     | Some token =>
         match tokenEndpoint net token with
         | Throw error =>
             e = mkError ("Failed to refresh token: " ++ message error)%string None
         | Ok _ => storageUp env = false /\ e = storage_error
         end
     end.
Proof.
  intros Hin. rewrite (token_services_same env net ensure Hin).
  destruct (Tokens.isTokenExpired (now env) c) eqn:Hexpired.
  - rewrite (ensureValidToken_expired c s Hexpired).
    destruct (usable_refresh_token c) as [token|].
    + destruct (tokenEndpoint net token) as [response|error].
      * cbv zeta. destruct (storageUp env); [discriminate|].
        intros [= <- <-]. repeat split.
      * intros [= <- <-]. repeat split.
    + intros [= <- <-]. repeat split.
  - unfold Tokens.ensureValidToken. rewrite Hexpired. discriminate.
Qed.

(** X18. A refreshed token is the one the next request finds. When a
    request has found its connection and a service has returned a token
    for it, the connection the service returned holds that token, and on
    the state the service left the same lookup, at any later moment at
    which the database answers, finds the connection as the service
    returned it. A further call of either service for it, at a moment that
    is not after the expiry it then holds, returns the same token and
    writes nothing; nothing is said of a call after that expiry, which
    refreshes again. *)
Theorem X18_refreshed_token_is_found_again
        (ensure : Connection.t -> B (string * Connection.t))
        (req : PlatformController.Request) (c c' : Connection.t) (s s1 : Backend)
        (token : string) :
  In ensure (token_services env net) ->
  finds env (PlatformController.is_active_connection req) s = Ok (Some c) ->
  ensure c s = (Ok (token, c'), s1) ->
  PlatformConnection.accessToken (Connection.document c') = token
  /\ (forall later : Env,
        storageUp later = true ->
        finds later (PlatformController.is_active_connection req) s1 = Ok (Some c'))
  /\ (forall (later : Env) (net' : Net)
             (again : Connection.t -> B (string * Connection.t)),
        In again (token_services later net') ->
        (forall t, Connection.tokenExpiry c' = Some t -> (now later <= t)%Z) ->
        again c' s1 = (Ok (token, c'), s1)).
Proof.
  intros Hin. rewrite (token_services_same env net ensure Hin).
  unfold finds. rewrite Connection_findOne_run.
  destruct (storageUp env) eqn:Hup; [|discriminate].
  cbn [fst].
  destruct (find _ (connections (world s))) as [d|] eqn:Hfind; [|discriminate].
  intros [= <-].
  set (c := Connection.mk d (connectionRest s (PlatformConnection._id d))).
  intros Hrun.
  assert (Hfound : PlatformConnection.accessToken (Connection.document c') = token
                   /\ match find (PlatformController.is_active_connection req)
                                 (connections (world s1)) with
                      | Some d' => Some (Connection.mk d'
                                           (connectionRest s1 (PlatformConnection._id d')))
                      | None => None
                      end = Some c').
  { revert Hrun. destruct (Tokens.isTokenExpired (now env) c) eqn:Hexpired.
    - rewrite (ensureValidToken_expired c s Hexpired).
      destruct (usable_refresh_token c) as [sent|]; [|discriminate].
      destruct (tokenEndpoint net sent) as [response|error] eqn:Hsent; [|discriminate].
      cbv zeta. rewrite Hup. intros [= <- <- <-].
      cbn [world connections with_connections connectionRest Connection.document
           Tokens.refreshed].
      split; [reflexivity|].
      pose proof (find_some _ _ Hfind) as [_ Hd].
      erewrite find_replaced; [| |exact Hd|exact Hfind].
      + cbn [PlatformConnection._id]. rewrite Nat.eqb_refl. reflexivity.
      + intros x Hx. unfold PlatformController.is_active_connection in Hx, Hd.
        apply andb_prop in Hx as [Hx _]. apply andb_prop in Hx as [Hx _].
        apply andb_prop in Hd as [Hd _]. apply andb_prop in Hd as [Hd _].
        apply Nat.eqb_eq in Hx, Hd. congruence.
    - unfold Tokens.ensureValidToken at 1. rewrite Hexpired. cbn [negb].
      intros [= <- <- <-]. rewrite Hfind. split; reflexivity. }
  destruct Hfound as [Htoken Hfound].
  split; [exact Htoken|]. split.
  - intros later Hlater. rewrite Connection_findOne_run, Hlater. cbn [fst].
    rewrite Hfound. reflexivity.
  - intros later net' again Hagain Hvalid.
    rewrite (token_services_same later net' again Hagain).
    apply isTokenExpired_false in Hvalid.
    unfold Tokens.ensureValidToken. rewrite Hvalid, Htoken. reflexivity.
Qed.
End Token.

Lemma X16_valid_token_costs_nothing_witness :
  Tokens.ensureValidToken_youtube Scenario.storage_down Sample.net_down
    (Connection.mk Scenario.youtube_connection
       (ConnectionRest.mk None (Some Scenario.noon) None))
    (Sample.backend (Scenario.world [] []))
  = (Ok ("token-y",
         Connection.mk Scenario.youtube_connection
           (ConnectionRest.mk None (Some Scenario.noon) None)),
     Sample.backend (Scenario.world [] [])).
Proof.
  apply (X16_valid_token_costs_nothing Scenario.storage_down Sample.net_down
           (Tokens.ensureValidToken_youtube Scenario.storage_down Sample.net_down)).
  - right. left. reflexivity.
  - intros t [= <-]. cbn. lia.
Defined.

Lemma X17_failed_refresh_writes_nothing_witness :
  let c := Connection.mk Scenario.google_connection Sample.stale in
  let run := Tokens.ensureValidToken Scenario.reviews_up Sample.net_down c
               Sample.stale_office in
  snd run = Sample.stale_office
  /\ Tokens.isTokenExpired (now Scenario.reviews_up) c = true
  /\ match usable_refresh_token c with
     | None => Scenario.network_error = mkError "Refresh token not available" None
     | Some token =>
         match tokenEndpoint Sample.net_down token with
         | Throw error =>
             mkError "Failed to refresh token: timeout of 30000ms exceeded" None
             = mkError ("Failed to refresh token: " ++ message error)%string None
         | Ok _ =>
             storageUp Scenario.reviews_up = false
             /\ mkError "Failed to refresh token: timeout of 30000ms exceeded" None
                = storage_error
         end
     end.
Proof.
  intros c run.
  pose proof (X17_failed_refresh_writes_nothing Scenario.reviews_up Sample.net_down
                (Tokens.ensureValidToken Scenario.reviews_up Sample.net_down)
                c Sample.stale_office (snd run)
                (mkError "Failed to refresh token: timeout of 30000ms exceeded" None)
                (or_introl eq_refl) eq_refl) as (Hstate & Hexpired & Herror).
  split; [exact Hstate|]. split; [exact Hexpired|]. reflexivity.
Defined.

Lemma X18_refreshed_token_is_found_again_witness :
  let c := Connection.mk Scenario.google_connection Sample.stale in
  let c' := Tokens.refreshed Scenario.noon "token-2" 3600 c in
  let s1 := snd (Tokens.ensureValidToken Scenario.reviews_up Sample.net_up c
                   Sample.stale_office) in
  PlatformConnection.accessToken (Connection.document c') = "token-2"
  /\ finds Sample.half_an_hour_later
           (PlatformController.is_active_connection (PlatformController.mkRequest 50 1)) s1
     = Ok (Some c')
  /\ Tokens.ensureValidToken_youtube Sample.half_an_hour_later Sample.net_down c' s1
     = (Ok ("token-2", c'), s1).
Proof.
  intros c c' s1.
  destruct (X18_refreshed_token_is_found_again Scenario.reviews_up Sample.net_up
              (Tokens.ensureValidToken Scenario.reviews_up Sample.net_up)
              (PlatformController.mkRequest 50 1) c c' Sample.stale_office s1 "token-2")
    as (Htoken & Hfound & Hagain).
  - left. reflexivity.
  - reflexivity.
  - reflexivity.
  - split; [exact Htoken|]. split.
    + apply Hfound. reflexivity.
    + apply (Hagain Sample.half_an_hour_later Sample.net_down).
      * right. left. reflexivity.
      * intros t [= <-]. cbn. lia.
Defined.

(* ------------------------------------------------------------------ *)
(** *** The platform controller *)
(* ------------------------------------------------------------------ *)

Section Controller.
Variable env : Env.
Variable net : Net.

(** A service that keeps a token valid touches neither the interactions
    nor the queue; when it throws it touches nothing. *)
Lemma ensureValidToken_keeps (c : Connection.t) (s : Backend) :
  match Tokens.ensureValidToken env net c s with
  | (Ok _, s1) =>
      aiQueue s1 = aiQueue s /\ interactions (world s1) = interactions (world s)
  | (Throw _, s1) => s1 = s
  end.
Proof.
  destruct (Tokens.isTokenExpired (now env) c) eqn:Hexpired.
  - rewrite (ensureValidToken_expired env net c s Hexpired).
    destruct (usable_refresh_token c) as [token|]; [|reflexivity].
    destruct (tokenEndpoint net token) as [response|error]; [|reflexivity].
    cbv zeta. destruct (storageUp env); [|reflexivity].
    split; reflexivity.
  - unfold Tokens.ensureValidToken. rewrite Hexpired. split; reflexivity.
Qed.

(** The two arms of a sync: the token is checked, the fetch runs on the
    connection as the check left it. *)
Lemma sync_arm (fetchAll : PlatformConnection.t -> M SyncResult)
      (c : Connection.t) (s : Backend) :
  (forall d w, accounted w (fetchAll d w)) ->
  sync_answered s
    (try_catchB
       (valid <- Tokens.ensureValidToken env net c ;;
        result <- in_world (fetchAll (Connection.document (snd valid))) ;;
        retB (PlatformController.Sent
                (PlatformController.mkResponse 200 true "Sync completed"
                                               (Some (sync_count result)))))%backend
       (fun error => retB (PlatformController.Next error)) s).
Proof.
  intros Hfetch. unfold try_catchB, bindB at 1.
  pose proof (ensureValidToken_keeps c s) as Hkeep.
  destruct (Tokens.ensureValidToken env net c s) as [[valid|e] s0].
  - destruct Hkeep as [Hqueue Hint]. unfold bindB, in_world.
    pose proof (Hfetch (Connection.document (snd valid)) (world s0)) as Hacc.
    destruct (fetchAll (Connection.document (snd valid)) (world s0)) as [[r|e] w1];
      cbn in *.
    + split; [exact Hqueue|]. split; [reflexivity|]. rewrite <- Hint.
      destruct Hacc as [Hgrow _]. rewrite Hgrow. apply le_n.
    + split; [exact Hqueue|]. rewrite <- Hint, Hacc. apply le_n.
  - subst s0. cbn. split; [reflexivity|apply le_n].
Qed.

(** X19. A manual sync never throws and queues nothing. When it answers
    with a number of added interactions, the status is 200 and the
    collection holds at least that many documents more; a 404 or a 400
    changed nothing; an error is handed to [next]. On no path is a
    document removed or anything queued for the AI: the interactions a
    manual sync stores are not analysed. *)
Theorem X19_sync_reports_what_it_added (req : PlatformController.Request)
        (s : Backend) :
  sync_answered s (PlatformController.syncPlatform env net req s).
Proof.
  unfold PlatformController.syncPlatform.
  pose proof (Connection_findOne_run env (PlatformController.is_active_connection req) s)
    as Hfind.
  destruct (storageUp env).
  2:{ unfold try_catchB, bindB at 1. rewrite Hfind. cbn. split; [reflexivity|apply le_n]. }
  destruct (find _ (connections (world s))) as [d|].
  2:{ unfold try_catchB, bindB at 1. rewrite Hfind. cbn.
      split; [reflexivity|]. split; [left; reflexivity|reflexivity]. }
  set (c := Connection.mk d (connectionRest s (PlatformConnection._id d))) in *.
  destruct (String.eqb (PlatformConnection.platform d) "youtube") eqn:Hyt;
    [|destruct (String.eqb (PlatformConnection.platform d) "google") eqn:Hg].
  - pose proof (sync_arm (YouTubeService.fetchAllChannelComments env) c s
                  (fun d w => fetchAllChannelComments_accounted env d w)) as Harm.
    unfold try_catchB in *. unfold bindB at 1. rewrite Hfind.
    cbn [Connection.document c]. rewrite Hyt. exact Harm.
  - pose proof (sync_arm (GoogleService.fetchAllReviews env) c s
                  (fun d w => fetchAllReviews_accounted env d w)) as Harm.
    unfold try_catchB in *. unfold bindB at 1. rewrite Hfind.
    cbn [Connection.document c]. rewrite Hyt, Hg. exact Harm.
  - unfold try_catchB, bindB at 1. rewrite Hfind.
    cbn [Connection.document c]. rewrite Hyt, Hg. cbn.
    split; [reflexivity|]. split; [right; reflexivity|reflexivity].
Qed.

Lemma find_nowhere {A} (query : A -> bool) (l : list A) :
  (forall x, In x l -> query x = false) -> find query l = None.
Proof.
  induction l as [|x l IH]; intros H; cbn; [reflexivity|].
  rewrite (H x (or_introl eq_refl)). apply IH. intros y Hy. apply H. right. exact Hy.
Qed.

(** X20. The connection of another organization is not found. With the
    database reachable, a request whose identifier names no connection of
    the caller's organization (an unknown identifier, or the connection of
    another organization) is answered 404 by the sync and by the
    disconnection, and nothing is read from the platform or written. *)
Theorem X20_foreign_connection_is_not_found (req : PlatformController.Request)
        (s : Backend) :
  storageUp env = true ->
  (forall d, In d (connections (world s)) ->
             PlatformConnection._id d = PlatformController.id req ->
             PlatformConnection.organization d <> PlatformController.organization req) ->
  PlatformController.syncPlatform env net req s
  = (Ok (PlatformController.Sent PlatformController.not_found), s)
  /\ PlatformController.disconnectPlatform env req s
     = (Ok (PlatformController.Sent PlatformController.not_found), s).
Proof.
  intros Hup Hforeign.
  assert (Hnone : forall d, In d (connections (world s)) ->
                            PlatformController.is_connection req d = false).
  { intros d Hd. unfold PlatformController.is_connection.
    destruct (Nat.eqb (PlatformConnection._id d) (PlatformController.id req)) eqn:Hid;
      [|reflexivity].
    apply Nat.eqb_eq in Hid. cbn [andb]. apply Nat.eqb_neq.
    apply Hforeign; assumption. }
  split.
  - unfold PlatformController.syncPlatform, try_catchB, bindB at 1.
    rewrite Connection_findOne_run, Hup, find_nowhere; [reflexivity|].
    intros d Hd. unfold PlatformController.is_active_connection.
    change (PlatformController.is_connection req d && PlatformConnection.isActive d
            = false).
    rewrite (Hnone d Hd). reflexivity.
  - unfold PlatformController.disconnectPlatform, try_catchB, bindB at 1.
    rewrite Connection_findOne_run, Hup, find_nowhere; [reflexivity|exact Hnone].
Qed.

(** How a disconnection runs. *)
Lemma disconnectPlatform_run (req : PlatformController.Request) (s : Backend) :
  PlatformController.disconnectPlatform env req s
  = if storageUp env then
      match find (PlatformController.is_connection req) (connections (world s)) with
      | None => (Ok (PlatformController.Sent PlatformController.not_found), s)
      | Some d =>
          (Ok (PlatformController.Sent
                 (PlatformController.mkResponse 200 true
                    "Platform disconnected successfully" None)),
           mkBackend
             (with_connections
                (map (fun x => if Nat.eqb (PlatformConnection._id x)
                                          (PlatformConnection._id d)
                               then PlatformController.disconnected d else x)
                     (connections (world s)))
                (connectionSaves (world s) ++ [PlatformController.disconnected d])
                (world s))
             (aiQueue s)
             (fun id => if Nat.eqb id (PlatformConnection._id d)
                        then connectionRest s (PlatformConnection._id d)
                        else connectionRest s id))
      end
    else (Ok (PlatformController.Next storage_error), s).
Proof.
  unfold PlatformController.disconnectPlatform, try_catchB, bindB at 1.
  rewrite Connection_findOne_run.
  destruct (storageUp env) eqn:Hup; [|reflexivity].
  destruct (find _ (connections (world s))) as [d|]; [|reflexivity].
  unfold bindB, Tokens.Connection_save, bindB, in_world, PlatformConnection_save, db.
  rewrite Hup. reflexivity.
Qed.

(** X21. A disconnected platform is not synced. After a disconnection
    that answered 200, every stored connection the request names is
    inactive with status "disconnected", and a sync of it is answered 404
    without a call to the platform. The disconnection keeps the refresh token and
    the expiry of every connection, and the interactions already stored. *)
Theorem X21_disconnected_is_not_synced (req : PlatformController.Request)
        (s s1 : Backend) (r : PlatformController.Response) :
  PlatformController.disconnectPlatform env req s
  = (Ok (PlatformController.Sent r), s1) ->
  PlatformController.statusCode r = 200 ->
  PlatformController.syncPlatform env net req s1
  = (Ok (PlatformController.Sent PlatformController.not_found), s1)
  /\ (forall d, In d (connections (world s1)) ->
                PlatformController.is_connection req d = true ->
                PlatformConnection.isActive d = false
                /\ PlatformConnection.status d = "disconnected")
  /\ (forall id, connectionRest s1 id = connectionRest s id)
  /\ interactions (world s1) = interactions (world s).
Proof.
  rewrite disconnectPlatform_run.
  destruct (storageUp env) eqn:Hup; [|discriminate].
  destruct (find _ (connections (world s))) as [d|] eqn:Hfind.
  2:{ intros [= <- <-]. discriminate. }
  intros [= <- <-] _.
  pose proof (find_some _ _ Hfind) as [_ Hd].
  assert (Hid : PlatformConnection._id d = PlatformController.id req).
  { unfold PlatformController.is_connection in Hd.
    apply andb_prop in Hd as [Hd _]. apply Nat.eqb_eq. exact Hd. }
  cbn [world connections with_connections connectionRest interactions].
  assert (Hall : forall x,
            In x (map (fun x => if Nat.eqb (PlatformConnection._id x)
                                           (PlatformConnection._id d)
                                then PlatformController.disconnected d else x)
                      (connections (world s))) ->
            PlatformController.is_connection req x = true ->
            PlatformConnection.isActive x = false
            /\ PlatformConnection.status x = "disconnected").
  { intros x Hx Hq. apply in_map_iff in Hx as (y & Hy & _).
    destruct (Nat.eqb (PlatformConnection._id y) (PlatformConnection._id d)) eqn:Hyd.
    - subst x. split; reflexivity.
    - subst x. unfold PlatformController.is_connection in Hq.
      apply andb_prop in Hq as [Hq _]. apply Nat.eqb_eq in Hq.
      rewrite Hid, <- Hq, Nat.eqb_refl in Hyd. discriminate. }
  split; [|split; [exact Hall|split]].
  - unfold PlatformController.syncPlatform, try_catchB, bindB at 1.
    rewrite Connection_findOne_run, Hup.
    cbn [world connections with_connections].
    rewrite find_nowhere; [reflexivity|].
    intros x Hx. unfold PlatformController.is_active_connection.
    change (PlatformController.is_connection req x && PlatformConnection.isActive x
            = false).
    destruct (PlatformController.is_connection req x) eqn:Hq; [|reflexivity].
    destruct (Hall x Hx Hq) as [-> _]. reflexivity.
  - intros id. destruct (Nat.eqb id (PlatformConnection._id d)) eqn:Hi; [|reflexivity].
    apply Nat.eqb_eq in Hi. subst id. reflexivity.
  - reflexivity.
Qed.
End Controller.

Lemma X20_foreign_connection_is_not_found_witness :
  let req := PlatformController.mkRequest 50 2 in
  PlatformController.syncPlatform Scenario.reviews_up Sample.net_up req
    Sample.stale_office
  = (Ok (PlatformController.Sent PlatformController.not_found), Sample.stale_office)
  /\ PlatformController.disconnectPlatform Scenario.reviews_up req Sample.stale_office
     = (Ok (PlatformController.Sent PlatformController.not_found), Sample.stale_office).
Proof.
  intros req.
  apply (X20_foreign_connection_is_not_found Scenario.reviews_up Sample.net_up req
           Sample.stale_office).
  - reflexivity.
  - intros d [<-|[<-|[]]]; cbn; intros; discriminate.
Defined.

Lemma X21_disconnected_is_not_synced_witness :
  let req := PlatformController.mkRequest 50 1 in
  let s1 := snd (PlatformController.disconnectPlatform Scenario.reviews_up req
                   Sample.stale_office) in
  PlatformController.syncPlatform Scenario.reviews_up Sample.net_up req s1
  = (Ok (PlatformController.Sent PlatformController.not_found), s1)
  /\ (forall d, In d (connections (world s1)) ->
                PlatformController.is_connection req d = true ->
                PlatformConnection.isActive d = false
                /\ PlatformConnection.status d = "disconnected")
  /\ (forall id, connectionRest s1 id = connectionRest Sample.stale_office id)
  /\ interactions (world s1) = interactions (world Sample.stale_office).
Proof.
  intros req s1.
  apply (X21_disconnected_is_not_synced Scenario.reviews_up Sample.net_up req
           Sample.stale_office s1
           (PlatformController.mkResponse 200 true
              "Platform disconnected successfully" None)).
  - reflexivity.
  - reflexivity.
Defined.

(** A sync of the office's Google connection, computed: the stale token is
    refreshed and stored, review R1 is added and counted. *)
Example manual_sync_scenario :
  let run := PlatformController.syncPlatform Scenario.reviews_up Sample.net_up
               (PlatformController.mkRequest 50 1) Sample.stale_office in
  fst run = Ok (PlatformController.Sent
                  (PlatformController.mkResponse 200 true "Sync completed" (Some 1)))
  /\ map PlatformConnection.accessToken (connections (world (snd run)))
     = ["token-2"; "token-y"]
  /\ ConnectionRest.tokenExpiry (connectionRest (snd run) 50)
     = Some (Scenario.noon + 3600000)%Z
  /\ List.length (interactions (world (snd run))) = 1
  /\ aiQueue (snd run) = [].
Proof. vm_compute. repeat split. Qed.

(* ================================================================== *)
(** ** The Instagram service *)
(* ================================================================== *)

Lemma existsb_ids (k : string) (l : list Interaction.t) :
  existsb (fun x => String.eqb x k) (map Interaction.platformId l)
  = match find (ProcessWebhook.by_platformId k) l with
    | Some _ => true
    | None => false
    end.
Proof.
  induction l as [|d l IH]; cbn; [reflexivity|].
  unfold ProcessWebhook.by_platformId at 1.
  destruct (String.eqb (Interaction.platformId d) k); [reflexivity|exact IH].
Qed.

Lemma update_first_ids_kept (k : string) (update : Interaction.t -> Interaction.t)
      (l : list Interaction.t) :
  (forall d, Interaction.platformId (update d) = k) ->
  map Interaction.platformId (update_first (ProcessWebhook.by_platformId k) update l)
  = map Interaction.platformId l.
Proof.
  intros Hk. induction l as [|d l IH]; cbn; [reflexivity|].
  unfold ProcessWebhook.by_platformId at 1.
  destruct (String.eqb (Interaction.platformId d) k) eqn:Hd; cbn.
  - rewrite Hk. apply String.eqb_eq in Hd. rewrite Hd. reflexivity.
  - rewrite IH. reflexivity.
Qed.

Lemma add_missing_present (ids : list string) (k : string) :
  In k ids -> add_missing ids k = ids.
Proof.
  intros Hin. unfold add_missing.
  destruct (existsb (fun x => String.eqb x k) ids) eqn:He; [reflexivity|].
  assert (Ht : existsb (fun x => String.eqb x k) ids = true).
  { apply existsb_exists. exists k. split; [exact Hin|apply String.eqb_refl]. }
  congruence.
Qed.

Lemma add_missing_in (ids : list string) (k x : string) :
  In x (add_missing ids k) <-> In x ids \/ x = k.
Proof.
  unfold add_missing.
  destruct (existsb (fun y => String.eqb y k) ids) eqn:He.
  - apply existsb_exists in He as (y & Hy & Heq). apply String.eqb_eq in Heq. subst y.
    split; [auto|]. intros [H| ->]; assumption.
  - rewrite in_app_iff. cbn. intuition congruence.
Qed.

Lemma fold_add_missing_in (ks ids : list string) (x : string) :
  In x (fold_left add_missing ks ids) <-> In x ids \/ In x ks.
Proof.
  revert ids. induction ks as [|k ks IH]; intros ids; cbn [fold_left].
  - cbn. tauto.
  - rewrite IH, add_missing_in. cbn. intuition congruence.
Qed.

Lemma fold_add_missing_present (ks ids : list string) :
  incl ks ids -> fold_left add_missing ks ids = ids.
Proof.
  revert ids. induction ks as [|k ks IH]; intros ids Hincl; cbn [fold_left];
    [reflexivity|].
  rewrite add_missing_present by (apply Hincl; left; reflexivity).
  apply IH. intros x Hx. apply Hincl. right. exact Hx.
Qed.

(** Fetching twice is fetching once, on the identifiers. *)
Lemma fold_add_missing_twice (ks ids : list string) :
  fold_left add_missing ks (fold_left add_missing ks ids)
  = fold_left add_missing ks ids.
Proof.
  apply fold_add_missing_present. intros x Hx.
  apply fold_add_missing_in. right. exact Hx.
Qed.

Section InstagramFetch.
Variable env : Env.
Variable net : Net.

(** An upsert by identifier with the database up: the identifier is added
    when it is missing, the console is left alone. *)
Lemma upsert_ids (k : string) (update : Interaction.t -> Interaction.t) (w : World) :
  storageUp env = true ->
  (forall d, Interaction.platformId (update d) = k) ->
  exists d w',
    Interaction_findOneAndUpdate env (ProcessWebhook.by_platformId k) update w
    = (Ok d, w')
    /\ platform_ids w' = add_missing (platform_ids w) k.
Proof.
  intros Hup Hk. unfold Interaction_findOneAndUpdate. rewrite db_up by assumption.
  unfold platform_ids, add_missing. rewrite existsb_ids.
  destruct (find (ProcessWebhook.by_platformId k) (interactions w)) as [d|].
  - eexists. eexists. split; [reflexivity|].
    cbn [interactions with_interactions]. apply update_first_ids_kept. exact Hk.
  - eexists. eexists. split; [reflexivity|].
    cbn [interactions with_interactions]. rewrite map_app. cbn. rewrite Hk.
    reflexivity.
Qed.

Lemma store_comments_up (c : Connection.t) (m : Graph.Media)
      (comments : list Graph.Comment) (w : World) :
  storageUp env = true ->
  exists w',
    InstagramService.store_comments env c m comments w
    = (Ok (map (fun comment => comment_interaction c (m, comment)) comments, None), w')
    /\ platform_ids w'
       = fold_left add_missing (map Graph.comment_id comments) (platform_ids w).
Proof.
  intros Hup. revert w. induction comments as [|comment rest IH]; intros w.
  - exists w. split; reflexivity.
  - cbn [InstagramService.store_comments map fold_left].
    destruct (upsert_ids (Graph.comment_id comment)
                (InstagramService.comment_paths c m comment) w Hup (fun d => eq_refl))
      as (d & w1 & Hrun & Hids).
    destruct (IH w1) as (w2 & Hrest & Hids2).
    exists w2. split.
    + unfold try_catch, bind. rewrite Hrun, Hrest. reflexivity.
    + rewrite Hids2, Hids. reflexivity.
Qed.

Lemma process_media_up (c : Connection.t) (m : Graph.Media) (w : World) :
  storageUp env = true ->
  exists w',
    InstagramService.process_media env net c m w
    = (Ok (map (comment_interaction c)
               (listed_comments net
                  (PlatformConnection.accessToken (Connection.document c)) [m])), w')
    /\ platform_ids w'
       = fold_left add_missing
           (map (fun mc => Graph.comment_id (snd mc))
                (listed_comments net
                   (PlatformConnection.accessToken (Connection.document c)) [m]))
           (platform_ids w).
Proof.
  intros Hup. unfold InstagramService.process_media, listed_comments.
  cbn [flat_map]. rewrite app_nil_r.
  destruct (mediaComments net _ (Graph.media_id m)) as [data|error].
  - destruct (store_comments_up c m (match data with Some l => l | None => [] end) w Hup)
      as (w1 & Hrun & Hids).
    exists w1. split.
    + unfold bind. rewrite Hrun. cbn. destruct data as [l|]; cbn.
      * rewrite map_map. reflexivity.
      * reflexivity.
    + rewrite Hids. destruct data as [l|]; cbn; [|reflexivity].
      rewrite map_map. reflexivity.
  - eexists. split; [reflexivity|]. reflexivity.
Qed.

Lemma listed_comments_cons (token : string) (m : Graph.Media) (ms : list Graph.Media) :
  listed_comments net token (m :: ms)
  = listed_comments net token [m] ++ listed_comments net token ms.
Proof. unfold listed_comments. cbn [flat_map]. rewrite app_nil_r. reflexivity. Qed.

Lemma media_loop_up (c : Connection.t) (ms : list Graph.Media) (w : World) :
  storageUp env = true ->
  exists w',
    for_each ms (InstagramService.process_media env net c) w
    = (Ok (map (comment_interaction c)
               (listed_comments net
                  (PlatformConnection.accessToken (Connection.document c)) ms)), w')
    /\ platform_ids w'
       = fold_left add_missing
           (map (fun mc => Graph.comment_id (snd mc))
                (listed_comments net
                   (PlatformConnection.accessToken (Connection.document c)) ms))
           (platform_ids w).
Proof.
  intros Hup. revert w. induction ms as [|m ms IH]; intros w.
  - exists w. split; reflexivity.
  - destruct (process_media_up c m w Hup) as (w1 & Hrun & Hids).
    destruct (IH w1) as (w2 & Hrest & Hids2).
    exists w2. rewrite listed_comments_cons. split.
    + cbn [for_each]. unfold bind. rewrite Hrun, Hrest. unfold ret.
      rewrite map_app. reflexivity.
    + rewrite Hids2, Hids, map_app, fold_left_app. reflexivity.
Qed.

Lemma fetchComments_up (c : Connection.t) (ms : list Graph.Media) (w : World) :
  storageUp env = true ->
  media net (PlatformConnection.accessToken (Connection.document c))
        (ProcessWebhook.template (Connection.businessAccountId c)) = Ok (Some ms) ->
  exists w',
    InstagramService.fetchComments env net c w
    = (Ok (map (comment_interaction c)
               (listed_comments net
                  (PlatformConnection.accessToken (Connection.document c)) ms)), w')
    /\ platform_ids w'
       = fold_left add_missing
           (map (fun mc => Graph.comment_id (snd mc))
                (listed_comments net
                   (PlatformConnection.accessToken (Connection.document c)) ms))
           (platform_ids w).
Proof.
  intros Hup Hmedia.
  destruct (media_loop_up c ms w Hup) as (w1 & Hrun & Hids).
  exists w1. split; [|exact Hids].
  unfold InstagramService.fetchComments, try_catch, bind, lift.
  rewrite Hmedia, Hrun. reflexivity.
Qed.

(** X22. What a fetch of the comments stores. With the database up and the
    media of the account listed, [fetchComments] returns one interaction
    for each comment of the media it can read, in the order of the
    listing, and the collection gains one document for each identifier it
    did not hold, in that order, and none for an identifier it held.
    Fetching again returns the same interactions and adds no document. *)
Theorem X22_fetched_comments_are_stored_once (c : Connection.t)
        (ms : list Graph.Media) (w : World) :
  let token := PlatformConnection.accessToken (Connection.document c) in
  let listed := listed_comments net token ms in
  storageUp env = true ->
  media net token (ProcessWebhook.template (Connection.businessAccountId c))
  = Ok (Some ms) ->
  exists w' w'',
    InstagramService.fetchComments env net c w
    = (Ok (map (comment_interaction c) listed), w')
    /\ platform_ids w'
       = fold_left add_missing (map (fun mc => Graph.comment_id (snd mc)) listed)
                   (platform_ids w)
    /\ InstagramService.fetchComments env net c w'
       = (Ok (map (comment_interaction c) listed), w'')
    /\ platform_ids w'' = platform_ids w'.
Proof.
  intros token listed Hup Hmedia.
  destruct (fetchComments_up c ms w Hup Hmedia) as (w1 & Hrun & Hids).
  destruct (fetchComments_up c ms w1 Hup Hmedia) as (w2 & Hrun2 & Hids2).
  exists w1, w2. split; [exact Hrun|]. split; [exact Hids|].
  split; [exact Hrun2|].
  rewrite Hids2, Hids. apply fold_add_missing_twice.
Qed.

(** With the database down the first comment of a media is pushed and its
    upsert ends the round of the media. *)
Lemma store_comments_down (c : Connection.t) (m : Graph.Media)
      (comments : list Graph.Comment) (w : World) :
  storageUp env = false ->
  InstagramService.store_comments env c m comments w
  = match comments with
    | [] => (Ok ([], None), w)
    | comment :: _ => (Ok ([comment_interaction c (m, comment)], Some storage_error), w)
    end.
Proof.
  intros Hdown. destruct comments as [|comment rest]; [reflexivity|].
  cbn [InstagramService.store_comments].
  unfold try_catch, bind, Interaction_findOneAndUpdate, db. rewrite Hdown.
  reflexivity.
Qed.

Lemma media_loop_down (c : Connection.t) (ms : list Graph.Media) (w : World) :
  storageUp env = false ->
  for_each ms (InstagramService.process_media env net c) w
  = (Ok (map (comment_interaction c)
             (first_comments net
                (PlatformConnection.accessToken (Connection.document c)) ms)),
     with_console
       (console w
        ++ unstored_lines net (PlatformConnection.accessToken (Connection.document c)) ms)
       w).
Proof.
  intros Hdown. revert w. induction ms as [|m ms IH]; intros w.
  - cbn. rewrite app_nil_r. destruct w; reflexivity.
  - cbn [for_each first_comments unstored_lines flat_map].
    fold (first_comments net (PlatformConnection.accessToken (Connection.document c)) ms).
    fold (unstored_lines net (PlatformConnection.accessToken (Connection.document c)) ms).
    unfold bind at 1. unfold InstagramService.process_media at 1.
    destruct (mediaComments net _ (Graph.media_id m)) as [data|error].
    + unfold bind at 1. rewrite store_comments_down by assumption.
      destruct data as [[|comment rest]|]; cbn [fst snd ret bind].
      * rewrite (bind_ok _ _ _ _ _ (IH w)). reflexivity.
      * unfold bind at 1, bind at 1, console_error, ret at 1. cbv beta iota.
        rewrite IH. unfold ret. cbn. rewrite <- app_assoc. reflexivity.
      * rewrite (bind_ok _ _ _ _ _ (IH w)). reflexivity.
    + unfold bind at 1, bind at 1, console_error, ret at 1. cbv beta iota.
      rewrite IH. unfold ret. cbn. rewrite <- app_assoc. reflexivity.
Qed.

(** X23. A fetch reports comments it could not store. With the database
    down and the media of the account listed, [fetchComments] does not
    throw: the failure of each upsert is logged under its media (with the
    error of the database) and swallowed with the round of that media, as
    is the error of a media whose comments cannot be read; the call
    returns the first comment of every media it could read, none of which
    was stored, and the state changes by exactly those console lines. *)
Theorem X23_unstored_comments_are_reported (c : Connection.t)
        (ms : list Graph.Media) (w : World) :
  let token := PlatformConnection.accessToken (Connection.document c) in
  storageUp env = false ->
  media net token (ProcessWebhook.template (Connection.businessAccountId c))
  = Ok (Some ms) ->
  InstagramService.fetchComments env net c w
  = (Ok (map (comment_interaction c) (first_comments net token ms)),
     with_console (console w ++ unstored_lines net token ms) w).
Proof.
  intros token Hdown Hmedia.
  unfold InstagramService.fetchComments, try_catch, bind, lift.
  fold token. rewrite Hmedia. unfold token. rewrite (media_loop_down c ms w Hdown).
  reflexivity.
Qed.
End InstagramFetch.

Lemma update_first_from (q : Interaction.t -> bool) (u : Interaction.t -> Interaction.t)
      (l : list Interaction.t) (d : Interaction.t) :
  In d (update_first q u l) -> In d l \/ exists x, d = u x.
Proof.
  induction l as [|x l IH]; cbn; [tauto|].
  destruct (q x); cbn.
  - intros [<-|H]; [right; eexists; reflexivity|left; right; exact H].
  - intros [<-|H]; [left; left; reflexivity|].
    destruct (IH H) as [Hl|Hu]; [left; right; exact Hl|right; exact Hu].
Qed.

Lemma only_guest_dms_refl (c : Connection.t) (w : World) : only_guest_dms c w w.
Proof. intros d Hd. left. exact Hd. Qed.

Lemma only_guest_dms_trans (c : Connection.t) (w1 w2 w3 : World) :
  only_guest_dms c w1 w2 -> only_guest_dms c w2 w3 -> only_guest_dms c w1 w3.
Proof.
  intros H12 H23 d Hd. destruct (H23 d Hd) as [H2|Hg]; [|right; exact Hg].
  apply H12. exact H2.
Qed.

Lemma only_guest_dms_logs (c : Connection.t) (w w' : World) :
  logs_only w w' -> only_guest_dms c w w'.
Proof. intros [lines ->] d Hd. left. exact Hd. Qed.

(** A loop keeps what each of its rounds keeps. *)
Lemma for_each_keeps {A B} (keeps : World -> World -> Prop) (P : B -> Prop)
      (l : list A) (body : A -> M (list B)) :
  (forall w, keeps w w) ->
  (forall w1 w2 w3, keeps w1 w2 -> keeps w2 w3 -> keeps w1 w3) ->
  (forall x w, keeps w (snd (body x w))
               /\ forall r, fst (body x w) = Ok r -> Forall P r) ->
  forall w, keeps w (snd (for_each l body w))
            /\ forall r, fst (for_each l body w) = Ok r -> Forall P r.
Proof.
  intros Hrefl Htrans Hbody. induction l as [|x l IH]; intros w.
  - cbn. split; [apply Hrefl|]. intros r [= <-]. constructor.
  - cbn [for_each]. unfold bind.
    destruct (Hbody x w) as [Hkeep Hres].
    destruct (body x w) as [[bs|e] w1]; cbn [fst snd] in *.
    + destruct (IH w1) as [Hkeep1 Hres1].
      destruct (for_each l body w1) as [[rest|e] w2]; cbn [fst snd ret] in *.
      * split; [eapply Htrans; eassumption|].
        intros r [= <-]. apply Forall_app. split; [apply Hres|apply Hres1]; reflexivity.
      * split; [eapply Htrans; eassumption|discriminate].
    + split; [exact Hkeep|discriminate].
Qed.

Section InstagramMessages.
Variable env : Env.
Variable net : Net.
Variable c : Connection.t.

Lemma message_paths_guest (conversation : Graph.Conversation) (msg : Graph.Message)
      (from : Graph.Sender) (d : Interaction.t) :
  InstagramService.differ (Graph.sender_id from) (Connection.businessAccountId c) = true ->
  guest_dm c (InstagramService.message_paths c conversation msg from d).
Proof. intros Hdiffer. repeat split. exact Hdiffer. Qed.

Lemma process_message_keeps (conversation : Graph.Conversation) (msg : Graph.Message)
      (w : World) :
  only_guest_dms c w (snd (InstagramService.process_message env c conversation msg w))
  /\ forall r, fst (InstagramService.process_message env c conversation msg w) = Ok r ->
               Forall (guest_dm c) r.
Proof.
  unfold InstagramService.process_message.
  destruct (Graph.message_from msg) as [from|].
  2:{ split; [apply only_guest_dms_refl|discriminate]. }
  destruct (InstagramService.differ (Graph.sender_id from)
              (Connection.businessAccountId c)) eqn:Hdiffer.
  2:{ split; [apply only_guest_dms_refl|]. intros r [= <-]. constructor. }
  unfold bind, Interaction_findOneAndUpdate, db.
  destruct (storageUp env).
  2:{ split; [apply only_guest_dms_refl|discriminate]. }
  destruct (find _ (interactions w)) as [d0|]; cbv beta iota; cbn [fst snd ret].
  - split.
    + intros d Hd. cbn [interactions with_interactions] in Hd.
      apply update_first_from in Hd as [Hd|[x ->]]; [left; exact Hd|right].
      apply message_paths_guest. exact Hdiffer.
    + intros r [= <-]. constructor; [|constructor].
      apply message_paths_guest. exact Hdiffer.
  - split.
    + intros d Hd. cbn [interactions with_interactions] in Hd.
      apply in_app_iff in Hd as [Hd|[<-|[]]]; [left; exact Hd|right].
      repeat split. exact Hdiffer.
    + intros r [= <-]. constructor; [|constructor].
      apply message_paths_guest. exact Hdiffer.
Qed.

Lemma fetchMessages_run (w : World) :
  InstagramService.fetchMessages env net c w
  = match conversations net (PlatformConnection.accessToken (Connection.document c))
            (ProcessWebhook.template (Connection.businessAccountId c)) with
    | Ok response =>
        match for_each (match response with Some l => l | None => [] end)
                       (InstagramService.process_conversation env c) w with
        | (Ok r, w1) => (Ok r, w1)
        | (Throw e, w1) =>
            (Throw e,
             with_console
               (console w1 ++ [LogError "Instagram fetch messages error:" (message e)])
               w1)
        end
    | Throw e =>
        (Throw e,
         with_console
           (console w ++ [LogError "Instagram fetch messages error:" (message e)]) w)
    end.
Proof.
  unfold InstagramService.fetchMessages, try_catch, bind, lift.
  destruct (conversations net _ _) as [response|error]; [|reflexivity].
  destruct (for_each _ (InstagramService.process_conversation env c) w)
    as [[r|e] w1]; reflexivity.
Qed.

(** X24. The account's own messages are never written. Whatever the
    conversations hold and however the call ends, every interaction
    [fetchMessages] returns is an Instagram dm of the connection's
    organization whose author is not the business account, and every
    document of the collection afterwards is one that was there before or
    such a dm. *)
Theorem X24_own_messages_are_skipped (w : World) :
  only_guest_dms c w (snd (InstagramService.fetchMessages env net c w))
  /\ forall r, fst (InstagramService.fetchMessages env net c w) = Ok r ->
               Forall (guest_dm c) r.
Proof.
  rewrite fetchMessages_run.
  destruct (conversations net _ _) as [response|error].
  2:{ cbn. split; [|discriminate]. apply only_guest_dms_logs. eexists. reflexivity. }
  destruct (for_each_keeps (only_guest_dms c) (guest_dm c)
              (match response with Some l => l | None => [] end)
              (InstagramService.process_conversation env c)
              (only_guest_dms_refl c) (only_guest_dms_trans c)) with (w := w)
    as [Hkeep Hres].
  { intros conversation w0. unfold InstagramService.process_conversation.
    apply (for_each_keeps (only_guest_dms c) (guest_dm c)).
    - apply only_guest_dms_refl.
    - apply only_guest_dms_trans.
    - intros msg w1. apply process_message_keeps. }
  destruct (for_each _ (InstagramService.process_conversation env c) w)
    as [[r|e] w1]; cbn [fst snd] in *.
  - split; [exact Hkeep|exact Hres].
  - split; [|discriminate].
    eapply only_guest_dms_trans; [exact Hkeep|].
    apply only_guest_dms_logs. eexists. reflexivity.
Qed.
End InstagramMessages.

Lemma X22_fetched_comments_are_stored_once_witness :
  let c := Sample.instagram_connection in
  let listed := listed_comments Sample.net_up "token-i" [Sample.media1; Sample.media2] in
  exists w' w'',
    InstagramService.fetchComments Scenario.offline Sample.net_up c
      (Scenario.world [] [])
    = (Ok (map (comment_interaction c) listed), w')
    /\ platform_ids w'
       = fold_left add_missing (map (fun mc => Graph.comment_id (snd mc)) listed)
                   (platform_ids (Scenario.world [] []))
    /\ InstagramService.fetchComments Scenario.offline Sample.net_up c w'
       = (Ok (map (comment_interaction c) listed), w'')
    /\ platform_ids w'' = platform_ids w'.
Proof.
  intros c listed.
  apply (X22_fetched_comments_are_stored_once Scenario.offline Sample.net_up c
           [Sample.media1; Sample.media2] (Scenario.world [] [])).
  - reflexivity.
  - reflexivity.
Defined.

Lemma X23_unstored_comments_are_reported_witness :
  let c := Sample.instagram_connection in
  InstagramService.fetchComments Scenario.storage_down Sample.net_up c
    (Scenario.world [] [])
  = (Ok (map (comment_interaction c)
             (first_comments Sample.net_up "token-i" [Sample.media1; Sample.media2])),
     with_console
       (console (Scenario.world [] [])
        ++ unstored_lines Sample.net_up "token-i" [Sample.media1; Sample.media2])
       (Scenario.world [] [])).
Proof.
  intros c.
  apply (X23_unstored_comments_are_reported Scenario.storage_down Sample.net_up c
           [Sample.media1; Sample.media2] (Scenario.world [] [])).
  - reflexivity.
  - reflexivity.
Defined.

(** The account of the samples, computed: two comments are listed and
    stored, the media that cannot be read is logged; with the database
    down the first comment is returned and nothing is stored; of the two
    messages of the conversation the guest's is stored. *)
Example instagram_fetch_scenario :
  let c := Sample.instagram_connection in
  let start := Scenario.world [] [] in
  let up := InstagramService.fetchComments Scenario.offline Sample.net_up c start in
  let down := InstagramService.fetchComments Scenario.storage_down Sample.net_up c start in
  let dms := InstagramService.fetchMessages Scenario.offline Sample.net_up c start in
  platform_ids (snd up) = ["ic1"; "ic2"]
  /\ console (snd up)
     = [LogError "Error fetching comments for media m2:" "timeout of 30000ms exceeded"]
  /\ (match fst down with
      | Ok l => map Interaction.platformId l
      | Throw _ => []
      end = ["ic1"])
  /\ platform_ids (snd down) = []
  /\ console (snd down)
     = [LogError "Error fetching comments for media m1:"
                 "connection to the database failed";
        LogError "Error fetching comments for media m2:" "timeout of 30000ms exceeded"]
  /\ platform_ids (snd dms) = ["dm2"].
Proof. vm_compute. repeat split. Qed.

(* ================================================================== *)
(** ** The verification endpoints *)
(* ================================================================== *)

Lemma same_eq (a b : option string) : WebhookVerification.same a b = true <-> a = b.
Proof.
  destruct a as [x|], b as [y|]; cbn.
  - rewrite String.eqb_eq. split; [intros ->; reflexivity|intros [= ->]; reflexivity].
  - split; discriminate.
  - split; discriminate.
  - split; reflexivity.
Qed.

Lemma strict_eq_eq (a : option string) (b : string) :
  JS.strict_eq a b = true <-> a = Some b.
Proof.
  destruct a as [x|]; cbn.
  - rewrite String.eqb_eq. split; [intros ->; reflexivity|intros [= ->]; reflexivity].
  - split; discriminate.
Qed.

Lemma verify_accepts (secret : option string) (q : WebhookVerification.Query) :
  WebhookVerification.statusCode (WebhookVerification.verify secret q) = 200
  <-> WebhookVerification.mode q = Some "subscribe"
      /\ WebhookVerification.verify_token q = secret.
Proof.
  unfold WebhookVerification.verify.
  rewrite <- strict_eq_eq, <- same_eq.
  destruct (JS.strict_eq (WebhookVerification.mode q) "subscribe");
    destruct (WebhookVerification.same (WebhookVerification.verify_token q) secret);
    cbn; intuition discriminate.
Qed.

(** X25. Verification is as strong as the configured token. Both
    endpoints answer 200 exactly to the subscribe requests whose
    [hub.verify_token] is the token of the environment, and then echo the
    challenge; every other request gets 403. When the token of the
    environment is not set, the requests that are accepted are those that
    carry no token at all. *)
Theorem X25_verification_needs_the_token (secret : option string)
        (q : WebhookVerification.Query) :
  let google := WebhookVerification.verifyGoogleWebhook secret q in
  let youtube := WebhookVerification.verifyYouTubeWebhook secret q in
  youtube = google
  /\ (WebhookVerification.statusCode google = 200
      <-> WebhookVerification.mode q = Some "subscribe"
          /\ WebhookVerification.verify_token q = secret)
  /\ (WebhookVerification.statusCode google = 200 ->
      WebhookVerification.body google = WebhookVerification.challenge q)
  /\ (WebhookVerification.statusCode google <> 200 ->
      google = WebhookVerification.mkReply 403 (Some "Verification failed")).
Proof.
  cbv zeta. unfold WebhookVerification.verifyYouTubeWebhook,
    WebhookVerification.verifyGoogleWebhook.
  split; [reflexivity|]. split; [apply verify_accepts|].
  unfold WebhookVerification.verify.
  destruct (JS.strict_eq (WebhookVerification.mode q) "subscribe"
            && WebhookVerification.same (WebhookVerification.verify_token q) secret);
    cbn; split; intros H; try reflexivity; try discriminate; contradiction.
Qed.

(** With no token configured, a request without a token is let in. *)
Example unset_token_scenario :
  WebhookVerification.verifyGoogleWebhook None
    (WebhookVerification.mkQuery (Some "subscribe") None (Some "c-1"))
  = WebhookVerification.mkReply 200 (Some "c-1")
  /\ WebhookVerification.verifyGoogleWebhook (Some "s3cret")
       (WebhookVerification.mkQuery (Some "subscribe") None (Some "c-1"))
     = WebhookVerification.mkReply 403 (Some "Verification failed").
Proof. split; reflexivity. Qed.

(* ================================================================== *)
(** ** What an acknowledged event leaves on the console *)
(* ================================================================== *)

Section Events.
Import WebhookController.
Variable env : Env.

(** X26. An event that is handled always logs an error. For a delivery
    that names a review (or a comment) event and for which a connection is
    found, the endpoint answers 200 with [success: true], and the last
    line on the console is the error of the post-processing: the error of
    the fetch when the fetch throws, and otherwise "processWebhook is not a
    function", since the job is never reached from the controller. *)
Theorem X26_handled_event_logs_an_error (w w1 : World) (c : PlatformConnection.t) :
  (forall req msg e,
     body req = Some (Some msg) ->
     data msg = Some e ->
     PlatformConnection_findOne env (is_google_connection (locationId e)) w
     = (Ok (Some c), w1) ->
     JS.strict_eq (g_eventType e) "NEW_REVIEW"
     || JS.strict_eq (g_eventType e) "UPDATE_REVIEW" = true ->
     let fetched := GoogleService.fetchReviews env c (locationId e) w1 in
     handleGoogleWebhook env req w
     = (Ok (mkResponse 200 true None),
        with_console
          (console (snd fetched)
           ++ [LogError "Error processing Google webhook:"
                        (match fst fetched with
                         | Ok _ => "processWebhook is not a function"
                         | Throw error => message error
                         end)])
          (snd fetched)))
  /\ (forall req msg e,
        body req = Some (Some msg) ->
        data msg = Some e ->
        PlatformConnection_findOne env is_youtube_connection w = (Ok (Some c), w1) ->
        JS.strict_eq (y_eventType e) "NEW_COMMENT"
        || JS.strict_eq (y_eventType e) "UPDATE_COMMENT" = true ->
        let fetched := YouTubeService.fetchVideoComments env c (videoId e) w1 in
        handleYouTubeWebhook env req w
        = (Ok (mkResponse 200 true None),
           with_console
             (console (snd fetched)
              ++ [LogError "Error processing YouTube webhook:"
                           (match fst fetched with
                            | Ok _ => "processWebhook is not a function"
                            | Throw error => message error
                            end)])
             (snd fetched))).
Proof.
  split; intros req msg e Hbody Hdata Hfind Hevent fetched.
  - unfold handleGoogleWebhook, try_catch at 1. rewrite Hbody, Hdata.
    unfold bind at 1. rewrite Hfind. rewrite Hevent.
    unfold bind at 1, try_catch, bind at 1. fold fetched.
    destruct fetched as [[r|error] w2]; reflexivity.
  - unfold handleYouTubeWebhook, try_catch at 1. rewrite Hbody, Hdata.
    unfold bind at 1. rewrite Hfind. rewrite Hevent.
    unfold bind at 1, try_catch, bind at 1. fold fetched.
    destruct fetched as [[r|error] w2]; reflexivity.
Qed.
End Events.

Lemma X26_handled_event_logs_an_error_witness :
  let run := WebhookController.handleGoogleWebhook Scenario.reviews_up
               Scenario.review_delivery Scenario.connected_office in
  fst run = Ok (WebhookController.mkResponse 200 true None)
  /\ last (console (snd run)) (Log "")
     = LogError "Error processing Google webhook:" "processWebhook is not a function"
  /\ List.length (interactions (snd run)) = 1.
Proof.
  intros run.
  destruct (X26_handled_event_logs_an_error Scenario.reviews_up
              Scenario.connected_office Scenario.connected_office
              Scenario.google_connection) as [Hgoogle _].
  assert (Hrun : run = _)
    by exact (Hgoogle Scenario.review_delivery _ _ eq_refl eq_refl eq_refl eq_refl).
  rewrite Hrun. vm_compute. repeat split.
Defined.
